(** * Q-Chem input/output processing (pymatgen/io/qchemio.py)

    A shallow embedding of [QcTask], [QcInput] and [QcOutput._parse_job]
    together with the properties of the job grammar and of the run-log
    parser.  Python values are modelled as follows: [str] as [string]
    (byte strings, ASCII case rules), [int] as [Z], [dict] as [gmap],
    [set] as [gset], exceptions as the [Raise] branch of [result]. *)

From Stdlib Require Import ZArith Ascii String List Bool Lia DecimalString.
From stdpp Require Import base option list gmap strings sorting.

#[local] Set Warnings "-clear-no-such-hyp".

Local Open Scope string_scope.
Local Open Scope list_scope.
Local Open Scope Z_scope.

(** ** Exceptions and the error monad *)

Inductive exn : Type :=
  | ValueError (msg : string)
  | KeyError (key : string)
  | TypeError (msg : string)
  | AttributeError (msg : string)
  | IndexError (msg : string)
  | OverflowError (msg : string)
  | Exception (msg : string).

Inductive result (A : Type) : Type :=
  | Ok (a : A)
  | Raise (e : exn).
Arguments Ok {A} a.
Arguments Raise {A} e.

#[global] Instance result_ret : MRet result := fun _ a => Ok a.
#[global] Instance result_bind : MBind result := fun _ _ f r =>
  match r with
  | Ok a => f a
  | Raise e => Raise e
  end.

#[global] Instance result_fmap : FMap result := fun _ _ f r =>
  match r with
  | Ok a => Ok (f a)
  | Raise e => Raise e
  end.

Definition raises {A} (r : result A) : Prop := exists e, r = Raise e.
Definition returns {A} (r : result A) : Prop := exists a, r = Ok a.

Definition is_ok {A} (r : result A) : bool :=
  match r with Ok _ => true | Raise _ => false end.

(** The exception of a computation that has raised. *)
Definition error_of {A} (r : result A) : option exn :=
  match r with Ok _ => None | Raise e => Some e end.

Definition of_option {A} (o : option A) (e : exn) : result A :=
  match o with Some a => Ok a | None => Raise e end.

(** Left-to-right fold that stops at the first exception. *)
Fixpoint foldM {A S} (f : S -> A -> result S) (l : list A) (s : S) : result S :=
  match l with
  | [] => Ok s
  | a :: l' => s' ← f s a; foldM f l' s'
  end.

(** ** Python string operations *)

Module PyStr.

Definition code (c : ascii) : nat := nat_of_ascii c.

Definition in_range (lo hi : nat) (c : ascii) : bool :=
  (lo <=? code c)%nat && (code c <=? hi)%nat.

Definition is_upper (c : ascii) : bool := in_range 65 90 c.
Definition is_lower (c : ascii) : bool := in_range 97 122 c.
Definition is_digit (c : ascii) : bool := in_range 48 57 c.
Definition is_alpha (c : ascii) : bool := is_upper c || is_lower c.

(** [c.isspace()]: space, tab, newline, vertical tab, form feed, return. *)
Definition is_space (c : ascii) : bool :=
  (code c =? 32)%nat || in_range 9 13 c.

(** [\w] of the [re] module on byte strings. *)
Definition is_word (c : ascii) : bool :=
  is_alpha c || is_digit c || (code c =? 95)%nat.

Definition lower_char (c : ascii) : ascii :=
  if is_upper c then ascii_of_nat (code c + 32) else c.
Definition upper_char (c : ascii) : ascii :=
  if is_lower c then ascii_of_nat (code c - 32) else c.

Fixpoint map_chars (f : ascii -> ascii) (s : string) : string :=
  match s with
  | EmptyString => EmptyString
  | String c s' => String (f c) (map_chars f s')
  end.

Definition lower (s : string) : string := map_chars lower_char s.

Definition capitalize (s : string) : string :=
  match s with
  | EmptyString => EmptyString
  | String c s' => String (upper_char c) (lower s')
  end.

Fixpoint lstrip (s : string) : string :=
  match s with
  | String c s' => if is_space c then lstrip s' else s
  | EmptyString => EmptyString
  end.

Fixpoint rstrip (s : string) : string :=
  match s with
  | EmptyString => EmptyString
  | String c s' =>
      match rstrip s' with
      | EmptyString => if is_space c then EmptyString else String c EmptyString
      | r => String c r
      end
  end.

Definition strip (s : string) : string := lstrip (rstrip s).

Definition startswith (s p : string) : bool := String.prefix p s.

(** [sub in s] *)
Fixpoint contains (sub s : string) : bool :=
  String.prefix sub s ||
  match s with
  | EmptyString => false
  | String _ s' => contains sub s'
  end.

(** [s.split(sep)] for a one-character separator. *)
Fixpoint split_on (sep : ascii) (s : string) : list string :=
  match s with
  | EmptyString => [EmptyString]
  | String c s' =>
      if Ascii.eqb c sep then EmptyString :: split_on sep s'
      else match split_on sep s' with
           | h :: t => String c h :: t
           | [] => [String c EmptyString]
           end
  end.

(** [s.split()]: maximal runs of non-blank characters. *)
Fixpoint words_aux (cur : option string) (s : string) : list string :=
  match s with
  | EmptyString => match cur with Some w => [w] | None => [] end
  | String c s' =>
      if is_space c then
        match cur with
        | Some w => w :: words_aux None s'
        | None => words_aux None s'
        end
      else
        match cur with
        | Some w => words_aux (Some (w +:+ String c EmptyString)) s'
        | None => words_aux (Some (String c EmptyString)) s'
        end
  end.
Definition words (s : string) : list string := words_aux None s.

(** [s.replace(a, b)] for single characters. *)
Definition replace_char (a b : ascii) (s : string) : string :=
  map_chars (fun c => if Ascii.eqb c a then b else c) s.

Fixpoint join (sep : string) (l : list string) : string :=
  match l with
  | [] => EmptyString
  | [x] => x
  | x :: l' => x +:+ sep +:+ join sep l'
  end.

Fixpoint repeat_char (c : ascii) (n : nat) : string :=
  match n with
  | O => EmptyString
  | S n' => String c (repeat_char c n')
  end.

(** ["{:>w}".format(s)] and ["{:<w}".format(s)] *)
Definition rjust (w : nat) (s : string) : string :=
  repeat_char " " (w - String.length s) +:+ s.
Definition ljust (w : nat) (s : string) : string :=
  s +:+ repeat_char " " (w - String.length s).

(** ["{:d}".format(z)] *)
Definition of_int (z : Z) : string := NilEmpty.string_of_int (Z.to_int z).

Fixpoint all_chars (p : ascii -> bool) (s : string) : bool :=
  match s with
  | EmptyString => true
  | String c s' => p c && all_chars p s'
  end.

Fixpoint digits_value (acc : Z) (s : string) : Z :=
  match s with
  | EmptyString => acc
  | String c s' => digits_value (10 * acc + Z.of_nat (code c - 48)) s'
  end.

(** [int(s)] on a byte string: blanks around an optionally signed,
    non-empty run of decimal digits; anything else is a [ValueError]. *)
Definition to_int (s : string) : option Z :=
  let body sgn d :=
    match d with
    | EmptyString => None
    | _ => if all_chars is_digit d then Some (sgn * digits_value 0 d) else None
    end in
  match strip s with
  | String "-" d => body (-1) d
  | String "+" d => body 1 d
  | d => body 1 d
  end.

(** Python list slicing [l[a:b]] and [sorted] on strings. *)
Definition slice {A} (a b : nat) (l : list A) : list A :=
  firstn (b - a) (skipn a l).

Definition str_le (a b : string) : bool := String.leb a b.

Fixpoint insert_sorted (x : string) (l : list string) : list string :=
  match l with
  | [] => [x]
  | y :: l' => if str_le x y then x :: l else y :: insert_sorted x l'
  end.
Definition sorted (l : list string) : list string :=
  foldr insert_sorted [] l.

End PyStr.

(** ** Regular expressions of the [re] module

    A backtracking matcher in continuation-passing style: alternatives are
    tried left to right and repetition is greedy, so the first successful
    path is the one Python's engine reports, named groups included. *)

Module Re.
Import PyStr.

Inductive regex : Type :=
  | Eps
  | Chr (p : ascii -> bool)
  | Seq (r1 r2 : regex)
  | Alt (r1 r2 : regex)
  | Star (r : regex)
  | Group (name : string) (r : regex)
  | Eos.

(** Bindings of named groups, the most recent first. *)
Definition caps : Type := list (string * string).

Fixpoint take (n : nat) (s : string) : string :=
  match n, s with
  | S n', String a s' => String a (take n' s')
  | _, _ => EmptyString
  end.

(** The text consumed between position [s] and the later position [s1]. *)
Definition consumed (s s1 : string) : string :=
  take (String.length s - String.length s1) s.

Definition cont : Type := string -> caps -> option caps.

Fixpoint star (step : string -> caps -> cont -> option caps) (fuel : nat)
    (s : string) (c : caps) (k : cont) : option caps :=
  match fuel with
  | O => k s c
  | S n =>
      match step s c (fun s1 c1 =>
               if (String.length s1 <? String.length s)%nat
               then star step n s1 c1 k else None) with
      | Some x => Some x
      | None => k s c
      end
  end.

Fixpoint run (r : regex) (s : string) (c : caps) (k : cont) : option caps :=
  match r with
  | Eps => k s c
  | Chr p =>
      match s with
      | String a s' => if p a then k s' c else None
      | EmptyString => None
      end
  | Seq r1 r2 => run r1 s c (fun s1 c1 => run r2 s1 c1 k)
  | Alt r1 r2 =>
      match run r1 s c k with
      | Some x => Some x
      | None => run r2 s c k
      end
  | Star r1 => star (run r1) (S (String.length s)) s c k
  | Group n r1 => run r1 s c (fun s1 c1 => k s1 ((n, consumed s s1) :: c1))
  | Eos =>
      match s with
      | EmptyString => k s c
      | String a EmptyString => if Ascii.eqb a "010" then k s c else None
      | _ => None
      end
  end.

(** [p.match(s)]: anchored at the first character. *)
Definition match_ (r : regex) (s : string) : option caps :=
  run r s [] (fun _ c => Some c).

(** [p.search(s)]: the leftmost position at which a match starts. *)
Fixpoint search (r : regex) (s : string) : option caps :=
  match match_ r s with
  | Some c => Some c
  | None =>
      match s with
      | EmptyString => None
      | String _ s' => search r s'
      end
  end.

(** [m.group(name)] *)
Fixpoint group (name : string) (c : caps) : string :=
  match c with
  | [] => EmptyString
  | (n, t) :: c' => if String.eqb n name then t else group name c'
  end.

(** Pattern syntax. *)
Definition chr (a : ascii) : regex := Chr (Ascii.eqb a).
Definition one_of (l : string) : regex :=
  Chr (fun a => existsb (Ascii.eqb a) (list_ascii_of_string l)).
Fixpoint lit (s : string) : regex :=
  match s with
  | EmptyString => Eps
  | String a s' => Seq (chr a) (lit s')
  end.
Definition plus (r : regex) : regex := Seq r (Star r).
Definition opt (r : regex) : regex := Alt r Eps.
Definition seqs (l : list regex) : regex := foldr Seq Eps l.

Definition d : regex := Chr is_digit.                       (* \d *)
Definition ws : regex := Chr is_space.                      (* \s *)
Definition nws : regex := Chr (fun a => negb (is_space a)). (* \S *)
Definition dot : regex := Chr (fun a => negb (Ascii.eqb a "010")). (* . *)
Definition sign : regex := one_of "-+".                     (* [-+] *)
(** [\d+\.\d+] *)
Definition decimal : regex := seqs [plus d; chr "."; plus d].

(** The language of a pattern, positions and groups forgotten. *)
Inductive matches : regex -> string -> Prop :=
  | m_eps : matches Eps EmptyString
  | m_chr p a : p a = true -> matches (Chr p) (String a EmptyString)
  | m_seq r1 r2 w1 w2 :
      matches r1 w1 -> matches r2 w2 -> matches (Seq r1 r2) (w1 +:+ w2)
  | m_alt_l r1 r2 w : matches r1 w -> matches (Alt r1 r2) w
  | m_alt_r r1 r2 w : matches r2 w -> matches (Alt r1 r2) w
  | m_star_nil r : matches (Star r) EmptyString
  | m_star_cons r w1 w2 :
      matches r w1 -> matches (Star r) w2 -> matches (Star r) (w1 +:+ w2)
  | m_group n r w : matches r w -> matches (Group n r) w
  | m_eos : matches Eos EmptyString.

(** The named groups that every match of a pattern binds. *)
Fixpoint binds (n : string) (r : regex) : bool :=
  match r with
  | Group n' r1 => String.eqb n' n || binds n r1
  | Seq r1 r2 => binds n r1 || binds n r2
  | Alt r1 r2 => binds n r1 && binds n r2
  | _ => false
  end.

(** Every group of a pattern captures only texts with the property [P]. *)
Fixpoint groups_ok (P : string -> string -> Prop) (r : regex) : Prop :=
  match r with
  | Group n r1 => (forall w, matches r1 w -> P n w) /\ groups_ok P r1
  | Seq r1 r2 | Alt r1 r2 => groups_ok P r1 /\ groups_ok P r2
  | Star r1 => groups_ok P r1
  | _ => True
  end.

Definition caps_ok (P : string -> string -> Prop) (c : caps) : Prop :=
  Forall (fun nt => P (fst nt) (snd nt)) c.

Definition bound (n : string) (c : caps) : bool :=
  existsb (fun nt => String.eqb (fst nt) n) c.

(** What a successful run has read, which groups it has bound, and where
    it has handed over to its continuation. *)
Definition run_spec (P : string -> string -> Prop) (r : regex) (s : string)
    (c : caps) (k : cont) (res : caps) : Prop :=
  exists w s1 ext,
    s = w +:+ s1 /\ matches r w /\ caps_ok P ext /\
    (forall n, binds n r = true -> bound n ext = true) /\
    k s1 (ext ++ c) = Some res.

End Re.

(** ** Floating point and the collaborators outside this module

    Floating-point numbers are kept abstract: the embedding fixes which
    conversions the code performs and which of them can raise, not their
    rounding. *)

Class PyFloat : Type := {
  float : Type;
  (** [float(s)]; [None] stands for the [ValueError] of a malformed literal *)
  float_of_str : string -> option float;
  (** [str(x)], also the result of ["{value}".format(value=x)] *)
  str_of_float : float -> string;
  (** [repr(x)], used when a float is printed inside a list *)
  repr_of_float : float -> string;
  (** ["{:w.pf}".format(x)] for a width [w] and a precision [p] *)
  format_f : nat -> nat -> float -> string;
  float_mul : float -> float -> float;
  (** [int(x)]; [None] stands for the [OverflowError] on an infinity *)
  int_of_float : float -> option Z;
  (** truth value of a float: [x != 0] *)
  float_truth : float -> bool;
  (** [Energy(x, "Ha").to("eV")] of pymatgen.core.units *)
  hartree_to_eV : float -> float;
  kcal_per_mol_2_eV : float;  (* 4.3363E-2 *)
  milli : float               (* 1.0E-3 *)
}.

Section Model.
Context `{PyFloat}.

(** Modelled from the spec: the [Molecule] class of pymatgen.core.structure
    is not part of this module.  A molecule is an ordered list of sites
    (element symbol, atomic number, Cartesian coordinates) with a charge
    and a spin multiplicity; its electron count is computed from the
    atomic numbers and the charge. *)
Record Site : Type := {
  species_string : string;
  atomic_number : Z;
  coords : float * float * float
}.

Record Molecule : Type := {
  sites : list Site;
  mol_charge : Z;
  mol_spin_multiplicity : Z
}.

Definition sum_atomic_numbers (m : Molecule) : Z :=
  foldr (fun s acc => atomic_number s + acc) 0 (sites m).

Definition nelectrons (m : Molecule) : Z :=
  sum_atomic_numbers m - mol_charge m.

(** Modelled from the spec: [Molecule.set_charge_and_spin] stamps a
    molecule with a charge and a spin multiplicity, which must satisfy
    [(total_electrons + spin_multiplicity) mod 2 == 1]; a zero
    multiplicity asks for the lowest one compatible with the charge. *)
Definition set_charge_and_spin (m : Molecule) (c s : Z) : result Molecule :=
  let n := sum_atomic_numbers m - c in
  if negb (s =? 0) then
    if negb ((n + s) mod 2 =? 1)
    then Raise (ValueError "Charge and spin multiplicity is not possible for this molecule")
    else Ok {| sites := sites m; mol_charge := c; mol_spin_multiplicity := s |}
  else Ok {| sites := sites m; mol_charge := c;
             mol_spin_multiplicity := if n mod 2 =? 0 then 1 else 2 |}.

(** The routines that build a [Molecule] from text do vector arithmetic
    in floating point (numpy, SymmOp) and look elements up in the
    periodic table; they are parameters of the development, and so is
    the truth value of a [Molecule] object. *)
Class Chemistry : Type := {
  (** [bool(molecule)]: the truth value that [if molecule] and
      [if self.mol] test; it is decided by the [Molecule] class *)
  mol_truth : Molecule -> bool;
  (** [QcTask._parse_coords(coord_lines)], the geometry builder *)
  _parse_coords : list string -> result Molecule;
  (** [Molecule(species, coords)] *)
  new_molecule : list string -> list (float * float * float) -> result Molecule
}.
Context `{Chemistry}.

(** ** Python values stored in the sections of a job *)

Inductive pyval : Type :=
  | VStr (s : string)
  | VInt (z : Z)
  | VBool (b : bool)
  | VFloat (x : float)
  (** the rows of [pcm_solvent]'s [solventatom]: three ints and a float *)
  | VAtoms (rows : list (Z * Z * Z * float))
  (** the dictionary [QcTask.alternative_values] itself *)
  | VAliases.

Inductive section : Type :=
  | SText (s : string)
  | SDict (d : gmap string pyval).

(** [self.mol]: a string or a [Molecule] *)
Inductive molval : Type :=
  | MStr (s : string)
  | MMol (m : Molecule).

Record QcTask : Type := {
  mol : molval;
  charge : option Z;
  spin_multiplicity : option Z;
  params : gmap string section
}.

Definition optional_keywords_list : list string :=
  ["basis"; "ecp"; "empirical_dispersion"; "external_charges";
   "force_field_params"; "intracule"; "isotopes"; "aux_basis";
   "localized_diabatization"; "multipole_field"; "nbo"; "occupied";
   "swap_occupied_virtual"; "opt"; "pcm"; "pcm_solvent"; "plots";
   "qm_atoms"; "svp"; "svpirf"; "van_der_waals"; "xc_functional";
   "cdft"; "efp_fragments"; "efp_params"].

Definition alternative_keys : list (string * string) :=
  [("job_type", "jobtype"); ("symmetry_ignore", "sym_ignore");
   ("scf_max_cycles", "max_scf_cycles")].

Definition alternative_values : list (string * string) :=
  [("optimization", "opt"); ("frequency", "freq")].

Definition available_jobtypes : list string :=
  ["sp"; "opt"; "ts"; "freq"; "force"; "rpath"; "nmr"; "bsse"; "eda";
   "pes_scan"; "fsm"; "aimd"; "pimc"; "makeefp"].

Fixpoint assoc (k : string) (l : list (string * string)) : option string :=
  match l with
  | [] => None
  | (k', v) :: l' => if String.eqb k' k then Some v else assoc k l'
  end.

Definition mem (k : string) (l : list string) : bool :=
  existsb (String.eqb k) l.

(** [d[k] if k in d else k] *)
Definition alias (table : list (string * string)) (k : string) : string :=
  match assoc k table with Some v => v | None => k end.

(** *** Access to [self.params["rem"]] *)

Definition get_rem (p : gmap string section) : result (gmap string pyval) :=
  match p !! "rem" with
  | Some (SDict d) => Ok d
  | Some (SText _) => Raise (TypeError "string indices must be integers")
  | None => Raise (KeyError "rem")
  end.

(** [self.params["rem"][k] = v] *)
Definition set_rem (k : string) (v : pyval) (t : QcTask) : result QcTask :=
  d ← get_rem (params t);
  Ok {| mol := mol t; charge := charge t;
        spin_multiplicity := spin_multiplicity t;
        params := <["rem" := SDict (<[k := v]> d)]> (params t) |}.

(** [self.params[k] = s] *)
Definition set_param (k : string) (s : section) (t : QcTask) : QcTask :=
  {| mol := mol t; charge := charge t;
     spin_multiplicity := spin_multiplicity t;
     params := <[k := s]> (params t) |}.

(** *** Basis sets and effective core potentials *)

(** An argument that is a string, an element-keyed [dict] given by its
    items in iteration order, or an object of another type. *)
Inductive basis_arg : Type :=
  | BStr (s : string)
  | BDict (items : list (string * string))
  | BOther.

(** [for element, basis in d.iteritems(): bs[element.strip().capitalize()] = basis.lower()] *)
Definition normalize_elements (items : list (string * string)) : gmap string pyval :=
  foldl (fun bs '(element, basis) =>
           <[PyStr.capitalize (PyStr.strip element) := VStr (PyStr.lower basis)]> bs)
        ∅ items.

(** [bool(self.mol)] and [set([site.species_string for site in self.mol.sites])] *)
Definition molval_truth (m : molval) : bool :=
  match m with
  | MStr s => negb (String.eqb s "")
  | MMol m => mol_truth m
  end.

Definition mol_elements (m : molval) : result (gset string) :=
  match m with
  | MStr _ => Raise (AttributeError "'str' object has no attribute 'sites'")
  | MMol m => Ok (list_to_set (species_string <$> sites m))
  end.

Definition set_basis_set (t : QcTask) (basis_set : basis_arg) : result QcTask :=
  match basis_set with
  | BStr s => set_rem "basis" (VStr (PyStr.lower s)) t
  | BDict items =>
      t ← set_rem "basis" (VStr "gen") t;
      let bs := normalize_elements items in
      let t := set_param "basis" (SDict bs) t in
      if molval_truth (mol t) then
        mol_elements ← mol_elements (mol t);
        let basis_elements : gset string := dom bs in
        if (0 <? size (mol_elements ∖ basis_elements))%nat then
          Raise (ValueError "The basis set for elements is missing")
        else if (0 <? size (basis_elements ∖ mol_elements))%nat then
          Raise (ValueError "Basis set error: the molecule doesn't contain element")
        else Ok t
      else Ok t
  | BOther => Raise (Exception "Can't handle type")
  end.

Definition set_auxiliary_basis_set (t : QcTask) (aux_basis_set : basis_arg)
    : result QcTask :=
  match aux_basis_set with
  | BStr s => set_rem "aux_basis" (VStr (PyStr.lower s)) t
  | BDict items =>
      t ← set_rem "aux_basis" (VStr "gen") t;
      let bs := normalize_elements items in
      let t := set_param "aux_basis" (SDict bs) t in
      if molval_truth (mol t) then
        mol_elements ← mol_elements (mol t);
        let basis_elements : gset string := dom bs in
        if (0 <? size (mol_elements ∖ basis_elements))%nat then
          Raise (ValueError "The auxiliary basis set for elements is missing")
        else if (0 <? size (basis_elements ∖ mol_elements))%nat then
          Raise (ValueError "Auxiliary asis set error: the molecule doesn't contain element")
        else Ok t
      else Ok t
  | BOther => Ok t
  end.

Definition set_ecp (t : QcTask) (ecp : basis_arg) : result QcTask :=
  match ecp with
  | BStr s => set_rem "ecp" (VStr (PyStr.lower s)) t
  | BDict items =>
      t ← set_rem "ecp" (VStr "gen") t;
      let potentials := normalize_elements items in
      let t := set_param "ecp" (SDict potentials) t in
      if molval_truth (mol t) then
        mol_elements ← mol_elements (mol t);
        let ecp_elements : gset string := dom potentials in
        if (0 <? size (ecp_elements ∖ mol_elements))%nat then
          Raise (ValueError "ECP error: the molecule doesn't contain element")
        else Ok t
      else Ok t
  | BOther => Ok t
  end.

(** *** The constructor *)

(** The [molecule] argument: [None], a string, a [Molecule], or an object
    of another type (of which only the truth value matters). *)
Inductive molarg : Type :=
  | ANone
  | AStr (s : string)
  | AMol (m : Molecule)
  | AOther (truth : bool).

Record init_args : Type := {
  a_molecule : molarg;
  a_charge : option Z;
  a_spin_multiplicity : option Z;
  a_jobtype : pyval;
  a_title : option string;
  a_exchange : pyval;
  a_correlation : option pyval;
  a_basis_set : basis_arg;
  a_aux_basis_set : option basis_arg;
  a_ecp : option basis_arg;
  a_rem_params : option (list (string * pyval));
  a_optional_params : option (list (string * section))
}.

(** The defaults of [QcTask.__init__]. *)
Definition default_args : init_args := {|
  a_molecule := ANone;
  a_charge := None;
  a_spin_multiplicity := None;
  a_jobtype := VStr "SP";
  a_title := None;
  a_exchange := VStr "HF";
  a_correlation := None;
  a_basis_set := BStr "6-31+G*";
  a_aux_basis_set := None;
  a_ecp := None;
  a_rem_params := None;
  a_optional_params := None
|}.

(** [v.lower()] on an argument that is expected to be a string *)
Definition py_lower (v : pyval) : result string :=
  match v with
  | VStr s => Ok (PyStr.lower s)
  | _ => Raise (AttributeError "object has no attribute 'lower'")
  end.

Definition molarg_truth (a : molarg) : bool :=
  match a with
  | ANone => false
  | AStr s => negb (String.eqb s "")
  | AMol m => mol_truth m
  | AOther b => b
  end.

Definition is_none {A} (o : option A) : bool :=
  match o with None => true | Some _ => false end.

(** Lines 94-112: the molecule, the charge and the spin multiplicity. *)
Definition init_charge_spin (molecule : molarg) (charge spin_multiplicity : option Z)
    : result (molval * option Z * option Z) :=
  let mol0 := if molarg_truth molecule then molecule else AStr "read" in
  match mol0 with
  | AStr s =>
      if String.eqb (PyStr.lower s) "read"
      then Ok (MStr "read", charge, spin_multiplicity)
      else Raise (ValueError "The molecule must be a pymatgen Molecule object or read/None")
  | AMol m =>
      let self_charge := match charge with Some c => c | None => mol_charge m end in
      let nelectrons := mol_charge m + nelectrons m - self_charge in
      match spin_multiplicity with
      | Some s =>
          if negb ((nelectrons + s) mod 2 =? 1)
          then Raise (ValueError "Charge and spin multiplicity is not possible for this molecule")
          else Ok (MMol m, Some self_charge, Some s)
      | None =>
          Ok (MMol m, Some self_charge,
              Some (if nelectrons mod 2 =? 0 then 1 else 2))
      end
  | ANone | AOther _ =>
      Raise (ValueError "The molecule must be a pymatgen Molecule object or read/None")
  end.

(** Lines 113-116. *)
Definition init_molecule (molecule : molarg) (charge spin_multiplicity : option Z)
    : result (molval * option Z * option Z) :=
  x ← init_charge_spin molecule charge spin_multiplicity;
  let '(mol1, charge1, spin1) := x in
  if negb (Bool.eqb (is_none charge1) (is_none spin1)) then
    Raise (ValueError "spin multiplicity must be set together")
  else
    match charge1, spin1, mol1 with
    | Some c, Some s, MMol m =>
        m' ← set_charge_and_spin m c s;
        Ok (MMol m', charge1, spin1)
    | _, _, _ => Ok (mol1, charge1, spin1)
    end.

(** Lines 134-148: one item of [rem_params]. *)
Definition init_rem_param (t : QcTask) (kv : string * pyval) : result QcTask :=
  let '(k, v) := kv in
  let k := alias alternative_keys (PyStr.lower k) in
  match v with
  | VStr s => set_rem k (VStr (alias alternative_values (PyStr.lower s))) t
  | VInt _ | VBool _ | VFloat _ => set_rem k v t
  | VAtoms _ | VAliases =>
      Raise (ValueError "The value in $rem can only be Integer or string")
  end.

(** Lines 149-155: [optional_params]. *)
Definition init_optional_params (t : QcTask)
    (optional_params : option (list (string * section))) : result QcTask :=
  match optional_params with
  | None | Some [] => Ok t
  | Some items =>
      if negb (forallb (fun kv => mem (PyStr.lower (fst kv)) optional_keywords_list) items)
      then Raise (ValueError "is not a valid optional section")
      else Ok (foldl (fun t kv => set_param (fst kv) (snd kv) t) t items)
  end.

Definition _aux_basis_required (t : QcTask) : result bool :=
  rem ← get_rem (params t);
  exchange ← of_option (rem !! "exchange") (KeyError "exchange");
  let by_exchange :=
    match exchange with
    | VStr s => mem s ["xygjos"; "xyg3"; "lxygjos"]
    | _ => false
    end in
  if by_exchange then Ok true
  else match rem !! "correlation" with
       | None => Ok false
       | Some (VStr s) => Ok (PyStr.startswith s "ri")
       | Some _ => Raise (AttributeError "object has no attribute 'startswith'")
       end.

(** Lines 159-169: the auxiliary basis set. *)
Definition init_aux_basis (t : QcTask) (aux_basis_set : option basis_arg)
    : result QcTask :=
  match aux_basis_set with
  | Some a => set_auxiliary_basis_set t a
  | None =>
      required ← _aux_basis_required t;
      if (required : bool) then
        rem ← get_rem (params t);
        basis ← of_option (rem !! "basis") (KeyError "basis");
        t ← match basis with
            | VStr b =>
                if PyStr.startswith b "6-31+g"
                then set_auxiliary_basis_set t (BStr "rimp2-aug-cc-pvdz")
                else if PyStr.startswith b "6-311+g"
                then set_auxiliary_basis_set t (BStr "rimp2-aug-cc-pvtz")
                else Ok t
            | _ => Ok t
            end;
        rem ← get_rem (params t);
        match rem !! "aux_basis" with
        | None => Raise (ValueError "Auxiliary basis set is missing")
        | Some _ => Ok t
        end
      else Ok t
  end.

Definition basis_arg_truth (b : basis_arg) : bool :=
  match b with
  | BStr s => negb (String.eqb s "")
  | BDict items => negb (Nat.eqb (List.length items) 0)
  | BOther => true
  end.

(** [QcTask.__init__] *)
Definition QcTask_init (a : init_args) : result QcTask :=
  x ← init_molecule (a_molecule a) (a_charge a) (a_spin_multiplicity a);
  let '(mol, charge, spin) := x in
  let params : gmap string section := ∅ in
  let params :=
    match a_title a with
    | Some title => <["comment" := SText title]> params
    | None => params
    end in
  let params :=
    match params !! "rem" with
    | None => <["rem" := SDict ∅]> params
    | Some _ => params
    end in
  let t := {| mol := mol; charge := charge; spin_multiplicity := spin;
              params := params |} in
  exchange ← py_lower (a_exchange a);
  t ← set_rem "exchange" (VStr exchange) t;
  jobtype_lower ← py_lower (a_jobtype a);
  let jt := alias alternative_values jobtype_lower in
  if negb (mem jt available_jobtypes) then
    Raise (ValueError "Job type is not supported yet")
  else
    t ← set_rem "jobtype" (VStr jobtype_lower) t;
    t ← match a_correlation a with
        | Some c => c ← py_lower c; set_rem "correlation" (VStr c) t
        | None => Ok t
        end;
    t ← match a_rem_params a with
        | Some items => foldM init_rem_param items t
        | None => Ok t
        end;
    t ← init_optional_params t (a_optional_params a);
    t ← set_basis_set t (a_basis_set a);
    t ← init_aux_basis t (a_aux_basis_set a);
    match a_ecp a with
    | Some e => if basis_arg_truth e then set_ecp t e else Ok t
    | None => Ok t
    end.

(** *** The setters of single keywords *)

(** [if total:] on an optional integer: [None] and [0] are false. *)
Definition set_rem_if_nonzero (k : string) (v : option Z) (t : QcTask)
    : result QcTask :=
  match v with
  | Some z => if negb (z =? 0) then set_rem k (VInt z) t else Ok t
  | None => Ok t
  end.

Definition set_memory (total static : option Z) (t : QcTask) : result QcTask :=
  t ← set_rem_if_nonzero "mem_total" total t;
  set_rem_if_nonzero "mem_static" static t.

Definition set_max_num_of_scratch_files (num : Z) (t : QcTask) : result QcTask :=
  set_rem "max_sub_file_num" (VInt num) t.

Definition available_algorithms : list string :=
  ["diis"; "dm"; "diis_dm"; "diis_gdm"; "gdm"; "rca"; "rca_diis"; "roothaan"].

Definition set_scf_algorithm_and_iterations (algorithm : string) (iterations : Z)
    (t : QcTask) : result QcTask :=
  if negb (mem (PyStr.lower algorithm) available_algorithms) then
    Raise (ValueError ("Algorithm " +:+ algorithm +:+ " is not available in QChem"))
  else
    t ← set_rem "scf_algorithm" (VStr (PyStr.lower algorithm)) t;
    set_rem "max_scf_cycles" (VInt iterations) t.

Definition set_scf_convergence_threshold (exponent : Z) (t : QcTask) : result QcTask :=
  set_rem "scf_convergence" (VInt exponent) t.

Definition set_integral_threshold (thresh : Z) (t : QcTask) : result QcTask :=
  set_rem "thresh" (VInt thresh) t.

Definition available_lebedev_angular_points : list Z :=
  [6; 18; 26; 38; 50; 74; 86; 110; 146; 170; 194; 230; 266; 302; 350; 434;
   590; 770; 974; 1202; 1454; 1730; 2030; 2354; 2702; 3074; 3470; 3890;
   4334; 4802; 5294].

(** ["{:06d}".format(z)]: the digits, filled with zeros after the sign up
    to six characters; a longer number is not cut. *)
Definition format_06d (z : Z) : string :=
  let digits := PyStr.of_int (Z.abs z) in
  if z <? 0 then "-" +:+ PyStr.repeat_char "0" (5 - String.length digits) +:+ digits
  else PyStr.repeat_char "0" (6 - String.length digits) +:+ digits.

(** ["{rp:06d}{ap:06d}".format(rp=..., ap=...)] *)
Definition grid_code (radical_points angular_points : Z) : string :=
  format_06d radical_points +:+ format_06d angular_points.

Definition set_dft_grid (radical_points angular_points : Z) (grid_type : string)
    (t : QcTask) : result QcTask :=
  let g := PyStr.lower grid_type in
  if String.eqb g "sg-0" then set_rem "xc_grid" (VInt 0) t
  else if String.eqb g "sg-1" then set_rem "xc_grid" (VInt 1) t
  else if String.eqb g "lebedev" then
    if negb (existsb (Z.eqb angular_points) available_lebedev_angular_points) then
      Raise (ValueError (PyStr.of_int angular_points +:+
                         " is not a valid Lebedev angular points number"))
    else set_rem "xc_grid" (VStr (grid_code radical_points angular_points)) t
  else if String.eqb g "gauss-legendre" then
    set_rem "xc_grid" (VStr ("-" +:+ grid_code radical_points angular_points)) t
  else
    Raise (ValueError ("Grid type " +:+ grid_type +:+ " is not supported currently")).

Definition available_guesses : list string :=
  ["core"; "sad"; "gwh"; "read"; "fragmo"].

Definition set_scf_initial_guess (guess : string) (t : QcTask) : result QcTask :=
  if negb (mem (PyStr.lower guess) available_guesses) then
    Raise (ValueError ("The guess method " +:+ guess +:+ " is not supported yet"))
  else set_rem "scf_guess" (VStr (PyStr.lower guess)) t.

Definition set_geom_max_iterations (iterations : Z) (t : QcTask) : result QcTask :=
  set_rem "geom_opt_max_cycles" (VInt iterations) t.

Definition coords_map : list (string * Z) :=
  [("cartesian", 0); ("internal", 1); ("internal-switch", -1);
   ("z-matrix", 2); ("z-matrix-switch", -2)].

Fixpoint coords_code (k : string) (l : list (string * Z)) : option Z :=
  match l with
  | [] => None
  | (k', v) :: l' => if String.eqb k' k then Some v else coords_code k l'
  end.

Definition set_geom_opt_coords_type (coords_type : string) (t : QcTask)
    : result QcTask :=
  match coords_code (PyStr.lower coords_type) coords_map with
  | None =>
      Raise (ValueError ("Coodinate system " +:+ coords_type +:+ " is not supported yet"))
  | Some code => set_rem "geom_opt_coords" (VInt code) t
  end.

Definition set_geom_opt_use_gdiis (subspace_size : option Z) (t : QcTask)
    : result QcTask :=
  set_rem "geom_opt_max_diis" (VInt (default (-1) subspace_size)) t.

Definition disable_symmetry (t : QcTask) : result QcTask :=
  t ← set_rem "sym_ignore" (VBool true) t;
  set_rem "symmetry" (VBool false) t.

Definition use_cosmo (dielectric_constant : float) (t : QcTask) : result QcTask :=
  t ← set_rem "solvent_method" (VStr "cosmo") t;
  set_rem "solvent_dielectric" (VFloat dielectric_constant) t.

(** *** The solvent model [use_pcm] *)

(** [v.lower() if isinstance(v, str) else v] *)
Definition lower_if_str (v : pyval) : pyval :=
  match v with
  | VStr s => VStr (PyStr.lower s)
  | _ => v
  end.

(** [for k, v in items: d[k.lower()] = v.lower() if isinstance(v, str) else v] *)
Definition store_lowered (items : list (string * pyval)) (d : gmap string pyval)
    : gmap string pyval :=
  foldl (fun d kv => <[PyStr.lower (fst kv) := lower_if_str (snd kv)]> d) d items.

(** The same loop with the test [if k.lower() not in d.keys()]. *)
Definition store_missing (items : list (string * pyval)) (d : gmap string pyval)
    : gmap string pyval :=
  foldl (fun d kv =>
           match d !! PyStr.lower (fst kv) with
           | None => <[PyStr.lower (fst kv) := lower_if_str (snd kv)]> d
           | Some _ => d
           end)
        d items.

(** The truth value of a dictionary argument: [None] and the empty
    dictionary are false. *)
Definition items_truth (o : option (list (string * pyval))) : bool :=
  match o with
  | Some (_ :: _) => true
  | _ => false
  end.

Definition str_truth (o : option string) : bool :=
  match o with
  | Some s => negb (String.eqb s "")
  | None => false
  end.

(** The float literals [1.1] and [78.3553] of the defaults are arguments
    of the definitions, floats being abstract. *)
Definition default_pcm_params (vdw_scale : float) : list (string * pyval) :=
  [("Theory", VStr "SSVPE"); ("vdwScale", VFloat vdw_scale); ("Radii", VStr "UFF")].

Definition default_solvent_params (dielectric : float) : list (string * pyval) :=
  [("Dielectric", VFloat dielectric)].

(** The dictionary [self.params["pcm"]] at the end of [use_pcm]. *)
Definition pcm_section (vdw_scale : float)
    (pcm_params : option (list (string * pyval)))
    (radii_force_field : option string) : gmap string pyval :=
  let pcm : gmap string pyval := ∅ in
  let pcm := if items_truth pcm_params
             then store_lowered (default [] pcm_params) pcm else pcm in
  let pcm := store_missing (default_pcm_params vdw_scale) pcm in
  if str_truth radii_force_field then <["radii" := VStr "bondi"]> pcm else pcm.

(** The dictionary [self.params["pcm_solvent"]] at the end of [use_pcm]. *)
Definition pcm_solvent_section (dielectric : float)
    (solvent_params : option (list (string * pyval))) : gmap string pyval :=
  let solvent_params :=
    if items_truth solvent_params then default [] solvent_params
    else default_solvent_params dielectric in
  store_lowered solvent_params ∅.

Definition use_pcm (vdw_scale dielectric : float)
    (pcm_params solvent_params : option (list (string * pyval)))
    (radii_force_field : option string) (t : QcTask) : result QcTask :=
  let t := set_param "pcm" (SDict (pcm_section vdw_scale pcm_params radii_force_field)) t in
  let t := set_param "pcm_solvent" (SDict (pcm_solvent_section dielectric solvent_params)) t in
  t ← set_rem "solvent_method" (VStr "pcm") t;
  match radii_force_field with
  | Some ff => if negb (String.eqb ff "")
               then set_rem "force_fied" (VStr (PyStr.lower ff)) t
               else Ok t
  | None => Ok t
  end.

(** *** Serialization: [QcTask.__str__] *)

Definition bool_str (b : bool) : string := if b then "True" else "False".

Definition atom_row_repr (r : Z * Z * Z * float) : string :=
  let '(a, b, c, x) := r in
  "[" +:+ PyStr.of_int a +:+ ", " +:+ PyStr.of_int b +:+ ", " +:+
  PyStr.of_int c +:+ ", " +:+ repr_of_float x +:+ "]".

(** ["{value}".format(value=v)] *)
Definition str_of_pyval (v : pyval) : string :=
  match v with
  | VStr s => s
  | VInt z => PyStr.of_int z
  | VBool b => bool_str b
  | VFloat x => str_of_float x
  | VAtoms rows => "[" +:+ PyStr.join ", " (atom_row_repr <$> rows) +:+ "]"
  | VAliases => "{'optimization': 'opt', 'frequency': 'freq'}"
  end.

Definition keys (d : gmap string pyval) : list string := (map_to_list d).*1.

Definition get_section_dict (t : QcTask) (sec : string)
    : result (gmap string pyval) :=
  match params t !! sec with
  | Some (SDict d) => Ok d
  | Some (SText _) => Raise (AttributeError "'str' object has no attribute 'keys'")
  | None => Raise (KeyError sec)
  end.

(** [max(len(name) for name in names)], 0 for no name *)
Definition name_width (names : list string) : nat :=
  foldl (fun w name => if (w <? String.length name)%nat then String.length name else w)
        0%nat names.

Definition _format_comment (t : QcTask) : result (list string) :=
  match params t !! "comment" with
  | Some (SText s) => Ok [" " +:+ PyStr.strip s]
  | Some (SDict _) => Raise (AttributeError "'dict' object has no attribute 'strip'")
  | None => Raise (KeyError "comment")
  end.

Definition format_site (s : Site) : string :=
  let '(x, y, z) := coords s in
  " " +:+ PyStr.ljust 4 (species_string s) +:+ " " +:+ format_f 17 8 x +:+
  " " +:+ format_f 17 8 y +:+ " " +:+ format_f 17 8 z.

Definition format_charge_spin (t : QcTask) : result (list string) :=
  match charge t with
  | Some c =>
      match spin_multiplicity t with
      | Some m => Ok [" " +:+ PyStr.of_int c +:+ "  " +:+ PyStr.of_int m]
      | None => Raise (ValueError "Unknown format code 'd' for object of type 'str'")
      end
  | None => Ok []
  end.

Definition _format_molecule (t : QcTask) : result (list string) :=
  lines ← format_charge_spin t;
  match mol t with
  | MStr s =>
      if String.eqb s "read" then Ok (lines ++ [" read"])
      else Raise (AttributeError "'str' object has no attribute 'sites'")
  | MMol m => Ok (lines ++ (format_site <$> sites m))
  end.

Definition _format_rem (t : QcTask) : result (list string) :=
  rem ← get_section_dict t "rem";
  let name_width := name_width (keys rem) in
  let priority_keys := ["jobtype"; "exchange"; "basis"] in
  let additional_keys := filter (fun k => negb (mem k priority_keys)) (keys rem) in
  let ordered_keys := (priority_keys ++ PyStr.sorted additional_keys) in
  mapM (fun name =>
          value ← of_option (rem !! name) (KeyError name);
          Ok ("  " +:+ PyStr.rjust name_width name +:+ " = " +:+ str_of_pyval value))
       ordered_keys.

(** The common body of [_format_basis], [_format_aux_basis] and [_format_ecp]. *)
Definition format_elements (t : QcTask) (sec : string) : result (list string) :=
  d ← get_section_dict t sec;
  lines ← mapM (fun element =>
                  basis ← of_option (d !! element) (KeyError element);
                  match basis with
                  | VStr b => Ok [" " +:+ element; " " +:+ b; " ****"]
                  | _ => Raise (TypeError "cannot concatenate 'str' and non-str objects")
                  end)
               (PyStr.sorted (keys d));
  Ok (concat lines).

Definition _format_basis (t : QcTask) := format_elements t "basis".
Definition _format_aux_basis (t : QcTask) := format_elements t "aux_basis".
Definition _format_ecp (t : QcTask) := format_elements t "ecp".

Definition _format_pcm (t : QcTask) : result (list string) :=
  pcm ← get_section_dict t "pcm";
  let name_width := name_width (keys pcm) in
  mapM (fun name =>
          value ← of_option (pcm !! name) (KeyError name);
          Ok ("  " +:+ PyStr.rjust name_width name +:+ "   " +:+ str_of_pyval value))
       (PyStr.sorted (keys pcm)).

Definition format_solventatom (r : Z * Z * Z * float) : string :=
  let '(a, b, c, x) := r in
  PyStr.ljust 4 (PyStr.of_int a) +:+ " " +:+ PyStr.ljust 4 (PyStr.of_int b) +:+
  " " +:+ PyStr.ljust 4 (PyStr.of_int c) +:+ " " +:+ format_f 4 2 x.

Definition _format_pcm_solvent (t : QcTask) : result (list string) :=
  pp ← get_section_dict t "pcm_solvent";
  let name_width := name_width (keys pp) in
  let all_keys := keys pp in
  let priority_keys :=
    filter (fun k => mem k all_keys)
           ["dielectric"; "nonels"; "nsolventatoms"; "solventatom"] in
  let additional_keys := filter (fun k => negb (mem k priority_keys)) all_keys in
  let ordered_keys := (priority_keys ++ PyStr.sorted additional_keys) in
  lines ← mapM (fun name =>
                  value ← of_option (pp !! name) (KeyError name);
                  let entry v := "  " +:+ PyStr.rjust name_width name +:+ "   " +:+ v in
                  if String.eqb name "solventatom" then
                    match value with
                    | VAtoms rows => Ok ((fun r => entry (format_solventatom r)) <$> rows)
                    | _ => Raise (TypeError "solventatom is not a list of atoms")
                    end
                  else Ok [entry (str_of_pyval value)])
               ordered_keys;
  Ok (concat lines).

(** [self.__getattribute__("_format_" + sec)()] *)
Definition format_section (t : QcTask) (sec : string) : result (list string) :=
  if String.eqb sec "comment" then _format_comment t
  else if String.eqb sec "molecule" then _format_molecule t
  else if String.eqb sec "rem" then _format_rem t
  else if String.eqb sec "basis" then _format_basis t
  else if String.eqb sec "aux_basis" then _format_aux_basis t
  else if String.eqb sec "ecp" then _format_ecp t
  else if String.eqb sec "pcm" then _format_pcm t
  else if String.eqb sec "pcm_solvent" then _format_pcm_solvent t
  else Raise (AttributeError ("'QcTask' object has no attribute '_format_" +:+ sec +:+ "'")).

Definition section_names : list string :=
  (["comment"; "molecule"; "rem"] ++ PyStr.sorted optional_keywords_list).

Definition newline : string := String "010" EmptyString.

Definition QcTask_str (t : QcTask) : result string :=
  lines ← mapM (fun sec =>
                  if bool_decide (is_Some (params t !! sec)) || String.eqb sec "molecule"
                  then
                    body ← format_section t sec;
                    Ok (["$" +:+ sec] ++ body ++ ["$end"; newline])
                  else Ok [])
               section_names;
  Ok (PyStr.join newline (concat lines)).

(** *** Parsing: [QcTask.from_string] and the section parsers *)

Import Re.

(** ['\s*(?P<charge>[-+]?\d+)\s+(?P<multi>\d+)'] *)
Definition charge_multi_pattern : regex :=
  seqs [Star ws; Group "charge" (seqs [opt sign; plus d]); plus ws;
        Group "multi" (plus d)].

(** ['^[-+]?\d+$'] *)
Definition int_pattern : regex := seqs [opt sign; plus d; Eos].

(** ['^[-+]?\d+\.\d+([eE][-+]?\d+)?$'] *)
Definition float_pattern : regex :=
  seqs [opt sign; plus d; chr "."; plus d;
        opt (seqs [one_of "eE"; opt sign; plus d]); Eos].

Definition py_int (s : string) : result Z :=
  of_option (PyStr.to_int s) (ValueError "invalid literal for int()").
Definition py_float (s : string) : result float :=
  of_option (float_of_str s) (ValueError "could not convert string to float").

Definition _parse_comment (contents : list string) : result section :=
  Ok (SText (PyStr.strip (PyStr.join newline contents))).

Definition _parse_molecule (contents : list string)
    : result (molarg * option Z * option Z) :=
  let text := firstn 2 contents in
  match text with
  | [] => Raise (IndexError "pop from empty list")
  | line :: text =>
      x ← match match_ charge_multi_pattern line with
          | Some m =>
              charge ← py_int (group "charge" m);
              spin_multiplicity ← py_int (group "multi" m);
              match text with
              | [] => Raise (IndexError "pop from empty list")
              | line :: _ => Ok (line, Some charge, Some spin_multiplicity)
              end
          | None => Ok (line, None, None)
          end;
      let '(line, charge, spin_multiplicity) := x in
      if String.eqb (PyStr.lower (PyStr.strip line)) "read" then
        Ok (AStr "read", charge, spin_multiplicity)
      else
        match charge, spin_multiplicity with
        | Some c, Some s =>
            mol ← _parse_coords (skipn 1 contents);
            mol ← set_charge_and_spin mol c s;
            Ok (AMol mol, charge, spin_multiplicity)
        | _, _ => Raise (ValueError "Charge or spin multiplicity is not found")
        end
  end.

(** [line.strip().replace("=", ' ').split()] *)
Definition key_value_tokens (line : string) : list string :=
  PyStr.words (PyStr.replace_char "=" " " (PyStr.strip line)).

(** The chain [v == "True"], [v == "False"], [int_pattern], [float_pattern],
    [v.lower()] shared by the three key/value parsers.  The test
    [if v in cls.alternative_values: v = cls.alternative_values] has
    replaced an alias by the whole dictionary before the chain runs, and
    [int_pattern.match] rejects a dictionary. *)
Definition typed_value (v : string) : result pyval :=
  if mem v (alternative_values.*1) then
    Raise (TypeError "expected string or buffer")
  else if String.eqb v "True" then Ok (VBool true)
  else if String.eqb v "False" then Ok (VBool false)
  else if bool_decide (is_Some (match_ int_pattern v)) then VInt <$> py_int v
  else if bool_decide (is_Some (match_ float_pattern v)) then VFloat <$> py_float v
  else Ok (VStr (PyStr.lower v)).

Definition _parse_rem_line (d : gmap string pyval) (line : string)
    : result (gmap string pyval) :=
  match key_value_tokens line with
  | k1 :: v :: _ =>
      let k2 := alias alternative_keys (PyStr.lower k1) in
      if String.eqb k2 "xc_grid" then
        Ok (<[k2 := if mem v (alternative_values.*1) then VAliases else VStr v]> d)
      else
        x ← typed_value v; Ok (<[k2 := x]> d)
  | _ => Raise (ValueError "Can't parse $rem section, there should be at least two field: key and value!")
  end.

Definition _parse_rem (contents : list string) : result section :=
  SDict <$> foldM _parse_rem_line contents ∅.

Definition _parse_pcm_line (d : gmap string pyval) (line : string)
    : result (gmap string pyval) :=
  match key_value_tokens line with
  | k1 :: v :: _ =>
      let k2 := alias alternative_keys (PyStr.lower k1) in
      x ← typed_value v; Ok (<[k2 := x]> d)
  | _ => Raise (ValueError "Can't parse $pcm section, there should be at least two field: key and value!")
  end.

Definition _parse_pcm (contents : list string) : result section :=
  SDict <$> foldM _parse_pcm_line contents ∅.

Definition _parse_pcm_solvent_line (d : gmap string pyval) (line : string)
    : result (gmap string pyval) :=
  let tokens := key_value_tokens line in
  match tokens with
  | k1 :: v :: _ =>
      let k2 := alias alternative_keys (PyStr.lower k1) in
      if String.eqb k2 "solventatom" then
        ints ← mapM py_int (PyStr.slice 1 4 tokens);
        x ← of_option (nth_error tokens 4) (IndexError "list index out of range");
        x ← py_float x;
        match ints with
        | [a; b; c] =>
            match d !! k2 with
            | None => Ok (<[k2 := VAtoms [(a, b, c, x)]]> d)
            | Some (VAtoms rows) => Ok (<[k2 := VAtoms (rows ++ [(a, b, c, x)])]> d)
            | Some _ => Raise (AttributeError "object has no attribute 'append'")
            end
        | _ => Raise (IndexError "list index out of range")
        end
      else
        x ← typed_value v; Ok (<[k2 := x]> d)
  | _ => Raise (ValueError "Can't parse $pcm_solvent section, there should be at least two field: key and value!")
  end.

Definition _parse_pcm_solvent (contents : list string) : result section :=
  SDict <$> foldM _parse_pcm_solvent_line contents ∅.

(** The chunks of three lines (element, basis, terminator) and the loop
    over them; the caller has checked that the length is a multiple of
    three. *)
Fixpoint element_chunks (contents : list string) (d : gmap string pyval)
    : gmap string pyval :=
  match contents with
  | element :: basis :: _ :: rest =>
      element_chunks rest
        (<[PyStr.capitalize (PyStr.strip element) :=
             VStr (PyStr.lower (PyStr.strip basis))]> d)
  | _ => d
  end.

Definition parse_elements (msg : string) (contents : list string) : result section :=
  if negb (Nat.eqb (List.length contents mod 3) 0) then Raise (ValueError msg)
  else Ok (SDict (element_chunks contents ∅)).

Definition _parse_aux_basis := parse_elements "Auxiliary basis set section format error".
Definition _parse_basis := parse_elements "Basis set section format error".
Definition _parse_ecp := parse_elements "ECP section format error".

(** The loop state of [from_string]. *)
Record scan_state : Type := {
  parse_section : bool;
  section_name : option string;
  section_text : list string;
  s_mol : molarg;
  s_charge : option Z;
  s_spin_multiplicity : option Z;
  s_params : gmap string section
}.

Definition scan_init : scan_state := {|
  parse_section := false; section_name := None; section_text := [];
  s_mol := ANone; s_charge := None; s_spin_multiplicity := None;
  s_params := ∅
|}.

(** [QcTask.__dict__["_parse_" + section_name]] for the sections other
    than [molecule]. *)
Definition parse_func (name : string) : result (list string -> result section) :=
  if String.eqb name "comment" then Ok _parse_comment
  else if String.eqb name "rem" then Ok _parse_rem
  else if String.eqb name "aux_basis" then Ok _parse_aux_basis
  else if String.eqb name "basis" then Ok _parse_basis
  else if String.eqb name "ecp" then Ok _parse_ecp
  else if String.eqb name "pcm" then Ok _parse_pcm
  else if String.eqb name "pcm_solvent" then Ok _parse_pcm_solvent
  else Raise (Exception ("_parse_" +:+ name +:+ " is not implemented yet, please implement it")).

(** Lines 692-705: the end of a section. *)
Definition close_section (st : scan_state) : result scan_state :=
  let name := default "" (section_name st) in
  if String.eqb name "molecule" then
    x ← _parse_molecule (section_text st);
    let '(mol, charge, spin_multiplicity) := x in
    Ok {| parse_section := false; section_name := None; section_text := [];
          s_mol := mol; s_charge := charge;
          s_spin_multiplicity := spin_multiplicity;
          s_params := s_params st |}
  else
    f ← parse_func name;
    dd ← f (section_text st);
    Ok {| parse_section := false; section_name := None; section_text := [];
          s_mol := s_mol st; s_charge := s_charge st;
          s_spin_multiplicity := s_spin_multiplicity st;
          s_params := <[name := dd]> (s_params st) |}.

Definition drop1 (s : string) : string :=
  match s with String _ s' => s' | EmptyString => EmptyString end.

(** Lines 681-691: the start of a section; [line_num] is the number that
    [enumerate] gives the line and [line] the line as it was read. *)
Definition open_section (st : scan_state) (line_num : nat) (line l : string) :
    result scan_state :=
  let name := drop1 l in
  if negb (mem name section_names) then
    Raise (ValueError ("Unrecognized keyword " +:+ PyStr.strip line +:+
                       " at line " +:+ PyStr.of_int (Z.of_nat line_num)))
  else if bool_decide (is_Some (s_params st !! name)) then
    Raise (ValueError ("duplicated keyword " +:+ PyStr.strip line +:+
                       "at line " +:+ PyStr.of_int (Z.of_nat line_num)))
  else
    Ok {| parse_section := true; section_name := Some name;
          section_text := section_text st;
          s_mol := s_mol st; s_charge := s_charge st;
          s_spin_multiplicity := s_spin_multiplicity st;
          s_params := s_params st |}.

Definition append_text (st : scan_state) (line : string) : scan_state :=
  {| parse_section := parse_section st; section_name := section_name st;
     section_text := section_text st ++ [line];
     s_mol := s_mol st; s_charge := s_charge st;
     s_spin_multiplicity := s_spin_multiplicity st;
     s_params := s_params st |}.

(** [enumerate(lines)], counted from [n] on. *)
Fixpoint enumerate_from (n : nat) (lines : list string) : list (nat * string) :=
  match lines with
  | [] => []
  | line :: rest => (n, line) :: enumerate_from (S n) rest
  end.

Definition enumerate (lines : list string) : list (nat * string) :=
  enumerate_from 0 lines.

(** The body of the loop over the numbered lines (lines 672-705). *)
Definition scan_line (st : scan_state) (entry : nat * string) : result scan_state :=
  let line_num := fst entry in
  let line := snd entry in
  let l := PyStr.lower (PyStr.strip line) in
  if Nat.eqb (String.length l) 0 then Ok st
  else if negb (parse_section st) &&
          (String.eqb l "$end" || negb (PyStr.startswith l "$")) then
    Raise (ValueError "Format error, parsing failed")
  else
    let st := if parse_section st && negb (String.eqb l "$end")
              then append_text st line else st in
    st ← (if PyStr.startswith l "$" && negb (parse_section st)
          then open_section st line_num line l else Ok st);
    if parse_section st && String.eqb l "$end" then close_section st
    else Ok st.

Definition scan (lines : list string) : result scan_state :=
  foldM scan_line (enumerate lines) scan_init.

(** A value of [$rem] handed to an argument that accepts a string, an
    element-keyed dictionary, or (without effect) anything else. *)
Definition basis_arg_of (v : pyval) : basis_arg :=
  match v with
  | VStr s => BStr s
  | _ => BOther
  end.

Definition from_string (contents : string) : result QcTask :=
  let lines := PyStr.split_on "010" contents in
  st ← scan lines;
  if parse_section st then
    Raise (ValueError ("Format error. " +:+ default "" (section_name st) +:+
                       " is not terminated"))
  else
    let params := s_params st in
    rem ← get_rem params;
    jobtype ← of_option (rem !! "jobtype") (KeyError "jobtype");
    title ← match params !! "comment" with
            | Some (SText s) => Ok (Some s)
            | Some (SDict _) => Raise (TypeError "comment is not a string")
            | None => Ok None
            end;
    let exchange := default (VStr "hf") (rem !! "exchange") in
    let correlation := rem !! "correlation" in
    basis_set ← of_option (rem !! "basis") (KeyError "basis");
    let aux_basis_set := rem !! "aux_basis" in
    let ecp := rem !! "ecp" in
    let op_items :=
      filter (fun kv => negb (mem (fst kv) ["comment"; "rem"])) (map_to_list params) in
    let optional_params :=
      if (0 <? List.length op_items)%nat then Some op_items else None in
    QcTask_init {|
      a_molecule := s_mol st;
      a_charge := s_charge st;
      a_spin_multiplicity := s_spin_multiplicity st;
      a_jobtype := jobtype;
      a_title := title;
      a_exchange := exchange;
      a_correlation := correlation;
      a_basis_set := basis_arg_of basis_set;
      a_aux_basis_set := basis_arg_of <$> aux_basis_set;
      a_ecp := basis_arg_of <$> ecp;
      a_rem_params := Some (map_to_list rem);
      a_optional_params := optional_params
    |}.

(** ** [QcInput]: a sequence of jobs *)

(** An element of the list handed to [QcInput]: a [QcTask] or an object
    of another class, of which only its [str] is kept. *)
Inductive pyobj : Type :=
  | OTask (t : QcTask)
  | OOther (repr : string).

(** The [jobs] argument: a list, or a single object that is wrapped. *)
Inductive jobs_arg : Type :=
  | JList (l : list pyobj)
  | JSingle (o : pyobj).

(** The instance; [jobs] is [None] while the attribute is unassigned. *)
Record QcInput : Type := { jobs : option (list pyobj) }.

Definition is_task (o : pyobj) : bool :=
  match o with OTask _ => true | OOther _ => false end.

(** The loop of [QcInput.__init__]: the assignment [self.jobs = jobs]
    sits inside its body. *)
Fixpoint QcInput_init_loop (all rest : list pyobj) (self : QcInput) : result QcInput :=
  match rest with
  | [] => Ok self
  | j :: rest' =>
      if negb (is_task j) then Raise (ValueError "jobs must be a list QcInput object")
      else QcInput_init_loop all rest' {| jobs := Some all |}
  end.

Definition QcInput_init (arg : jobs_arg) : result QcInput :=
  let jobs := match arg with JList l => l | JSingle o => [o] end in
  QcInput_init_loop jobs jobs {| jobs := None |}.

Definition pyobj_str (o : pyobj) : result string :=
  match o with
  | OTask t => QcTask_str t
  | OOther repr => Ok repr
  end.

Definition get_jobs (self : QcInput) : result (list pyobj) :=
  of_option (jobs self) (AttributeError "'QcInput' object has no attribute 'jobs'").

(** The separator ["\n@@@\n\n\n"] *)
Definition job_separator : string :=
  newline +:+ "@@@" +:+ newline +:+ newline +:+ newline.

Definition QcInput_str (self : QcInput) : result string :=
  jobs ← get_jobs self;
  strs ← mapM pyobj_str jobs;
  Ok (PyStr.join job_separator strs).

(** [QcTask.to_dict], the module and class entries left out. *)
Record task_dict : Type := {
  d_molecule : molval;
  d_charge : option Z;
  d_spin_multiplicity : option Z;
  d_params : gmap string section
}.

Definition QcTask_to_dict (t : QcTask) : task_dict :=
  {| d_molecule := mol t; d_charge := charge t;
     d_spin_multiplicity := spin_multiplicity t; d_params := params t |}.

Definition pyobj_to_dict (o : pyobj) : result task_dict :=
  match o with
  | OTask t => Ok (QcTask_to_dict t)
  | OOther _ => Raise (AttributeError "object has no attribute 'to_dict'")
  end.

Definition QcInput_to_dict (self : QcInput) : result (list task_dict) :=
  jobs ← get_jobs self;
  mapM pyobj_to_dict jobs.

(** *** [QcInput.from_string] *)

(** [s.split(sep)] for a separator of several characters: the pieces
    between the occurrences of [sep], read from the left without overlap;
    [skip] counts the characters of an occurrence still to pass. *)
Fixpoint split_sep (sep : string) (skip : nat) (s : string) : list string :=
  match s with
  | EmptyString => [EmptyString]
  | String c s' =>
      match skip with
      | S k => split_sep sep k s'
      | O =>
          if String.prefix sep s
          then EmptyString :: split_sep sep (String.length sep - 1) s'
          else match split_sep sep 0 s' with
               | h :: t => String c h :: t
               | [] => [String c EmptyString]
               end
      end
  end.

Definition QcInput_from_string (contents : string) : result QcInput :=
  let qc_contents := split_sep "@@@" 0 contents in
  jobs ← mapM from_string qc_contents;
  QcInput_init (JList (OTask <$> jobs)).
End Model.

(** ** The run-log parser: [QcOutput._parse_job] *)

Module QcOutput.
Import Re.

Section Parser.
Context `{PyFloat} `{!Chemistry}.

(** An entry of [gradients]: the dictionary with the keys ["gradients"],
    ["max_gradient"] and ["rms_gradient"], the last two absent at first. *)
Record gradient : Type := {
  g_gradients : list (list float);
  max_gradient : option float;
  rms_gradient : option float
}.

(** An entry of [freqs]. *)
Record frequency : Type := {
  f_frequency : float;
  vib_mode : list (float * float * float)
}.

(** The local variables of [_parse_job] that live across the lines. *)
Record job_state : Type := {
  energies : list (string * float);
  scf_iters : list (list (float * float));
  coords : list (float * float * float);
  species : list string;
  molecules : list Molecule;
  gradients : list gradient;
  freqs : list frequency;
  vib_freqs : list float;
  vib_modes : list (list (float * float * float));
  grad_comp : option (list (list float));
  errors : list string;
  parse_input : bool;
  parse_coords : bool;
  parse_scf_iter : bool;
  parse_gradient : bool;
  parse_freq : bool;
  parse_modes : bool;
  qctask_lines : list string;
  qctask : option QcTask;
  jobtype : option pyval;
  charge : option Z;
  spin_multiplicity : option Z;
  thermal_corr : gmap string float;
  properly_terminated : bool;
  pop_method : option string;
  parse_charge : bool;
  charges : gmap string (list float);
  scf_successful : bool;
  opt_successful : bool
}.

(** Assignment to one variable. *)
Definition set_energies (x : list (string * float)) (s : job_state) : job_state :=
  {| energies := x; scf_iters := scf_iters s; coords := coords s;
     species := species s; molecules := molecules s; gradients :=
     gradients s; freqs := freqs s; vib_freqs := vib_freqs s; vib_modes
     := vib_modes s; grad_comp := grad_comp s; errors := errors s;
     parse_input := parse_input s; parse_coords := parse_coords s;
     parse_scf_iter := parse_scf_iter s; parse_gradient :=
     parse_gradient s; parse_freq := parse_freq s; parse_modes :=
     parse_modes s; qctask_lines := qctask_lines s; qctask := qctask s;
     jobtype := jobtype s; charge := charge s; spin_multiplicity :=
     spin_multiplicity s; thermal_corr := thermal_corr s;
     properly_terminated := properly_terminated s; pop_method :=
     pop_method s; parse_charge := parse_charge s; charges := charges s;
     scf_successful := scf_successful s; opt_successful :=
     opt_successful s |}.
Definition set_scf_iters (x : list (list (float * float))) (s : job_state) : job_state :=
  {| energies := energies s; scf_iters := x; coords := coords s; species
     := species s; molecules := molecules s; gradients := gradients s;
     freqs := freqs s; vib_freqs := vib_freqs s; vib_modes := vib_modes
     s; grad_comp := grad_comp s; errors := errors s; parse_input :=
     parse_input s; parse_coords := parse_coords s; parse_scf_iter :=
     parse_scf_iter s; parse_gradient := parse_gradient s; parse_freq :=
     parse_freq s; parse_modes := parse_modes s; qctask_lines :=
     qctask_lines s; qctask := qctask s; jobtype := jobtype s; charge :=
     charge s; spin_multiplicity := spin_multiplicity s; thermal_corr :=
     thermal_corr s; properly_terminated := properly_terminated s;
     pop_method := pop_method s; parse_charge := parse_charge s; charges
     := charges s; scf_successful := scf_successful s; opt_successful :=
     opt_successful s |}.
Definition set_coords (x : list (float * float * float)) (s : job_state) : job_state :=
  {| energies := energies s; scf_iters := scf_iters s; coords := x;
     species := species s; molecules := molecules s; gradients :=
     gradients s; freqs := freqs s; vib_freqs := vib_freqs s; vib_modes
     := vib_modes s; grad_comp := grad_comp s; errors := errors s;
     parse_input := parse_input s; parse_coords := parse_coords s;
     parse_scf_iter := parse_scf_iter s; parse_gradient :=
     parse_gradient s; parse_freq := parse_freq s; parse_modes :=
     parse_modes s; qctask_lines := qctask_lines s; qctask := qctask s;
     jobtype := jobtype s; charge := charge s; spin_multiplicity :=
     spin_multiplicity s; thermal_corr := thermal_corr s;
     properly_terminated := properly_terminated s; pop_method :=
     pop_method s; parse_charge := parse_charge s; charges := charges s;
     scf_successful := scf_successful s; opt_successful :=
     opt_successful s |}.
Definition set_species (x : list string) (s : job_state) : job_state :=
  {| energies := energies s; scf_iters := scf_iters s; coords := coords
     s; species := x; molecules := molecules s; gradients := gradients
     s; freqs := freqs s; vib_freqs := vib_freqs s; vib_modes :=
     vib_modes s; grad_comp := grad_comp s; errors := errors s;
     parse_input := parse_input s; parse_coords := parse_coords s;
     parse_scf_iter := parse_scf_iter s; parse_gradient :=
     parse_gradient s; parse_freq := parse_freq s; parse_modes :=
     parse_modes s; qctask_lines := qctask_lines s; qctask := qctask s;
     jobtype := jobtype s; charge := charge s; spin_multiplicity :=
     spin_multiplicity s; thermal_corr := thermal_corr s;
     properly_terminated := properly_terminated s; pop_method :=
     pop_method s; parse_charge := parse_charge s; charges := charges s;
     scf_successful := scf_successful s; opt_successful :=
     opt_successful s |}.
Definition set_molecules (x : list Molecule) (s : job_state) : job_state :=
  {| energies := energies s; scf_iters := scf_iters s; coords := coords
     s; species := species s; molecules := x; gradients := gradients s;
     freqs := freqs s; vib_freqs := vib_freqs s; vib_modes := vib_modes
     s; grad_comp := grad_comp s; errors := errors s; parse_input :=
     parse_input s; parse_coords := parse_coords s; parse_scf_iter :=
     parse_scf_iter s; parse_gradient := parse_gradient s; parse_freq :=
     parse_freq s; parse_modes := parse_modes s; qctask_lines :=
     qctask_lines s; qctask := qctask s; jobtype := jobtype s; charge :=
     charge s; spin_multiplicity := spin_multiplicity s; thermal_corr :=
     thermal_corr s; properly_terminated := properly_terminated s;
     pop_method := pop_method s; parse_charge := parse_charge s; charges
     := charges s; scf_successful := scf_successful s; opt_successful :=
     opt_successful s |}.
Definition set_gradients (x : list gradient) (s : job_state) : job_state :=
  {| energies := energies s; scf_iters := scf_iters s; coords := coords
     s; species := species s; molecules := molecules s; gradients := x;
     freqs := freqs s; vib_freqs := vib_freqs s; vib_modes := vib_modes
     s; grad_comp := grad_comp s; errors := errors s; parse_input :=
     parse_input s; parse_coords := parse_coords s; parse_scf_iter :=
     parse_scf_iter s; parse_gradient := parse_gradient s; parse_freq :=
     parse_freq s; parse_modes := parse_modes s; qctask_lines :=
     qctask_lines s; qctask := qctask s; jobtype := jobtype s; charge :=
     charge s; spin_multiplicity := spin_multiplicity s; thermal_corr :=
     thermal_corr s; properly_terminated := properly_terminated s;
     pop_method := pop_method s; parse_charge := parse_charge s; charges
     := charges s; scf_successful := scf_successful s; opt_successful :=
     opt_successful s |}.
Definition set_freqs (x : list frequency) (s : job_state) : job_state :=
  {| energies := energies s; scf_iters := scf_iters s; coords := coords
     s; species := species s; molecules := molecules s; gradients :=
     gradients s; freqs := x; vib_freqs := vib_freqs s; vib_modes :=
     vib_modes s; grad_comp := grad_comp s; errors := errors s;
     parse_input := parse_input s; parse_coords := parse_coords s;
     parse_scf_iter := parse_scf_iter s; parse_gradient :=
     parse_gradient s; parse_freq := parse_freq s; parse_modes :=
     parse_modes s; qctask_lines := qctask_lines s; qctask := qctask s;
     jobtype := jobtype s; charge := charge s; spin_multiplicity :=
     spin_multiplicity s; thermal_corr := thermal_corr s;
     properly_terminated := properly_terminated s; pop_method :=
     pop_method s; parse_charge := parse_charge s; charges := charges s;
     scf_successful := scf_successful s; opt_successful :=
     opt_successful s |}.
Definition set_vib_freqs (x : list float) (s : job_state) : job_state :=
  {| energies := energies s; scf_iters := scf_iters s; coords := coords
     s; species := species s; molecules := molecules s; gradients :=
     gradients s; freqs := freqs s; vib_freqs := x; vib_modes :=
     vib_modes s; grad_comp := grad_comp s; errors := errors s;
     parse_input := parse_input s; parse_coords := parse_coords s;
     parse_scf_iter := parse_scf_iter s; parse_gradient :=
     parse_gradient s; parse_freq := parse_freq s; parse_modes :=
     parse_modes s; qctask_lines := qctask_lines s; qctask := qctask s;
     jobtype := jobtype s; charge := charge s; spin_multiplicity :=
     spin_multiplicity s; thermal_corr := thermal_corr s;
     properly_terminated := properly_terminated s; pop_method :=
     pop_method s; parse_charge := parse_charge s; charges := charges s;
     scf_successful := scf_successful s; opt_successful :=
     opt_successful s |}.
Definition set_vib_modes (x : list (list (float * float * float))) (s : job_state) : job_state :=
  {| energies := energies s; scf_iters := scf_iters s; coords := coords
     s; species := species s; molecules := molecules s; gradients :=
     gradients s; freqs := freqs s; vib_freqs := vib_freqs s; vib_modes
     := x; grad_comp := grad_comp s; errors := errors s; parse_input :=
     parse_input s; parse_coords := parse_coords s; parse_scf_iter :=
     parse_scf_iter s; parse_gradient := parse_gradient s; parse_freq :=
     parse_freq s; parse_modes := parse_modes s; qctask_lines :=
     qctask_lines s; qctask := qctask s; jobtype := jobtype s; charge :=
     charge s; spin_multiplicity := spin_multiplicity s; thermal_corr :=
     thermal_corr s; properly_terminated := properly_terminated s;
     pop_method := pop_method s; parse_charge := parse_charge s; charges
     := charges s; scf_successful := scf_successful s; opt_successful :=
     opt_successful s |}.
Definition set_grad_comp (x : option (list (list float))) (s : job_state) : job_state :=
  {| energies := energies s; scf_iters := scf_iters s; coords := coords
     s; species := species s; molecules := molecules s; gradients :=
     gradients s; freqs := freqs s; vib_freqs := vib_freqs s; vib_modes
     := vib_modes s; grad_comp := x; errors := errors s; parse_input :=
     parse_input s; parse_coords := parse_coords s; parse_scf_iter :=
     parse_scf_iter s; parse_gradient := parse_gradient s; parse_freq :=
     parse_freq s; parse_modes := parse_modes s; qctask_lines :=
     qctask_lines s; qctask := qctask s; jobtype := jobtype s; charge :=
     charge s; spin_multiplicity := spin_multiplicity s; thermal_corr :=
     thermal_corr s; properly_terminated := properly_terminated s;
     pop_method := pop_method s; parse_charge := parse_charge s; charges
     := charges s; scf_successful := scf_successful s; opt_successful :=
     opt_successful s |}.
Definition set_errors (x : list string) (s : job_state) : job_state :=
  {| energies := energies s; scf_iters := scf_iters s; coords := coords
     s; species := species s; molecules := molecules s; gradients :=
     gradients s; freqs := freqs s; vib_freqs := vib_freqs s; vib_modes
     := vib_modes s; grad_comp := grad_comp s; errors := x; parse_input
     := parse_input s; parse_coords := parse_coords s; parse_scf_iter :=
     parse_scf_iter s; parse_gradient := parse_gradient s; parse_freq :=
     parse_freq s; parse_modes := parse_modes s; qctask_lines :=
     qctask_lines s; qctask := qctask s; jobtype := jobtype s; charge :=
     charge s; spin_multiplicity := spin_multiplicity s; thermal_corr :=
     thermal_corr s; properly_terminated := properly_terminated s;
     pop_method := pop_method s; parse_charge := parse_charge s; charges
     := charges s; scf_successful := scf_successful s; opt_successful :=
     opt_successful s |}.
Definition set_parse_input (x : bool) (s : job_state) : job_state :=
  {| energies := energies s; scf_iters := scf_iters s; coords := coords
     s; species := species s; molecules := molecules s; gradients :=
     gradients s; freqs := freqs s; vib_freqs := vib_freqs s; vib_modes
     := vib_modes s; grad_comp := grad_comp s; errors := errors s;
     parse_input := x; parse_coords := parse_coords s; parse_scf_iter :=
     parse_scf_iter s; parse_gradient := parse_gradient s; parse_freq :=
     parse_freq s; parse_modes := parse_modes s; qctask_lines :=
     qctask_lines s; qctask := qctask s; jobtype := jobtype s; charge :=
     charge s; spin_multiplicity := spin_multiplicity s; thermal_corr :=
     thermal_corr s; properly_terminated := properly_terminated s;
     pop_method := pop_method s; parse_charge := parse_charge s; charges
     := charges s; scf_successful := scf_successful s; opt_successful :=
     opt_successful s |}.
Definition set_parse_coords (x : bool) (s : job_state) : job_state :=
  {| energies := energies s; scf_iters := scf_iters s; coords := coords
     s; species := species s; molecules := molecules s; gradients :=
     gradients s; freqs := freqs s; vib_freqs := vib_freqs s; vib_modes
     := vib_modes s; grad_comp := grad_comp s; errors := errors s;
     parse_input := parse_input s; parse_coords := x; parse_scf_iter :=
     parse_scf_iter s; parse_gradient := parse_gradient s; parse_freq :=
     parse_freq s; parse_modes := parse_modes s; qctask_lines :=
     qctask_lines s; qctask := qctask s; jobtype := jobtype s; charge :=
     charge s; spin_multiplicity := spin_multiplicity s; thermal_corr :=
     thermal_corr s; properly_terminated := properly_terminated s;
     pop_method := pop_method s; parse_charge := parse_charge s; charges
     := charges s; scf_successful := scf_successful s; opt_successful :=
     opt_successful s |}.
Definition set_parse_scf_iter (x : bool) (s : job_state) : job_state :=
  {| energies := energies s; scf_iters := scf_iters s; coords := coords
     s; species := species s; molecules := molecules s; gradients :=
     gradients s; freqs := freqs s; vib_freqs := vib_freqs s; vib_modes
     := vib_modes s; grad_comp := grad_comp s; errors := errors s;
     parse_input := parse_input s; parse_coords := parse_coords s;
     parse_scf_iter := x; parse_gradient := parse_gradient s; parse_freq
     := parse_freq s; parse_modes := parse_modes s; qctask_lines :=
     qctask_lines s; qctask := qctask s; jobtype := jobtype s; charge :=
     charge s; spin_multiplicity := spin_multiplicity s; thermal_corr :=
     thermal_corr s; properly_terminated := properly_terminated s;
     pop_method := pop_method s; parse_charge := parse_charge s; charges
     := charges s; scf_successful := scf_successful s; opt_successful :=
     opt_successful s |}.
Definition set_parse_gradient (x : bool) (s : job_state) : job_state :=
  {| energies := energies s; scf_iters := scf_iters s; coords := coords
     s; species := species s; molecules := molecules s; gradients :=
     gradients s; freqs := freqs s; vib_freqs := vib_freqs s; vib_modes
     := vib_modes s; grad_comp := grad_comp s; errors := errors s;
     parse_input := parse_input s; parse_coords := parse_coords s;
     parse_scf_iter := parse_scf_iter s; parse_gradient := x; parse_freq
     := parse_freq s; parse_modes := parse_modes s; qctask_lines :=
     qctask_lines s; qctask := qctask s; jobtype := jobtype s; charge :=
     charge s; spin_multiplicity := spin_multiplicity s; thermal_corr :=
     thermal_corr s; properly_terminated := properly_terminated s;
     pop_method := pop_method s; parse_charge := parse_charge s; charges
     := charges s; scf_successful := scf_successful s; opt_successful :=
     opt_successful s |}.
Definition set_parse_freq (x : bool) (s : job_state) : job_state :=
  {| energies := energies s; scf_iters := scf_iters s; coords := coords
     s; species := species s; molecules := molecules s; gradients :=
     gradients s; freqs := freqs s; vib_freqs := vib_freqs s; vib_modes
     := vib_modes s; grad_comp := grad_comp s; errors := errors s;
     parse_input := parse_input s; parse_coords := parse_coords s;
     parse_scf_iter := parse_scf_iter s; parse_gradient :=
     parse_gradient s; parse_freq := x; parse_modes := parse_modes s;
     qctask_lines := qctask_lines s; qctask := qctask s; jobtype :=
     jobtype s; charge := charge s; spin_multiplicity :=
     spin_multiplicity s; thermal_corr := thermal_corr s;
     properly_terminated := properly_terminated s; pop_method :=
     pop_method s; parse_charge := parse_charge s; charges := charges s;
     scf_successful := scf_successful s; opt_successful :=
     opt_successful s |}.
Definition set_parse_modes (x : bool) (s : job_state) : job_state :=
  {| energies := energies s; scf_iters := scf_iters s; coords := coords
     s; species := species s; molecules := molecules s; gradients :=
     gradients s; freqs := freqs s; vib_freqs := vib_freqs s; vib_modes
     := vib_modes s; grad_comp := grad_comp s; errors := errors s;
     parse_input := parse_input s; parse_coords := parse_coords s;
     parse_scf_iter := parse_scf_iter s; parse_gradient :=
     parse_gradient s; parse_freq := parse_freq s; parse_modes := x;
     qctask_lines := qctask_lines s; qctask := qctask s; jobtype :=
     jobtype s; charge := charge s; spin_multiplicity :=
     spin_multiplicity s; thermal_corr := thermal_corr s;
     properly_terminated := properly_terminated s; pop_method :=
     pop_method s; parse_charge := parse_charge s; charges := charges s;
     scf_successful := scf_successful s; opt_successful :=
     opt_successful s |}.
Definition set_qctask_lines (x : list string) (s : job_state) : job_state :=
  {| energies := energies s; scf_iters := scf_iters s; coords := coords
     s; species := species s; molecules := molecules s; gradients :=
     gradients s; freqs := freqs s; vib_freqs := vib_freqs s; vib_modes
     := vib_modes s; grad_comp := grad_comp s; errors := errors s;
     parse_input := parse_input s; parse_coords := parse_coords s;
     parse_scf_iter := parse_scf_iter s; parse_gradient :=
     parse_gradient s; parse_freq := parse_freq s; parse_modes :=
     parse_modes s; qctask_lines := x; qctask := qctask s; jobtype :=
     jobtype s; charge := charge s; spin_multiplicity :=
     spin_multiplicity s; thermal_corr := thermal_corr s;
     properly_terminated := properly_terminated s; pop_method :=
     pop_method s; parse_charge := parse_charge s; charges := charges s;
     scf_successful := scf_successful s; opt_successful :=
     opt_successful s |}.
Definition set_qctask (x : option QcTask) (s : job_state) : job_state :=
  {| energies := energies s; scf_iters := scf_iters s; coords := coords
     s; species := species s; molecules := molecules s; gradients :=
     gradients s; freqs := freqs s; vib_freqs := vib_freqs s; vib_modes
     := vib_modes s; grad_comp := grad_comp s; errors := errors s;
     parse_input := parse_input s; parse_coords := parse_coords s;
     parse_scf_iter := parse_scf_iter s; parse_gradient :=
     parse_gradient s; parse_freq := parse_freq s; parse_modes :=
     parse_modes s; qctask_lines := qctask_lines s; qctask := x; jobtype
     := jobtype s; charge := charge s; spin_multiplicity :=
     spin_multiplicity s; thermal_corr := thermal_corr s;
     properly_terminated := properly_terminated s; pop_method :=
     pop_method s; parse_charge := parse_charge s; charges := charges s;
     scf_successful := scf_successful s; opt_successful :=
     opt_successful s |}.
Definition set_jobtype (x : option pyval) (s : job_state) : job_state :=
  {| energies := energies s; scf_iters := scf_iters s; coords := coords
     s; species := species s; molecules := molecules s; gradients :=
     gradients s; freqs := freqs s; vib_freqs := vib_freqs s; vib_modes
     := vib_modes s; grad_comp := grad_comp s; errors := errors s;
     parse_input := parse_input s; parse_coords := parse_coords s;
     parse_scf_iter := parse_scf_iter s; parse_gradient :=
     parse_gradient s; parse_freq := parse_freq s; parse_modes :=
     parse_modes s; qctask_lines := qctask_lines s; qctask := qctask s;
     jobtype := x; charge := charge s; spin_multiplicity :=
     spin_multiplicity s; thermal_corr := thermal_corr s;
     properly_terminated := properly_terminated s; pop_method :=
     pop_method s; parse_charge := parse_charge s; charges := charges s;
     scf_successful := scf_successful s; opt_successful :=
     opt_successful s |}.
Definition set_charge (x : option Z) (s : job_state) : job_state :=
  {| energies := energies s; scf_iters := scf_iters s; coords := coords
     s; species := species s; molecules := molecules s; gradients :=
     gradients s; freqs := freqs s; vib_freqs := vib_freqs s; vib_modes
     := vib_modes s; grad_comp := grad_comp s; errors := errors s;
     parse_input := parse_input s; parse_coords := parse_coords s;
     parse_scf_iter := parse_scf_iter s; parse_gradient :=
     parse_gradient s; parse_freq := parse_freq s; parse_modes :=
     parse_modes s; qctask_lines := qctask_lines s; qctask := qctask s;
     jobtype := jobtype s; charge := x; spin_multiplicity :=
     spin_multiplicity s; thermal_corr := thermal_corr s;
     properly_terminated := properly_terminated s; pop_method :=
     pop_method s; parse_charge := parse_charge s; charges := charges s;
     scf_successful := scf_successful s; opt_successful :=
     opt_successful s |}.
Definition set_spin_multiplicity (x : option Z) (s : job_state) : job_state :=
  {| energies := energies s; scf_iters := scf_iters s; coords := coords
     s; species := species s; molecules := molecules s; gradients :=
     gradients s; freqs := freqs s; vib_freqs := vib_freqs s; vib_modes
     := vib_modes s; grad_comp := grad_comp s; errors := errors s;
     parse_input := parse_input s; parse_coords := parse_coords s;
     parse_scf_iter := parse_scf_iter s; parse_gradient :=
     parse_gradient s; parse_freq := parse_freq s; parse_modes :=
     parse_modes s; qctask_lines := qctask_lines s; qctask := qctask s;
     jobtype := jobtype s; charge := charge s; spin_multiplicity := x;
     thermal_corr := thermal_corr s; properly_terminated :=
     properly_terminated s; pop_method := pop_method s; parse_charge :=
     parse_charge s; charges := charges s; scf_successful :=
     scf_successful s; opt_successful := opt_successful s |}.
Definition set_thermal_corr (x : gmap string float) (s : job_state) : job_state :=
  {| energies := energies s; scf_iters := scf_iters s; coords := coords
     s; species := species s; molecules := molecules s; gradients :=
     gradients s; freqs := freqs s; vib_freqs := vib_freqs s; vib_modes
     := vib_modes s; grad_comp := grad_comp s; errors := errors s;
     parse_input := parse_input s; parse_coords := parse_coords s;
     parse_scf_iter := parse_scf_iter s; parse_gradient :=
     parse_gradient s; parse_freq := parse_freq s; parse_modes :=
     parse_modes s; qctask_lines := qctask_lines s; qctask := qctask s;
     jobtype := jobtype s; charge := charge s; spin_multiplicity :=
     spin_multiplicity s; thermal_corr := x; properly_terminated :=
     properly_terminated s; pop_method := pop_method s; parse_charge :=
     parse_charge s; charges := charges s; scf_successful :=
     scf_successful s; opt_successful := opt_successful s |}.
Definition set_properly_terminated (x : bool) (s : job_state) : job_state :=
  {| energies := energies s; scf_iters := scf_iters s; coords := coords
     s; species := species s; molecules := molecules s; gradients :=
     gradients s; freqs := freqs s; vib_freqs := vib_freqs s; vib_modes
     := vib_modes s; grad_comp := grad_comp s; errors := errors s;
     parse_input := parse_input s; parse_coords := parse_coords s;
     parse_scf_iter := parse_scf_iter s; parse_gradient :=
     parse_gradient s; parse_freq := parse_freq s; parse_modes :=
     parse_modes s; qctask_lines := qctask_lines s; qctask := qctask s;
     jobtype := jobtype s; charge := charge s; spin_multiplicity :=
     spin_multiplicity s; thermal_corr := thermal_corr s;
     properly_terminated := x; pop_method := pop_method s; parse_charge
     := parse_charge s; charges := charges s; scf_successful :=
     scf_successful s; opt_successful := opt_successful s |}.
Definition set_pop_method (x : option string) (s : job_state) : job_state :=
  {| energies := energies s; scf_iters := scf_iters s; coords := coords
     s; species := species s; molecules := molecules s; gradients :=
     gradients s; freqs := freqs s; vib_freqs := vib_freqs s; vib_modes
     := vib_modes s; grad_comp := grad_comp s; errors := errors s;
     parse_input := parse_input s; parse_coords := parse_coords s;
     parse_scf_iter := parse_scf_iter s; parse_gradient :=
     parse_gradient s; parse_freq := parse_freq s; parse_modes :=
     parse_modes s; qctask_lines := qctask_lines s; qctask := qctask s;
     jobtype := jobtype s; charge := charge s; spin_multiplicity :=
     spin_multiplicity s; thermal_corr := thermal_corr s;
     properly_terminated := properly_terminated s; pop_method := x;
     parse_charge := parse_charge s; charges := charges s;
     scf_successful := scf_successful s; opt_successful :=
     opt_successful s |}.
Definition set_parse_charge (x : bool) (s : job_state) : job_state :=
  {| energies := energies s; scf_iters := scf_iters s; coords := coords
     s; species := species s; molecules := molecules s; gradients :=
     gradients s; freqs := freqs s; vib_freqs := vib_freqs s; vib_modes
     := vib_modes s; grad_comp := grad_comp s; errors := errors s;
     parse_input := parse_input s; parse_coords := parse_coords s;
     parse_scf_iter := parse_scf_iter s; parse_gradient :=
     parse_gradient s; parse_freq := parse_freq s; parse_modes :=
     parse_modes s; qctask_lines := qctask_lines s; qctask := qctask s;
     jobtype := jobtype s; charge := charge s; spin_multiplicity :=
     spin_multiplicity s; thermal_corr := thermal_corr s;
     properly_terminated := properly_terminated s; pop_method :=
     pop_method s; parse_charge := x; charges := charges s;
     scf_successful := scf_successful s; opt_successful :=
     opt_successful s |}.
Definition set_charges (x : gmap string (list float)) (s : job_state) : job_state :=
  {| energies := energies s; scf_iters := scf_iters s; coords := coords
     s; species := species s; molecules := molecules s; gradients :=
     gradients s; freqs := freqs s; vib_freqs := vib_freqs s; vib_modes
     := vib_modes s; grad_comp := grad_comp s; errors := errors s;
     parse_input := parse_input s; parse_coords := parse_coords s;
     parse_scf_iter := parse_scf_iter s; parse_gradient :=
     parse_gradient s; parse_freq := parse_freq s; parse_modes :=
     parse_modes s; qctask_lines := qctask_lines s; qctask := qctask s;
     jobtype := jobtype s; charge := charge s; spin_multiplicity :=
     spin_multiplicity s; thermal_corr := thermal_corr s;
     properly_terminated := properly_terminated s; pop_method :=
     pop_method s; parse_charge := parse_charge s; charges := x;
     scf_successful := scf_successful s; opt_successful :=
     opt_successful s |}.
Definition set_scf_successful (x : bool) (s : job_state) : job_state :=
  {| energies := energies s; scf_iters := scf_iters s; coords := coords
     s; species := species s; molecules := molecules s; gradients :=
     gradients s; freqs := freqs s; vib_freqs := vib_freqs s; vib_modes
     := vib_modes s; grad_comp := grad_comp s; errors := errors s;
     parse_input := parse_input s; parse_coords := parse_coords s;
     parse_scf_iter := parse_scf_iter s; parse_gradient :=
     parse_gradient s; parse_freq := parse_freq s; parse_modes :=
     parse_modes s; qctask_lines := qctask_lines s; qctask := qctask s;
     jobtype := jobtype s; charge := charge s; spin_multiplicity :=
     spin_multiplicity s; thermal_corr := thermal_corr s;
     properly_terminated := properly_terminated s; pop_method :=
     pop_method s; parse_charge := parse_charge s; charges := charges s;
     scf_successful := x; opt_successful := opt_successful s |}.
Definition set_opt_successful (x : bool) (s : job_state) : job_state :=
  {| energies := energies s; scf_iters := scf_iters s; coords := coords
     s; species := species s; molecules := molecules s; gradients :=
     gradients s; freqs := freqs s; vib_freqs := vib_freqs s; vib_modes
     := vib_modes s; grad_comp := grad_comp s; errors := errors s;
     parse_input := parse_input s; parse_coords := parse_coords s;
     parse_scf_iter := parse_scf_iter s; parse_gradient :=
     parse_gradient s; parse_freq := parse_freq s; parse_modes :=
     parse_modes s; qctask_lines := qctask_lines s; qctask := qctask s;
     jobtype := jobtype s; charge := charge s; spin_multiplicity :=
     spin_multiplicity s; thermal_corr := thermal_corr s;
     properly_terminated := properly_terminated s; pop_method :=
     pop_method s; parse_charge := parse_charge s; charges := charges s;
     scf_successful := scf_successful s; opt_successful := x |}.

(** *** The patterns compiled at the head of [_parse_job] *)

(** [-\d+\.\d+] and [\-?\d+\.\d+] *)
Definition neg_decimal : regex := seqs [chr "-"; decimal].
Definition opt_neg_decimal : regex := seqs [opt (chr "-"); decimal].

(** [\d+\.\d+E[-+]\d+] *)
Definition sci_decimal : regex := seqs [decimal; chr "E"; sign; plus d].

Definition scf_energy_pattern : regex :=
  seqs [lit "Total energy in the final basis set ="; plus ws;
        Group "energy" neg_decimal].

Definition corr_energy_pattern : regex :=
  seqs [Group "name"
          (plus (Chr (fun a => PyStr.is_upper a || PyStr.is_digit a ||
                               existsb (Ascii.eqb a) (list_ascii_of_string "-()"))));
        plus ws; opt (seqs [one_of "tT"; lit "otal"; plus ws]);
        one_of "eE"; lit "nergy"; plus ws; chr "="; plus ws;
        Group "energy" neg_decimal].

Definition coord_pattern : regex :=
  seqs [Star ws; plus d; plus ws;
        Group "element" (seqs [Chr PyStr.is_upper; Star (Chr PyStr.is_lower)]);
        plus ws; Group "x" opt_neg_decimal;
        plus ws; Group "y" opt_neg_decimal;
        plus ws; Group "z" opt_neg_decimal].

Definition num_ele_pattern : regex :=
  seqs [lit "There are"; plus ws; Group "alpha" (plus d); plus ws;
        lit "alpha and"; plus ws; Group "beta" (plus d); plus ws;
        lit "beta electrons"].

Definition total_charge_pattern : regex :=
  seqs [lit "Sum of atomic charges ="; plus ws; Group "charge" opt_neg_decimal].

Definition scf_iter_pattern : regex :=
  seqs [plus d; plus ws; Group "energy" neg_decimal; plus ws;
        Group "diis_error" sci_decimal].

Definition zpe_pattern : regex :=
  seqs [lit "Zero point vibrational energy:"; plus ws; Group "zpe" decimal;
        plus ws; lit "kcal/mol"].

Definition thermal_corr_pattern : regex :=
  seqs [Group "name" (seqs [nws; Star dot; nws]); chr ":"; plus ws;
        Group "correction" decimal; plus ws; opt (chr "k"); lit "cal/mol"].

Definition detailed_charge_pattern : regex :=
  seqs [lit "Ground-State "; Group "method" (plus (Chr PyStr.is_word));
        lit " Net Atomic Charges"].

(** The signatures of the failures and their labels, in source order. *)
Definition error_defs : list (regex * string) :=
  [(lit "Convergence failure", "Bad SCF convergence");
   (lit "Coordinates do not transform within specified threshold", "autoz error");
   (lit "MAXIMUM OPTIMIZATION CYCLES REACHED", "Geometry optimization failed");
   (seqs [plus ws; one_of "Nn"; one_of "Aa"; one_of "Nn"; plus ws], "NAN values");
   (seqs [lit "energy"; plus ws; chr "="; Star ws; plus (chr "*")], "Numerical disaster");
   (seqs [lit "NewFileMan::OpenFile():"; plus ws; lit "nopenfiles="; plus d;
          plus ws; lit "maxopenfiles="; plus d; plus (chr "s"); lit "errno=";
          plus d], "Open file error");
   (seqs [lit "Application "; plus d; lit " exit codes: 1"; one_of "34"; plus d],
    "Exit Code 134");
   (seqs [lit "Negative overlap matrix eigenvalue"; dot;
          lit " Tighten integral threshold (REM_THRESH)!"], "Negative Eigen");
   (lit "Unable to allocate requested memory in mega_alloc",
    "Insufficient static memory");
   (seqs [lit "Application "; plus d; lit " exit signals: Killed"], "Killed")].

Definition found (r : regex) (s : string) : bool :=
  bool_decide (is_Some (search r s)).

(** The labels of the signatures found in a line, in source order. *)
Definition error_labels (line : string) : list string :=
  (filter (fun ep => found (fst ep) line) error_defs).*2.

(** [QcOutput._expected_successful_pattern] *)
Definition _expected_successful_pattern (qctask : option QcTask)
    : result (list regex) :=
  t ← of_option qctask (AttributeError "'NoneType' object has no attribute 'params'");
  rem ← get_rem (params t);
  let text := [lit "Convergence criterion met"] in
  text ← match rem !! "correlation" with
         | None => Ok text
         | Some (VStr c) =>
             if PyStr.contains "ccsd" c || PyStr.contains "qcisd" c
             then Ok (text ++ [seqs [lit "CC"; Star dot; lit "converged"]])
             else Ok text
         | Some _ => Raise (TypeError "argument is not iterable")
         end;
  jt ← of_option (rem !! "jobtype") (KeyError "jobtype");
  let is_jt (s : string) :=
    match jt with VStr j => String.eqb j s | _ => false end in
  let text := if is_jt "opt" || is_jt "ts"
              then (text ++ [lit "OPTIMIZATION CONVERGED"]) else text in
  let text := if is_jt "freq"
              then (text ++ [lit "VIBRATIONAL ANALYSIS"]) else text in
  let text := if is_jt "gradient"
              then (text ++ [lit "Gradient of SCF Energy"]) else text in
  Ok text.

(** *** One line of the log *)

Definition dashes (n : nat) : string := PyStr.repeat_char "-" n.

(** [l[-1] = f(l[-1])], an [IndexError] on the empty list *)
Definition update_last {A} (f : A -> A) (l : list A) : result (list A) :=
  match reverse l with
  | [] => Raise (IndexError "list index out of range")
  | x :: r => Ok (reverse (f x :: r))
  end.

(** [zip] over the unpacked [rows]: the columns of [rows], as long as the shortest row. *)
Fixpoint zip_rows {A} (fuel : nat) (rows : list (list A)) : list (list A) :=
  match fuel, rows with
  | S n, _ :: _ =>
      match mapM head rows with
      | Some column => column :: zip_rows n (tail <$> rows)
      | None => []
      end
  | _, _ => []
  end.
Definition zip_star {A} (rows : list (list A)) : list (list A) :=
  zip_rows (List.length (default [] (head rows))) rows.

(** [zip(it, it, it)] on one iterator: consecutive triples. *)
Fixpoint triples {A} (l : list A) : list (A * A * A) :=
  match l with
  | a :: b :: c :: rest => (a, b, c) :: triples rest
  | _ => []
  end.

(** [[float(x) for x in line.strip().split()[1:]]] *)
Definition floats_after_first (line : string) : result (list float) :=
  mapM py_float (tail (PyStr.words (PyStr.strip line))).

(** [float(line.split("=")[1])] *)
Definition float_after_equals (line : string) : result float :=
  x ← of_option (nth_error (PyStr.split_on "=" line) 1)
                (IndexError "list index out of range");
  py_float x.

(** The echoed input block. *)
Definition step_input (line : string) (s : job_state) : result job_state :=
  if PyStr.contains (dashes 50) line then
    if Nat.eqb (List.length (qctask_lines s)) 0 then Ok s
    else
      t ← from_string (PyStr.join newline (qctask_lines s));
      rem ← get_rem (params t);
      jt ← of_option (rem !! "jobtype") (KeyError "jobtype");
      Ok (set_parse_input false (set_jobtype (Some jt) (set_qctask (Some t) s)))
  else Ok (set_qctask_lines (qctask_lines s ++ [line]) s).

(** The standard nuclear orientation. *)
Definition step_coords (line : string) (s : job_state) : result job_state :=
  if PyStr.contains (dashes 50) line then
    if Nat.eqb (List.length (coords s)) 0 then Ok s
    else
      m ← new_molecule (species s) (coords s);
      Ok (set_parse_coords false
            (set_species [] (set_coords [] (set_molecules (molecules s ++ [m]) s))))
  else if PyStr.contains "Atom" line then Ok s
  else
    match match_ coord_pattern line with
    | None => Raise (AttributeError "'NoneType' object has no attribute 'group'")
    | Some m =>
        x ← py_float (group "x" m);
        y ← py_float (group "y" m);
        z ← py_float (group "z" m);
        Ok (set_species (species s ++ [group "element" m])
              (set_coords (coords s ++ [(x, y, z)]) s))
    end.

(** The table of SCF iterations. *)
Definition step_scf_iter (line : string) (s : job_state) : result job_state :=
  if PyStr.contains "SCF time:  CPU" line then Ok (set_parse_scf_iter false s)
  else
    let s := if PyStr.contains "Convergence criterion met" line
             then set_scf_successful true s else s in
    match search scf_iter_pattern line with
    | Some m =>
        match reverse (scf_iters s) with
        | [] => Raise (IndexError "list index out of range")
        | it :: r =>
            energy ← py_float (group "energy" m);
            diis_error ← py_float (group "diis_error" m);
            Ok (set_scf_iters (reverse ((it ++ [(energy, diis_error)]) :: r)) s)
        end
    | None => Ok s
    end.

(** [if grad_comp: ...]: a complete block of three rows is transposed
    into the current gradient, any other non-empty block is an error. *)
Definition flush_grad_comp (s : job_state) : result job_state :=
  match grad_comp s with
  | Some ((_ :: _) as g) =>
      if Nat.eqb (List.length g) 3 then
        gs ← update_last
               (fun gr => {| g_gradients := g_gradients gr ++ zip_star g;
                             max_gradient := max_gradient gr;
                             rms_gradient := rms_gradient gr |})
               (gradients s);
        Ok (set_gradients gs s)
      else Raise (Exception "Gradient section parsing failed")
  | _ => Ok s
  end.

(** The repair of a crowded line: the columns start every 12 characters
    from offset 5. *)
Fixpoint column_starts (fuel i len : nat) : list nat :=
  match fuel with
  | O => []
  | S n => if (i <? len)%nat then i :: column_starts n (i + 12) len else []
  end.

Definition repair_column (acc : list ascii * bool) (i : nat) : list ascii * bool :=
  let '(grad_line_token, grad_crowd) := acc in
  match grad_line_token !! i with
  | Some c =>
      if negb (PyStr.is_space c) then
        let next := PyStr.slice (i + 1) (i + 6 + 1) grad_line_token in
        if existsb (Ascii.eqb " ") next || (List.length next <? 6)%nat
        then (grad_line_token, true)
        else (<[(i - 1)%nat := " "%char]> grad_line_token, true)
      else acc
  | None => acc
  end.

Definition repair_gradient_line (line : string) : string :=
  let grad_line_token := list_ascii_of_string line in
  let '(tokens, grad_crowd) :=
    foldl repair_column (grad_line_token, false)
          (column_starts (String.length line) 5 (String.length line)) in
  if grad_crowd then string_of_list_ascii tokens else line.

(** The gradient block. *)
Definition step_gradient (line : string) (s : job_state) : result job_state :=
  if PyStr.contains "Max gradient component" line then
    x ← float_after_equals line;
    gs ← update_last
           (fun gr => {| g_gradients := g_gradients gr; max_gradient := Some x;
                         rms_gradient := rms_gradient gr |})
           (gradients s);
    flush_grad_comp (set_gradients gs s)
  else if PyStr.contains "RMS gradient" line then
    x ← float_after_equals line;
    gs ← update_last
           (fun gr => {| g_gradients := g_gradients gr;
                         max_gradient := max_gradient gr;
                         rms_gradient := Some x |})
           (gradients s);
    Ok (set_grad_comp None (set_parse_gradient false (set_gradients gs s)))
  else if negb (PyStr.contains "." line) then
    s ← flush_grad_comp s;
    Ok (set_grad_comp (Some []) s)
  else
    match grad_comp s with
    | None => Raise (AttributeError "'NoneType' object has no attribute 'append'")
    | Some g =>
        row ← floats_after_first (repair_gradient_line line);
        Ok (set_grad_comp (Some (g ++ [row])) s)
    end.

(** The vibrational analysis. *)
Definition step_freq_tail (line : string) (s : job_state) : result job_state :=
  if PyStr.contains "STANDARD THERMODYNAMIC QUANTITIES" line
     || PyStr.contains "Imaginary Frequencies" line
  then Ok (set_parse_freq false s)
  else if PyStr.contains "Frequency:" line then
    vs ← floats_after_first (PyStr.strip line);
    Ok (set_vib_freqs vs s)
  else if PyStr.contains "X      Y      Z" line then Ok (set_parse_modes true s)
  else Ok s.

Definition step_freq (line : string) (s : job_state) : result job_state :=
  if parse_modes s then
    if PyStr.contains "TransDip" line then
      let new :=
        (fun fm => {| f_frequency := fst fm; vib_mode := snd fm |})
          <$> zip (vib_freqs s) (zip_star (vib_modes s)) in
      Ok (set_freqs (freqs s ++ new) (set_parse_modes false s))
    else
      dis_flat ← floats_after_first line;
      let dis_atom := triples dis_flat in
      step_freq_tail line (set_vib_modes (vib_modes s ++ [dis_atom]) s)
  else step_freq_tail line s.

(** The net atomic charges of a population analysis. *)
Definition lookup_charges (s : job_state) : result (string * list float) :=
  match pop_method s with
  | Some method =>
      cs ← of_option (charges s !! method) (KeyError method);
      Ok (method, cs)
  | None => Raise (KeyError "None")
  end.

Definition step_charge (line : string) (s : job_state) : result job_state :=
  if PyStr.contains (dashes 20) line then
    mc ← lookup_charges s;
    if Nat.eqb (List.length (snd mc)) 0 then Ok s
    else Ok (set_parse_charge false (set_pop_method None s))
  else if Nat.eqb (String.length (PyStr.strip line)) 0 || PyStr.contains "Atom" line
  then Ok s
  else
    mc ← lookup_charges s;
    tok ← of_option (nth_error (PyStr.words line) 2)
                    (IndexError "list index out of range");
    x ← py_float tok;
    Ok (set_charges (<[fst mc := snd mc ++ [x]]> (charges s)) s).

Definition is_str (v : option pyval) (x : string) : bool :=
  match v with
  | Some (VStr s) => String.eqb s x
  | _ => false
  end.

(** Outside every block.  Lines 1260-1264: the spin multiplicity. *)
Definition idle_spin (line : string) (s : job_state) : result job_state :=
  match spin_multiplicity s, search num_ele_pattern line with
  | None, Some m =>
      alpha ← py_int (group "alpha" m);
      beta ← py_int (group "beta" m);
      Ok (set_spin_multiplicity (Some (alpha - beta + 1)) s)
  | _, _ => Ok s
  end.

(** Lines 1265-1268: the charge. *)
Definition idle_charge (line : string) (s : job_state) : result job_state :=
  match charge s, search total_charge_pattern line with
  | None, Some m =>
      x ← py_float (group "charge" m);
      c ← of_option (int_of_float x)
                    (OverflowError "cannot convert float infinity to integer");
      Ok (set_charge (Some c) s)
  | _, _ => Ok s
  end.

(** Lines 1269-1277: the thermal corrections of a frequency job. *)
Definition idle_thermal (line : string) (s : job_state) : result job_state :=
  if is_str (jobtype s) "freq" then
    s ← match search zpe_pattern line with
        | Some m =>
            zpe ← py_float (group "zpe" m);
            Ok (set_thermal_corr (<["ZPE" := zpe]> (thermal_corr s)) s)
        | None => Ok s
        end;
    match search thermal_corr_pattern line with
    | Some m =>
        x ← py_float (group "correction" m);
        Ok (set_thermal_corr (<[group "name" m := x]> (thermal_corr s)) s)
    | None => Ok s
    end
  else Ok s.

(** Lines 1278-1287: the name and the value of an energy. *)
Definition idle_energy (line : string) : result (option (string * float)) :=
  ne ← match search scf_energy_pattern line with
       | Some m =>
           x ← py_float (group "energy" m);
           Ok (Some ("SCF", hartree_to_eV x))
       | None => Ok None
       end;
  match search corr_energy_pattern line with
  | Some m =>
      if negb (String.eqb (group "name" m) "SCF") then
        x ← py_float (group "energy" m);
        Ok (Some (group "name" m, hartree_to_eV x))
      else Ok ne
  | None => Ok ne
  end.

(** Lines 1288-1292: the head of a population analysis. *)
Definition idle_population (line : string) (s : job_state) : job_state :=
  match search detailed_charge_pattern line with
  | Some m =>
      let method := PyStr.lower (group "method" m) in
      set_charges (<[method := []]> (charges s))
        (set_parse_charge true (set_pop_method (Some method) s))
  | None => s
  end.

(** Lines 1293-1294: [if name and energy]. *)
Definition idle_append_energy (ne : option (string * float)) (s : job_state)
    : job_state :=
  match ne with
  | Some (name, energy) =>
      if negb (String.eqb name "") && float_truth energy
      then set_energies (energies s ++ [(name, energy)]) s
      else s
  | None => s
  end.

(** Lines 1260-1294, the scalar quantities. *)
Definition step_idle_values (line : string) (s : job_state) : result job_state :=
  s ← idle_spin line s;
  s ← idle_charge line s;
  s ← idle_thermal line s;
  ne ← idle_energy line;
  Ok (idle_append_energy ne (idle_population line s)).

(** Outside every block: lines 1295-1312, the sentinels. *)
Definition step_idle_sentinels (line : string) (s : job_state) : job_state :=
  if PyStr.contains "User input:" line then set_parse_input true s
  else if PyStr.contains "Standard Nuclear Orientation (Angstroms)" line
  then set_parse_coords true s
  else if PyStr.contains "Cycle       Energy         DIIS Error" line
          || PyStr.contains "Cycle       Energy        RMS Gradient" line
  then set_scf_successful false
         (set_scf_iters (scf_iters s ++ [[]]) (set_parse_scf_iter true s))
  else if PyStr.contains "Gradient of SCF Energy" line
  then set_gradients
         (gradients s ++ [{| g_gradients := []; max_gradient := None;
                             rms_gradient := None |}])
         (set_parse_gradient true s)
  else if PyStr.contains "VIBRATIONAL ANALYSIS" line then set_parse_freq true s
  else if PyStr.contains "Thank you very much for using Q-Chem." line
  then set_properly_terminated true s
  else if PyStr.contains "OPTIMIZATION CONVERGED" line then set_opt_successful true s
  else s.

Definition step_idle (line : string) (s : job_state) : result job_state :=
  s ← step_idle_values line s;
  Ok (step_idle_sentinels line s).

(** Lines 1147-1149: the scan for the failure signatures. *)
Definition scan_errors (line : string) (s : job_state) : job_state :=
  set_errors (errors s ++ error_labels line) s.

(** Lines 1150-1312: the block that owns the line. *)
Definition dispatch (line : string) (s : job_state) : result job_state :=
  if parse_input s then step_input line s
  else if parse_coords s then step_coords line s
  else if parse_scf_iter s then step_scf_iter line s
  else if parse_gradient s then step_gradient line s
  else if parse_freq s then step_freq line s
  else if parse_charge s then step_charge line s
  else step_idle line s.

(** The body of the loop over the lines. *)
Definition step (s : job_state) (line : string) : result job_state :=
  dispatch line (scan_errors line s).

(** *** The whole chunk *)

Definition init_state : job_state := {|
  energies := []; scf_iters := []; coords := []; species := [];
  molecules := []; gradients := []; freqs := []; vib_freqs := [];
  vib_modes := []; grad_comp := None; errors := [];
  parse_input := false; parse_coords := false; parse_scf_iter := false;
  parse_gradient := false; parse_freq := false; parse_modes := false;
  qctask_lines := []; qctask := None; jobtype := None; charge := None;
  spin_multiplicity := None; thermal_corr := ∅;
  properly_terminated := false; pop_method := None; parse_charge := false;
  charges := ∅; scf_successful := false; opt_successful := false
|}.

(** The dictionary returned by [_parse_job]. *)
Record job_data : Type := {
  r_jobtype : option pyval;
  r_energies : list (string * float);
  r_charges : gmap string (list float);
  r_corrections : gmap string float;
  r_molecules : list Molecule;
  r_errors : list string;
  r_has_error : bool;
  r_frequencies : list frequency;
  r_gradients : list gradient;
  r_input : option QcTask;
  r_gracefully_terminated : bool;
  r_scf_iteration_energies : list (list (float * float));
  r_solvent_method : pyval
}.

(** Lines 1313-1319: the charge and the spin multiplicity. *)
Definition post_charge_spin (s : job_state) : result job_state :=
  match charge s, spin_multiplicity s with
  | None, _ => Ok (set_errors (errors s ++ ["Molecular charge is not found"]) s)
  | Some _, None =>
      Ok (set_errors (errors s ++ ["Molecular spin multipilicity is not found"]) s)
  | Some c, Some m =>
      mols ← mapM (fun mol => set_charge_and_spin mol c m) (molecules s);
      Ok (set_molecules mols s)
  end.

(** Lines 1320-1326: the unit of the thermal corrections. *)
Definition convert_thermal_corr (tc : gmap string float) : gmap string float :=
  map_imap (fun k v =>
              Some (if PyStr.contains "Entropy" k
                    then float_mul v (float_mul kcal_per_mol_2_eV milli)
                    else float_mul v kcal_per_mol_2_eV))
           tc.

(** Lines 1328-1333: the solvent method and the missing input. *)
Definition post_input (s : job_state) : result (pyval * job_state) :=
  match qctask s with
  | Some t =>
      rem ← get_rem (params t);
      Ok (default (VStr "NA") (rem !! "solvent_method"), s)
  | None => Ok (VStr "NA", set_errors (errors s ++ ["No input text"]) s)
  end.

Definition append_once (label : string) (errors : list string) : list string :=
  if mem label errors then errors else errors ++ [label].

(** Lines 1335-1342. *)
Definition post_convergence (s : job_state) : job_state :=
  let s := if negb (scf_successful s)
           then set_errors (append_once "Bad SCF convergence" (errors s)) s
           else s in
  if is_str (jobtype s) "opt" && negb (opt_successful s)
  then set_errors (append_once "Geometry optimization failed" (errors s)) s
  else s.

(** Lines 1344-1348: the texts that indicate success. *)
Definition post_success (output : string) (s : job_state) : result job_state :=
  if Nat.eqb (List.length (errors s)) 0 then
    texts ← _expected_successful_pattern (qctask s);
    let missing := filter (fun text => negb (found text output)) texts in
    Ok (set_errors (errors s ++ ((fun _ => "Can't find text to indicate success") <$> missing)) s)
  else Ok s.

Definition make_data (solvent_method : pyval) (s : job_state) : job_data := {|
  r_jobtype := jobtype s;
  r_energies := energies s;
  r_charges := charges s;
  r_corrections := thermal_corr s;
  r_molecules := molecules s;
  r_errors := errors s;
  r_has_error := (0 <? List.length (errors s))%nat;
  r_frequencies := freqs s;
  r_gradients := gradients s;
  r_input := qctask s;
  r_gracefully_terminated := properly_terminated s;
  r_scf_iteration_energies := scf_iters s;
  r_solvent_method := solvent_method
|}.

Definition post (output : string) (s : job_state) : result job_data :=
  s ← post_charge_spin s;
  let s := set_thermal_corr (convert_thermal_corr (thermal_corr s)) s in
  x ← post_input s;
  let s := post_convergence (snd x) in
  s ← post_success output s;
  Ok (make_data (fst x) s).

Definition _parse_job (output : string) : result job_data :=
  s ← foldM step (PyStr.split_on "010" output) init_state;
  post output s.

(** *** [QcOutput.__init__], from the text of the file on *)

(** ["\n\nRunning Job \d+ of \d+ \S+"] *)
Definition job_header : regex :=
  seqs [chr "010"; chr "010"; lit "Running Job "; plus d; lit " of "; plus d;
        chr " "; plus nws].

Fixpoint drop (n : nat) (s : string) : string :=
  match n, s with
  | S n', String _ s' => drop n' s'
  | _, _ => s
  end.

(** [re.split(r, s)] for a pattern without groups that matches no empty
    text; [cur] is the piece being read. *)
Fixpoint split_re (fuel : nat) (r : regex) (s cur : string) : list string :=
  match fuel with
  | O => [cur +:+ s]
  | S n =>
      match match_ (Group "0" r) s, s with
      | Some c, String _ _ =>
          cur :: split_re n r (drop (String.length (group "0" c)) s) EmptyString
      | _, String a s' => split_re n r s' (cur +:+ String a EmptyString)
      | _, EmptyString => [cur]
      end
  end.

Definition QcOutput_init (data : string) : result (list job_data) :=
  let chunks := split_re (S (String.length data)) job_header data EmptyString in
  mapM _parse_job chunks.

(** *** Notions used in the statements *)

(** The total charge that a line reports, if it reports one, converts to
    an integer. *)
Definition charge_converts (line : string) : bool :=
  match search total_charge_pattern line with
  | Some m => bool_decide (is_Some (float_of_str (group "charge" m) ≫= int_of_float))
  | None => true
  end.

(** [float()] converts the decimal literals that the patterns extract. *)
Definition float_converts_decimals : Prop :=
  forall w, matches opt_neg_decimal w \/ matches sci_decimal w ->
            is_Some (float_of_str w).

(** The labels of the signatures found in the lines of a text, in order. *)
Definition scanned_labels (output : string) : list string :=
  concat (error_labels <$> PyStr.split_on "010" output).

(** What a step keeps when its line holds neither marker: an unknown charge
    stays unknown, an unconverged SCF stays unconverged. *)
Definition keeps_missing (s s' : job_state) : Prop :=
  (charge s = None -> charge s' = None) /\
  (scf_successful s = false -> scf_successful s' = false).

(** *** The marker of every part of the record *)

(** The texts that open a block or set a flag. *)
Definition input_marker : string := "User input:".
Definition coords_marker : string := "Standard Nuclear Orientation (Angstroms)".
Definition scf_marker_diis : string := "Cycle       Energy         DIIS Error".
Definition scf_marker_gdm : string := "Cycle       Energy        RMS Gradient".
Definition gradient_marker : string := "Gradient of SCF Energy".
Definition freq_marker : string := "VIBRATIONAL ANALYSIS".
Definition end_marker : string := "Thank you very much for using Q-Chem.".
Definition opt_marker : string := "OPTIMIZATION CONVERGED".
Definition charge_marker : string := "Sum of atomic charges".
Definition scf_success_marker : string := "Convergence criterion met".

(** The parts of the state before their marker has been read. *)
Definition no_input (s : job_state) : Prop :=
  parse_input s = false /\ qctask s = None /\ jobtype s = None.
Definition no_coords (s : job_state) : Prop :=
  parse_coords s = false /\ molecules s = [].
Definition no_scf (s : job_state) : Prop :=
  parse_scf_iter s = false /\ scf_iters s = [].
Definition no_gradient (s : job_state) : Prop :=
  parse_gradient s = false /\ gradients s = [].
Definition no_freq (s : job_state) : Prop :=
  parse_freq s = false /\ freqs s = [].

(** A step on a line that lacks a marker leaves the part of that marker
    as it was before the marker. *)
Definition keeps_unmarked (line : string) (s s' : job_state) : Prop :=
  (PyStr.contains input_marker line = false -> no_input s -> no_input s') /\
  (PyStr.contains coords_marker line = false -> no_coords s -> no_coords s') /\
  (PyStr.contains scf_marker_diis line = false ->
   PyStr.contains scf_marker_gdm line = false -> no_scf s -> no_scf s') /\
  (PyStr.contains gradient_marker line = false -> no_gradient s -> no_gradient s') /\
  (PyStr.contains freq_marker line = false -> no_freq s -> no_freq s') /\
  (PyStr.contains end_marker line = false ->
   properly_terminated s = false -> properly_terminated s' = false) /\
  (PyStr.contains opt_marker line = false ->
   opt_successful s = false -> opt_successful s' = false) /\
  (PyStr.contains charge_marker line = false -> charge s = None -> charge s' = None) /\
  (PyStr.contains scf_success_marker line = false ->
   scf_successful s = false -> scf_successful s' = false).

(** The lines of a text. *)
Definition log_lines (output : string) : list string := PyStr.split_on "010" output.

(** The fields that the passes after the loop only read. *)
Definition same_parts (s s' : job_state) : Prop :=
  qctask s' = qctask s /\ jobtype s' = jobtype s /\
  List.length (molecules s') = List.length (molecules s) /\
  scf_iters s' = scf_iters s /\ gradients s' = gradients s /\
  freqs s' = freqs s /\ properly_terminated s' = properly_terminated s /\
  energies s' = energies s /\ charges s' = charges s.

(** *** Lines that the block that owns them can read *)

(** Every token converts with [float()]. *)
Definition numbers (tokens : list string) : bool :=
  forallb (fun w => bool_decide (is_Some (float_of_str w))) tokens.

(** The token of index [i] is there and converts with [float()]. *)
Definition number_at (i : nat) (tokens : list string) : bool :=
  match nth_error tokens i with
  | Some w => bool_decide (is_Some (float_of_str w))
  | None => false
  end.

(** A line of the vibrational analysis outside the table of a mode: the
    frequencies after ["Frequency:"] are numbers. *)
Definition readable_freq_tail (line : string) : bool :=
  if PyStr.contains "STANDARD THERMODYNAMIC QUANTITIES" line
     || PyStr.contains "Imaginary Frequencies" line
  then true
  else if PyStr.contains "Frequency:" line
  then numbers (tail (PyStr.words (PyStr.strip (PyStr.strip line))))
  else true.

(** What the block that owns a line needs in order to read it.  The
    echoed input: at the closing rule, the lines read are the text of a
    job.  The coordinates: a rule (the atoms read make a molecule), a
    head with ["Atom"], or a line of the coordinate pattern.  The table
    of the SCF iterations: nothing.  The gradient: a number after the
    equals sign of the two summary lines, numbers after the first token
    of a row of components, and a row only after a line of column
    numbers.  The vibrational analysis: numbers after the first token.
    The population analysis: a number as third token.  Outside the
    blocks: a total charge that converts to an integer. *)
Definition readable (s : job_state) (line : string) : bool :=
  if parse_input s then
    negb (PyStr.contains (dashes 50) line)
    || Nat.eqb (List.length (qctask_lines s)) 0
    || is_ok (from_string (PyStr.join newline (qctask_lines s)))
  else if parse_coords s then
    if PyStr.contains (dashes 50) line then
      Nat.eqb (List.length (coords s)) 0
      || is_ok (new_molecule (species s) (coords s))
    else PyStr.contains "Atom" line
         || bool_decide (is_Some (match_ coord_pattern line))
  else if parse_scf_iter s then true
  else if parse_gradient s then
    if PyStr.contains "Max gradient component" line
       || PyStr.contains "RMS gradient" line
    then number_at 1 (PyStr.split_on "=" line)
    else if negb (PyStr.contains "." line) then true
    else bool_decide (is_Some (grad_comp s))
         && numbers (tail (PyStr.words (PyStr.strip (repair_gradient_line line))))
  else if parse_freq s then
    if parse_modes s then
      if PyStr.contains "TransDip" line then true
      else numbers (tail (PyStr.words (PyStr.strip line)))
           && readable_freq_tail line
    else readable_freq_tail line
  else if parse_charge s then
    if PyStr.contains (dashes 20) line then true
    else if Nat.eqb (String.length (PyStr.strip line)) 0
            || PyStr.contains "Atom" line
    then true
    else number_at 2 (PyStr.words line)
  else charge_converts line.

(** The states of the parser: the block that owns the next line. *)
Inductive block : Type :=
  | EchoInput | Coordinates | SCFIteration | Gradient | Frequencies
  | PopulationCharges | Idle.

Definition owner (s : job_state) : block :=
  if parse_input s then EchoInput
  else if parse_coords s then Coordinates
  else if parse_scf_iter s then SCFIteration
  else if parse_gradient s then Gradient
  else if parse_freq s then Frequencies
  else if parse_charge s then PopulationCharges
  else Idle.

(** The state of the blocks between two lines, as the loop keeps it: an
    open table of SCF iterations has its list, an open gradient block its
    gradient, an open population analysis its method and its list. *)
Definition block_ready (s : job_state) : Prop :=
  (parse_scf_iter s = true -> scf_iters s <> []) /\
  (parse_gradient s = true -> gradients s <> []) /\
  (parse_charge s = true ->
   exists method, pop_method s = Some method /\ is_Some (charges s !! method)).

(** The gradient block owns the next line and holds rows of components
    that are not a group of three: one, two or more than three. *)
Definition pending_rows (s : job_state) : Prop :=
  owner s = Gradient /\
  exists g, grad_comp s = Some g /\ g <> [] /\ List.length g <> 3%nat.

(** A line that ends a group of rows of the gradient block: the line of
    the largest component, or a line without a point. *)
Definition ends_rows (line : string) : bool :=
  PyStr.contains "Max gradient component" line
  || negb (PyStr.contains "RMS gradient" line) && negb (PyStr.contains "." line).

(** The molecules of the chunk take the charge and the spin multiplicity
    that the chunk reports ([Molecule.set_charge_and_spin]). *)
Definition molecules_accept (s : job_state) : bool :=
  match charge s, spin_multiplicity s with
  | Some c, Some m =>
      forallb (fun mol => is_ok (set_charge_and_spin mol c m)) (molecules s)
  | _, _ => true
  end.

(** Every line of the chunk can be read by the block that owns it when
    the loop comes to it. *)
Definition well_read (lines : list string) : Prop :=
  forall l1 line l2 s,
    lines = l1 ++ line :: l2 -> foldM step l1 init_state = Ok s ->
    readable s line = true.

(** The same, by running the loop. *)
Fixpoint read_check (s : job_state) (lines : list string) : bool :=
  match lines with
  | [] => true
  | line :: rest =>
      readable s line &&
      match step s line with
      | Ok s' => read_check s' rest
      | Raise _ => true
      end
  end.

(** A chunk with a gradient block that holds an incomplete group of rows
    when the line that ends the group comes. *)
Definition incomplete_rows (lines : list string) : Prop :=
  exists l1 line l2 s,
    lines = l1 ++ line :: l2 /\ foldM step l1 init_state = Ok s /\
    pending_rows s /\ ends_rows line = true.

(** What the passes after the loop read in the task of the echoed input:
    the job type, and a correlation that is a text if it is there. *)
Definition task_read (t : QcTask) : Prop :=
  exists rem, get_rem (params t) = Ok rem /\ is_Some (rem !! "jobtype") /\
              match rem !! "correlation" with
              | None | Some (VStr _) => True
              | Some _ => False
              end.

(** The task of the state, if there is one, can be read by the passes
    after the loop. *)
Definition task_ready (s : job_state) : Prop :=
  forall t, qctask s = Some t -> task_read t.

End Parser.
End QcOutput.

(** ** A concrete instance

    Exact decimal arithmetic in place of binary floating point (rounding is
    not modelled) and a geometry builder for Cartesian lines of the first
    eighteen elements.  The instance runs the model on concrete inputs. *)

Module Sample.
Import Re.

(** Brzozowski derivatives, to recognise the literals of [float()]. *)
Definition void : regex := Chr (fun _ => false).

Fixpoint nullable (r : regex) : bool :=
  match r with
  | Eps | Eos | Star _ => true
  | Chr _ => false
  | Seq r1 r2 => nullable r1 && nullable r2
  | Alt r1 r2 => nullable r1 || nullable r2
  | Group _ r1 => nullable r1
  end.

Fixpoint deriv (a : ascii) (r : regex) : regex :=
  match r with
  | Eps | Eos => void
  | Chr p => if p a then Eps else void
  | Seq r1 r2 =>
      if nullable r1 then Alt (Seq (deriv a r1) r2) (deriv a r2)
      else Seq (deriv a r1) r2
  | Alt r1 r2 => Alt (deriv a r1) (deriv a r2)
  | Star r1 => Seq (deriv a r1) (Star r1)
  | Group _ r1 => deriv a r1
  end.

Fixpoint accepts (r : regex) (s : string) : bool :=
  match s with
  | EmptyString => nullable r
  | String a s' => accepts (deriv a r) s'
  end.

(** The decimal literals that [float()] accepts, blanks around them
    included (infinities and NaN are left out of the sample). *)
Definition float_syntax : regex :=
  seqs [Star ws; opt sign;
        Alt (seqs [plus d; opt (seqs [chr "."; Star d])]) (seqs [chr "."; plus d]);
        opt (seqs [one_of "eE"; opt sign; plus d]); Star ws].

(** A decimal number [m * 10^e]. *)
Definition dec : Type := (Z * Z)%type.

Fixpoint span (p : ascii -> bool) (s : string) : string * string :=
  match s with
  | String a s' =>
      if p a then let '(x, y) := span p s' in (String a x, y)
      else (EmptyString, s)
  | EmptyString => (EmptyString, EmptyString)
  end.

Definition signed (s : string) : Z * string :=
  match s with
  | String "-" s' => (-1, s')
  | String "+" s' => (1, s')
  | _ => (1, s)
  end.

(** The value of a literal that [float_syntax] accepts. *)
Definition dec_value (s : string) : dec :=
  let '(sg, s1) := signed (PyStr.strip s) in
  let '(ip, s2) := span PyStr.is_digit s1 in
  let '(fp, s3) :=
    match s2 with
    | String "." s' => span PyStr.is_digit s'
    | _ => (EmptyString, s2)
    end in
  let ex :=
    match s3 with
    | String _ s' =>
        let '(sg', s4) := signed s' in
        sg' * PyStr.digits_value 0 (fst (span PyStr.is_digit s4))
    | EmptyString => 0
    end in
  (sg * PyStr.digits_value 0 (ip +:+ fp), ex - Z.of_nat (String.length fp)).

Definition dec_of_str (s : string) : option dec :=
  if accepts float_syntax s then Some (dec_value s) else None.

Definition dec_mul (x y : dec) : dec := (fst x * fst y, snd x + snd y).

(** Truncation towards zero. *)
Definition dec_to_int (x : dec) : option Z :=
  let '(m, e) := x in
  Some (if 0 <=? e then m * 10 ^ e else Z.quot m (10 ^ (- e))).

Fixpoint rstrip_zeros (s : string) : string :=
  match s with
  | EmptyString => EmptyString
  | String a s' =>
      match rstrip_zeros s' with
      | EmptyString => if Ascii.eqb a "0" then EmptyString else String a EmptyString
      | r => String a r
      end
  end.

(** [places] digits after the point, the rest cut off. *)
Definition dec_fixed (places : nat) (x : dec) : string :=
  let '(m, e) := x in
  let p := Z.of_nat places in
  let scaled := if 0 <=? e + p then Z.abs m * 10 ^ (e + p)
                else Z.abs m / 10 ^ (- (e + p)) in
  let ip := PyStr.of_int (scaled / 10 ^ p) in
  let fp := PyStr.of_int (scaled mod 10 ^ p) in
  (if m <? 0 then "-" else "") +:+ ip +:+ "." +:+
  PyStr.repeat_char "0" (places - String.length fp) +:+ fp.

Definition dec_str (x : dec) : string :=
  let s := dec_fixed (Z.to_nat (Z.max 1 (- snd x))) x in
  match rstrip_zeros s with
  | EmptyString => "0.0"
  | r => if PyStr.startswith (String.string_of_list_ascii
                                (rev (String.list_ascii_of_string r))) "."
         then r +:+ "0" else r
  end.

Definition sample_float : PyFloat := {|
  float := dec;
  float_of_str := dec_of_str;
  str_of_float := dec_str;
  repr_of_float := dec_str;
  format_f w p x := PyStr.rjust w (dec_fixed p x);
  float_mul := dec_mul;
  int_of_float := dec_to_int;
  float_truth x := negb (fst x =? 0);
  hartree_to_eV x := dec_mul x (2721138386, -8);
  kcal_per_mol_2_eV := (43363, -6);
  milli := (1, -3)
|}.

Definition periodic_table : list (string * Z) :=
  [("H", 1); ("He", 2); ("Li", 3); ("Be", 4); ("B", 5); ("C", 6); ("N", 7);
   ("O", 8); ("F", 9); ("Ne", 10); ("Na", 11); ("Mg", 12); ("Al", 13);
   ("Si", 14); ("P", 15); ("S", 16); ("Cl", 17); ("Ar", 18)].

Fixpoint atomic_number_of (symbol : string) (table : list (string * Z)) : option Z :=
  match table with
  | [] => None
  | (s, z) :: table' =>
      if String.eqb s symbol then Some z else atomic_number_of symbol table'
  end.

Definition make_site (symbol : string) (xyz : dec * dec * dec)
    : result (@Site sample_float) :=
  z ← of_option (atomic_number_of symbol periodic_table)
                (ValueError "unknown element");
  Ok (@Build_Site sample_float symbol z xyz).

Fixpoint make_sites (species : list string) (coords : list (dec * dec * dec))
    : result (list (@Site sample_float)) :=
  match species, coords with
  | sp :: species', c :: coords' =>
      s ← make_site sp c; l ← make_sites species' coords'; Ok (s :: l)
  | [], [] => Ok []
  | _, _ => Raise (ValueError "species and coordinates differ in length")
  end.

(** [Molecule(species, coords)]: neutral, lowest spin multiplicity. *)
Definition sample_new_molecule (species : list string)
    (coords : list (dec * dec * dec)) : result (@Molecule sample_float) :=
  l ← make_sites species coords;
  let n := foldr (fun s acc => @atomic_number sample_float s + acc) 0 l in
  Ok (@Build_Molecule sample_float l 0 (if n mod 2 =? 0 then 1 else 2)).

(** One Cartesian line: an element symbol, possibly labelled with digits,
    and three numbers separated by blanks. *)
Definition cartesian_line (line : string) : result (string * (dec * dec * dec)) :=
  match PyStr.words line with
  | [sp; x; y; z] =>
      let symbol :=
        PyStr.capitalize
          (String.string_of_list_ascii
             (List.filter (fun a => negb (PyStr.is_digit a))
                          (String.list_ascii_of_string sp))) in
      x ← of_option (dec_of_str x) (ValueError "could not convert string to float");
      y ← of_option (dec_of_str y) (ValueError "could not convert string to float");
      z ← of_option (dec_of_str z) (ValueError "could not convert string to float");
      Ok (symbol, (x, y, z))
  | _ => Raise (Exception "only plain Cartesian lines are built by the sample")
  end.

Fixpoint until_blank (lines : list string) : list string :=
  match lines with
  | l :: lines' =>
      if String.eqb (PyStr.strip l) "" then [] else PyStr.strip l :: until_blank lines'
  | [] => []
  end.

Definition sample_parse_coords (coord_lines : list string)
    : result (@Molecule sample_float) :=
  atoms ← mapM cartesian_line (until_blank coord_lines);
  sample_new_molecule (atoms.*1) (atoms.*2).

Definition sample_chemistry : @Chemistry sample_float := {|
  mol_truth m := negb (Nat.eqb (List.length (@sites sample_float m)) 0);
  _parse_coords := sample_parse_coords;
  new_molecule := sample_new_molecule
|}.

(** Water, and a task on it. *)
Definition atom (symbol : string) (z : Z) (x y zc : dec) : @Site sample_float :=
  @Build_Site sample_float symbol z (x, y, zc).

Definition water : @Molecule sample_float :=
  @Build_Molecule sample_float
    [atom "O" 8 (0, 0) (0, 0) (0, 0);
     atom "H" 1 (0, 0) (757, -3) (587, -3);
     atom "H" 1 (0, 0) (-757, -3) (587, -3)]
    0 1.

Definition water_task : @QcTask sample_float :=
  @Build_QcTask sample_float (@MMol sample_float water) (Some 0) (Some 1)
    (<["rem" := @SDict sample_float
                  (<["jobtype" := @VStr sample_float "sp"]>
                     (<["exchange" := @VStr sample_float "hf"]> ∅))]> ∅).

(** Run logs. *)
Definition lines (l : list string) : string := PyStr.join newline l.

(** A gradient block of one row that is followed by a new block head. *)
Definition bad_gradient_log : string :=
  lines ["Gradient of SCF Energy"; "1"; "."; "2"].

(** A log without input echo: an energy, the charge, the electron count,
    an SCF table and an energy field of asterisks. *)
Definition quiet_log : string :=
  lines ["Total energy in the final basis set = -1.234567";
         " Sum of atomic charges =   -0.000000";
         "There are 5 alpha and 5 beta electrons";
         " Cycle       Energy         DIIS Error";
         "    1    -40.123   1.23E-03";
         " SCF time:  CPU 1.0 s";
         "  energy = ****"].

(** A log without any marker. *)
Definition bare_log : string := "hello".

(** The log of a converged geometry optimization. *)
Definition clean_log : string :=
  lines ["User input:";
         "--------------------------------------------------------------";
         "$molecule"; " 0 1"; " read"; "$end"; "";
         "$rem"; "jobtype = opt"; "exchange b3lyp"; "basis 6-31g"; "$end";
         "--------------------------------------------------------------";
         " Sum of atomic charges =   -0.000000";
         "There are 5 alpha and 5 beta electrons";
         " Cycle       Energy         DIIS Error";
         "    1    -40.123   1.23E-03";
         "    2    -40.223   1.23E-05  Convergence criterion met";
         " SCF time:  CPU 1.0 s";
         "Total energy in the final basis set = -1.234567";
         " Gradient of SCF Energy";
         "            1           2           3";
         "    1   0.0000001   0.0000002  -0.0000003";
         "    2   0.0000001   0.0000002  -0.0000003";
         "    3   0.0000001   0.0000002  -0.0000003";
         " Max gradient component =       1.224E-03";
         " RMS gradient           =       6.522E-04";
         "  ** OPTIMIZATION CONVERGED **";
         "Thank you very much for using Q-Chem."].

(** The log of a frequency job in which every block occurs. *)
Definition full_log : string :=
  lines ["User input:";
         "--------------------------------------------------------------";
         "$molecule"; " 0 1"; " read"; "$end"; "";
         "$rem"; "jobtype = freq"; "exchange b3lyp"; "basis 6-31g"; "$end";
         "--------------------------------------------------------------";
         " ----------------------------------------------------";
         "       Standard Nuclear Orientation (Angstroms)";
         "    I     Atom         X            Y            Z";
         " ----------------------------------------------------";
         "    1      O       0.000000     0.000000     0.000000";
         "    2      H       0.000000     0.757000     0.587000";
         "    3      H       0.000000    -0.757000     0.587000";
         " ----------------------------------------------------";
         "There are 5 alpha and 5 beta electrons";
         " Cycle       Energy         DIIS Error";
         "    1    -40.123   1.23E-03";
         "    2    -40.223   1.23E-05  Convergence criterion met";
         " SCF time:  CPU 1.0 s";
         "Total energy in the final basis set = -1.234567";
         "          Ground-State Mulliken Net Atomic Charges";
         "";
         "     Atom                 Charge (a.u.)";
         "  ----------------------------------------";
         "      1 O                    -0.800000";
         "      2 H                     0.400000";
         "      3 H                     0.400000";
         "  ----------------------------------------";
         "  Sum of atomic charges =     0.000000";
         " Gradient of SCF Energy";
         "            1           2           3";
         "    1   0.0000001   0.0000002  -0.0000003";
         "    2   0.0000001   0.0000002  -0.0000003";
         "    3   0.0000001   0.0000002  -0.0000003";
         " Max gradient component =       1.224E-03";
         " RMS gradient           =       6.522E-04";
         " VIBRATIONAL ANALYSIS";
         " Mode:                 1";
         " Frequency:      1600.00";
         "               X      Y      Z";
         " O          0.000  0.000  0.070";
         " H          0.000  0.400 -0.550";
         " H          0.000 -0.400 -0.550";
         " TransDip   0.001  0.000  0.000";
         " STANDARD THERMODYNAMIC QUANTITIES AT   298.15 K  AND     1.00 ATM";
         " Zero point vibrational energy:       13.500 kcal/mol";
         " Total Enthalpy:       15.900 kcal/mol";
         "Thank you very much for using Q-Chem."].

(** The log of an SCF that gives up. *)
Definition failed_scf_log : string :=
  lines [" Cycle       Energy         DIIS Error";
         "    1    -40.123   1.23E-03";
         " SCF time:  CPU 1.0 s";
         " gen_scfman_exception:  SCF failed to converge";
         " Convergence failure"].

(** The task of the default arguments and its text. *)
Definition default_task : @QcTask sample_float :=
  match @QcTask_init sample_float sample_chemistry (@default_args sample_float) with
  | Ok t => t
  | Raise _ => water_task
  end.

Definition default_task_text : string :=
  lines ["$molecule"; " read"; "$end"; newline;
         "$rem"; "   jobtype = sp"; "  exchange = hf";
         "     basis = 6-31+g*"; "$end"; newline].

(** The lines of a job with a title of two lines; [between] stands
    between the two. *)
Definition titled_task_lines (between : list string) : list string :=
  ["$comment"; " water"] ++ between ++
  [" again"; "$end"; "$molecule"; " read"; "$end";
   "$rem"; "   jobtype = sp"; "  exchange = hf"; "     basis = 6-31+g*"; "$end"].

(** The head of a gradient block and one row of components. *)
Definition one_row_lines : list string :=
  [" Gradient of SCF Energy"; "            1"; "    1   0.0000001"].

(** For each block, lines that lead into it and a line with the
    signature of the SCF failure that the block can read. *)
Definition signature_runs : list (QcOutput.block * list string * string) :=
  [(QcOutput.EchoInput, ["User input:"], " Convergence failure");
   (QcOutput.Coordinates,
    ["       Standard Nuclear Orientation (Angstroms)"],
    "    1      H       0.000000     0.757000     0.587000  Convergence failure");
   (QcOutput.SCFIteration,
    [" Cycle       Energy         DIIS Error"], " Convergence failure");
   (QcOutput.Gradient, [" Gradient of SCF Energy"], " Convergence failure");
   (QcOutput.Frequencies, [" VIBRATIONAL ANALYSIS"], " Convergence failure");
   (QcOutput.PopulationCharges,
    ["          Ground-State Mulliken Net Atomic Charges"],
    "      2 H                     0.400000  Convergence failure");
   (QcOutput.Idle, [], " Convergence failure")].

End Sample.

(** ** Notions used in the statements *)

Section Notions.
Context `{PyFloat} `{!Chemistry}.

(** The electron count of a molecule at a given charge. *)
Definition electrons (m : Molecule) (charge : Z) : Z :=
  sum_atomic_numbers m - charge.

(** The charge of the task: the argument, or the molecule's own charge. *)
Definition effective_charge (m : Molecule) (charge : option Z) : Z :=
  default (mol_charge m) charge.

(** [QcTask(molecule=m, charge=c, spin_multiplicity=s)] *)
Definition molecule_args (m : Molecule) (c : option Z) (s : Z) : init_args := {|
  a_molecule := AMol m;
  a_charge := c;
  a_spin_multiplicity := Some s;
  a_jobtype := a_jobtype default_args;
  a_title := a_title default_args;
  a_exchange := a_exchange default_args;
  a_correlation := a_correlation default_args;
  a_basis_set := a_basis_set default_args;
  a_aux_basis_set := a_aux_basis_set default_args;
  a_ecp := a_ecp default_args;
  a_rem_params := a_rem_params default_args;
  a_optional_params := a_optional_params default_args
|}.

(** [QcTask(jobtype=j)] *)
Definition jobtype_args (j : string) : init_args := {|
  a_molecule := a_molecule default_args;
  a_charge := a_charge default_args;
  a_spin_multiplicity := a_spin_multiplicity default_args;
  a_jobtype := VStr j;
  a_title := a_title default_args;
  a_exchange := a_exchange default_args;
  a_correlation := a_correlation default_args;
  a_basis_set := a_basis_set default_args;
  a_aux_basis_set := a_aux_basis_set default_args;
  a_ecp := a_ecp default_args;
  a_rem_params := a_rem_params default_args;
  a_optional_params := a_optional_params default_args
|}.

(** The distinct elements of a molecule. *)
Definition element_set (m : Molecule) : gset string :=
  list_to_set (species_string <$> sites m).

(** The element keys of a mapping, as the setters store them. *)
Definition element_keys (items : list (string * string)) : gset string :=
  list_to_set ((fun kv => PyStr.capitalize (PyStr.strip (fst kv))) <$> items).

(** A task that has its [$rem] dictionary, as every constructed task does. *)
Definition has_rem (t : QcTask) : Prop :=
  exists d, params t !! "rem" = Some (SDict d).

(** The value stored under a key of [$rem]. *)
Definition rem_value (t : QcTask) (k : string) : option pyval :=
  match params t !! "rem" with
  | Some (SDict d) => d !! k
  | _ => None
  end.

(** Two tasks with the same molecule, charge and spin multiplicity. *)
Definition same_head (t t' : QcTask) : Prop :=
  mol t' = mol t /\ charge t' = charge t /\
  spin_multiplicity t' = spin_multiplicity t.

(** A line as [from_string] looks at it: [line.strip().lower()]. *)
Definition norm (line : string) : string := PyStr.lower (PyStr.strip line).

(** Serialization followed by parsing. *)
Definition roundtrip (t : QcTask) : result QcTask :=
  s ← QcTask_str t; from_string s.

(** The text of a job with two [$molecule] sections. *)
Definition two_molecules : string :=
  PyStr.join newline
    ["$molecule"; " read"; "$end"; "$molecule"; " 0  1"; " read"; "$end";
     "$rem"; "  jobtype = sp"; "  exchange = hf"; "  basis = 6-31+g*"; "$end"].

(** A task built with the jobtype alias and its serialization. *)
Definition alias_task_text : string :=
  PyStr.join newline
    ["$molecule"; " read"; "$end"; newline;
     "$rem"; "   jobtype = optimization"; "  exchange = hf";
     "     basis = 6-31+g*"; "$end"; newline].

End Notions.

(** ** Notions used in the statements on the setters *)

Section SetterNotions.
Context `{PyFloat} `{!Chemistry}.

(** Two tasks that differ at most in the keywords [ks] of [$rem]: the
    same molecule, charge and spin multiplicity, the same sections
    besides [$rem], the same values of the other keywords. *)
Definition differ_in_rem (ks : list string) (t t' : QcTask) : Prop :=
  same_head t t' /\
  (forall sec, sec <> "rem" -> params t' !! sec = params t !! sec) /\
  (forall k, ~ In k ks -> rem_value t' k = rem_value t k).

(** A call of one of the keyword setters with its arguments. *)
Inductive setter_call : Type :=
  | SetMemory (total static : option Z)
  | SetMaxNumOfScratchFiles (num : Z)
  | SetScfAlgorithmAndIterations (algorithm : string) (iterations : Z)
  | SetScfConvergenceThreshold (exponent : Z)
  | SetIntegralThreshold (thresh : Z)
  | SetDftGrid (radical_points angular_points : Z) (grid_type : string)
  | SetScfInitialGuess (guess : string)
  | SetGeomMaxIterations (iterations : Z)
  | SetGeomOptCoordsType (coords_type : string)
  | SetGeomOptUseGdiis (subspace_size : option Z)
  | DisableSymmetry
  | UseCosmo (dielectric_constant : float).

Definition call (c : setter_call) (t : QcTask) : result QcTask :=
  match c with
  | SetMemory total static => set_memory total static t
  | SetMaxNumOfScratchFiles num => set_max_num_of_scratch_files num t
  | SetScfAlgorithmAndIterations algorithm iterations =>
      set_scf_algorithm_and_iterations algorithm iterations t
  | SetScfConvergenceThreshold exponent => set_scf_convergence_threshold exponent t
  | SetIntegralThreshold thresh => set_integral_threshold thresh t
  | SetDftGrid rp ap grid_type => set_dft_grid rp ap grid_type t
  | SetScfInitialGuess guess => set_scf_initial_guess guess t
  | SetGeomMaxIterations iterations => set_geom_max_iterations iterations t
  | SetGeomOptCoordsType coords_type => set_geom_opt_coords_type coords_type t
  | SetGeomOptUseGdiis subspace_size => set_geom_opt_use_gdiis subspace_size t
  | DisableSymmetry => disable_symmetry t
  | UseCosmo dielectric_constant => use_cosmo dielectric_constant t
  end.

(** The keywords of [$rem] that the setter assigns. *)
Definition keywords (c : setter_call) : list string :=
  match c with
  | SetMemory _ _ => ["mem_total"; "mem_static"]
  | SetMaxNumOfScratchFiles _ => ["max_sub_file_num"]
  | SetScfAlgorithmAndIterations _ _ => ["scf_algorithm"; "max_scf_cycles"]
  | SetScfConvergenceThreshold _ => ["scf_convergence"]
  | SetIntegralThreshold _ => ["thresh"]
  | SetDftGrid _ _ _ => ["xc_grid"]
  | SetScfInitialGuess _ => ["scf_guess"]
  | SetGeomMaxIterations _ => ["geom_opt_max_cycles"]
  | SetGeomOptCoordsType _ => ["geom_opt_coords"]
  | SetGeomOptUseGdiis _ => ["geom_opt_max_diis"]
  | DisableSymmetry => ["sym_ignore"; "symmetry"]
  | UseCosmo _ => ["solvent_method"; "solvent_dielectric"]
  end.

(** The value under a key of a section that is a dictionary. *)
Definition section_value (t : QcTask) (sec k : string) : option pyval :=
  match params t !! sec with
  | Some (SDict d) => d !! k
  | _ => None
  end.

(** The twelve digits of a grid: six for the radial points, six for the
    angular points. *)
Definition decodes_grid (code : string) (radical_points angular_points : Z) : Prop :=
  String.length code = 12%nat /\
  PyStr.to_int (String.substring 0 6 code) = Some radical_points /\
  PyStr.to_int (String.substring 6 6 code) = Some angular_points.

(** A dictionary whose keys are lowercased. *)
Definition lower_keys (d : gmap string pyval) : Prop :=
  forall k, is_Some (d !! k) -> PyStr.lower k = k.

(** A task that has kept the keywords of [$rem] of another and has no
    section beyond those of the other and the optional sections. *)
Definition grows (t t' : QcTask) : Prop :=
  (forall k, is_Some (rem_value t k) -> is_Some (rem_value t' k)) /\
  (forall sec, is_Some (params t' !! sec) ->
               is_Some (params t !! sec) \/ In (PyStr.lower sec) optional_keywords_list).

(** The three setters of the element-keyed sections: the keyword of
    [$rem] and, for a dictionary, the section of the same name. *)
Definition sets_keyword (name : string) (t t' : QcTask) : Prop :=
  grows t t' /\ is_Some (rem_value t' name) /\
  (forall k, k <> name -> rem_value t' k = rem_value t k).

(** A dictionary whose keys are as [_parse_rem] writes them: lowered and
    with the alias of a keyword replaced by the keyword. *)
Definition plain_keys (d : gmap string pyval) : Prop :=
  forall k, is_Some (d !! k) -> alias alternative_keys (PyStr.lower k) = k.

(** A loop state of [from_string] whose [$rem], if read, has such keys. *)
Definition rem_plain (st : scan_state) : Prop :=
  forall d, s_params st !! "rem" = Some (SDict d) -> plain_keys d.

(** A value that is absent or a text. *)
Definition text_or_none (v : option pyval) : Prop :=
  match v with
  | None | Some (VStr _) => True
  | Some _ => False
  end.

(** The two exceptions of lines 686-691: they name the header as it was
    read and the number of its line. *)
Definition unrecognized_keyword (kw : string) (n : nat) : exn :=
  ValueError ("Unrecognized keyword " +:+ kw +:+ " at line " +:+
              PyStr.of_int (Z.of_nat n)).

Definition duplicated_keyword (kw : string) (n : nat) : exn :=
  ValueError ("duplicated keyword " +:+ kw +:+ "at line " +:+
              PyStr.of_int (Z.of_nat n)).

(** Two exceptions that differ at most in the line number that the
    message of a refused header names. *)
Definition same_error (e e' : exn) : Prop :=
  e = e' \/
  exists kw n n',
    (e = unrecognized_keyword kw n /\ e' = unrecognized_keyword kw n') \/
    (e = duplicated_keyword kw n /\ e' = duplicated_keyword kw n').

(** Two outcomes: the same value, or the same exception up to that line
    number. *)
Definition same_outcome {A} (r r' : result A) : Prop :=
  match r, r' with
  | Ok a, Ok a' => a = a'
  | Raise e, Raise e' => same_error e e'
  | _, _ => False
  end.

(** The blank lines that [__str__] of the sequence puts before a job. *)
Definition job_padding (p : string) : Prop :=
  p = "" \/ p = newline +:+ newline +:+ newline.

(** [QcTask(exchange=x)] *)
Definition exchange_args (x : string) : init_args := {|
  a_molecule := a_molecule default_args;
  a_charge := a_charge default_args;
  a_spin_multiplicity := a_spin_multiplicity default_args;
  a_jobtype := a_jobtype default_args;
  a_title := a_title default_args;
  a_exchange := VStr x;
  a_correlation := a_correlation default_args;
  a_basis_set := a_basis_set default_args;
  a_aux_basis_set := a_aux_basis_set default_args;
  a_ecp := a_ecp default_args;
  a_rem_params := a_rem_params default_args;
  a_optional_params := a_optional_params default_args
|}.

(** [QcTask(optional_params=items)] *)
Definition optional_args (items : list (string * section)) : init_args := {|
  a_molecule := a_molecule default_args;
  a_charge := a_charge default_args;
  a_spin_multiplicity := a_spin_multiplicity default_args;
  a_jobtype := a_jobtype default_args;
  a_title := a_title default_args;
  a_exchange := a_exchange default_args;
  a_correlation := a_correlation default_args;
  a_basis_set := a_basis_set default_args;
  a_aux_basis_set := a_aux_basis_set default_args;
  a_ecp := a_ecp default_args;
  a_rem_params := a_rem_params default_args;
  a_optional_params := Some items
|}.

End SetterNotions.

(** * Properties *)

(** ** The error monad *)

Lemma raises_Raise {A} (e : exn) : raises (@Raise A e).
Proof. by exists e. Qed.

Lemma raises_Ok {A} (a : A) : ~ raises (Ok a).
Proof. intros [e He]. discriminate. Qed.

Lemma returns_Ok {A} (a : A) : returns (Ok a).
Proof. by exists a. Qed.

Lemma raises_or_returns {A} (r : result A) : raises r \/ returns r.
Proof. destruct r; [right; apply returns_Ok | left; apply raises_Raise]. Qed.

Lemma is_ok_returns {A} (r : result A) : is_ok r = true -> returns r.
Proof. destruct r; [intros _; apply returns_Ok | discriminate]. Qed.

Lemma error_of_Some {A} (r : result A) (e : exn) : error_of r = Some e -> r = Raise e.
Proof. destruct r; simpl; [discriminate | by intros [= ->]]. Qed.

Lemma bind_Ok {A B} (r : result A) (f : A -> result B) (b : B) :
  r ≫= f = Ok b -> exists a, r = Ok a /\ f a = Ok b.
Proof. destruct r as [a|e]; cbn; [eauto | discriminate]. Qed.

Lemma bind_raises {A B} (r : result A) (f : A -> result B) :
  raises r -> raises (r ≫= f).
Proof. intros [e ->]. apply raises_Raise. Qed.

Lemma fmap_Ok {A B} (g : A -> B) (r : result A) (b : B) :
  g <$> r = Ok b -> exists a, r = Ok a /\ b = g a.
Proof. destruct r as [a|e]; cbn; [intros [= <-]; eauto | discriminate]. Qed.

Lemma foldM_app {A S} (f : S -> A -> result S) (l1 l2 : list A) (s : S) :
  foldM f (l1 ++ l2) s = foldM f l1 s ≫= foldM f l2.
Proof.
  revert s. induction l1 as [|a l1 IH]; intros s; cbn; [done|].
  destruct (f s a); cbn; [apply IH | done].
Qed.

(** An invariant of every step is an invariant of the fold. *)
Lemma foldM_invariant {A S} (P : S -> Prop) (Q : A -> Prop)
    (f : S -> A -> result S) (l : list A) (s s' : S) :
  (forall s a s', Q a -> P s -> f s a = Ok s' -> P s') ->
  Forall Q l -> P s -> foldM f l s = Ok s' -> P s'.
Proof.
  intros Hstep Hl. revert s. induction Hl as [|a l Ha Hl IH]; intros s Hs; cbn.
  - by intros [= <-].
  - intros Hf. apply bind_Ok in Hf as (s1 & H1 & H2). eauto.
Qed.

(** A fold returns as soon as every step does on the states of an invariant. *)
Lemma foldM_returns {A S} (P : S -> Prop) (Q : A -> Prop)
    (f : S -> A -> result S) (l : list A) (s : S) :
  (forall s a, Q a -> P s -> exists s', f s a = Ok s' /\ P s') ->
  Forall Q l -> P s -> exists s', foldM f l s = Ok s' /\ P s'.
Proof.
  intros Hstep Hl. revert s. induction Hl as [|a l Ha Hl IH]; intros s Hs; cbn.
  - eauto.
  - destruct (Hstep s a Ha Hs) as (s1 & -> & H1). cbn. eauto.
Qed.

(** ** Construction of a task *)

Section Construction.
Context {FO : PyFloat} {CH : Chemistry}.

Lemma same_head_refl (t : QcTask) : same_head t t.
Proof. by repeat split. Qed.

Lemma same_head_trans (t1 t2 t3 : QcTask) :
  same_head t1 t2 -> same_head t2 t3 -> same_head t1 t3.
Proof. unfold same_head. intros (-> & -> & ->) (-> & -> & ->). done. Qed.

Lemma set_rem_head (k : string) (v : pyval) (t t' : QcTask) :
  set_rem k v t = Ok t' -> same_head t t'.
Proof.
  unfold set_rem. intros Hb. apply bind_Ok in Hb as (d & _ & [= <-]).
  by repeat split.
Qed.

Lemma set_rem_has_rem (k : string) (v : pyval) (t : QcTask) :
  has_rem t ->
  exists t', set_rem k v t = Ok t' /\ same_head t t' /\ has_rem t'.
Proof.
  intros [d Hd]. unfold set_rem, get_rem. rewrite Hd. cbn.
  eexists; split; [reflexivity|]. split; [by repeat split|].
  eexists. cbn. by rewrite lookup_insert_eq.
Qed.

Lemma set_param_head (k : string) (s : section) (t : QcTask) :
  same_head t (set_param k s t).
Proof. by repeat split. Qed.

Lemma set_basis_set_head (t t' : QcTask) (b : basis_arg) :
  set_basis_set t b = Ok t' -> same_head t t'.
Proof.
  destruct b as [s|items|]; cbn [set_basis_set]; [apply set_rem_head| |discriminate].
  intros Hb. apply bind_Ok in Hb as (t1 & H1 & Hb). apply set_rem_head in H1.
  apply (same_head_trans _ _ _ H1).
  apply (same_head_trans _ _ _ (set_param_head "basis" (SDict (normalize_elements items)) t1)).
  destruct (molval_truth _); [|injection Hb as <-; apply same_head_refl].
  apply bind_Ok in Hb as (els & _ & Hb).
  repeat (destruct (_ <? _)%nat; [discriminate|]).
  injection Hb as <-; apply same_head_refl.
Qed.

Lemma set_auxiliary_basis_set_head (t t' : QcTask) (b : basis_arg) :
  set_auxiliary_basis_set t b = Ok t' -> same_head t t'.
Proof.
  destruct b as [s|items|]; cbn [set_auxiliary_basis_set];
    [apply set_rem_head| |intros [= <-]; apply same_head_refl].
  intros Hb. apply bind_Ok in Hb as (t1 & H1 & Hb). apply set_rem_head in H1.
  apply (same_head_trans _ _ _ H1).
  apply (same_head_trans _ _ _
           (set_param_head "aux_basis" (SDict (normalize_elements items)) t1)).
  destruct (molval_truth _); [|injection Hb as <-; apply same_head_refl].
  apply bind_Ok in Hb as (els & _ & Hb).
  repeat (destruct (_ <? _)%nat; [discriminate|]).
  injection Hb as <-; apply same_head_refl.
Qed.

Lemma set_ecp_head (t t' : QcTask) (b : basis_arg) :
  set_ecp t b = Ok t' -> same_head t t'.
Proof.
  destruct b as [s|items|]; cbn [set_ecp];
    [apply set_rem_head| |intros [= <-]; apply same_head_refl].
  intros Hb. apply bind_Ok in Hb as (t1 & H1 & Hb). apply set_rem_head in H1.
  apply (same_head_trans _ _ _ H1).
  apply (same_head_trans _ _ _
           (set_param_head "ecp" (SDict (normalize_elements items)) t1)).
  destruct (molval_truth _); [|injection Hb as <-; apply same_head_refl].
  apply bind_Ok in Hb as (els & _ & Hb).
  repeat (destruct (_ <? _)%nat; [discriminate|]).
  injection Hb as <-; apply same_head_refl.
Qed.

Lemma init_rem_params_head (items : list (string * pyval)) (t t' : QcTask) :
  foldM init_rem_param items t = Ok t' -> same_head t t'.
Proof.
  apply (foldM_invariant (same_head t) (fun _ => True)).
  - intros s [k v] s' _ Hs Hstep. apply (same_head_trans _ _ _ Hs).
    unfold init_rem_param in Hstep.
    destruct v; try discriminate; by apply set_rem_head in Hstep.
  - by apply Forall_forall.
  - apply same_head_refl.
Qed.

Lemma set_params_head (items : list (string * section)) (t : QcTask) :
  same_head t (foldl (fun t kv => set_param (fst kv) (snd kv) t) t items).
Proof.
  revert t. induction items as [|x l IH]; intros t; cbn; [apply same_head_refl|].
  apply (same_head_trans _ _ _ (set_param_head (fst x) (snd x) t)), IH.
Qed.

Lemma init_optional_params_head (o : option (list (string * section)))
    (t t' : QcTask) :
  init_optional_params t o = Ok t' -> same_head t t'.
Proof.
  unfold init_optional_params. destruct o as [[|kv items]|];
    try (intros [= <-]; apply same_head_refl).
  destruct (negb _); [discriminate|]. intros [= <-].
  apply (set_params_head (kv :: items)).
Qed.

Lemma init_aux_basis_head (o : option basis_arg) (t t' : QcTask) :
  init_aux_basis t o = Ok t' -> same_head t t'.
Proof.
  unfold init_aux_basis. destruct o as [b|]; [apply set_auxiliary_basis_set_head|].
  intros Hb. apply bind_Ok in Hb as (req & _ & Hb).
  destruct req; [|injection Hb as <-; apply same_head_refl].
  apply bind_Ok in Hb as (rem & _ & Hb). apply bind_Ok in Hb as (basis & _ & Hb).
  apply bind_Ok in Hb as (t1 & H1 & Hb). apply bind_Ok in Hb as (rem' & _ & Hb).
  destruct (rem' !! "aux_basis"); [injection Hb as <-|discriminate].
  destruct basis; try (injection H1 as <-; apply same_head_refl).
  repeat (destruct (PyStr.startswith _ _);
          [by apply set_auxiliary_basis_set_head in H1|]).
  injection H1 as <-; apply same_head_refl.
Qed.

(** A constructed task holds what lines 94-116 computed. *)
Lemma QcTask_init_head (a : init_args) (t : QcTask) :
  QcTask_init a = Ok t ->
  exists m, init_molecule (a_molecule a) (a_charge a) (a_spin_multiplicity a)
            = Ok (m, charge t, spin_multiplicity t) /\ mol t = m.
Proof.
  unfold QcTask_init. intros Hb.
  apply bind_Ok in Hb as ([[m c] s] & -> & Hb).
  apply bind_Ok in Hb as (ex & _ & Hb). apply bind_Ok in Hb as (t1 & H1 & Hb).
  apply bind_Ok in Hb as (jl & _ & Hb).
  destruct (negb (mem _ _)); [discriminate|].
  apply bind_Ok in Hb as (t2 & H2 & Hb). apply bind_Ok in Hb as (t3 & H3 & Hb).
  apply bind_Ok in Hb as (t4 & H4 & Hb). apply bind_Ok in Hb as (t5 & H5 & Hb).
  apply bind_Ok in Hb as (t6 & H6 & Hb). apply bind_Ok in Hb as (t7 & H7 & Hb).
  assert (same_head t7 t) as H8.
  { destruct (a_ecp a) as [e|]; [|injection Hb as <-; apply same_head_refl].
    destruct (basis_arg_truth e); [by apply set_ecp_head in Hb|].
    injection Hb as <-; apply same_head_refl. }
  assert (same_head t2 t3) as H3'.
  { destruct (a_correlation a) as [c0|]; [|injection H3 as <-; apply same_head_refl].
    apply bind_Ok in H3 as (c1 & _ & H3). by apply set_rem_head in H3. }
  assert (same_head t3 t4) as H4'.
  { destruct (a_rem_params a) as [items|]; [by apply init_rem_params_head in H4|].
    injection H4 as <-; apply same_head_refl. }
  apply set_rem_head in H1, H2. apply init_optional_params_head in H5.
  apply set_basis_set_head in H6. apply init_aux_basis_head in H7.
  pose proof (same_head_trans _ _ _ H1
               (same_head_trans _ _ _ H2
                  (same_head_trans _ _ _ H3'
                     (same_head_trans _ _ _ H4'
                        (same_head_trans _ _ _ H5
                           (same_head_trans _ _ _ H6
                              (same_head_trans _ _ _ H7 H8))))))) as (Hm & Hc & Hs).
  cbn in Hm, Hc, Hs. exists m. by rewrite Hc, Hs, Hm.
Qed.

(** Lines 103-112 for a molecule and an explicit spin multiplicity. *)
Lemma init_charge_spin_molecule (m : Molecule) (c : option Z) (s : Z) :
  mol_truth m = true ->
  init_charge_spin (AMol m) c (Some s) =
    if negb ((electrons m (effective_charge m c) + s) mod 2 =? 1)
    then Raise (ValueError "Charge and spin multiplicity is not possible for this molecule")
    else Ok (MMol m, Some (effective_charge m c), Some s).
Proof.
  intros Ht. unfold init_charge_spin. cbn [molarg_truth]. rewrite Ht.
  unfold electrons, effective_charge, nelectrons.
  destruct c as [c|]; cbn [default];
    [replace (mol_charge m + (sum_atomic_numbers m - mol_charge m) - c)
       with (sum_atomic_numbers m - c) by lia
    |replace (mol_charge m + (sum_atomic_numbers m - mol_charge m) - mol_charge m)
       with (sum_atomic_numbers m - mol_charge m) by lia]; reflexivity.
Qed.

Lemma init_molecule_parity (m : Molecule) (c : option Z) (s : Z) :
  mol_truth m = true ->
  (electrons m (effective_charge m c) + s) mod 2 = 1 ->
  exists m', init_molecule (AMol m) c (Some s) =
             Ok (MMol m', Some (effective_charge m c), Some s).
Proof.
  intros Ht Hp. unfold init_molecule. rewrite init_charge_spin_molecule by done.
  apply Z.eqb_eq in Hp as Hb. rewrite Hb. cbn.
  unfold set_charge_and_spin. unfold electrons in Hb. rewrite Hb.
  destruct (negb (s =? 0)); cbn; eauto.
Qed.

Lemma init_molecule_bad_parity (m : Molecule) (c : option Z) (s : Z) :
  mol_truth m = true ->
  (electrons m (effective_charge m c) + s) mod 2 <> 1 ->
  raises (init_molecule (AMol m) c (Some s)).
Proof.
  intros Ht Hp. unfold init_molecule. rewrite init_charge_spin_molecule by done.
  apply Z.eqb_neq in Hp as Hb. rewrite Hb. cbn. apply raises_Raise.
Qed.

(** With every other argument at its default, the lines after 116 return. *)
Lemma default_arguments_return (m : Molecule) (c : option Z) (s : Z) :
  returns (init_molecule (AMol m) c (Some s)) ->
  returns (QcTask_init (molecule_args m c s)).
Proof.
  intros [[[m' c'] s'] Hm]. unfold QcTask_init.
  cbn [molecule_args a_molecule a_charge a_spin_multiplicity]. rewrite Hm.
  cbn [mbind result_bind]. vm_compute. eexists. reflexivity.
Qed.

(** C2: for a molecule given by its list of sites, a charge (explicit, or
    the molecule's own) and an explicit spin multiplicity [s],
    construction raises unless (electrons + s) mod 2 = 1, the electron
    count being the sum of the atomic numbers minus the charge, whatever
    the other arguments are; when the parity holds, construction with the
    other arguments at their defaults returns a task, and every task
    returned for this molecule, charge and spin multiplicity stores that
    charge and that spin multiplicity.  The molecule is one that line 94
    accepts as given ([if molecule] is true). *)
Theorem construction_checks_parity (m : Molecule) (c : option Z) (s : Z) :
  mol_truth m = true ->
  let matching (a : init_args) :=
    a_molecule a = AMol m /\ a_charge a = c /\ a_spin_multiplicity a = Some s in
  ((electrons m (effective_charge m c) + s) mod 2 <> 1 ->
     forall a, matching a -> raises (QcTask_init a)) /\
  ((electrons m (effective_charge m c) + s) mod 2 = 1 ->
     returns (QcTask_init (molecule_args m c s)) /\
     forall a t, matching a -> QcTask_init a = Ok t ->
       charge t = Some (effective_charge m c) /\ spin_multiplicity t = Some s).
Proof.
  intros Ht matching. split.
  - intros Hp a (Ha & Hc & Hs). unfold QcTask_init. rewrite Ha, Hc, Hs.
    apply bind_raises. by apply init_molecule_bad_parity.
  - intros Hp. split.
    + apply default_arguments_return.
      destruct (init_molecule_parity m c s Ht Hp) as [m' ->]. apply returns_Ok.
    + intros a t (Ha & Hc & Hs) Hinit.
      apply QcTask_init_head in Hinit as (m0 & Hinit & _).
      rewrite Ha, Hc, Hs in Hinit.
      destruct (init_molecule_parity m c s Ht Hp) as [m' Hm'].
      rewrite Hm' in Hinit. by injection Hinit as _ <- <-.
Qed.

(** Every constructed task has its [$rem] dictionary. *)
Lemma set_rem_keeps_rem (k : string) (v : pyval) (t t' : QcTask) :
  set_rem k v t = Ok t' -> has_rem t'.
Proof.
  unfold set_rem. intros Hb. apply bind_Ok in Hb as (d & _ & [= <-]).
  eexists. cbn. by rewrite lookup_insert_eq.
Qed.

Lemma dom_normalize_acc (items : list (string * string)) (acc : gmap string pyval) :
  dom (foldl (fun bs '(element, basis) =>
                <[PyStr.capitalize (PyStr.strip element) := VStr (PyStr.lower basis)]> bs)
             acc items) = dom acc ∪ element_keys items.
Proof.
  revert acc. induction items as [|[k v] items IH]; intros acc; cbn.
  - unfold element_keys. cbn. set_solver.
  - rewrite IH, dom_insert_L. unfold element_keys. cbn. set_solver.
Qed.

Lemma dom_normalize_elements (items : list (string * string)) :
  dom (normalize_elements items) = element_keys items.
Proof.
  unfold normalize_elements. rewrite dom_normalize_acc, dom_empty_L. set_solver.
Qed.

Lemma size_difference_zero (A B : gset string) :
  (0 <? size (A ∖ B))%nat = false <-> A ⊆ B.
Proof.
  rewrite Nat.ltb_ge. split.
  - intros Hs. assert (A ∖ B ≡ ∅) as He by (apply size_empty_iff; lia).
    set_solver.
  - intros Hs. replace (A ∖ B) with (∅ : gset string) by set_solver.
    rewrite size_empty. lia.
Qed.

(** The two-sided test of [set_basis_set] and [set_auxiliary_basis_set]. *)
Lemma two_sided_test {A} (M K : gset string) (e1 e2 : exn) (a : A) :
  raises (if (0 <? size (M ∖ K))%nat then Raise e1
          else if (0 <? size (K ∖ M))%nat then Raise e2 else Ok a)
  <-> K ≠ M.
Proof.
  destruct (0 <? size (M ∖ K))%nat eqn:E1.
  - split; [intros _ ->|intros _; apply raises_Raise].
    replace (M ∖ M) with (∅ : gset string) in E1 by set_solver.
    by rewrite size_empty in E1.
  - apply size_difference_zero in E1.
    destruct (0 <? size (K ∖ M))%nat eqn:E2.
    + split; [intros _ ->|intros _; apply raises_Raise].
      replace (M ∖ M) with (∅ : gset string) in E2 by set_solver.
      by rewrite size_empty in E2.
    + apply size_difference_zero in E2. split.
      * intros Hr. by apply raises_Ok in Hr.
      * intros Hne. exfalso. apply Hne. set_solver.
Qed.

Lemma one_sided_test {A} (M K : gset string) (e : exn) (a : A) :
  raises (if (0 <? size (K ∖ M))%nat then Raise e else Ok a) <-> ¬ K ⊆ M.
Proof.
  destruct (0 <? size (K ∖ M))%nat eqn:E.
  - split; [|intros _; apply raises_Raise].
    intros _ Hsub. apply size_difference_zero in Hsub. congruence.
  - apply size_difference_zero in E. split; [|done].
    intros Hr. by apply raises_Ok in Hr.
Qed.

(** C3: on a task that holds a molecule, setting an element-keyed basis
    or auxiliary basis raises exactly when the key set of the mapping
    (the keys as the setter stores them, stripped and capitalized)
    differs from the set of distinct elements of the molecule; setting an
    element-keyed ecp raises exactly when some key is not an element of
    the molecule, elements without a key being allowed. *)
Theorem element_keyed_sets_checked (t : QcTask) (m : Molecule)
    (items : list (string * string)) :
  mol t = MMol m -> mol_truth m = true -> has_rem t ->
  (raises (set_basis_set t (BDict items)) <-> element_keys items ≠ element_set m) /\
  (raises (set_auxiliary_basis_set t (BDict items)) <->
     element_keys items ≠ element_set m) /\
  (raises (set_ecp t (BDict items)) <-> ¬ element_keys items ⊆ element_set m).
Proof.
  intros Hm Ht Hr.
  assert (forall k, exists t', set_rem k (VStr "gen") t = Ok t' /\ mol t' = MMol m)
    as Hset.
  { intros k. destruct (set_rem_has_rem k (VStr "gen") t Hr) as (t' & E & (Hm' & _) & _).
    exists t'. split; [done|congruence]. }
  split; [|split].
  - cbn [set_basis_set]. destruct (Hset "basis") as (t' & -> & Hm').
    cbn [mbind result_bind set_param mol]. rewrite Hm'.
    cbn [molval_truth mol_elements mbind result_bind]. rewrite Ht.
    rewrite dom_normalize_elements. apply two_sided_test.
  - cbn [set_auxiliary_basis_set]. destruct (Hset "aux_basis") as (t' & -> & Hm').
    cbn [mbind result_bind set_param mol]. rewrite Hm'.
    cbn [molval_truth mol_elements mbind result_bind]. rewrite Ht.
    rewrite dom_normalize_elements. apply two_sided_test.
  - cbn [set_ecp]. destruct (Hset "ecp") as (t' & -> & Hm').
    cbn [mbind result_bind set_param mol]. rewrite Hm'.
    cbn [molval_truth mol_elements mbind result_bind]. rewrite Ht.
    rewrite dom_normalize_elements. apply one_sided_test.
Qed.

(** The jobtype of a constructed task is in the vocabulary once it is
    lowercased and its alias resolved. *)
Lemma jobtype_in_vocabulary (a : init_args) (t : QcTask) :
  QcTask_init a = Ok t ->
  exists j, a_jobtype a = VStr j /\
    mem (alias alternative_values (PyStr.lower j)) available_jobtypes = true.
Proof.
  unfold QcTask_init. intros Hb.
  apply bind_Ok in Hb as ([[m c] s] & _ & Hb).
  apply bind_Ok in Hb as (ex & _ & Hb). apply bind_Ok in Hb as (t1 & _ & Hb).
  apply bind_Ok in Hb as (jl & Hj & Hb).
  destruct (a_jobtype a) as [j| | | | |]; try discriminate. injection Hj as <-.
  exists j. split; [done|].
  destruct (mem _ _); [done|discriminate].
Qed.

(** C7: the constructor called with the jobtype "optimization" returns a
    task whose [$rem] holds the jobtype "optimization": the alias is
    resolved for the vocabulary test only, and line 131 stores the
    lowercased argument, not "opt". *)
Theorem alias_jobtype_stored_unresolved :
  exists t, QcTask_init (jobtype_args "optimization") = Ok t /\
            rem_value t "jobtype" = Some (VStr "optimization").
Proof. eexists. split; [vm_compute; reflexivity|]. vm_compute. reflexivity. Qed.

End Construction.

Section ConstructionExamples.
#[local] Existing Instance Sample.sample_float.
#[local] Existing Instance Sample.sample_chemistry.

(** Water is neutral with ten electrons: a singlet is accepted and
    stored, a doublet is refused. *)
Lemma construction_checks_parity_witness :
  mol_truth Sample.water = true /\
  returns (QcTask_init (molecule_args Sample.water (Some 0) 1)) /\
  raises (QcTask_init (molecule_args Sample.water (Some 0) 2)).
Proof.
  split; [reflexivity|]. split.
  - apply (construction_checks_parity Sample.water (Some 0) 1); reflexivity.
  - apply (construction_checks_parity Sample.water (Some 0) 2);
      [reflexivity | vm_compute; discriminate | by repeat split].
Defined.

Example water_singlet_stored :
  (fun t => (charge t, spin_multiplicity t))
    <$> QcTask_init (molecule_args Sample.water None 1)
  = Ok (Some 0, Some 1).
Proof. vm_compute. reflexivity. Qed.

(** Water with a basis for O and H only: accepted; a key for C is refused
    by all three setters, a missing H only by the basis setters. *)
Lemma element_keyed_sets_checked_witness :
  (mol Sample.water_task = MMol Sample.water /\
   mol_truth Sample.water = true /\ has_rem Sample.water_task) /\
  ~ raises (set_basis_set Sample.water_task
              (BDict [("o", "6-31G*"); (" H ", "6-31G")])) /\
  raises (set_basis_set Sample.water_task (BDict [("O", "6-31G*")])) /\
  ~ raises (set_ecp Sample.water_task (BDict [("O", "srlc")])) /\
  raises (set_ecp Sample.water_task (BDict [("O", "srlc"); ("C", "srlc")])).
Proof.
  assert (mol Sample.water_task = MMol Sample.water /\
          mol_truth Sample.water = true /\ has_rem Sample.water_task)
    as (Hm & Ht & Hr).
  { repeat split. eexists. reflexivity. }
  split; [by repeat split|].
  pose proof (fun items =>
    element_keyed_sets_checked Sample.water_task Sample.water items Hm Ht Hr) as Hc.
  destruct (Hc [("o", "6-31G*"); (" H ", "6-31G")]) as (Hb1 & _ & _).
  destruct (Hc [("O", "6-31G*")]) as (Hb2 & _ & _).
  destruct (Hc [("O", "srlc")]) as (_ & _ & He1).
  destruct (Hc [("O", "srlc"); ("C", "srlc")]) as (_ & _ & He2).
  clear Hc. split; [|split; [|split]].
  - intros Hx. apply (proj1 Hb1 Hx). vm_compute. reflexivity.
  - refine (proj2 Hb2 _). vm_compute. discriminate.
  - intros Hx. apply (proj1 He1 Hx).
    apply (bool_decide_unpack _). vm_compute. exact I.
  - refine (proj2 He2 _). intros Hsub. apply (bool_decide_pack _) in Hsub.
    vm_compute in Hsub. exact Hsub.
Defined.

End ConstructionExamples.

(** ** The sequence of jobs *)

Section Sequence.
Context {FO : PyFloat} {CH : Chemistry}.

(** Once the loop has assigned [self.jobs], it stays the whole list. *)
Lemma QcInput_init_loop_tasks (all rest : list pyobj) (self : QcInput) :
  Forall (fun o => is_task o = true) rest ->
  QcInput_init_loop all rest self =
    Ok (match rest with [] => self | _ :: _ => {| jobs := Some all |} end).
Proof.
  intros Hall. revert self. induction Hall as [|o rest Ho Hall IH]; intros self.
  - reflexivity.
  - cbn. rewrite Ho. cbn. rewrite IH. by destruct rest.
Qed.

Lemma QcInput_init_loop_other (all rest : list pyobj) (self : QcInput) :
  Exists (fun o => is_task o = false) rest ->
  raises (QcInput_init_loop all rest self).
Proof.
  intros Hex. revert self. induction Hex as [o rest Ho|o rest Hex IH]; intros self.
  - cbn. rewrite Ho. apply raises_Raise.
  - cbn. destruct (is_task o); cbn; [apply IH | apply raises_Raise].
Qed.

(** C9: a list with an element that is not a [QcTask] makes the
    constructor raise; the empty list is accepted but leaves [jobs]
    unassigned, so that serialization and [to_dict] of the instance raise;
    a non-empty list of tasks is accepted and [jobs] is that list, in
    order. *)
Theorem sequence_construction (l : list pyobj) :
  (Exists (fun o => is_task o = false) l -> raises (QcInput_init (JList l))) /\
  (l = [] ->
     exists self, QcInput_init (JList l) = Ok self /\ jobs self = None /\
       raises (QcInput_str self) /\ raises (QcInput_to_dict self)) /\
  (l <> [] -> Forall (fun o => is_task o = true) l ->
     QcInput_init (JList l) = Ok {| jobs := Some l |}).
Proof.
  split; [|split].
  - apply QcInput_init_loop_other.
  - intros ->. eexists. split; [reflexivity|]. split; [reflexivity|].
    split; apply raises_Raise.
  - intros Hne Hall. unfold QcInput_init.
    rewrite QcInput_init_loop_tasks by done. by destruct l.
Qed.

End Sequence.

Section SequenceExamples.
#[local] Existing Instance Sample.sample_float.
#[local] Existing Instance Sample.sample_chemistry.

Example sequence_of_two :
  QcInput_init (JList [OTask Sample.water_task; OTask Sample.water_task])
  = Ok {| jobs := Some [OTask Sample.water_task; OTask Sample.water_task] |}.
Proof. reflexivity. Qed.

Example sequence_with_a_string :
  QcInput_init (JList [OTask Sample.water_task; OOther "'$rem'"])
  = Raise (ValueError "jobs must be a list QcInput object").
Proof. reflexivity. Qed.

End SequenceExamples.

(** ** The job grammar *)

Section Grammar.
Context {FO : PyFloat} {CH : Chemistry}.

Lemma foldM_raises_at {A S} (f : S -> A -> result S) (l1 l2 : list A) (a : A)
    (s s1 : S) :
  foldM f l1 s = Ok s1 -> raises (f s1 a) -> raises (foldM f (l1 ++ a :: l2) s).
Proof.
  intros H1 Hr. rewrite foldM_app, H1. cbn. by apply bind_raises.
Qed.

Lemma enumerate_from_app (n : nat) (l1 l2 : list string) :
  enumerate_from n (l1 ++ l2) =
  enumerate_from n l1 ++ enumerate_from (n + List.length l1) l2.
Proof.
  revert n. induction l1 as [|a l1 IH]; intros n; cbn [enumerate_from app List.length].
  - by rewrite Nat.add_0_r.
  - rewrite IH. by replace (S n + List.length l1)%nat with (n + S (List.length l1))%nat by lia.
Qed.

Lemma enumerate_split (l1 l2 : list string) (line : string) :
  enumerate (l1 ++ line :: l2) =
  enumerate l1 ++ (List.length l1, line) :: enumerate_from (S (List.length l1)) l2.
Proof. unfold enumerate. by rewrite enumerate_from_app. Qed.

Lemma enumerate_from_lines (n : nat) (lines : list string) :
  snd <$> enumerate_from n lines = lines.
Proof. revert n. induction lines as [|a l IH]; intros n; cbn; [done|]. by rewrite IH. Qed.

Lemma from_string_scan_raises (contents : string) :
  raises (scan (PyStr.split_on "010" contents)) -> raises (from_string contents).
Proof. intros Hr. unfold from_string. by apply bind_raises. Qed.

(** A header whose name already has an entry in [params] is refused. *)
Lemma scan_line_duplicate (st : scan_state) (n : nat) (line name : string) :
  parse_section st = false -> norm line = String "$" name ->
  is_Some (s_params st !! name) -> raises (scan_line st (n, line)).
Proof.
  intros Hps Hl Hin. unfold scan_line. cbn [fst snd]. fold (norm line). rewrite Hl, Hps.
  assert (PyStr.startswith (String "$" name) "$" = true) as ->
    by (destruct name; reflexivity).
  cbn [String.length Nat.eqb negb andb orb].
  destruct (String.eqb (String "$" name) "$end"); [apply raises_Raise|].
  rewrite Hps. cbn [negb andb]. apply bind_raises. unfold open_section.
  cbn [drop1].
  destruct (negb (mem name section_names)); [apply raises_Raise|].
  rewrite bool_decide_eq_true_2 by done. apply raises_Raise.
Qed.

(** Inside a section every line but [$end] leaves the section open. *)
Lemma scan_line_stays_open (st : scan_state) (n : nat) (line : string) :
  parse_section st = true -> norm line <> "$end" ->
  exists st', scan_line st (n, line) = Ok st' /\ parse_section st' = true.
Proof.
  intros Hps Hl. unfold scan_line. cbn [fst snd]. fold (norm line).
  destruct (Nat.eqb (String.length (norm line)) 0); [eauto|].
  apply String.eqb_neq in Hl. rewrite Hps, Hl.
  cbn [negb andb orb append_text parse_section].
  rewrite Hps, !andb_false_r. cbn [mbind result_bind parse_section].
  rewrite andb_false_r. eexists. split; [reflexivity|]. exact Hps.
Qed.

Lemma scan_stays_open (n : nat) (lines : list string) (st : scan_state) :
  parse_section st = true -> Forall (fun l => norm l <> "$end") lines ->
  exists st', foldM scan_line (enumerate_from n lines) st = Ok st' /\
              parse_section st' = true.
Proof.
  intros Hps Hall.
  apply (foldM_returns (fun st => parse_section st = true)
                       (fun e => norm (snd e) <> "$end")); [| |done].
  - intros s [k a] Ha Hs. by apply scan_line_stays_open.
  - clear Hps. revert n. induction Hall as [|a l Ha _ IH]; intros n; cbn; by constructor.
Qed.

(** A header opens its section or is refused. *)
Lemma scan_line_opens (st st' : scan_state) (n : nat) (line : string) :
  parse_section st = false -> PyStr.startswith (norm line) "$" = true ->
  scan_line st (n, line) = Ok st' -> parse_section st' = true.
Proof.
  intros Hps Hl. unfold scan_line. cbn [fst snd]. fold (norm line).
  destruct (Nat.eqb (String.length (norm line)) 0) eqn:El.
  { destruct (norm line); [discriminate Hl | discriminate El]. }
  rewrite Hps, Hl. cbn [negb andb orb].
  destruct (String.eqb (norm line) "$end") eqn:Ee; [discriminate|].
  rewrite Hps. cbn [negb]. unfold open_section.
  destruct (negb _); [discriminate|]. destruct (bool_decide _); [discriminate|].
  cbn [mbind result_bind parse_section andb]. by intros [= <-].
Qed.

(** The same section name twice: the second header is refused when the
    first section left an entry in [params], as every section but
    [$molecule] does. *)
Lemma duplicate_section_raises (contents : string) (l1 l2 : list string)
    (hdr name : string) (st : scan_state) :
  PyStr.split_on "010" contents = l1 ++ hdr :: l2 ->
  scan l1 = Ok st -> parse_section st = false ->
  norm hdr = String "$" name -> is_Some (s_params st !! name) ->
  raises (from_string contents).
Proof.
  intros Hsplit Hscan Hps Hl Hin. apply from_string_scan_raises. rewrite Hsplit.
  unfold scan. rewrite enumerate_split.
  apply (foldM_raises_at _ _ _ _ _ st); [done|]. by apply (scan_line_duplicate _ _ _ name).
Qed.

(** A section that is opened and not closed before the end of the input. *)
Lemma unterminated_section_raises (contents : string) (l1 l2 : list string)
    (hdr : string) (st : scan_state) :
  PyStr.split_on "010" contents = l1 ++ hdr :: l2 ->
  scan l1 = Ok st -> parse_section st = false ->
  PyStr.startswith (norm hdr) "$" = true ->
  Forall (fun l => norm l <> "$end") l2 ->
  raises (from_string contents).
Proof.
  intros Hsplit Hscan Hps Hl Hall. unfold from_string, scan. rewrite Hsplit.
  rewrite enumerate_split, foldM_app. fold (enumerate l1). fold (scan l1).
  rewrite Hscan. cbn [mbind result_bind foldM].
  destruct (scan_line st (List.length l1, hdr)) as [st1|e] eqn:E1;
    cbn [mbind result_bind]; [|apply raises_Raise].
  apply scan_line_opens in E1; [|done..].
  destruct (scan_stays_open (S (List.length l1)) l2 st1 E1 Hall) as (st2 & -> & Hps2).
  cbn [mbind result_bind]. rewrite Hps2. apply raises_Raise.
Qed.

(** C8: [from_string] returns a task for a text in which the section name
    [molecule] appears twice; the second section silently replaces the
    first (the duplicate test looks in [params], where [$molecule] leaves
    no entry). *)
Theorem duplicate_molecule_accepted :
  exists t, from_string two_molecules = Ok t /\
            charge t = Some 0 /\ spin_multiplicity t = Some 1.
Proof. eexists. split; [vm_compute; reflexivity|]. split; reflexivity. Qed.

(** C1: the task constructed with the jobtype "optimization" is a valid
    task, its serialization is [alias_task_text], and parsing that text
    back raises: the [$rem] parser replaces the alias by the whole alias
    dictionary and hands it to [int_pattern.match]. *)
Theorem roundtrip_alias_jobtype_raises :
  exists t, QcTask_init (jobtype_args "optimization") = Ok t /\
            QcTask_str t = Ok alias_task_text /\
            roundtrip t = Raise (TypeError "expected string or buffer").
Proof. eexists. split; [vm_compute; reflexivity|]. split; vm_compute; reflexivity. Qed.

(** The default task comes back unchanged. *)
Example roundtrip_default_task :
  exists t, QcTask_init default_args = Ok t /\ roundtrip t = Ok t.
Proof. eexists. split; [vm_compute; reflexivity|]. vm_compute. reflexivity. Qed.

End Grammar.

(** ** Strings and patterns *)

#[local] Arguments String.append : simpl nomatch.

Lemma str_app_nil_r (s : string) : s +:+ "" = s.
Proof. induction s as [|a s IH]; simpl; [done | by rewrite IH]. Qed.

Lemma str_app_assoc (a b c : string) : (a +:+ b) +:+ c = a +:+ (b +:+ c).
Proof. induction a as [|x a IH]; simpl; [done | by rewrite IH]. Qed.

Lemma str_length_app (a b : string) :
  String.length (a +:+ b) = (String.length a + String.length b)%nat.
Proof. induction a as [|x a IH]; simpl; [done | by rewrite IH]. Qed.

Lemma str_app_eq_nil (a b : string) : a +:+ b = "" -> a = "" /\ b = "".
Proof. destruct a; simpl; [done | discriminate]. Qed.

Lemma str_prefix_app (p s : string) : String.prefix p (p +:+ s) = true.
Proof.
  induction p as [|a p IH]; cbn; [by destruct s|].
  destruct (ascii_dec a a); [done | congruence].
Qed.

Lemma str_prefix_inv (p s : string) :
  String.prefix p s = true -> exists post, s = p +:+ post.
Proof.
  revert s. induction p as [|a p IH]; intros s; [by exists s|].
  destruct s as [|b s]; cbn; [discriminate|].
  destruct (ascii_dec a b) as [->|]; [|discriminate].
  intros Hp. destruct (IH s Hp) as [post ->]. by exists post.
Qed.

Lemma contains_prefix (sub s : string) :
  String.prefix sub s = true -> PyStr.contains sub s = true.
Proof. intros Hp. destruct s; cbn [PyStr.contains]; by rewrite Hp. Qed.

Lemma contains_app (sub pre post : string) :
  PyStr.contains sub (pre +:+ sub +:+ post) = true.
Proof.
  induction pre as [|a pre IH].
  - change ("" +:+ sub +:+ post) with (sub +:+ post).
    apply contains_prefix, str_prefix_app.
  - change (String a pre +:+ sub +:+ post) with (String a (pre +:+ sub +:+ post)).
    cbn [PyStr.contains]. rewrite IH. apply orb_true_r.
Qed.

Lemma contains_inv (sub s : string) :
  PyStr.contains sub s = true -> exists pre post, s = pre +:+ sub +:+ post.
Proof.
  induction s as [|a s IH]; cbn [PyStr.contains].
  - rewrite orb_false_r. intros Hp. apply str_prefix_inv in Hp as [post ->].
    by exists "", post.
  - intros Hc. apply orb_true_iff in Hc as [Hp|Hc].
    + apply str_prefix_inv in Hp as [post ->]. by exists "", post.
    + destruct (IH Hc) as (pre & post & ->). by exists (String a pre), post.
Qed.

(** A text that contains a piece of a line contains whatever the line does. *)
Lemma contains_inside (sub pre l post : string) :
  PyStr.contains sub l = true -> PyStr.contains sub (pre +:+ l +:+ post) = true.
Proof.
  intros Hc. apply contains_inv in Hc as (p1 & p2 & ->).
  replace (pre +:+ (p1 +:+ sub +:+ p2) +:+ post)
    with ((pre +:+ p1) +:+ sub +:+ (p2 +:+ post))
    by (by rewrite !str_app_assoc).
  apply contains_app.
Qed.

Lemma split_on_head (c : ascii) (s : string) :
  exists h t post, PyStr.split_on c s = h :: t /\ s = h +:+ post.
Proof.
  induction s as [|a s (h & t & post & IH & Hs)]; cbn.
  - by exists "", [], "".
  - destruct (Ascii.eqb a c).
    + by exists "", (PyStr.split_on c s), (String a s).
    + rewrite IH. exists (String a h), t, post. by rewrite Hs at 1.
Qed.

Lemma split_on_piece (c : ascii) (s l : string) :
  In l (PyStr.split_on c s) -> exists pre post, s = pre +:+ l +:+ post.
Proof.
  revert l. induction s as [|a s IH]; intros l; cbn.
  - intros [<-|[]]. by exists "", "".
  - destruct (Ascii.eqb a c).
    + intros [<-|Hin]; [by exists "", (String a s)|].
      destruct (IH l Hin) as (pre & post & ->). by exists (String a pre), post.
    + destruct (split_on_head c s) as (h & t & post & Hsp & Hs). rewrite Hsp in *.
      intros [<-|Hin].
      * exists "", post. cbn. by rewrite Hs at 1.
      * destruct (IH l (or_intror Hin)) as (pre & post' & ->).
        by exists (String a pre), post'.
Qed.

(** What a text does not contain, none of its lines contains. *)
Lemma lines_without (sub output : string) :
  PyStr.contains sub output = false ->
  Forall (fun l => PyStr.contains sub l = false) (PyStr.split_on "010" output).
Proof.
  intros Hc. apply Forall_forall. intros l Hin.
  apply list_elem_of_In in Hin. apply split_on_piece in Hin as (pre & post & ->).
  destruct (PyStr.contains sub l) eqn:E; [|done].
  by rewrite (contains_inside sub pre l post E) in Hc.
Qed.

Section RegexSoundness.
Import Re.
Variable P : string -> string -> Prop.

Lemma take_app (w s : string) : take (String.length w) (w +:+ s) = w.
Proof. induction w as [|a w IH]; simpl; [by destruct s | by rewrite IH]. Qed.

Lemma consumed_app (w s : string) : consumed (w +:+ s) s = w.
Proof.
  unfold consumed. rewrite str_length_app.
  replace (String.length w + String.length s - String.length s)%nat
    with (String.length w) by lia.
  apply take_app.
Qed.

Lemma star_sound (r : regex) :
  (forall s c k res, run r s c k = Some res -> run_spec P r s c k res) ->
  forall fuel s c k res,
    star (run r) fuel s c k = Some res -> run_spec P (Star r) s c k res.
Proof.
  intros Hr. induction fuel as [|n IH]; intros s c k res; simpl.
  - intros Hk. exists "", s, []. repeat split; [constructor..|done|done].
  - destruct (run r s c _) as [x|] eqn:E.
    + intros [= ->]. apply Hr in E as (w1 & s1 & ext1 & -> & Hm1 & Hc1 & _ & Hk).
      destruct (String.length s1 <? String.length (w1 +:+ s1))%nat; [|discriminate].
      apply IH in Hk as (w2 & s2 & ext2 & -> & Hm2 & Hc2 & _ & Hk).
      exists (w1 +:+ w2), s2, (ext2 ++ ext1).
      split; [by rewrite str_app_assoc|]. split; [by constructor|].
      split; [by apply Forall_app|]. split; [done|]. by rewrite <- app_assoc.
    + intros Hk. exists "", s, []. repeat split; [constructor..|done|done].
Qed.

Lemma bound_app (n : string) (c1 c2 : caps) :
  bound n (c1 ++ c2) = bound n c1 || bound n c2.
Proof. unfold bound. apply existsb_app. Qed.

Lemma run_sound (r : regex) :
  groups_ok P r ->
  forall s c k res, run r s c k = Some res -> run_spec P r s c k res.
Proof.
  induction r as [|p|r1 IH1 r2 IH2|r1 IH1 r2 IH2|r1 IH1|n r1 IH1|];
    intros Hg s c k res; [simpl..|intros Hs|simpl|simpl].
  - intros Hk. exists "", s, []. repeat split; [constructor..|done|done].
  - destruct s as [|a s]; [discriminate|]. destruct (p a) eqn:Ep; [|discriminate].
    intros Hk. exists (String a ""), s, []. repeat split; [by constructor|constructor|done|done].
  - destruct Hg as [Hg1 Hg2]. intros Hrun.
    apply (IH1 Hg1) in Hrun as (w1 & s1 & ext1 & -> & Hm1 & Hc1 & Hb1 & Hrun).
    apply (IH2 Hg2) in Hrun as (w2 & s2 & ext2 & -> & Hm2 & Hc2 & Hb2 & Hrun).
    exists (w1 +:+ w2), s2, (ext2 ++ ext1).
    split; [by rewrite str_app_assoc|]. split; [by constructor|].
    split; [by apply Forall_app|]. split; [|by rewrite <- app_assoc].
    intros n Hn. rewrite bound_app. apply orb_true_iff in Hn as [Hn|Hn].
    + rewrite (Hb1 n Hn). apply orb_true_r.
    + by rewrite (Hb2 n Hn).
  - destruct Hg as [Hg1 Hg2]. destruct (run r1 s c k) as [x|] eqn:E.
    + intros [= ->]. apply (IH1 Hg1) in E as (w & s1 & ext & -> & Hm & Hc & Hb & Hk).
      exists w, s1, ext. repeat split; [by apply m_alt_l|done| |done].
      intros n Hn. apply andb_true_iff in Hn as [Hn _]. auto.
    + intros Hrun. apply (IH2 Hg2) in Hrun as (w & s1 & ext & -> & Hm & Hc & Hb & Hk).
      exists w, s1, ext. repeat split; [by apply m_alt_r|done| |done].
      intros n Hn. apply andb_true_iff in Hn as [_ Hn]. auto.
  - apply (star_sound r1) in Hs; [done|]. intros s' c' k' res'. by apply IH1.
  - destruct Hg as [Hg0 Hg1]. intros Hrun.
    apply (IH1 Hg1) in Hrun as (w & s1 & ext & -> & Hm & Hc & Hb & Hk).
    rewrite consumed_app in Hk.
    exists w, s1, ((n, w) :: ext). split; [done|]. split; [by constructor|].
    split; [constructor; [by apply Hg0|done]|]. split; [|done].
    intros n' Hn. unfold bound. simpl. apply orb_true_iff in Hn as [Hn|Hn].
    + by rewrite Hn.
    + apply Hb in Hn. unfold bound in Hn. rewrite Hn. apply orb_true_r.
  - intros Hk. exists "", s, [].
    assert (k s ([] ++ c) = Some res) as Hk'.
    { destruct s as [|a [|b s]]; [done| |discriminate].
      by destruct (Ascii.eqb a "010"). }
    repeat split; [constructor..|done|done].
Qed.

Lemma match_sound (r : regex) (s : string) (c : caps) :
  groups_ok P r -> match_ r s = Some c ->
  exists w post, s = w +:+ post /\ matches r w /\ caps_ok P c /\
                 (forall n, binds n r = true -> bound n c = true).
Proof.
  intros Hg Hm. apply (run_sound r Hg) in Hm as (w & s1 & ext & -> & Hm & Hc & Hb & [= <-]).
  rewrite app_nil_r. by exists w, s1.
Qed.

Lemma search_sound (r : regex) (s : string) (c : caps) :
  groups_ok P r -> search r s = Some c ->
  exists pre w post, s = pre +:+ w +:+ post /\ matches r w /\ caps_ok P c /\
                     (forall n, binds n r = true -> bound n c = true).
Proof.
  intros Hg. induction s as [|a s IH]; simpl.
  - destruct (match_ r "") as [x|] eqn:E; [|discriminate]. intros [= ->].
    apply (match_sound _ _ _ Hg) in E as (w & post & E & H1).
    by exists "", w, post.
  - destruct (match_ r (String a s)) as [x|] eqn:E.
    + intros [= ->]. apply (match_sound _ _ _ Hg) in E as (w & post & E & H1).
      by exists "", w, post.
    + intros Hs. destruct (IH Hs) as (pre & w & post & -> & H1).
      by exists (String a pre), w, post.
Qed.

Lemma group_ok (n : string) (c : caps) :
  caps_ok P c -> bound n c = true -> P n (group n c).
Proof.
  induction 1 as [|[n' t] c Hx Hc IH]; simpl; [discriminate|].
  unfold bound. simpl. destruct (String.eqb n' n) eqn:E; simpl; [|apply IH].
  intros _. apply String.eqb_eq in E as <-. exact Hx.
Qed.

(** The text of a group that every match binds has the property of the group. *)
Lemma search_group (r : regex) (line n : string) (m : caps) :
  groups_ok P r -> binds n r = true -> search r line = Some m -> P n (group n m).
Proof.
  intros Hg Hb Hs. apply (search_sound r line m Hg) in Hs as (_ & _ & _ & _ & _ & Hc & Hbd).
  apply group_ok; auto.
Qed.

End RegexSoundness.

Section Digits.
Import Re.

Lemma chr_inv (p : ascii -> bool) (w : string) :
  matches (Chr p) w -> exists a, w = String a "" /\ p a = true.
Proof. inversion 1; subst. eauto. Qed.

Lemma star_chars (p : ascii -> bool) (w : string) :
  matches (Star (Chr p)) w -> PyStr.all_chars p w = true.
Proof.
  intros Hm. remember (Star (Chr p)) as r eqn:Er.
  induction Hm as [| | | | | |r0 w1 w2 H1 _ H2 IH2| |]; try discriminate; [done|].
  injection Er as ->. apply chr_inv in H1 as (a & -> & Ha).
  simpl. by rewrite Ha, IH2.
Qed.

Lemma plus_chars (p : ascii -> bool) (w : string) :
  matches (plus (Chr p)) w ->
  exists a w', w = String a w' /\ p a = true /\ PyStr.all_chars p w' = true.
Proof.
  unfold plus. inversion 1 as [| |r1 r2 w1 w2 H1 H2| | | | | |]; subst.
  apply chr_inv in H1 as (a & -> & Ha). apply star_chars in H2.
  by exists a, w2.
Qed.

Lemma digit_not_space (a : ascii) : PyStr.is_digit a = true -> PyStr.is_space a = false.
Proof. destruct a as [[] [] [] [] [] [] [] []]; vm_compute; congruence. Qed.

Lemma rstrip_digits (w : string) :
  PyStr.all_chars PyStr.is_digit w = true -> PyStr.rstrip w = w.
Proof.
  induction w as [|a w IH]; [done|]. simpl. intros Hd.
  apply andb_true_iff in Hd as [Ha Hw]. rewrite (IH Hw).
  destruct w; [|done]. by rewrite (digit_not_space a Ha).
Qed.

Lemma strip_digits (a : ascii) (w : string) :
  PyStr.is_digit a = true -> PyStr.all_chars PyStr.is_digit w = true ->
  PyStr.strip (String a w) = String a w.
Proof.
  intros Ha Hw. unfold PyStr.strip. rewrite rstrip_digits by (simpl; by rewrite Ha, Hw).
  simpl. by rewrite (digit_not_space a Ha).
Qed.

(** [int()] converts every non-empty run of digits. *)
Lemma to_int_digits (w : string) :
  matches (plus d) w -> is_Some (PyStr.to_int w).
Proof.
  intros Hm. apply plus_chars in Hm as (a & w' & -> & Ha & Hw).
  unfold PyStr.to_int. rewrite strip_digits by done.
  assert (PyStr.all_chars PyStr.is_digit (String a w') = true) as Hall
    by (simpl; by rewrite Ha, Hw).
  destruct a as [[] [] [] [] [] [] [] []]; try (vm_compute in Ha; discriminate Ha);
    rewrite Hall; eauto.
Qed.

End Digits.

(** ** The run-log parser *)

Module LogProperties.
Import Re QcOutput.

(** Case analysis on the computations that have returned. *)
Ltac returned :=
  repeat match goal with
         | H : Ok _ = Ok _ |- _ => injection H as H; try subst
         | H : Raise _ = Ok _ |- _ => discriminate H
         | H : (_ ≫= _) = Ok _ |- _ =>
             let x := fresh "x" in let Hx := fresh "Hx" in
             apply bind_Ok in H as (x & Hx & H)
         | H : (if ?c then _ else _) = Ok _ |- _ => destruct c eqn:?
         | H : match ?x with _ => _ end = Ok _ |- _ => destruct x eqn:?
         | H : (let _ := _ in _) = Ok _ |- _ => cbv zeta in H
         end.

(** The remaining conditionals of a goal. *)
Ltac branches :=
  repeat match goal with
         | |- context [if ?c then _ else _] => destruct c
         end.

Section Log.
Context {FO : PyFloat} {CH : Chemistry}.

Lemma update_last_Ok {A} (f : A -> A) (l l' : list A) :
  update_last f l = Ok l' -> l <> [] /\ l' <> [].
Proof.
  unfold update_last. destruct (reverse l) as [|x r] eqn:E; [discriminate|].
  intros [= <-]. split.
  - intros ->. discriminate.
  - intros Hr. apply (f_equal reverse) in Hr. rewrite reverse_involutive in Hr.
    discriminate.
Qed.

(** No block touches the list of errors. *)
Lemma step_input_errors line s s' : step_input line s = Ok s' -> errors s' = errors s.
Proof. unfold step_input. intros Hs. returned; by subst. Qed.

Lemma step_coords_errors line s s' : step_coords line s = Ok s' -> errors s' = errors s.
Proof. unfold step_coords. intros Hs. returned; by subst. Qed.

Lemma step_scf_iter_errors line s s' :
  step_scf_iter line s = Ok s' -> errors s' = errors s.
Proof. unfold step_scf_iter. intros Hs. returned; subst; by branches. Qed.

Lemma flush_grad_comp_errors s s' : flush_grad_comp s = Ok s' -> errors s' = errors s.
Proof. unfold flush_grad_comp. intros Hs. returned; by subst. Qed.

Lemma step_gradient_errors line s s' :
  step_gradient line s = Ok s' -> errors s' = errors s.
Proof.
  unfold step_gradient. intros Hs. returned;
    try match goal with
        | H : flush_grad_comp _ = Ok _ |- _ => by apply flush_grad_comp_errors in H
        end; done.
Qed.

Lemma step_freq_tail_errors line s s' :
  step_freq_tail line s = Ok s' -> errors s' = errors s.
Proof. unfold step_freq_tail. intros Hs. returned; by subst. Qed.

Lemma step_freq_errors line s s' : step_freq line s = Ok s' -> errors s' = errors s.
Proof.
  unfold step_freq. intros Hs. returned;
    try match goal with
        | H : step_freq_tail _ _ = Ok _ |- _ => by apply step_freq_tail_errors in H
        end; done.
Qed.

Lemma step_charge_errors line s s' : step_charge line s = Ok s' -> errors s' = errors s.
Proof. unfold step_charge. intros Hs. returned; by subst. Qed.

Lemma step_idle_sentinels_errors line s :
  errors (step_idle_sentinels line s) = errors s.
Proof. unfold step_idle_sentinels. repeat (destruct (_ : bool); [done|]). done. Qed.

Lemma idle_spin_errors line s s' : idle_spin line s = Ok s' -> errors s' = errors s.
Proof. unfold idle_spin. intros Hs. returned; done. Qed.

Lemma idle_charge_errors line s s' : idle_charge line s = Ok s' -> errors s' = errors s.
Proof. unfold idle_charge. intros Hs. returned; done. Qed.

Lemma idle_thermal_errors line s s' :
  idle_thermal line s = Ok s' -> errors s' = errors s.
Proof. unfold idle_thermal. intros Hs. returned; done. Qed.

Lemma idle_population_errors line s : errors (idle_population line s) = errors s.
Proof. unfold idle_population. by destruct (search _ _). Qed.

Lemma idle_append_energy_errors ne s : errors (idle_append_energy ne s) = errors s.
Proof.
  unfold idle_append_energy. destruct ne as [[name energy]|]; [|done].
  by destruct (_ && _).
Qed.

Lemma step_idle_values_errors line s s' :
  step_idle_values line s = Ok s' -> errors s' = errors s.
Proof.
  unfold step_idle_values. intros Hs.
  apply bind_Ok in Hs as (s1 & H1 & Hs). apply bind_Ok in Hs as (s2 & H2 & Hs).
  apply bind_Ok in Hs as (s3 & H3 & Hs). apply bind_Ok in Hs as (ne & _ & [= <-]).
  rewrite idle_append_energy_errors, idle_population_errors.
  apply idle_spin_errors in H1. apply idle_charge_errors in H2.
  apply idle_thermal_errors in H3. congruence.
Qed.

Lemma dispatch_errors line s s' : dispatch line s = Ok s' -> errors s' = errors s.
Proof.
  unfold dispatch, step_idle. intros Hs.
  repeat match type of Hs with
         | (if ?c then _ else _) = Ok _ => destruct c
         end;
    eauto using step_input_errors, step_coords_errors, step_scf_iter_errors,
      step_gradient_errors, step_freq_errors, step_charge_errors.
  apply bind_Ok in Hs as (s1 & H1 & [= <-]).
  rewrite step_idle_sentinels_errors. by apply step_idle_values_errors in H1.
Qed.

Lemma step_errors s line s' :
  step s line = Ok s' -> errors s' = errors s ++ error_labels line.
Proof. unfold step. intros Hs. by apply dispatch_errors in Hs. Qed.

Lemma fold_errors lines s s' :
  foldM step lines s = Ok s' ->
  errors s' = errors s ++ concat (error_labels <$> lines).
Proof.
  revert s. induction lines as [|line lines IH]; intros s; simpl.
  - intros [= <-]. by rewrite app_nil_r.
  - intros Hf. apply bind_Ok in Hf as (s1 & H1 & Hf).
    apply step_errors in H1. apply IH in Hf. rewrite Hf, H1. by rewrite <- app_assoc.
Qed.

(** *** The numbers that the patterns extract *)

Lemma py_float_Some (w : string) :
  is_Some (float_of_str w) -> exists x, py_float w = Ok x.
Proof. intros [x Hx]. exists x. unfold py_float. by rewrite Hx. Qed.

Lemma py_int_Some (w : string) :
  is_Some (PyStr.to_int w) -> exists z, py_int w = Ok z.
Proof. intros [z Hz]. exists z. unfold py_int. by rewrite Hz. Qed.

Lemma neg_decimal_converts (w : string) :
  float_converts_decimals -> matches neg_decimal w -> is_Some (float_of_str w).
Proof.
  intros Hd Hw. apply Hd. left. unfold neg_decimal, opt_neg_decimal, seqs in *.
  cbn [foldr] in *. inversion Hw; subst. constructor; [by apply m_alt_l|done].
Qed.

Lemma groups_ok_lit (P : string -> string -> Prop) (s : string) : groups_ok P (lit s).
Proof. induction s; simpl; auto. Qed.

Lemma scf_energy_converts (line : string) (m : caps) :
  float_converts_decimals -> search scf_energy_pattern line = Some m ->
  exists x, py_float (group "energy" m) = Ok x.
Proof.
  intros Hd Hs. apply py_float_Some.
  apply (search_group (fun _ w => is_Some (float_of_str w)) scf_energy_pattern line);
    [|reflexivity|done].
  unfold scf_energy_pattern, seqs. cbn [foldr].
  repeat split; try apply groups_ok_lit; try exact I.
  intros w. by apply neg_decimal_converts.
Qed.

Lemma corr_energy_converts (line : string) (m : caps) :
  float_converts_decimals -> search corr_energy_pattern line = Some m ->
  exists x, py_float (group "energy" m) = Ok x.
Proof.
  intros Hd Hs. apply py_float_Some.
  apply (search_group (fun n w => n = "energy" -> is_Some (float_of_str w))
           corr_energy_pattern line "energy" m); [|reflexivity|done|done].
  unfold corr_energy_pattern, seqs. cbn [foldr].
  repeat split; try apply groups_ok_lit; try exact I; try discriminate.
  intros w Hw _. by apply neg_decimal_converts.
Qed.

Lemma scf_iter_converts (line : string) (m : caps) :
  float_converts_decimals -> search scf_iter_pattern line = Some m ->
  (exists x, py_float (group "energy" m) = Ok x) /\
  (exists x, py_float (group "diis_error" m) = Ok x).
Proof.
  intros Hd Hs.
  assert (groups_ok (fun _ w => is_Some (float_of_str w)) scf_iter_pattern) as Hg.
  { unfold scf_iter_pattern, seqs. cbn [foldr].
    repeat split; try exact I.
    - intros w. by apply neg_decimal_converts.
    - intros w Hw. apply Hd. by right. }
  split; apply py_float_Some.
  - by apply (search_group _ scf_iter_pattern line "energy" m Hg).
  - by apply (search_group _ scf_iter_pattern line "diis_error" m Hg).
Qed.

Lemma num_ele_converts (line : string) (m : caps) :
  search num_ele_pattern line = Some m ->
  (exists z, py_int (group "alpha" m) = Ok z) /\
  (exists z, py_int (group "beta" m) = Ok z).
Proof.
  intros Hs.
  assert (groups_ok (fun _ w => is_Some (PyStr.to_int w)) num_ele_pattern) as Hg.
  { unfold num_ele_pattern, seqs. cbn [foldr].
    repeat split; try apply groups_ok_lit; try exact I; apply to_int_digits. }
  split; apply py_int_Some.
  - by apply (search_group _ num_ele_pattern line "alpha" m Hg).
  - by apply (search_group _ num_ele_pattern line "beta" m Hg).
Qed.

(** A line that reports a charge holds the text of the pattern's head. *)
Lemma lit_inv (p w : string) : matches (lit p) w -> w = p.
Proof.
  revert w. induction p as [|a p IH]; intros w; simpl; inversion 1; subst; [done|].
  match goal with
  | H1 : matches (chr a) _, H2 : matches (lit p) _ |- _ =>
      apply chr_inv in H1 as (b & -> & Hb); apply IH in H2 as ->
  end.
  apply Ascii.eqb_eq in Hb as ->. done.
Qed.

Lemma total_charge_contains (line : string) (m : caps) :
  search total_charge_pattern line = Some m ->
  PyStr.contains "Sum of atomic charges" line = true.
Proof.
  intros Hs.
  apply (search_sound (fun _ _ => True) total_charge_pattern line m) in Hs
    as (pre & w & post & -> & Hm & _).
  - unfold total_charge_pattern, seqs in Hm. cbn [foldr] in Hm.
    inversion Hm as [| |r1 r2 w1 w2 H1 H2| | | | | |]; subst.
    apply (lit_inv "Sum of atomic charges =") in H1 as ->.
    replace (pre +:+ ("Sum of atomic charges =" +:+ w2) +:+ post)
      with (pre +:+ "Sum of atomic charges" +:+ (" =" +:+ w2 +:+ post)).
    + apply contains_app.
    + by f_equal.
  - unfold total_charge_pattern, seqs. cbn [foldr].
    repeat split; try apply groups_ok_lit; exact I.
Qed.

Lemma found_false (r : regex) (line : string) :
  found r line = false -> search r line = None.
Proof.
  unfold found. intros Hf. apply bool_decide_eq_false in Hf.
  destruct (search r line); [|done]. exfalso. apply Hf. eauto.
Qed.

Lemma idle_energy_returns line :
  float_converts_decimals -> exists ne, idle_energy line = Ok ne.
Proof.
  intros Hd. unfold idle_energy.
  assert (exists ne,
            match search scf_energy_pattern line with
            | Some m => py_float (group "energy" m)
                        ≫= λ x, Ok (Some ("SCF", hartree_to_eV x))
            | None => Ok None
            end = Ok ne) as [ne ->].
  { destruct (search scf_energy_pattern line) as [m|] eqn:E; [|eauto].
    destruct (scf_energy_converts line m Hd E) as [x ->]. simpl. eauto. }
  simpl. destruct (search corr_energy_pattern line) as [m|] eqn:E; [|eauto].
  destruct (negb _); [|eauto].
  destruct (corr_energy_converts line m Hd E) as [x ->]. simpl. eauto.
Qed.

Lemma reverse_cons_ne {A} (x : A) (l : list A) : reverse (x :: l) <> [].
Proof.
  intros Hr. apply (f_equal reverse) in Hr. rewrite reverse_involutive in Hr.
  discriminate.
Qed.

(** *** The passes after the loop *)

Lemma mem_In (k : string) (l : list string) : mem k l = true -> In k l.
Proof.
  unfold mem. intros Hm. apply existsb_exists in Hm as (x & Hx & He).
  apply String.eqb_eq in He as ->. done.
Qed.

Lemma append_once_spec (label : string) (l : list string) :
  (exists rest, append_once label l = l ++ rest) /\ In label (append_once label l).
Proof.
  unfold append_once. destruct (mem label l) eqn:E.
  - split; [exists []; by rewrite app_nil_r | by apply mem_In].
  - split; [by exists [label] | apply in_or_app; right; by left].
Qed.

Lemma post_charge_spin_spec s s1 :
  post_charge_spin s = Ok s1 ->
  (exists rest, errors s1 = errors s ++ rest) /\
  scf_successful s1 = scf_successful s /\ jobtype s1 = jobtype s /\
  qctask s1 = qctask s /\
  (charge s = None -> In "Molecular charge is not found" (errors s1)).
Proof.
  unfold post_charge_spin. intros Hp. returned; simpl.
  - repeat split; [exists []; by rewrite app_nil_r | discriminate].
  - repeat split; [by eexists | discriminate].
  - repeat split; [by eexists|]. intros _. apply in_or_app. right. by left.
Qed.

Lemma post_input_spec s sm s2 :
  post_input s = Ok (sm, s2) ->
  (exists rest, errors s2 = errors s ++ rest) /\
  scf_successful s2 = scf_successful s.
Proof.
  unfold post_input. intros Hp. returned; simpl.
  - split; [exists []; by rewrite app_nil_r | done].
  - split; [by eexists | done].
Qed.

Lemma post_convergence_spec s :
  (exists rest, errors (post_convergence s) = errors s ++ rest) /\
  (scf_successful s = false -> In "Bad SCF convergence" (errors (post_convergence s))).
Proof.
  unfold post_convergence.
  destruct (append_once_spec "Bad SCF convergence" (errors s)) as [[r1 H1] Hin1].
  destruct (scf_successful s); simpl.
  - destruct (_ && _); simpl.
    + destruct (append_once_spec "Geometry optimization failed" (errors s)) as [H2 _].
      split; [done | discriminate].
    + split; [exists []; by rewrite app_nil_r | discriminate].
  - destruct (_ && _); simpl.
    + destruct (append_once_spec "Geometry optimization failed"
                  (append_once "Bad SCF convergence" (errors s))) as [[r2 H2] _].
      split.
      * exists (r1 ++ r2). by rewrite H2, H1, <- app_assoc.
      * intros _. rewrite H2. apply in_or_app. by left.
    + split; [by exists r1 | done].
Qed.

Lemma post_success_spec output s s3 :
  post_success output s = Ok s3 -> exists rest, errors s3 = errors s ++ rest.
Proof.
  unfold post_success. intros Hp. returned; simpl.
  - by eexists.
  - exists []. by rewrite app_nil_r.
Qed.

Lemma post_spec output s d :
  post output s = Ok d ->
  (exists rest, r_errors d = errors s ++ rest) /\
  r_has_error d = (0 <? List.length (r_errors d))%nat /\
  (charge s = None -> In "Molecular charge is not found" (r_errors d)) /\
  (scf_successful s = false -> In "Bad SCF convergence" (r_errors d)).
Proof.
  unfold post. intros Hp.
  apply bind_Ok in Hp as (s1 & H1 & Hp). apply bind_Ok in Hp as ([sm s2] & H2 & Hp).
  apply bind_Ok in Hp as (s3 & H3 & [= <-]). simpl in H3.
  apply post_charge_spin_spec in H1 as ([r1 E1] & Hsc1 & _ & _ & Hc1).
  apply post_input_spec in H2 as ([r2 E2] & Hsc2). simpl in E2, Hsc2.
  destruct (post_convergence_spec s2) as [[r3 E3] Hbad].
  apply post_success_spec in H3 as [r4 E4]. simpl.
  assert (errors s3 = errors s ++ (r1 ++ r2 ++ r3 ++ r4)) as Eall.
  { rewrite E4, E3, E2, E1. by rewrite <- !app_assoc. }
  split; [by eexists|]. split; [done|]. split.
  - intros Hc. specialize (Hc1 Hc). rewrite E4, E3, E2.
    do 3 (apply in_or_app; left). done.
  - intros Hs. rewrite E4. apply in_or_app. left. apply Hbad. congruence.
Qed.

(** *** Logs without the two markers *)

Lemma keeps_missing_refl s : keeps_missing s s.
Proof. by split. Qed.

Lemma keeps_missing_trans s1 s2 s3 :
  keeps_missing s1 s2 -> keeps_missing s2 s3 -> keeps_missing s1 s3.
Proof. intros [H1 H2] [H3 H4]. split; auto. Qed.

Ltac keeps_close :=
  first [ by split
        | match goal with
          | H : keeps_missing _ _ |- keeps_missing _ _ =>
              destruct H as [? ?]; split; simpl in *; by auto
          end ].

Lemma step_input_keeps line s s' : step_input line s = Ok s' -> keeps_missing s s'.
Proof. unfold step_input. intros Hs. returned; by split. Qed.

Lemma step_coords_keeps line s s' : step_coords line s = Ok s' -> keeps_missing s s'.
Proof. unfold step_coords. intros Hs. returned; by split. Qed.

Lemma flush_grad_comp_keeps s s' : flush_grad_comp s = Ok s' -> keeps_missing s s'.
Proof. unfold flush_grad_comp. intros Hs. returned; by split. Qed.

Lemma step_gradient_keeps line s s' : step_gradient line s = Ok s' -> keeps_missing s s'.
Proof.
  unfold step_gradient. intros Hs. returned;
    try match goal with
        | H : flush_grad_comp _ = Ok _ |- _ => apply flush_grad_comp_keeps in H
        end; keeps_close.
Qed.

Lemma step_freq_tail_keeps line s s' :
  step_freq_tail line s = Ok s' -> keeps_missing s s'.
Proof. unfold step_freq_tail. intros Hs. returned; by split. Qed.

Lemma step_freq_keeps line s s' : step_freq line s = Ok s' -> keeps_missing s s'.
Proof.
  unfold step_freq. intros Hs. returned;
    try match goal with
        | H : step_freq_tail _ _ = Ok _ |- _ => apply step_freq_tail_keeps in H
        end; keeps_close.
Qed.

Lemma step_charge_keeps line s s' : step_charge line s = Ok s' -> keeps_missing s s'.
Proof. unfold step_charge. intros Hs. returned; by split. Qed.

Lemma step_scf_iter_keeps line s s' :
  PyStr.contains "Convergence criterion met" line = false ->
  step_scf_iter line s = Ok s' -> keeps_missing s s'.
Proof. unfold step_scf_iter. intros Hc Hs. rewrite Hc in Hs. returned; by split. Qed.

Lemma step_idle_keeps line s s' :
  PyStr.contains "Sum of atomic charges" line = false ->
  step_idle line s = Ok s' -> keeps_missing s s'.
Proof.
  intros Hc. unfold step_idle, step_idle_values. intros Hs.
  apply bind_Ok in Hs as (s4 & Hs & [= <-]).
  apply bind_Ok in Hs as (s1 & H1 & Hs). apply bind_Ok in Hs as (s2 & H2 & Hs).
  apply bind_Ok in Hs as (s3 & H3 & Hs). apply bind_Ok in Hs as (ne & _ & [= <-]).
  assert (keeps_missing s s1) as K1.
  { unfold idle_spin in H1. returned; by split. }
  assert (keeps_missing s1 s2) as K2.
  { unfold idle_charge in H2. destruct (charge s1); [injection H2 as <-; by split|].
    destruct (search total_charge_pattern line) as [m|] eqn:E;
      [|injection H2 as <-; by split].
    apply total_charge_contains in E. congruence. }
  assert (keeps_missing s2 s3) as K3.
  { unfold idle_thermal in H3. returned; by split. }
  apply (keeps_missing_trans _ _ _ K1), (keeps_missing_trans _ _ _ K2),
    (keeps_missing_trans _ _ _ K3).
  unfold step_idle_sentinels, idle_append_energy, idle_population.
  split; intros Hk; branches;
    repeat match goal with
           | |- context [match ?x with _ => _ end] => destruct x
           end; simpl; done.
Qed.

Lemma step_keeps s line s' :
  PyStr.contains "Sum of atomic charges" line = false ->
  PyStr.contains "Convergence criterion met" line = false ->
  step s line = Ok s' -> keeps_missing s s'.
Proof.
  intros Hc Hm. unfold step.
  assert (keeps_missing s (scan_errors line s)) as K0 by (by split).
  intros Hs. apply (keeps_missing_trans _ _ _ K0). revert Hs.
  generalize (scan_errors line s). clear K0 s. intros s. unfold dispatch. intros Hs.
  repeat match type of Hs with
         | (if ?c then _ else _) = Ok _ => destruct c
         end;
    eauto using step_input_keeps, step_coords_keeps, step_scf_iter_keeps,
      step_gradient_keeps, step_freq_keeps, step_charge_keeps, step_idle_keeps.
Qed.

Lemma fold_keeps lines s s' :
  Forall (fun l => PyStr.contains "Sum of atomic charges" l = false /\
                   PyStr.contains "Convergence criterion met" l = false) lines ->
  foldM step lines s = Ok s' -> keeps_missing s s'.
Proof.
  intros Hall.
  apply (foldM_invariant (keeps_missing s)
           (fun l => PyStr.contains "Sum of atomic charges" l = false /\
                     PyStr.contains "Convergence criterion met" l = false));
    [|done|apply keeps_missing_refl].
  intros s0 l s1 [Hc Hm] K Hs. apply (keeps_missing_trans _ _ _ K).
  by apply (step_keeps s0 l).
Qed.

(** Whatever a chunk holds, the labels of its lines head the errors of the
    record. *)
Lemma errors_accumulated output d :
  _parse_job output = Ok d -> exists rest, r_errors d = scanned_labels output ++ rest.
Proof.
  unfold _parse_job. intros Hp. apply bind_Ok in Hp as (s & Hf & Hp).
  apply fold_errors in Hf. apply post_spec in Hp as ([rest Hr] & _).
  exists rest. by rewrite Hr, Hf.
Qed.

End Log.
End LogProperties.

(** ** The sample instance converts the decimal literals *)

Section SampleFloat.
Import Re Sample.

Lemma matches_nil_nullable (r : regex) : matches r "" -> nullable r = true.
Proof.
  intros Hm. remember "" as w eqn:Ew.
  induction Hm as [|p a Hp|r1 r2 w1 w2 H1 IH1 H2 IH2|r1 r2 w H1 IH1|r1 r2 w H2 IH2
                  |r1|r1 w1 w2 H1 IH1 H2 IH2|n r1 w H1 IH1|]; simpl; try done.
  - apply str_app_eq_nil in Ew as [-> ->]. by rewrite IH1, IH2.
  - by rewrite IH1.
  - rewrite IH2 by done. apply orb_true_r.
  - by apply IH1.
Qed.

Lemma matches_deriv (r : regex) (w : string) :
  matches r w -> forall a w', w = String a w' -> matches (deriv a r) w'.
Proof.
  induction 1 as [|p b Hp|r1 r2 w1 w2 H1 IH1 H2 IH2|r1 r2 w H1 IH1|r1 r2 w H2 IH2
                 |r1|r1 w1 w2 H1 IH1 H2 IH2|n r1 w H1 IH1|]; intros a w' Ew; simpl;
    try discriminate.
  - injection Ew as -> <-. rewrite Hp. constructor.
  - destruct w1 as [|b w1].
    + simpl in Ew. rewrite (matches_nil_nullable r1 H1). apply m_alt_r. by apply IH2.
    + simpl in Ew. injection Ew as -> <-.
      assert (matches (Seq (deriv a r1) r2) (w1 +:+ w2)) as Hs
        by (constructor; [by apply IH1|done]).
      destruct (nullable r1); [by apply m_alt_l|done].
  - apply m_alt_l. by apply IH1.
  - apply m_alt_r. by apply IH2.
  - destruct w1 as [|b w1].
    + simpl in Ew. by apply IH2.
    + simpl in Ew. injection Ew as -> <-. constructor; [by apply IH1|done].
  - by apply IH1.
Qed.

(** The derivative recogniser accepts every text of the language. *)
Lemma accepts_complete (w : string) (r : regex) : matches r w -> accepts r w = true.
Proof.
  revert r. induction w as [|a w IH]; intros r Hm; simpl.
  - by apply matches_nil_nullable.
  - apply IH. by apply (matches_deriv r (String a w)).
Qed.

Lemma matches_eq (r : regex) (w w' : string) : matches r w -> w = w' -> matches r w'.
Proof. by intros Hm <-. Qed.

Lemma plus_star (r : regex) (w : string) : matches (plus r) w -> matches (Star r) w.
Proof. unfold plus. inversion 1; subst. by constructor. Qed.

Lemma opt_minus_sign (w : string) : matches (opt (chr "-")) w -> matches (opt sign) w.
Proof.
  unfold opt. inversion 1 as [| | |r1 r2 w0 H1|r1 r2 w0 H2| | | |]; subst.
  - apply m_alt_l. apply chr_inv in H1 as (a & -> & Ha).
    apply Ascii.eqb_eq in Ha as <-. by constructor.
  - by apply m_alt_r.
Qed.

Lemma sign_opt_sign (w : string) : matches sign w -> matches (opt sign) w.
Proof. by apply m_alt_l. Qed.

(** The mantissa [\d+\.\d+] in the two syntaxes. *)
Lemma decimal_mantissa (w : string) :
  matches decimal w ->
  matches (Alt (seqs [plus d; opt (seqs [chr "."; Star d])]) (seqs [chr "."; plus d])) w.
Proof.
  unfold decimal, seqs. cbn [foldr].
  inversion 1 as [| |r1 r2 w1 w2 H1 H2| | | | | |]; subst.
  inversion H2 as [| |r1 r2 w3 w4 H3 H4| | | | | |]; subst.
  inversion H4 as [| |r1 r2 w5 w6 H5 H6| | | | | |]; subst.
  inversion H6; subst.
  apply m_alt_l.
  apply (matches_eq _ (w1 +:+ ((w3 +:+ (w5 +:+ "")) +:+ ""))).
  - constructor; [done|]. constructor; [|constructor].
    apply m_alt_l. constructor; [done|]. constructor; [by apply plus_star|constructor].
  - by rewrite !str_app_nil_r.
Qed.

Lemma opt_neg_decimal_syntax (w : string) :
  matches QcOutput.opt_neg_decimal w -> matches float_syntax w.
Proof.
  unfold QcOutput.opt_neg_decimal, float_syntax, seqs. cbn [foldr].
  inversion 1 as [| |r1 r2 w1 w2 H1 H2| | | | | |]; subst.
  inversion H2 as [| |r1 r2 w3 w4 H3 H4| | | | | |]; subst.
  inversion H4; subst.
  apply (matches_eq _ ("" +:+ (w1 +:+ (w3 +:+ ("" +:+ ("" +:+ "")))))).
  - constructor; [constructor|]. constructor; [by apply opt_minus_sign|].
    constructor; [by apply decimal_mantissa|].
    constructor; [by apply m_alt_r; constructor|].
    constructor; constructor.
  - by rewrite !str_app_nil_r.
Qed.

Lemma sci_decimal_syntax (w : string) :
  matches QcOutput.sci_decimal w -> matches float_syntax w.
Proof.
  unfold QcOutput.sci_decimal, float_syntax, seqs. cbn [foldr].
  inversion 1 as [| |r1 r2 w1 w2 H1 H2| | | | | |]; subst.
  inversion H2 as [| |r1 r2 w3 w4 H3 H4| | | | | |]; subst.
  inversion H4 as [| |r1 r2 w5 w6 H5 H6| | | | | |]; subst.
  inversion H6 as [| |r1 r2 w7 w8 H7 H8| | | | | |]; subst.
  inversion H8; subst.
  apply (matches_eq _ ("" +:+ ("" +:+ (w1 +:+ ((w3 +:+ (w5 +:+ (w7 +:+ ""))) +:+ ("" +:+ "")))))).
  - constructor; [constructor|]. constructor; [by apply m_alt_r; constructor|].
    constructor; [by apply decimal_mantissa|].
    constructor; [|constructor; constructor].
    apply m_alt_l. constructor.
    + apply chr_inv in H3 as (a & -> & Ha). apply Ascii.eqb_eq in Ha as <-.
      by constructor.
    + constructor; [by apply sign_opt_sign|]. constructor; [done|constructor].
  - by rewrite !str_app_nil_r.
Qed.

Lemma sample_float_converts_decimals :
  @QcOutput.float_converts_decimals sample_float.
Proof.
  intros w Hw. simpl. unfold dec_of_str.
  rewrite accepts_complete; [by eexists|].
  destruct Hw; [by apply opt_neg_decimal_syntax | by apply sci_decimal_syntax].
Qed.

End SampleFloat.

Section LogTheorems.
Import Re QcOutput LogProperties.
Context {FO : PyFloat} {CH : Chemistry}.

(** C6: a chunk whose text contains neither "Convergence criterion met"
    nor "Sum of atomic charges": every record that the parser returns for
    it has both "Molecular charge is not found" and "Bad SCF convergence"
    among its errors. *)
Theorem missing_markers_reported (output : string) (d : job_data) :
  PyStr.contains "Convergence criterion met" output = false ->
  PyStr.contains "Sum of atomic charges" output = false ->
  _parse_job output = Ok d ->
  In "Molecular charge is not found" (r_errors d) /\
  In "Bad SCF convergence" (r_errors d).
Proof.
  intros Hm Hc Hp. unfold _parse_job in Hp. apply bind_Ok in Hp as (s & Hf & Hp).
  apply lines_without in Hm, Hc.
  assert (Forall (fun l => PyStr.contains "Sum of atomic charges" l = false /\
                           PyStr.contains "Convergence criterion met" l = false)
                 (PyStr.split_on "010" output)) as Hall.
  { apply Forall_forall. intros l Hl.
    split; [by apply (proj1 (Forall_forall _ _) Hc) | by apply (proj1 (Forall_forall _ _) Hm)]. }
  destruct (fold_keeps _ _ _ Hall Hf) as [Kc Ks].
  apply post_spec in Hp as (_ & _ & H1 & H2). split; [apply H1|apply H2]; auto.
Qed.

(** C10: in every record that the parser returns, [has_error] is true
    exactly when the list of errors is not empty. *)
Theorem has_error_reflects_errors (output : string) (d : job_data) :
  _parse_job output = Ok d -> (r_has_error d = true <-> r_errors d <> []).
Proof.
  unfold _parse_job. intros Hp. apply bind_Ok in Hp as (s & _ & Hp).
  apply post_spec in Hp as (_ & -> & _). destruct (r_errors d); simpl; split; done.
Qed.

End LogTheorems.

Section LogExamples.
Import Re QcOutput.
#[local] Existing Instance Sample.sample_float.
#[local] Existing Instance Sample.sample_chemistry.

(** C4 as stated fails: a gradient block of one row followed by the head of
    a new block makes the parser raise. *)
Lemma malformed_gradient_block_raises :
  _parse_job Sample.bad_gradient_log
  = Raise (Exception "Gradient section parsing failed") /\
  ~ returns (_parse_job Sample.bad_gradient_log).
Proof.
  assert (error_of (_parse_job Sample.bad_gradient_log)
          = Some (Exception "Gradient section parsing failed")) as E
    by (vm_compute; reflexivity).
  apply error_of_Some in E. split; [done|]. rewrite E. intros [d Hd]. discriminate.
Qed.

Lemma missing_markers_reported_witness :
  (PyStr.contains "Convergence criterion met" Sample.bare_log = false /\
   PyStr.contains "Sum of atomic charges" Sample.bare_log = false) /\
  exists d, _parse_job Sample.bare_log = Ok d /\
            In "Molecular charge is not found" (r_errors d) /\
            In "Bad SCF convergence" (r_errors d).
Proof.
  split; [split; reflexivity|].
  assert (is_ok (_parse_job Sample.bare_log) = true) as Hok
    by (vm_compute; reflexivity).
  apply is_ok_returns in Hok as [d E].
  exists d. split; [exact E|].
  apply (missing_markers_reported Sample.bare_log d); [reflexivity..|exact E].
Defined.

Lemma has_error_reflects_errors_witness :
  exists d, _parse_job Sample.clean_log = Ok d /\
            (r_has_error d = true <-> r_errors d <> []).
Proof.
  assert (is_ok (_parse_job Sample.clean_log) = true) as Hok
    by (vm_compute; reflexivity).
  apply is_ok_returns in Hok as [d E].
  exists d. split; [exact E|].
  exact (has_error_reflects_errors Sample.clean_log d E).
Defined.

End LogExamples.

(** ** The parts of the record and their markers *)

Section LogMarkers.
Import Re QcOutput LogProperties.
Context {FO : PyFloat} {CH : Chemistry}.

Lemma keeps_unmarked_refl line s : keeps_unmarked line s s.
Proof. unfold keeps_unmarked. tauto. Qed.

Ltac unmarked :=
  unfold keeps_unmarked, no_input, no_coords, no_scf, no_gradient, no_freq,
    input_marker, coords_marker, scf_marker_diis, scf_marker_gdm, gradient_marker,
    freq_marker, end_marker, opt_marker, charge_marker, scf_success_marker in *;
  simpl; repeat split; intros; simpl in *; intuition (try congruence).

Lemma step_input_unmarked line s s' :
  parse_input s = true -> step_input line s = Ok s' -> keeps_unmarked line s s'.
Proof. unfold step_input. intros Hf Hs. returned; unmarked. Qed.

Lemma step_coords_unmarked line s s' :
  parse_coords s = true -> step_coords line s = Ok s' -> keeps_unmarked line s s'.
Proof. unfold step_coords. intros Hf Hs. returned; unmarked. Qed.

Lemma step_scf_iter_unmarked line s s' :
  parse_scf_iter s = true -> step_scf_iter line s = Ok s' -> keeps_unmarked line s s'.
Proof.
  unfold step_scf_iter. intros Hf Hs.
  destruct (PyStr.contains "Convergence criterion met" line) eqn:Ec; returned; unmarked.
Qed.

Lemma flush_grad_comp_unmarked line s s' :
  parse_gradient s = true -> flush_grad_comp s = Ok s' ->
  keeps_unmarked line s s' /\ parse_gradient s' = true.
Proof. unfold flush_grad_comp. intros Hf Hs. returned; split; try done; unmarked. Qed.

Lemma step_gradient_unmarked line s s' :
  parse_gradient s = true -> step_gradient line s = Ok s' -> keeps_unmarked line s s'.
Proof.
  unfold step_gradient. intros Hf Hs. returned;
    try match goal with
        | H : flush_grad_comp _ = Ok _ |- _ =>
            apply (flush_grad_comp_unmarked line) in H as [H _]; [|done]
        end; unmarked.
Qed.

Lemma step_freq_tail_unmarked line s s' :
  parse_freq s = true -> step_freq_tail line s = Ok s' -> keeps_unmarked line s s'.
Proof. unfold step_freq_tail. intros Hf Hs. returned; unmarked. Qed.

Lemma step_freq_unmarked line s s' :
  parse_freq s = true -> step_freq line s = Ok s' -> keeps_unmarked line s s'.
Proof.
  unfold step_freq. intros Hf Hs. returned;
    try match goal with
        | H : step_freq_tail _ _ = Ok _ |- _ =>
            apply step_freq_tail_unmarked in H; [|done]
        end; unmarked.
Qed.

Lemma step_charge_unmarked line s s' :
  step_charge line s = Ok s' -> keeps_unmarked line s s'.
Proof. unfold step_charge. intros Hs. returned; unmarked. Qed.

Lemma keeps_unmarked_trans line s1 s2 s3 :
  keeps_unmarked line s1 s2 -> keeps_unmarked line s2 s3 -> keeps_unmarked line s1 s3.
Proof. unfold keeps_unmarked. intros H1 H2. intuition. Qed.

Lemma step_idle_unmarked line s s' :
  step_idle line s = Ok s' -> keeps_unmarked line s s'.
Proof.
  unfold step_idle, step_idle_values. intros Hs.
  apply bind_Ok in Hs as (s4 & Hs & [= <-]).
  apply bind_Ok in Hs as (s1 & H1 & Hs). apply bind_Ok in Hs as (s2 & H2 & Hs).
  apply bind_Ok in Hs as (s3 & H3 & Hs). apply bind_Ok in Hs as (ne & _ & [= <-]).
  assert (keeps_unmarked line s s1) as K1.
  { unfold idle_spin in H1. returned; unmarked. }
  assert (keeps_unmarked line s1 s2) as K2.
  { unfold idle_charge in H2. destruct (charge s1) eqn:Ec; [injection H2 as <-; unmarked|].
    destruct (search total_charge_pattern line) as [m|] eqn:E;
      [|injection H2 as <-; unmarked].
    apply total_charge_contains in E. returned. unmarked. }
  assert (keeps_unmarked line s2 s3) as K3.
  { unfold idle_thermal in H3. returned; unmarked. }
  apply (keeps_unmarked_trans _ _ _ _ K1), (keeps_unmarked_trans _ _ _ _ K2),
    (keeps_unmarked_trans _ _ _ _ K3).
  clear. unfold step_idle_sentinels, idle_append_energy, idle_population.
  destruct (PyStr.contains "Cycle       Energy         DIIS Error" line) eqn:Hd;
    destruct (PyStr.contains "Cycle       Energy        RMS Gradient" line) eqn:Hg;
    cbn [orb];
    destruct ne as [[name energy]|]; destruct (search detailed_charge_pattern line);
    repeat match goal with
           | |- context [if ?c then _ else _] => destruct c eqn:?
           end; unmarked.
Qed.

Lemma step_unmarked s line s' : step s line = Ok s' -> keeps_unmarked line s s'.
Proof.
  unfold step. intros Hs.
  assert (keeps_unmarked line s (scan_errors line s)) as K0 by unmarked.
  apply (keeps_unmarked_trans _ _ _ _ K0). revert Hs.
  generalize (scan_errors line s). clear K0 s. intros s. unfold dispatch. intros Hs.
  repeat match type of Hs with
         | (if ?c then _ else _) = Ok _ => destruct c eqn:?
         end;
    eauto using step_input_unmarked, step_coords_unmarked, step_scf_iter_unmarked,
      step_gradient_unmarked, step_freq_unmarked, step_charge_unmarked,
      step_idle_unmarked.
Qed.

(** A part whose marker is in no line is still untouched after the loop. *)
Lemma fold_unmarked (P : job_state -> Prop) (Q : string -> Prop)
    (lines : list string) (s s' : job_state) :
  (forall line s s', Q line -> keeps_unmarked line s s' -> P s -> P s') ->
  Forall Q lines -> foldM step lines s = Ok s' -> P s -> P s'.
Proof.
  intros Hk Hall Hf Hs. revert Hall Hs Hf. apply foldM_invariant.
  intros s0 l s1 Hq Hp Hstep. apply (Hk l s0 s1 Hq); [|done]. by apply step_unmarked.
Qed.

Lemma mapM_length {A B} (f : A -> result B) (l : list A) (l' : list B) :
  mapM f l = Ok l' -> List.length l' = List.length l.
Proof.
  revert l'. induction l as [|a l IH]; intros l'; cbn.
  - by intros [= <-].
  - intros Hm. apply bind_Ok in Hm as (b & _ & Hm).
    apply bind_Ok in Hm as (k & Hk & [= <-]). cbn. by rewrite (IH k).
Qed.

Lemma same_parts_trans s1 s2 s3 : same_parts s1 s2 -> same_parts s2 s3 -> same_parts s1 s3.
Proof. unfold same_parts. intros H1 H2. intuition congruence. Qed.

Lemma post_charge_spin_parts s s1 : post_charge_spin s = Ok s1 -> same_parts s s1.
Proof.
  unfold post_charge_spin, same_parts. intros H1.
  destruct (charge s); [destruct (spin_multiplicity s)|]; try (injection H1 as <-; done).
  apply bind_Ok in H1 as (mols & Hm & [= <-]). apply mapM_length in Hm. done.
Qed.

Lemma post_input_parts s sm s2 : post_input s = Ok (sm, s2) -> same_parts s s2.
Proof. unfold post_input, same_parts. intros H2. returned; simpl; done. Qed.

Lemma post_convergence_parts s : same_parts s (post_convergence s).
Proof.
  unfold post_convergence, same_parts.
  destruct (negb (scf_successful s)); simpl; destruct (_ && _); simpl; done.
Qed.

Lemma post_success_parts output s s3 : post_success output s = Ok s3 -> same_parts s s3.
Proof. unfold post_success, same_parts. intros H3. returned; simpl; done. Qed.

(** What the passes after the loop leave as the loop computed it. *)
Lemma post_frame output s d :
  post output s = Ok d ->
  r_input d = qctask s /\ r_jobtype d = jobtype s /\
  List.length (r_molecules d) = List.length (molecules s) /\
  r_scf_iteration_energies d = scf_iters s /\ r_gradients d = gradients s /\
  r_frequencies d = freqs s /\ r_gracefully_terminated d = properly_terminated s /\
  r_energies d = energies s /\ r_charges d = charges s.
Proof.
  unfold post. intros Hp.
  apply bind_Ok in Hp as (s1 & H1 & Hp). apply bind_Ok in Hp as ([sm s2] & H2 & Hp).
  apply bind_Ok in Hp as (s3 & H3 & [= <-]). cbn [fst snd] in H3.
  apply post_charge_spin_parts in H1. apply post_input_parts in H2.
  apply post_success_parts in H3.
  assert (same_parts s (set_thermal_corr (convert_thermal_corr (thermal_corr s1)) s1)) as H1'
    by (unfold same_parts in *; simpl; done).
  pose proof (same_parts_trans _ _ _ H1'
                (same_parts_trans _ _ _ H2
                   (same_parts_trans _ _ _ (post_convergence_parts s2) H3))) as F.
  unfold same_parts in F. simpl. done.
Qed.

Lemma append_once_ne (label : string) (l : list string) : append_once label l <> [].
Proof.
  destruct (append_once_spec label l) as [_ Hin]. intros E. by rewrite E in Hin.
Qed.

(** A record without errors: what the passes after the loop have found. *)
Lemma post_clean output s d :
  post output s = Ok d -> r_errors d = [] ->
  errors s = [] /\ is_Some (charge s) /\ is_Some (qctask s) /\
  scf_successful s = true /\
  (is_str (jobtype s) "opt" = true -> opt_successful s = true).
Proof.
  unfold post. intros Hp He.
  apply bind_Ok in Hp as (s1 & H1 & Hp). apply bind_Ok in Hp as ([sm s2] & H2 & Hp).
  apply bind_Ok in Hp as (s3 & H3 & [= <-]). cbn [fst snd] in H3. simpl in He.
  apply post_success_spec in H3 as [r4 E4]. rewrite He in E4.
  symmetry in E4. apply app_eq_nil in E4 as [E4 _].
  assert (errors s2 = [] /\ scf_successful s2 = true /\
          (is_str (jobtype s2) "opt" = true -> opt_successful s2 = true)) as (E2 & Hs2 & Ho2).
  { revert E4. unfold post_convergence.
    destruct (scf_successful s2); simpl.
    - destruct (is_str (jobtype s2) "opt"); simpl; [|done].
      destruct (opt_successful s2); simpl; [done|].
      intros E. by apply append_once_ne in E.
    - destruct (_ && _); simpl; intros E; by apply append_once_ne in E. }
  remember (set_thermal_corr (convert_thermal_corr (thermal_corr s1)) s1) as s1' eqn:Es1.
  assert (errors s1' = [] /\ is_Some (qctask s1') /\ s2 = s1') as (E1 & Hq1 & ->).
  { unfold post_input in H2.
    destruct (qctask s1') eqn:Eq.
    - apply bind_Ok in H2 as (rem & _ & [= _ <-]). done.
    - injection H2 as _ <-. simpl in E2. by apply app_eq_nil in E2 as [_ ?]. }
  subst s1'. simpl in E1, Hq1, Hs2, Ho2.
  unfold post_charge_spin in H1.
  destruct (charge s) eqn:Ec.
  - destruct (spin_multiplicity s).
    + apply bind_Ok in H1 as (mols & _ & [= <-]). simpl in *. done.
    + injection H1 as <-. simpl in E1. by apply app_eq_nil in E1 as [_ ?].
  - injection H1 as <-. simpl in E1. by apply app_eq_nil in E1 as [_ ?].
Qed.

End LogMarkers.

(** ** The record of a chunk and the text of the chunk *)

Section LogExtras.
Import Re QcOutput LogProperties.
Context {FO : PyFloat} {CH : Chemistry}.

Lemma loop_and_passes (output : string) (d : job_data) :
  _parse_job output = Ok d ->
  exists s, foldM step (log_lines output) init_state = Ok s /\ post output s = Ok d.
Proof. unfold _parse_job. intros Hp. by apply bind_Ok in Hp. Qed.

(** X1: whatever lines a chunk holds, the labels of the failure signatures
    found in them, in the order of the lines, are the first errors of
    every record that the parser returns; the passes after the loop only
    append. *)
Theorem scanned_labels_head_errors (output : string) (d : job_data) :
  _parse_job output = Ok d ->
  exists rest, r_errors d = scanned_labels output ++ rest.
Proof. apply errors_accumulated. Qed.

(** X2: every part of the record is filled only below its marker.  A
    chunk without "User input:" gives a record without input and job
    type; without "Standard Nuclear Orientation (Angstroms)" there are no
    molecules, without the two heads of the SCF table no SCF iterations,
    without "Gradient of SCF Energy" no gradients, without "VIBRATIONAL
    ANALYSIS" no frequencies, and without the closing line of Q-Chem the
    record is not gracefully terminated. *)
Theorem record_parts_have_markers (output : string) (d : job_data) :
  _parse_job output = Ok d ->
  (PyStr.contains input_marker output = false ->
   r_input d = None /\ r_jobtype d = None) /\
  (PyStr.contains coords_marker output = false -> r_molecules d = []) /\
  (PyStr.contains scf_marker_diis output = false ->
   PyStr.contains scf_marker_gdm output = false ->
   r_scf_iteration_energies d = []) /\
  (PyStr.contains gradient_marker output = false -> r_gradients d = []) /\
  (PyStr.contains freq_marker output = false -> r_frequencies d = []) /\
  (PyStr.contains end_marker output = false -> r_gracefully_terminated d = false).
Proof.
  intros Hp. apply loop_and_passes in Hp as (s & Hf & Hp).
  apply post_frame in Hp as (-> & -> & Hm & -> & -> & -> & -> & _).
  split; [|split; [|split; [|split; [|split]]]].
  - intros Hc. apply lines_without in Hc.
    assert (no_input s) as (_ & Hq & Hj); [|done].
    apply (fold_unmarked no_input _ _ _ _ (fun l s0 s1 Hl K => proj1 K Hl) Hc Hf).
    by repeat split.
  - intros Hc. apply lines_without in Hc.
    assert (no_coords s) as [_ Hs].
    { apply (fold_unmarked no_coords _ _ _ _
               (fun l s0 s1 Hl K => proj1 (proj2 K) Hl) Hc Hf). by split. }
    rewrite Hs in Hm. by destruct (r_molecules d).
  - intros Hc1 Hc2. apply lines_without in Hc1, Hc2.
    assert (Forall (fun l => PyStr.contains scf_marker_diis l = false /\
                             PyStr.contains scf_marker_gdm l = false)
                   (log_lines output)) as Hc.
    { apply Forall_forall. intros l Hl.
      split; [by apply (proj1 (Forall_forall _ _) Hc1)
             | by apply (proj1 (Forall_forall _ _) Hc2)]. }
    apply (fold_unmarked no_scf _ _ _ _
             (fun l s0 s1 Hl K => proj1 (proj2 (proj2 K)) (proj1 Hl) (proj2 Hl)) Hc Hf).
    by split.
  - intros Hc. apply lines_without in Hc.
    apply (fold_unmarked no_gradient _ _ _ _
             (fun l s0 s1 Hl K => proj1 (proj2 (proj2 (proj2 K))) Hl) Hc Hf).
    by split.
  - intros Hc. apply lines_without in Hc.
    apply (fold_unmarked no_freq _ _ _ _
             (fun l s0 s1 Hl K => proj1 (proj2 (proj2 (proj2 (proj2 K)))) Hl) Hc Hf).
    by split.
  - intros Hc. apply lines_without in Hc.
    apply (fold_unmarked (fun s => properly_terminated s = false) _ _ _ _
             (fun l s0 s1 Hl K => proj1 (proj2 (proj2 (proj2 (proj2 (proj2 K))))) Hl)
             Hc Hf).
    done.
Qed.

(** X3: a record without errors is the record of a chunk that echoes its
    input, reports the sum of the atomic charges and a converged SCF, and
    for a geometry optimization its convergence: the record holds the
    input job and its [has_error] is false. *)
Theorem record_without_errors (output : string) (d : job_data) :
  _parse_job output = Ok d -> r_errors d = [] ->
  r_has_error d = false /\ is_Some (r_input d) /\
  PyStr.contains input_marker output = true /\
  PyStr.contains charge_marker output = true /\
  PyStr.contains scf_success_marker output = true /\
  (r_jobtype d = Some (VStr "opt") -> PyStr.contains opt_marker output = true).
Proof.
  intros Hp He. apply loop_and_passes in Hp as (s & Hf & Hp).
  pose proof (post_spec _ _ _ Hp) as (_ & Hh & _).
  pose proof (post_frame _ _ _ Hp) as (Hi & Hj & _).
  apply post_clean in Hp as (_ & Hc & Hq & Hs & Ho); [|done].
  split; [by rewrite Hh, He|]. split; [by rewrite Hi|].
  split; [|split; [|split]].
  - destruct (PyStr.contains input_marker output) eqn:E; [done|].
    apply lines_without in E.
    assert (no_input s) as (_ & Hn & _).
    { apply (fold_unmarked no_input _ _ _ _ (fun l s0 s1 Hl K => proj1 K Hl) E Hf).
      by repeat split. }
    rewrite Hn in Hq. by destruct Hq.
  - destruct (PyStr.contains charge_marker output) eqn:E; [done|].
    apply lines_without in E.
    assert (charge s = None) as Hn.
    { apply (fold_unmarked (fun s => charge s = None) _ _ _ _
               (fun l s0 s1 Hl K =>
                  proj1 (proj2 (proj2 (proj2 (proj2 (proj2 (proj2 (proj2 K))))))) Hl)
               E Hf). done. }
    rewrite Hn in Hc. by destruct Hc.
  - destruct (PyStr.contains scf_success_marker output) eqn:E; [done|].
    apply lines_without in E.
    assert (scf_successful s = false) as Hn.
    { apply (fold_unmarked (fun s => scf_successful s = false) _ _ _ _
               (fun l s0 s1 Hl K =>
                  proj2 (proj2 (proj2 (proj2 (proj2 (proj2 (proj2 (proj2 K))))))) Hl)
               E Hf). done. }
    congruence.
  - intros Hopt. rewrite Hj in Hopt.
    destruct (PyStr.contains opt_marker output) eqn:E; [done|].
    apply lines_without in E.
    assert (opt_successful s = false) as Hn.
    { apply (fold_unmarked (fun s => opt_successful s = false) _ _ _ _
               (fun l s0 s1 Hl K =>
                  proj1 (proj2 (proj2 (proj2 (proj2 (proj2 (proj2 K)))))) Hl)
               E Hf). done. }
    rewrite Ho in Hn; [done|]. by rewrite Hopt.
Qed.

(** *** Labels that the passes after the loop add once *)

Lemma In_mem (k : string) (l : list string) : In k l -> mem k l = true.
Proof.
  unfold mem. intros Hin. apply existsb_exists. exists k. split; [done|].
  apply String.eqb_refl.
Qed.

Lemma count_occ_other (l : list string) (x y : string) :
  x <> y -> count_occ string_dec (l ++ [x]) y = count_occ string_dec l y.
Proof.
  intros Hn. rewrite count_occ_app. cbn. destruct (string_dec x y); [done|lia].
Qed.

Lemma append_once_count (label x : string) (l : list string) :
  In label l ->
  count_occ string_dec (append_once x l) label = count_occ string_dec l label /\
  In label (append_once x l).
Proof.
  intros Hin. unfold append_once. destruct (mem x l) eqn:Em; [done|].
  split; [|apply in_or_app; by left]. apply count_occ_other.
  intros ->. apply In_mem in Hin. congruence.
Qed.

Lemma post_count output s d (label : string) :
  post output s = Ok d ->
  label = "Bad SCF convergence" \/ label = "Geometry optimization failed" ->
  In label (errors s) ->
  count_occ string_dec (r_errors d) label = count_occ string_dec (errors s) label.
Proof.
  unfold post. intros Hp Hl Hin.
  apply bind_Ok in Hp as (s1 & H1 & Hp). apply bind_Ok in Hp as ([sm s2] & H2 & Hp).
  apply bind_Ok in Hp as (s3 & H3 & [= <-]). cbn [fst snd] in H3. simpl.
  assert (count_occ string_dec (errors s1) label = count_occ string_dec (errors s) label
          /\ In label (errors s1)) as [C1 I1].
  { unfold post_charge_spin in H1.
    destruct (charge s); [destruct (spin_multiplicity s)|].
    - apply bind_Ok in H1 as (mols & _ & [= <-]). done.
    - injection H1 as <-. simpl. split; [|apply in_or_app; by left].
      apply count_occ_other. by destruct Hl as [-> | ->].
    - injection H1 as <-. simpl. split; [|apply in_or_app; by left].
      apply count_occ_other. by destruct Hl as [-> | ->]. }
  remember (set_thermal_corr (convert_thermal_corr (thermal_corr s1)) s1) as s1' eqn:Es1.
  assert (count_occ string_dec (errors s2) label = count_occ string_dec (errors s) label
          /\ In label (errors s2)) as [C2 I2].
  { unfold post_input in H2. destruct (qctask s1').
    - apply bind_Ok in H2 as (rem & _ & [= _ <-]). by subst s1'.
    - injection H2 as _ <-. subst s1'. simpl. split; [|apply in_or_app; by left].
      rewrite <- C1. apply count_occ_other. by destruct Hl as [-> | ->]. }
  assert (count_occ string_dec (errors (post_convergence s2)) label
          = count_occ string_dec (errors s) label
          /\ In label (errors (post_convergence s2))) as [C3 I3].
  { unfold post_convergence. rewrite <- C2.
    destruct (negb (scf_successful s2)); simpl.
    - destruct (append_once_count label "Bad SCF convergence" _ I2) as [Ca Ia].
      destruct (_ && _); simpl; [|done].
      destruct (append_once_count label "Geometry optimization failed" _ Ia) as [Cb Ib].
      split; [congruence|done].
    - destruct (_ && _); simpl; [|done].
      by apply append_once_count. }
  unfold post_success in H3.
  destruct (errors (post_convergence s2)) as [|e es] eqn:E; [destruct I3|].
  cbn in H3. injection H3 as <-. by rewrite E.
Qed.

(** X4: a label of bad SCF convergence or of a failed geometry
    optimization that the scan of the lines has found is not appended
    again by the passes after the loop: the record holds it as often as
    the lines gave it. *)
Theorem convergence_label_not_repeated (output label : string) (d : job_data) :
  _parse_job output = Ok d ->
  label = "Bad SCF convergence" \/ label = "Geometry optimization failed" ->
  In label (scanned_labels output) ->
  count_occ string_dec (r_errors d) label
  = count_occ string_dec (scanned_labels output) label.
Proof.
  intros Hp Hl Hin. apply loop_and_passes in Hp as (s & Hf & Hp).
  apply fold_errors in Hf. change (errors s = scanned_labels output) in Hf.
  rewrite <- Hf in *. by apply (post_count output).
Qed.

(** *** The chunks of a file *)

Lemma job_header_contains (s : string) (c : caps) :
  match_ (Group "0" job_header) s = Some c ->
  PyStr.contains "Running Job " s = true.
Proof.
  intros Hm.
  apply (match_sound (fun _ _ => True)) in Hm as (w & post & -> & Hm & _).
  - inversion Hm as [| | | | | | |n r w0 Hw|]; subst.
    unfold job_header, seqs in Hw. cbn [foldr] in Hw.
    inversion Hw as [| |r1 r2 w1 w2 H1 H2| | | | | |]; subst.
    inversion H2 as [| |r3 r4 w3 w4 H3 H4| | | | | |]; subst.
    inversion H4 as [| |r5 r6 w5 w6 H5 H6| | | | | |]; subst.
    apply (lit_inv "Running Job ") in H5 as ->.
    replace ((w1 +:+ w3 +:+ "Running Job " +:+ w6) +:+ post)
      with ((w1 +:+ w3) +:+ "Running Job " +:+ (w6 +:+ post))
      by (by rewrite !str_app_assoc).
    apply contains_app.
  - unfold job_header, seqs. cbn [foldr groups_ok].
    repeat split; try apply groups_ok_lit; exact I.
Qed.

Lemma contains_tail (sub : string) (a : ascii) (s : string) :
  PyStr.contains sub (String a s) = false -> PyStr.contains sub s = false.
Proof. cbn [PyStr.contains]. intros Hc. by apply orb_false_iff in Hc as [_ ?]. Qed.

Lemma split_re_no_header (fuel : nat) (s cur : string) :
  PyStr.contains "Running Job " s = false ->
  split_re fuel job_header s cur = [cur +:+ s].
Proof.
  revert s cur. induction fuel as [|n IH]; intros s cur Hc; [done|].
  cbn [split_re].
  destruct (match_ (Group "0" job_header) s) as [c|] eqn:E.
  { apply job_header_contains in E. congruence. }
  destruct s as [|a s]; [by rewrite str_app_nil_r|].
  rewrite IH by (by apply contains_tail in Hc).
  by rewrite str_app_assoc.
Qed.

(** X5: a file without the text "Running Job " is one chunk: the data of
    the output are the one record of the whole text, and the constructor
    raises exactly when the parse of that text raises. *)
Theorem file_without_job_header_is_one_chunk (data : string) :
  PyStr.contains "Running Job " data = false ->
  QcOutput_init data = (fun d => [d]) <$> _parse_job data.
Proof.
  intros Hc. unfold QcOutput_init. rewrite split_re_no_header by done.
  change ("" +:+ data) with data. cbn [mapM].
  destruct (_parse_job data); reflexivity.
Qed.

End LogExtras.

(** ** The keyword setters *)

Section Setters.
Context {FO : PyFloat} {CH : Chemistry}.

Lemma differ_in_rem_refl (ks : list string) (t : QcTask) : differ_in_rem ks t t.
Proof. by repeat split. Qed.

Lemma differ_in_rem_trans (ks : list string) (t1 t2 t3 : QcTask) :
  differ_in_rem ks t1 t2 -> differ_in_rem ks t2 t3 -> differ_in_rem ks t1 t3.
Proof.
  intros (H1 & S1 & R1) (H2 & S2 & R2). split; [by apply (same_head_trans _ t2)|].
  split.
  - intros sec Hs. by rewrite S2, S1.
  - intros k Hk. by rewrite R2, R1.
Qed.

Lemma set_rem_spec (k : string) (v : pyval) (t t' : QcTask) :
  set_rem k v t = Ok t' ->
  rem_value t' k = Some v /\
  (forall ks, In k ks -> differ_in_rem ks t t').
Proof.
  unfold set_rem, get_rem. intros Hb. apply bind_Ok in Hb as (d & Hd & [= <-]).
  destruct (params t !! "rem") as [[|d0]|] eqn:Er; try discriminate.
  injection Hd as ->. unfold rem_value. cbn [params]. rewrite lookup_insert_eq.
  split; [by rewrite lookup_insert_eq|].
  intros ks Hin. split; [by repeat split|]. split.
  - intros sec Hs. cbn [params]. by rewrite lookup_insert_ne.
  - intros k' Hk'. unfold rem_value. cbn [params]. rewrite lookup_insert_eq, Er.
    rewrite lookup_insert_ne; [done|]. intros ->. done.
Qed.

Lemma set_rem_other (k k' : string) (v : pyval) (t t' : QcTask) :
  set_rem k v t = Ok t' -> k' <> k -> rem_value t' k' = rem_value t k'.
Proof.
  intros Hs Hn. apply set_rem_spec in Hs as [_ Hd].
  destruct (Hd [k] (or_introl eq_refl)) as (_ & _ & Hr). apply Hr.
  intros [->|[]]. done.
Qed.

Lemma set_rem_returns (k : string) (v : pyval) (t : QcTask) :
  has_rem t -> returns (set_rem k v t).
Proof. intros Hr. destruct (set_rem_has_rem k v t Hr) as (t' & -> & _). by exists t'. Qed.

Lemma set_rem_raises (k : string) (v : pyval) (t : QcTask) :
  has_rem t -> ~ raises (set_rem k v t).
Proof.
  intros Hr. destruct (set_rem_has_rem k v t Hr) as (t' & -> & _). apply raises_Ok.
Qed.

Ltac rem_steps :=
  repeat match goal with
         | H : Ok _ = Ok _ |- _ => injection H as <-
         | H : Raise _ = Ok _ |- _ => discriminate H
         | H : (_ ≫= _) = Ok _ |- _ =>
             let x := fresh "t" in let Hx := fresh "Hx" in
             apply bind_Ok in H as (x & Hx & H)
         | H : (if ?c then _ else _) = Ok _ |- _ => destruct c eqn:?
         | H : match ?x with _ => _ end = Ok _ |- _ => destruct x eqn:?
         end.

Ltac differ :=
  match goal with
  | |- differ_in_rem ?ks _ _ =>
      repeat match goal with
             | H : set_rem ?k _ _ = Ok _ |- _ =>
                 apply set_rem_spec in H as [_ H];
                 specialize (H ks ltac:(cbn; tauto))
             end
  end;
  eauto using differ_in_rem_refl, differ_in_rem_trans.

(** X6: a keyword setter that returns has changed nothing but its own
    keywords of [$rem]: the molecule, the charge, the spin multiplicity,
    the other sections and the other keywords are those of before. *)
Theorem setters_touch_own_keywords (c : setter_call) (t t' : QcTask) :
  call c t = Ok t' -> differ_in_rem (keywords c) t t'.
Proof.
  destruct c; cbn [call keywords];
    unfold set_memory, set_rem_if_nonzero, set_max_num_of_scratch_files,
      set_scf_algorithm_and_iterations, set_scf_convergence_threshold,
      set_integral_threshold, set_dft_grid, set_scf_initial_guess,
      set_geom_max_iterations, set_geom_opt_coords_type, set_geom_opt_use_gdiis,
      disable_symmetry, use_cosmo;
    intros Hc; rem_steps; differ.
Qed.

End Setters.

(** ** Decimal digits *)

From Stdlib Require DecimalFacts DecimalPos DecimalN DecimalZ.

Section DecimalDigits.

Lemma usize_nb_digits (d : Decimal.uint) :
  DecimalPos.Unsigned.usize d = N.of_nat (Decimal.nb_digits d).
Proof.
  induction d; cbn [DecimalPos.Unsigned.usize Decimal.nb_digits];
    rewrite ?IHd, ?Nat2N.inj_succ; done.
Qed.

(** The number that a string of digits reads as. *)
Lemma of_uint_acc_value (d : Decimal.uint) (k : positive) :
  Z.pos (Pos.of_uint_acc d k)
  = Z.pos k * 10 ^ Z.of_nat (Decimal.nb_digits d) + Z.of_uint d.
Proof.
  unfold Z.of_uint.
  rewrite (DecimalPos.Unsigned.of_uint_alt d).
  change (Z.pos (Pos.of_uint_acc d k)) with (Z.of_N (N.pos (Pos.of_uint_acc d k))).
  rewrite DecimalPos.Unsigned.of_uint_acc_rev, usize_nb_digits.
  rewrite N2Z.inj_add, N2Z.inj_mul, N2Z.inj_pow, nat_N_Z. cbn. lia.
Qed.

Lemma digits_value_of_uint (d : Decimal.uint) (acc : Z) :
  PyStr.digits_value acc (NilEmpty.string_of_uint d)
  = acc * 10 ^ Z.of_nat (Decimal.nb_digits d) + Z.of_uint d.
Proof.
  revert acc.
  induction d as [|d IH|d IH|d IH|d IH|d IH|d IH|d IH|d IH|d IH|d IH]; intros acc;
    cbn [NilEmpty.string_of_uint PyStr.digits_value Decimal.nb_digits];
    [cbn; lia|..];
    rewrite IH, Nat2Z.inj_succ, Z.pow_succ_r by lia;
    change (Z.of_nat (PyStr.code _ - 48)) with 0 at 1 || idtac.
  all: try (unfold Z.of_uint at 2; cbn [Pos.of_uint]; fold (Z.of_uint d)).
  all: try (change (Z.of_N (N.pos (Pos.of_uint_acc d ?k)))
              with (Z.pos (Pos.of_uint_acc d k))).
  all: rewrite ?of_uint_acc_value.
  all: vm_compute PyStr.code; cbn [Nat.sub Z.of_nat]; try lia.
Qed.

Lemma string_of_uint_length (d : Decimal.uint) :
  String.length (NilEmpty.string_of_uint d) = Decimal.nb_digits d.
Proof. induction d; cbn; by rewrite ?IHd. Qed.

Lemma string_of_uint_digits (d : Decimal.uint) :
  PyStr.all_chars PyStr.is_digit (NilEmpty.string_of_uint d) = true.
Proof. induction d; cbn [NilEmpty.string_of_uint PyStr.all_chars]; by rewrite ?IHd. Qed.

Lemma of_uint_nonneg (d : Decimal.uint) : 0 <= Z.of_uint d.
Proof. unfold Z.of_uint. lia. Qed.

(** A number whose first digit is not zero is at least the power of ten
    of its length. *)
Lemma of_uint_lower_bound (d : Decimal.uint) :
  Decimal.nzhead d = d -> d <> Decimal.Nil ->
  10 ^ (Z.of_nat (Decimal.nb_digits d) - 1) <= Z.of_uint d.
Proof.
  intros Hn Hd. destruct d as [|d|d|d|d|d|d|d|d|d|d]; [done| |..].
  { exfalso. by apply (DecimalFacts.nzhead_nonzero (Decimal.D0 d) d). }
  all: unfold Z.of_uint; cbn [Pos.of_uint Decimal.nb_digits].
  all: change (Z.of_N (N.pos (Pos.of_uint_acc d ?k))) with (Z.pos (Pos.of_uint_acc d k)).
  all: rewrite of_uint_acc_value, Nat2Z.inj_succ.
  all: replace (Z.succ (Z.of_nat (Decimal.nb_digits d)) - 1)
         with (Z.of_nat (Decimal.nb_digits d)) by lia.
  all: pose proof (of_uint_nonneg d);
       pose proof (Z.pow_pos_nonneg 10 (Z.of_nat (Decimal.nb_digits d))); nia.
Qed.

Lemma to_uint_nzhead (p : positive) :
  Decimal.nzhead (Pos.to_uint p) = Pos.to_uint p.
Proof.
  pose proof (DecimalN.Unsigned.to_of (Pos.to_uint p)) as H.
  unfold N.of_uint in H. rewrite DecimalPos.Unsigned.of_to in H. cbn [N.to_uint] in H.
  symmetry in H. unfold Decimal.unorm in H.
  destruct (Decimal.nzhead (Pos.to_uint p)) eqn:E; try done.
  exfalso. exact (DecimalPos.Unsigned.to_uint_nonzero p (eq_sym H)).
Qed.

(** [str(z)] of a number from 0 to 999999: at most six digits that read
    as [z]. *)
Lemma of_int_six_digits (z : Z) :
  0 <= z < 10 ^ 6 ->
  exists ds, PyStr.of_int z = ds /\ (1 <= String.length ds <= 6)%nat /\
             PyStr.all_chars PyStr.is_digit ds = true /\
             PyStr.digits_value 0 ds = z.
Proof.
  intros Hz. exists (PyStr.of_int z). split; [done|]. unfold PyStr.of_int.
  destruct z as [|p|p]; [cbn; repeat split; lia| |lia].
  cbn [Z.to_int NilEmpty.string_of_int].
  rewrite string_of_uint_length, string_of_uint_digits, digits_value_of_uint.
  assert (Z.of_uint (Pos.to_uint p) = Z.pos p) as Hv.
  { unfold Z.of_uint. by rewrite DecimalPos.Unsigned.of_to. }
  pose proof (of_uint_lower_bound (Pos.to_uint p) (to_uint_nzhead p)
                (DecimalPos.Unsigned.to_uint_nonnil p)) as Hl.
  rewrite Hv in *. split; [|split; [done|lia]].
  assert (Pos.to_uint p <> Decimal.Nil) as Hnil
    by apply DecimalPos.Unsigned.to_uint_nonnil.
  split.
  - destruct (Pos.to_uint p); cbn; [done|lia..].
  - assert (Z.of_nat (Decimal.nb_digits (Pos.to_uint p)) - 1 < 6); [|lia].
    apply (Z.pow_lt_mono_r_iff 10); lia.
Qed.

End DecimalDigits.

(** ** The grid of [set_dft_grid] *)

Section Grid.
Context {FO : PyFloat} {CH : Chemistry}.

Lemma repeat_char_length (c : ascii) (n : nat) :
  String.length (PyStr.repeat_char c n) = n.
Proof. induction n; cbn; by rewrite ?IHn. Qed.

Lemma all_chars_app (p : ascii -> bool) (a b : string) :
  PyStr.all_chars p (a +:+ b) = PyStr.all_chars p a && PyStr.all_chars p b.
Proof.
  induction a as [|c a IH]; [done|].
  change (String c a +:+ b) with (String c (a +:+ b)).
  cbn [PyStr.all_chars]. by rewrite IH, andb_assoc.
Qed.

Lemma zeros_digits (n : nat) :
  PyStr.all_chars PyStr.is_digit (PyStr.repeat_char "0" n) = true.
Proof. induction n; [done|]. cbn [PyStr.repeat_char PyStr.all_chars]. by rewrite IHn. Qed.

Lemma zeros_value (n : nat) (s : string) :
  PyStr.digits_value 0 (PyStr.repeat_char "0" n +:+ s) = PyStr.digits_value 0 s.
Proof. induction n; [done|]. exact IHn. Qed.

Lemma substring_all (s : string) : String.substring 0 (String.length s) s = s.
Proof. induction s as [|c s IH]; [done|]. cbn. by rewrite IH. Qed.

Lemma substring_app_l (a b : string) :
  String.substring 0 (String.length a) (a +:+ b) = a.
Proof.
  induction a as [|c a IH]; [by destruct b|].
  change (String c a +:+ b) with (String c (a +:+ b)). cbn. by rewrite IH.
Qed.

Lemma substring_app_r (a b : string) (m : nat) :
  String.substring (String.length a) m (a +:+ b) = String.substring 0 m b.
Proof.
  induction a as [|c a IH]; [done|].
  change (String c a +:+ b) with (String c (a +:+ b)). cbn. by rewrite IH.
Qed.

(** [int()] reads a non-empty string of digits as its value. *)
Lemma to_int_all_digits (s : string) :
  s <> "" -> PyStr.all_chars PyStr.is_digit s = true ->
  PyStr.to_int s = Some (PyStr.digits_value 0 s).
Proof.
  intros Hne Hall. destruct s as [|a w]; [done|].
  pose proof Hall as Hall'. cbn [PyStr.all_chars] in Hall'.
  apply andb_true_iff in Hall' as [Ha Hw].
  unfold PyStr.to_int. rewrite strip_digits by done.
  destruct a as [[] [] [] [] [] [] [] []]; try (vm_compute in Ha; discriminate Ha);
    rewrite Hall; f_equal; lia.
Qed.

(** Six digits for a number from 0 to 999999. *)
Lemma format_06d_spec (z : Z) :
  0 <= z < 10 ^ 6 ->
  String.length (format_06d z) = 6%nat /\
  PyStr.to_int (format_06d z) = Some z.
Proof.
  intros Hz. destruct (of_int_six_digits z Hz) as (ds & Hds & Hlen & Hdig & Hval).
  unfold format_06d. replace (z <? 0) with false by (symmetry; apply Z.ltb_ge; lia).
  rewrite Z.abs_eq by lia. rewrite Hds.
  assert (String.length (PyStr.repeat_char "0" (6 - String.length ds) +:+ ds) = 6%nat)
    as Hl by (rewrite str_length_app, repeat_char_length; lia).
  split; [done|].
  rewrite to_int_all_digits.
  - by rewrite zeros_value, Hval.
  - intros E. rewrite E in Hl. discriminate.
  - by rewrite all_chars_app, zeros_digits, Hdig.
Qed.

Lemma grid_code_decodes (rp ap : Z) :
  0 <= rp < 10 ^ 6 -> 0 <= ap < 10 ^ 6 -> decodes_grid (grid_code rp ap) rp ap.
Proof.
  intros Hr Ha. destruct (format_06d_spec rp Hr) as [Lr Vr].
  destruct (format_06d_spec ap Ha) as [La Va].
  unfold decodes_grid, grid_code. split; [by rewrite str_length_app, Lr, La|].
  rewrite <- Lr at 1. rewrite substring_app_l. split; [done|].
  rewrite <- Lr at 1. rewrite substring_app_r. rewrite <- La at 1.
  by rewrite substring_all.
Qed.

End Grid.

(** ** The setters that validate their argument *)

Section ValidatedSetters.
Context {FO : PyFloat} {CH : Chemistry}.

Lemma mem_false (k : string) (l : list string) : mem k l = false <-> ~ In k l.
Proof.
  split.
  - intros Hm Hin. apply In_mem in Hin. congruence.
  - intros Hn. destruct (mem k l) eqn:E; [|done].
    apply LogProperties.mem_In in E. done.
Qed.

(** X7: [set_scf_algorithm_and_iterations] and [set_scf_initial_guess] on
    a task with its [$rem]: the call raises exactly when the argument,
    lowercased, is outside the vocabulary of the method, and a call that
    returns has stored the lowercased argument, a word of the
    vocabulary. *)
Theorem vocabulary_setters_validate (t : QcTask) (word : string) (iterations : Z) :
  has_rem t ->
  (raises (set_scf_algorithm_and_iterations word iterations t) <->
   ~ In (PyStr.lower word) available_algorithms) /\
  (forall t', set_scf_algorithm_and_iterations word iterations t = Ok t' ->
     In (PyStr.lower word) available_algorithms /\
     rem_value t' "scf_algorithm" = Some (VStr (PyStr.lower word)) /\
     rem_value t' "max_scf_cycles" = Some (VInt iterations)) /\
  (raises (set_scf_initial_guess word t) <->
   ~ In (PyStr.lower word) available_guesses) /\
  (forall t', set_scf_initial_guess word t = Ok t' ->
     In (PyStr.lower word) available_guesses /\
     rem_value t' "scf_guess" = Some (VStr (PyStr.lower word))).
Proof.
  intros Hr. unfold set_scf_algorithm_and_iterations, set_scf_initial_guess.
  split; [|split; [|split]].
  - destruct (mem (PyStr.lower word) available_algorithms) eqn:Em; cbn [negb].
    + split; [|intros Hn; by apply LogProperties.mem_In in Em].
      intros Hx. exfalso. revert Hx.
      destruct (set_rem_has_rem "scf_algorithm" (VStr (PyStr.lower word)) t Hr)
        as (t1 & -> & _ & Hr1). cbn.
      by apply set_rem_raises.
    + split; [intros _; by apply mem_false | intros _; apply raises_Raise].
  - intros t'. destruct (mem (PyStr.lower word) available_algorithms) eqn:Em;
      cbn [negb]; [|discriminate].
    intros Hs. apply bind_Ok in Hs as (t1 & H1 & H2).
    split; [by apply LogProperties.mem_In|].
    split; [|by apply set_rem_spec in H2 as [? _]].
    rewrite (set_rem_other _ "scf_algorithm" _ _ _ H2) by done.
    by apply set_rem_spec in H1 as [? _].
  - destruct (mem (PyStr.lower word) available_guesses) eqn:Em; cbn [negb].
    + split; [|intros Hn; by apply LogProperties.mem_In in Em].
      intros Hx. exfalso. by apply set_rem_raises in Hx.
    + split; [intros _; by apply mem_false | intros _; apply raises_Raise].
  - intros t'. destruct (mem (PyStr.lower word) available_guesses) eqn:Em;
      cbn [negb]; [|discriminate].
    intros Hs. split; [by apply LogProperties.mem_In|].
    by apply set_rem_spec in Hs as [? _].
Qed.

Lemma coords_code_In (k : string) (l : list (string * Z)) (code : Z) :
  coords_code k l = Some code -> In (k, code) l.
Proof.
  induction l as [|[k' v] l IH]; cbn; [discriminate|].
  destruct (String.eqb k' k) eqn:E.
  - apply String.eqb_eq in E as ->. intros [= ->]. by left.
  - intros Hc. right. by apply IH.
Qed.

Lemma coords_code_None (k : string) (l : list (string * Z)) :
  coords_code k l = None <-> ~ In k l.*1.
Proof.
  induction l as [|[k' v] l IH]; cbn; [tauto|].
  destruct (String.eqb k' k) eqn:E.
  - apply String.eqb_eq in E as ->. split; [discriminate|]. intros Hn.
    exfalso. apply Hn. by left.
  - apply String.eqb_neq in E. rewrite IH. tauto.
Qed.

(** X8: [set_geom_opt_coords_type] on a task with its [$rem] raises
    exactly when the lowercased argument is no key of the map of the
    coordinate systems, and a call that returns has stored the code of
    the map, a number from -2 to 2. *)
Theorem coords_type_is_validated (t : QcTask) (coords_type : string) :
  has_rem t ->
  (raises (set_geom_opt_coords_type coords_type t) <->
   ~ In (PyStr.lower coords_type) coords_map.*1) /\
  (forall t', set_geom_opt_coords_type coords_type t = Ok t' ->
     exists code, In (PyStr.lower coords_type, code) coords_map /\
                  rem_value t' "geom_opt_coords" = Some (VInt code) /\
                  -2 <= code <= 2).
Proof.
  intros Hr. unfold set_geom_opt_coords_type.
  destruct (coords_code (PyStr.lower coords_type) coords_map) as [code|] eqn:Ec.
  - split.
    + split; [intros Hx; by apply set_rem_raises in Hx|].
      intros Hn. apply coords_code_None in Hn. congruence.
    + intros t' Hs. exists code. apply coords_code_In in Ec.
      split; [done|]. split; [by apply set_rem_spec in Hs as [? _]|].
      cbn in Ec. intuition (simplify_eq; lia).
  - split; [|discriminate].
    split; [intros _; by apply coords_code_None | intros _; apply raises_Raise].
Qed.

(** X9: the default value of the argument of [set_geom_opt_coords_type],
    "internal_switch", is written with an underscore and the keys of the
    map with a hyphen: the call with the default raises on every task. *)
Theorem default_coords_type_is_rejected (t : QcTask) :
  set_geom_opt_coords_type "internal_switch" t
  = Raise (ValueError "Coodinate system internal_switch is not supported yet").
Proof. reflexivity. Qed.

(** X10: [set_memory] neglects an amount that is [None] or zero, also on
    a task without [$rem], and stores every other amount. *)
Theorem set_memory_neglects_zero (t : QcTask) (total static : option Z) :
  ((total = None \/ total = Some 0) -> (static = None \/ static = Some 0) ->
   set_memory total static t = Ok t) /\
  (forall t', set_memory total static t = Ok t' ->
     (forall z, total = Some z -> z <> 0 -> rem_value t' "mem_total" = Some (VInt z)) /\
     (forall z, static = Some z -> z <> 0 -> rem_value t' "mem_static" = Some (VInt z)) /\
     ((total = None \/ total = Some 0) ->
      rem_value t' "mem_total" = rem_value t "mem_total") /\
     ((static = None \/ static = Some 0) ->
      rem_value t' "mem_static" = rem_value t "mem_static")).
Proof.
  unfold set_memory, set_rem_if_nonzero. split.
  - intros [-> | ->] [-> | ->]; reflexivity.
  - intros t' Hs. apply bind_Ok in Hs as (t1 & H1 & H2).
    assert (forall z, z <> 0 -> negb (z =? 0) = true) as Hnz
      by (intros z Hz; apply negb_true_iff, Z.eqb_neq, Hz).
    split; [|split; [|split]].
    + intros z -> Hz. rewrite (Hnz z Hz) in H1.
      transitivity (rem_value t1 "mem_total").
      * destruct static as [z'|]; [|by injection H2 as <-].
        destruct (negb (z' =? 0)); [|by injection H2 as <-].
        by apply (set_rem_other _ "mem_total") in H2.
      * by apply set_rem_spec in H1 as [? _].
    + intros z -> Hz. rewrite (Hnz z Hz) in H2.
      by apply set_rem_spec in H2 as [? _].
    + intros Ht.
      assert (t1 = t) as -> by (destruct Ht as [-> | ->]; by injection H1 as <-).
      destruct static as [z'|]; [|by injection H2 as <-].
      destruct (negb (z' =? 0)); [|by injection H2 as <-].
      by apply (set_rem_other _ "mem_total") in H2.
    + intros Hst.
      assert (t' = t1) as -> by (destruct Hst as [-> | ->]; by injection H2 as <-).
      destruct total as [z'|]; [|by injection H1 as <-].
      destruct (negb (z' =? 0)); [|by injection H1 as <-].
      by apply (set_rem_other _ "mem_static") in H1.
Qed.

Lemma existsb_Zeqb (z : Z) (l : list Z) : existsb (Z.eqb z) l = true <-> In z l.
Proof.
  rewrite existsb_exists. split.
  - intros (x & Hin & He). apply Z.eqb_eq in He as ->. done.
  - intros Hin. exists z. split; [done|]. apply Z.eqb_refl.
Qed.

(** X11: [set_dft_grid] on a task with its [$rem] raises exactly when the
    lowercased grid type is "lebedev" and the number of angular points is
    not in the table of the Lebedev grids, or when the grid type is none
    of the four that are supported; the standard grids SG-0 and SG-1
    store the numbers 0 and 1 whatever the points. *)
Theorem dft_grid_is_validated (t : QcTask) (rp ap : Z) (grid_type : string) :
  has_rem t ->
  (raises (set_dft_grid rp ap grid_type t) <->
   (PyStr.lower grid_type = "lebedev" /\ ~ In ap available_lebedev_angular_points) \/
   ~ In (PyStr.lower grid_type) ["sg-0"; "sg-1"; "lebedev"; "gauss-legendre"]) /\
  (forall t', set_dft_grid rp ap grid_type t = Ok t' ->
     (PyStr.lower grid_type = "sg-0" -> rem_value t' "xc_grid" = Some (VInt 0)) /\
     (PyStr.lower grid_type = "sg-1" -> rem_value t' "xc_grid" = Some (VInt 1))).
Proof.
  intros Hr. unfold set_dft_grid.
  destruct (String.eqb_spec (PyStr.lower grid_type) "sg-0") as [E0|N0].
  { split.
    - split; [intros Hx; by apply set_rem_raises in Hx|].
      intros [[E _]|Hn]; [congruence|]. exfalso. apply Hn. rewrite E0. by left.
    - intros t' Hs. split; [|congruence]. intros _. by apply set_rem_spec in Hs as [? _]. }
  destruct (String.eqb_spec (PyStr.lower grid_type) "sg-1") as [E1|N1].
  { split.
    - split; [intros Hx; by apply set_rem_raises in Hx|].
      intros [[E _]|Hn]; [congruence|]. exfalso. apply Hn. rewrite E1. right. by left.
    - intros t' Hs. split; [congruence|]. intros _. by apply set_rem_spec in Hs as [? _]. }
  destruct (String.eqb_spec (PyStr.lower grid_type) "lebedev") as [E2|N2].
  { destruct (existsb (Z.eqb ap) available_lebedev_angular_points) eqn:Ea; cbn [negb].
    - apply existsb_Zeqb in Ea. split; [|done]. split.
      + intros Hx. by apply set_rem_raises in Hx.
      + intros [[_ Hn]|Hn]; [done|]. exfalso. apply Hn. rewrite E2. do 2 right. by left.
    - split; [|discriminate]. split; [|intros _; apply raises_Raise].
      intros _. left. split; [done|]. intros Hin. apply existsb_Zeqb in Hin. congruence. }
  destruct (String.eqb_spec (PyStr.lower grid_type) "gauss-legendre") as [E3|N3].
  { split; [|done]. split.
    - intros Hx. by apply set_rem_raises in Hx.
    - intros [[E _]|Hn]; [congruence|]. exfalso. apply Hn. rewrite E3. do 3 right. by left. }
  split; [|discriminate]. split; [|intros _; apply raises_Raise].
  intros _. right. cbn. intuition congruence.
Qed.

(** X12: the twelve digits of a Lebedev or Gauss-Legendre grid.  For
    numbers of points from 0 to 999999 the stored text has six digits
    that read as the radial points followed by six digits that read as
    the angular points, after a minus sign for a Gauss-Legendre grid. *)
Theorem dft_grid_code_decodes (t t' : QcTask) (rp ap : Z) (grid_type : string) :
  0 <= rp < 10 ^ 6 -> 0 <= ap < 10 ^ 6 ->
  set_dft_grid rp ap grid_type t = Ok t' ->
  (PyStr.lower grid_type = "lebedev" ->
   exists code, rem_value t' "xc_grid" = Some (VStr code) /\ decodes_grid code rp ap) /\
  (PyStr.lower grid_type = "gauss-legendre" ->
   exists code, rem_value t' "xc_grid" = Some (VStr (String "-" code)) /\
                decodes_grid code rp ap).
Proof.
  intros Hrp Hap Hs. unfold set_dft_grid in Hs. cbv zeta in Hs.
  split; intros E; rewrite E in Hs; cbn [String.eqb Ascii.eqb Bool.eqb] in Hs.
  - destruct (negb _); [discriminate|].
    exists (grid_code rp ap). split; [by apply set_rem_spec in Hs as [? _]|].
    by apply grid_code_decodes.
  - exists (grid_code rp ap).
    split; [by apply set_rem_spec in Hs as [? _]|]. by apply grid_code_decodes.
Qed.

End ValidatedSetters.

(** ** The solvent model *)

Section Pcm.
Context {FO : PyFloat} {CH : Chemistry}.

Lemma lower_char_idem (c : ascii) :
  PyStr.lower_char (PyStr.lower_char c) = PyStr.lower_char c.
Proof. destruct c as [[] [] [] [] [] [] [] []]; reflexivity. Qed.

Lemma lower_idem (s : string) : PyStr.lower (PyStr.lower s) = PyStr.lower s.
Proof.
  induction s as [|c s IH]; [done|].
  unfold PyStr.lower in *. cbn [PyStr.map_chars]. by rewrite lower_char_idem, IH.
Qed.

Lemma lower_keys_insert (k : string) (v : pyval) (d : gmap string pyval) :
  lower_keys d -> lower_keys (<[PyStr.lower k := v]> d).
Proof.
  intros Hd k' Hk'. destruct (decide (k' = PyStr.lower k)) as [->|Hn].
  - apply lower_idem.
  - rewrite lookup_insert_ne in Hk' by done. by apply Hd.
Qed.

Lemma store_lowered_keys (items : list (string * pyval)) (d : gmap string pyval) :
  lower_keys d -> lower_keys (store_lowered items d).
Proof.
  revert d. induction items as [|[k v] items IH]; intros d Hd; [done|].
  cbn [store_lowered foldl fst snd]. apply IH. by apply lower_keys_insert.
Qed.

Lemma store_missing_keys (items : list (string * pyval)) (d : gmap string pyval) :
  lower_keys d -> lower_keys (store_missing items d).
Proof.
  revert d. induction items as [|[k v] items IH]; intros d Hd; [done|].
  cbn [store_missing foldl fst snd]. apply IH.
  destruct (d !! PyStr.lower k); [done|]. by apply lower_keys_insert.
Qed.

(** The loop over the defaults fills in what the user has not given. *)
Lemma store_missing_defaults (vdw_scale : float) (d : gmap string pyval) (k : string) :
  store_missing (default_pcm_params vdw_scale) d !! k
  = d !! k ∪ store_lowered (default_pcm_params vdw_scale) ∅ !! k.
Proof.
  unfold store_missing, store_lowered, default_pcm_params. cbn [foldl fst snd lower_if_str].
  change (PyStr.lower "Theory") with "theory".
  change (PyStr.lower "vdwScale") with "vdwscale".
  change (PyStr.lower "Radii") with "radii".
  change (PyStr.lower "SSVPE") with "ssvpe".
  change (PyStr.lower "UFF") with "uff".
  destruct (decide (k = "theory")) as [->|N1];
    [|destruct (decide (k = "vdwscale")) as [->|N2];
      [|destruct (decide (k = "radii")) as [->|N3]]].
  all: repeat match goal with
         | |- context [match ?x with _ => _ end] => destruct x eqn:?
         end.
  all: repeat first [ rewrite lookup_insert_eq | rewrite lookup_insert_ne by done
                    | rewrite lookup_empty ].
  all: repeat match goal with
         | H : _ !! _ = _ |- _ =>
             first [ rewrite lookup_insert_ne in H by done | rewrite H ]
         end.
  all: try done.
  all: repeat match goal with
         | H : ?d !! ?k = _ |- context [?d !! ?k] => rewrite H
         end; try done.
  all: destruct (d !! k); done.
Qed.

Lemma items_truth_default (o : option (list (string * pyval))) :
  items_truth o = false -> default [] o = [].
Proof. by destruct o as [[|]|]. Qed.

Lemma pcm_section_user (vdw_scale : float) (pcm_params : option (list (string * pyval)))
    (radii_force_field : option string) :
  pcm_section vdw_scale pcm_params radii_force_field
  = (if str_truth radii_force_field then <["radii" := VStr "bondi"]> else id)
      (store_missing (default_pcm_params vdw_scale)
         (store_lowered (default [] pcm_params) ∅)).
Proof.
  unfold pcm_section. destruct (items_truth pcm_params) eqn:E.
  - by destruct (str_truth radii_force_field).
  - rewrite (items_truth_default _ E). by destruct (str_truth radii_force_field).
Qed.

(** X13: the [$pcm] section that [use_pcm] leaves.  A force field for
    the radii makes the radii "bondi" whatever the caller gave; every
    other key holds the value of the caller's parameters, lowercased, or
    else the default; the three defaults theory, vdwscale and radii are
    always there, every key is lowercased, the section that the task had
    before is discarded, and [$rem] names the solvent method "pcm". *)
Theorem use_pcm_priorities (vdw_scale dielectric : float)
    (pcm_params solvent_params : option (list (string * pyval)))
    (radii_force_field : option string) (t t' : QcTask) :
  use_pcm vdw_scale dielectric pcm_params solvent_params radii_force_field t = Ok t' ->
  (forall k,
     section_value t' "pcm" k
     = if str_truth radii_force_field && String.eqb k "radii"
       then Some (VStr "bondi")
       else store_lowered (default [] pcm_params) ∅ !! k
            ∪ store_lowered (default_pcm_params vdw_scale) ∅ !! k) /\
  (forall k, In k ["theory"; "vdwscale"; "radii"] ->
             is_Some (section_value t' "pcm" k)) /\
  (forall k, is_Some (section_value t' "pcm" k) -> PyStr.lower k = k) /\
  rem_value t' "solvent_method" = Some (VStr "pcm").
Proof.
  intros Hu. unfold use_pcm in Hu. cbv zeta in Hu.
  apply bind_Ok in Hu as (t1 & H1 & Hu).
  assert (params t' !! "pcm"
          = Some (SDict (pcm_section vdw_scale pcm_params radii_force_field))
          /\ rem_value t' "solvent_method" = Some (VStr "pcm")) as [Hp Hr].
  { assert (params t1 !! "pcm"
            = Some (SDict (pcm_section vdw_scale pcm_params radii_force_field))
            /\ rem_value t1 "solvent_method" = Some (VStr "pcm")) as [Hp1 Hr1].
    { pose proof (set_rem_spec _ _ _ _ H1) as [Hv Hd].
      destruct (Hd ["solvent_method"] (or_introl eq_refl)) as (_ & Hs & _).
      split; [|done]. rewrite Hs by done. cbn [set_param params].
      rewrite lookup_insert_ne by done. by rewrite lookup_insert_eq. }
    destruct radii_force_field as [ff|]; [|by injection Hu as <-].
    destruct (negb (String.eqb ff "")); [|by injection Hu as <-].
    pose proof (set_rem_spec _ _ _ _ Hu) as [_ Hd].
    destruct (Hd ["force_fied"] (or_introl eq_refl)) as (_ & Hs & Ho).
    split; [by rewrite Hs|]. rewrite Ho; [done|]. intros [E|[]]. discriminate. }
  assert (forall k,
     section_value t' "pcm" k
     = if str_truth radii_force_field && String.eqb k "radii"
       then Some (VStr "bondi")
       else store_lowered (default [] pcm_params) ∅ !! k
            ∪ store_lowered (default_pcm_params vdw_scale) ∅ !! k) as Hv.
  { intros k. unfold section_value. rewrite Hp, pcm_section_user.
    destruct (str_truth radii_force_field); cbn [andb id].
    - destruct (String.eqb_spec k "radii") as [->|Hn].
      + by rewrite lookup_insert_eq.
      + rewrite lookup_insert_ne by done. apply store_missing_defaults.
    - apply store_missing_defaults. }
  split; [exact Hv|]. split; [|split; [|exact Hr]].
  - intros k Hk. rewrite Hv.
    destruct (str_truth radii_force_field && String.eqb k "radii"); [done|].
    destruct (store_lowered (default [] pcm_params) ∅ !! k);
      [destruct (store_lowered (default_pcm_params vdw_scale) ∅ !! k); by eexists|].
    cbn in Hk. destruct Hk as [<-|[<-|[<-|[]]]]; vm_compute; eauto.
  - intros k. unfold section_value. rewrite Hp, pcm_section_user.
    assert (lower_keys (store_missing (default_pcm_params vdw_scale)
                          (store_lowered (default [] pcm_params) ∅))) as Hl.
    { apply store_missing_keys, store_lowered_keys. intros k0 Hk0.
      rewrite lookup_empty in Hk0. by destruct Hk0. }
    destruct (str_truth radii_force_field); cbn [id]; [|apply Hl].
    apply (lower_keys_insert "radii"). exact Hl.
Qed.

End Pcm.

(** ** The tasks that the constructor returns *)

Section Constructed.
Context {FO : PyFloat} {CH : Chemistry}.

Lemma grows_refl (t : QcTask) : grows t t.
Proof. split; auto. Qed.

Lemma grows_trans (t1 t2 t3 : QcTask) : grows t1 t2 -> grows t2 t3 -> grows t1 t3.
Proof.
  intros [R1 S1] [R2 S2]. split; [auto|].
  intros sec Hs. destruct (S2 sec Hs) as [H2|H2]; [auto|by right].
Qed.

Lemma set_rem_grows (k : string) (v : pyval) (t t' : QcTask) :
  set_rem k v t = Ok t' -> grows t t'.
Proof.
  intros Hs. pose proof (set_rem_spec _ _ _ _ Hs) as [Hv Hd].
  destruct (Hd [k] (or_introl eq_refl)) as (_ & Hsec & Hrem).
  unfold set_rem, get_rem in Hs. split.
  - intros k' Hk'. destruct (decide (k' = k)) as [->|Hn]; [by rewrite Hv|].
    rewrite Hrem; [done|]. by intros [->|[]].
  - intros sec Hsec'. left. destruct (decide (sec = "rem")) as [->|Hn].
    + destruct (params t !! "rem"); [done|discriminate].
    + by rewrite <- Hsec.
Qed.

Lemma rem_value_set_param (k k' : string) (s : section) (t : QcTask) :
  k <> "rem" -> rem_value (set_param k s t) k' = rem_value t k'.
Proof. intros Hn. unfold rem_value. cbn. by rewrite lookup_insert_ne. Qed.

Lemma optional_not_rem (k : string) :
  In (PyStr.lower k) optional_keywords_list -> k <> "rem".
Proof.
  intros Hin ->. change (PyStr.lower "rem") with "rem" in Hin.
  cbn in Hin. intuition discriminate.
Qed.

Lemma set_param_grows (k : string) (s : section) (t : QcTask) :
  In (PyStr.lower k) optional_keywords_list -> grows t (set_param k s t).
Proof.
  intros Hin. split.
  - intros k' Hk'. rewrite rem_value_set_param; [done|]. by apply optional_not_rem.
  - intros sec Hsec. cbn in Hsec. destruct (decide (sec = k)) as [->|Hn]; [by right|].
    left. by rewrite lookup_insert_ne in Hsec.
Qed.

Lemma set_params_grows (items : list (string * section)) (t : QcTask) :
  Forall (fun kv => In (PyStr.lower (fst kv)) optional_keywords_list) items ->
  grows t (foldl (fun t kv => set_param (fst kv) (snd kv) t) t items).
Proof.
  intros Hall. revert t. induction Hall as [|kv items Hkv _ IH]; intros t; cbn.
  - apply grows_refl.
  - apply (grows_trans _ _ _ (set_param_grows (fst kv) (snd kv) t Hkv)), IH.
Qed.

Lemma init_optional_params_grows (o : option (list (string * section)))
    (t t' : QcTask) :
  init_optional_params t o = Ok t' -> grows t t'.
Proof.
  unfold init_optional_params. destruct o as [[|kv items]|];
    try (intros [= <-]; apply grows_refl).
  destruct (forallb _ _) eqn:Ef; cbn [negb]; [|discriminate]. intros [= <-].
  apply (set_params_grows (kv :: items)).
  apply Forall_forall. intros x Hx. apply list_elem_of_In in Hx.
  apply (proj1 (forallb_forall _ _) Ef) in Hx. by apply LogProperties.mem_In.
Qed.

Lemma init_rem_params_grows (items : list (string * pyval)) (t t' : QcTask) :
  foldM init_rem_param items t = Ok t' -> grows t t'.
Proof.
  apply (foldM_invariant (grows t) (fun _ => True)).
  - intros s [k v] s' _ Hs Hstep. apply (grows_trans _ _ _ Hs).
    unfold init_rem_param in Hstep.
    destruct v; try discriminate; by apply set_rem_grows in Hstep.
  - by apply Forall_forall.
  - apply grows_refl.
Qed.

Lemma set_rem_sets_keyword (name : string) (v : pyval) (t t' : QcTask) :
  set_rem name v t = Ok t' -> sets_keyword name t t'.
Proof.
  intros Hs. split; [by apply set_rem_grows in Hs|]. split.
  - by apply set_rem_spec in Hs as [-> _].
  - intros k Hk. by apply (set_rem_other _ k) in Hs.
Qed.

Lemma element_setter_sets (name : string) (v : pyval) (d : gmap string pyval)
    (t t1 : QcTask) :
  In name optional_keywords_list -> PyStr.lower name = name ->
  set_rem name v t = Ok t1 ->
  sets_keyword name t (set_param name (SDict d) t1).
Proof.
  intros Hin Hl Hs. assert (name <> "rem") as Hn by (apply optional_not_rem; by rewrite Hl).
  apply set_rem_sets_keyword in Hs as (Hg & Hv & Ho). split; [|split].
  - apply (grows_trans _ t1); [done|]. apply set_param_grows. by rewrite Hl.
  - by rewrite rem_value_set_param.
  - intros k Hk. rewrite rem_value_set_param by done. by apply Ho.
Qed.

Ltac element_setter name :=
  let Hb := fresh "Hb" in
  let s := fresh "s" in
  let items := fresh "items" in
  let t1 := fresh "t1" in
  let H1 := fresh "H1" in
  let Hg := fresh "Hg" in
  intros Hb;
  match type of Hb with
  | match ?b with _ => _ end = Ok _ => destruct b as [s|items|]
  end;
  [ intros _; by apply set_rem_sets_keyword in Hb
  | apply bind_Ok in Hb as (t1 & H1 & Hb);
    pose proof (element_setter_sets name _ (normalize_elements items) _ _
                  ltac:(cbn; tauto) eq_refl H1) as Hg;
    match goal with
    | |- _ -> sets_keyword _ _ ?t' =>
        assert (t' = set_param name (SDict (normalize_elements items)) t1) as ->
    end;
    [ repeat match type of Hb with
             | (if ?c then _ else _) = Ok _ => destruct c
             | (_ ≫= _) = Ok _ =>
                 let x := fresh "x" in apply bind_Ok in Hb as (x & _ & Hb)
             | Ok _ = Ok _ => injection Hb as <-
             | Raise _ = Ok _ => discriminate Hb
             end; reflexivity
    | intros _; exact Hg ]
  | idtac ].

Lemma set_basis_set_sets (t t' : QcTask) (b : basis_arg) :
  set_basis_set t b = Ok t' -> b <> BOther -> sets_keyword "basis" t t'.
Proof. unfold set_basis_set. element_setter "basis". discriminate. Qed.

Lemma set_auxiliary_basis_set_sets (t t' : QcTask) (b : basis_arg) :
  set_auxiliary_basis_set t b = Ok t' -> b <> BOther -> sets_keyword "aux_basis" t t'.
Proof. unfold set_auxiliary_basis_set. element_setter "aux_basis". done. Qed.

Lemma set_ecp_sets (t t' : QcTask) (b : basis_arg) :
  set_ecp t b = Ok t' -> b <> BOther -> sets_keyword "ecp" t t'.
Proof. unfold set_ecp. element_setter "ecp". done. Qed.

Lemma set_basis_set_other (t : QcTask) : raises (set_basis_set t BOther).
Proof. apply raises_Raise. Qed.

Lemma rem_value_has_rem (t : QcTask) (k : string) : is_Some (rem_value t k) -> has_rem t.
Proof.
  unfold rem_value, has_rem. destruct (params t !! "rem") as [[|d]|]; intros [v Hv];
    try discriminate. by exists d.
Qed.

Lemma get_rem_value (t : QcTask) (d : gmap string pyval) (k : string) :
  get_rem (params t) = Ok d -> d !! k = rem_value t k.
Proof.
  unfold get_rem, rem_value. destruct (params t !! "rem") as [[|d0]|]; try discriminate.
  by intros [= ->].
Qed.

Lemma has_rem_get_rem (t : QcTask) : has_rem t -> returns (get_rem (params t)).
Proof. intros [d Hd]. unfold get_rem. rewrite Hd. by exists d. Qed.

(** [_aux_basis_required] reads the exchange and the correlation only. *)
Lemma aux_basis_required_reads (t t' : QcTask) :
  has_rem t -> has_rem t' ->
  rem_value t' "exchange" = rem_value t "exchange" ->
  rem_value t' "correlation" = rem_value t "correlation" ->
  _aux_basis_required t' = _aux_basis_required t.
Proof.
  intros Hr Hr' He Hc. unfold _aux_basis_required.
  destruct (has_rem_get_rem t Hr) as [d Hd]. destruct (has_rem_get_rem t' Hr') as [d' Hd'].
  rewrite Hd, Hd'. cbn [mbind result_bind].
  by rewrite (get_rem_value t d "exchange"), (get_rem_value t' d' "exchange"),
    (get_rem_value t d "correlation"), (get_rem_value t' d' "correlation"), He, Hc.
Qed.

(** Lines 159-169. *)
Lemma init_aux_basis_spec (o : option basis_arg) (t t' : QcTask) :
  init_aux_basis t o = Ok t' ->
  grows t t' /\
  (forall k, k <> "aux_basis" -> rem_value t' k = rem_value t k) /\
  (o <> Some BOther -> _aux_basis_required t = Ok true ->
   is_Some (rem_value t' "aux_basis")).
Proof.
  unfold init_aux_basis. destruct o as [b|].
  - intros Hs. destruct b as [s|items|].
    + apply set_auxiliary_basis_set_sets in Hs as (Hg & Hv & Ho); done.
    + apply set_auxiliary_basis_set_sets in Hs as (Hg & Hv & Ho); done.
    + injection Hs as <-. split; [apply grows_refl|]. split; [done|]. by intros [].
  - intros Hb. apply bind_Ok in Hb as (req & Hreq & Hb).
    destruct req.
    + apply bind_Ok in Hb as (rem & _ & Hb). apply bind_Ok in Hb as (basis & _ & Hb).
      apply bind_Ok in Hb as (t1 & H1 & Hb). apply bind_Ok in Hb as (rem' & Hrem' & Hb).
      destruct (rem' !! "aux_basis") as [v|] eqn:Ev; [injection Hb as <-|discriminate].
      rewrite (get_rem_value t1 rem' "aux_basis" Hrem') in Ev.
      assert (grows t t1 /\ forall k, k <> "aux_basis" -> rem_value t1 k = rem_value t k)
        as [Hg Ho].
      { destruct basis; try (injection H1 as <-; split; [apply grows_refl|done]).
        repeat (destruct (PyStr.startswith _ _);
                [apply set_auxiliary_basis_set_sets in H1 as (? & _ & ?); done|]).
        injection H1 as <-. split; [apply grows_refl|done]. }
      split; [done|]. split; [done|]. intros _ _. by rewrite Ev.
    + injection Hb as <-. split; [apply grows_refl|]. split; [done|].
      intros _ Hx. congruence.
Qed.

(** The steps of the constructor after the molecule. *)
Lemma QcTask_init_steps (a : init_args) (t : QcTask) :
  QcTask_init a = Ok t ->
  exists t0 t5 t6 t7,
    (forall sec, is_Some (params t0 !! sec) -> sec = "comment" \/ sec = "rem") /\
    grows t0 t5 /\
    is_Some (rem_value t5 "exchange") /\ is_Some (rem_value t5 "jobtype") /\
    set_basis_set t5 (a_basis_set a) = Ok t6 /\
    init_aux_basis t6 (a_aux_basis_set a) = Ok t7 /\
    (t = t7 \/ exists e, set_ecp t7 e = Ok t /\ a_ecp a = Some e).
Proof.
  unfold QcTask_init. intros Hb.
  apply bind_Ok in Hb as ([[m c] s] & _ & Hb).
  apply bind_Ok in Hb as (ex & _ & Hb). apply bind_Ok in Hb as (t1 & H1 & Hb).
  apply bind_Ok in Hb as (jl & _ & Hb).
  destruct (negb (mem _ _)); [discriminate|].
  apply bind_Ok in Hb as (t2 & H2 & Hb). apply bind_Ok in Hb as (t3 & H3 & Hb).
  apply bind_Ok in Hb as (t4 & H4 & Hb). apply bind_Ok in Hb as (t5 & H5 & Hb).
  apply bind_Ok in Hb as (t6 & H6 & Hb). apply bind_Ok in Hb as (t7 & H7 & Hb).
  match type of H1 with set_rem _ _ ?t0 = _ => exists t0 end. exists t5, t6, t7.
  assert (grows t2 t3) as G3.
  { destruct (a_correlation a) as [c0|]; [|injection H3 as <-; apply grows_refl].
    apply bind_Ok in H3 as (c1 & _ & H3). by apply set_rem_grows in H3. }
  assert (grows t3 t4) as G4.
  { destruct (a_rem_params a) as [items|]; [by apply init_rem_params_grows in H4|].
    injection H4 as <-; apply grows_refl. }
  pose proof (init_optional_params_grows _ _ _ H5) as G5.
  pose proof (set_rem_sets_keyword _ _ _ _ H1) as (G1 & V1 & _).
  pose proof (set_rem_sets_keyword _ _ _ _ H2) as (G2 & V2 & _).
  pose proof (grows_trans _ _ _ G3 (grows_trans _ _ _ G4 G5)) as G25.
  split; [|split; [|split; [|split; [|split; [done|split; [done|]]]]]].
  - intros sec. cbn [params].
    destruct (a_title a); [rewrite (lookup_insert_ne _ "comment" "rem") by done|];
      rewrite (lookup_empty "rem").
    + destruct (decide (sec = "rem")) as [->|Hn]; [by right|].
      rewrite lookup_insert_ne by done.
      destruct (decide (sec = "comment")) as [->|Hn']; [by left|].
      rewrite lookup_insert_ne by done. rewrite lookup_empty. by intros [].
    + destruct (decide (sec = "rem")) as [->|Hn]; [by right|].
      rewrite lookup_insert_ne by done. rewrite lookup_empty. by intros [].
  - apply (grows_trans _ _ _ G1), (grows_trans _ _ _ G2), G25.
  - apply G25, G2, V1.
  - apply G25, V2.
  - destruct (a_ecp a) as [e|]; [|left; by injection Hb as <-].
    destruct (basis_arg_truth e); [right; by exists e | left; by injection Hb as <-].
Qed.

Lemma grows_after_basis (a : init_args) (t t5 t6 t7 : QcTask) :
  set_basis_set t5 (a_basis_set a) = Ok t6 ->
  init_aux_basis t6 (a_aux_basis_set a) = Ok t7 ->
  (t = t7 \/ exists e, set_ecp t7 e = Ok t /\ a_ecp a = Some e) ->
  sets_keyword "basis" t5 t6 /\ grows t6 t /\
  (forall k, k <> "aux_basis" -> k <> "ecp" -> rem_value t k = rem_value t6 k) /\
  (forall k, k <> "ecp" -> rem_value t k = rem_value t7 k).
Proof.
  intros H6 H7 H8.
  assert (a_basis_set a <> BOther) as Hb.
  { intros E. rewrite E in H6. discriminate. }
  apply set_basis_set_sets in H6; [|done].
  apply init_aux_basis_spec in H7 as (G7 & O7 & _).
  assert (grows t7 t /\ forall k, k <> "ecp" -> rem_value t k = rem_value t7 k) as [G8 O8].
  { destruct H8 as [->|(e & H8 & _)]; [split; [apply grows_refl|done]|].
    destruct e as [s|items|].
    - apply set_ecp_sets in H8 as (? & _ & ?); done.
    - apply set_ecp_sets in H8 as (? & _ & ?); done.
    - injection H8 as <-. split; [apply grows_refl|done]. }
  split; [done|]. split; [by apply (grows_trans _ t7)|]. split; [|done].
  intros k Ha He. rewrite O8 by done. by apply O7.
Qed.

Lemma mapM_returns {A B} (f : A -> result B) (l : list A) :
  (forall x, In x l -> returns (f x)) -> returns (mapM f l).
Proof.
  induction l as [|a l IH]; intros Hf; cbn; [by eexists|].
  destruct (Hf a (or_introl eq_refl)) as [b ->]. cbn.
  destruct IH as [k ->]; [intros x Hx; apply Hf; by right|]. cbn. by eexists.
Qed.

Lemma insert_sorted_In (x y : string) (l : list string) :
  In y (PyStr.insert_sorted x l) -> y = x \/ In y l.
Proof.
  induction l as [|z l IH]; cbn; [intuition congruence|].
  destruct (PyStr.str_le x z); cbn; [intuition congruence|].
  intros [->|Hin]; [tauto|]. destruct (IH Hin); tauto.
Qed.

Lemma sorted_In (y : string) (l : list string) : In y (PyStr.sorted l) -> In y l.
Proof.
  induction l as [|x l IH]; cbn; [done|]. intros Hin.
  apply insert_sorted_In in Hin as [->|Hin]; [by left | right; by apply IH].
Qed.

Lemma keys_In (d : gmap string pyval) (k : string) : In k (keys d) -> is_Some (d !! k).
Proof.
  unfold keys. intros Hin. apply list_elem_of_In, list_elem_of_fmap in Hin as ([k' v] & -> & Hin).
  apply elem_of_map_to_list in Hin. by exists v.
Qed.

(** X14: every task that the constructor returns has its [$rem] with the
    keywords jobtype, exchange and basis, so that the three lines that
    [__str__] prints first in [$rem] exist: [_format_rem] returns for
    it. *)
Theorem constructed_task_has_keywords (a : init_args) (t : QcTask) :
  QcTask_init a = Ok t ->
  has_rem t /\
  is_Some (rem_value t "jobtype") /\ is_Some (rem_value t "exchange") /\
  is_Some (rem_value t "basis") /\
  returns (_format_rem t).
Proof.
  intros Hi. apply QcTask_init_steps in Hi
    as (t0 & t5 & t6 & t7 & _ & _ & He & Hj & H6 & H7 & H8).
  destruct (grows_after_basis a t t5 t6 t7 H6 H7 H8) as ((G6 & Vb & _) & [G _] & _).
  assert (is_Some (rem_value t "jobtype")) as Kj by (by apply G, G6).
  assert (is_Some (rem_value t "exchange")) as Ke by (by apply G, G6).
  assert (is_Some (rem_value t "basis")) as Kb by (by apply G).
  pose proof (rem_value_has_rem t _ Kj) as Hr.
  split; [done|]. split; [done|]. split; [done|]. split; [done|].
  unfold _format_rem, get_section_dict. destruct Hr as [d Hd]. rewrite Hd.
  cbn [mbind result_bind].
  assert (forall k, rem_value t k = d !! k) as Hv.
  { intros k. unfold rem_value. by rewrite Hd. }
  rewrite Hv in Kj, Ke, Kb.
  destruct (mapM_returns
              (fun name =>
                 value ← of_option (d !! name) (KeyError name);
                 Ok ("  " +:+ PyStr.rjust (name_width (keys d)) name +:+ " = " +:+
                     str_of_pyval value))
              (["jobtype"; "exchange"; "basis"] ++
               PyStr.sorted (filter (fun k => negb (mem k ["jobtype"; "exchange"; "basis"]))
                                    (keys d)))) as [lines Hl]; [|by exists lines].
  intros name Hin.
  assert (is_Some (d !! name)) as [v Hname].
  { apply in_app_or in Hin as [Hin|Hin].
    - cbn in Hin. destruct Hin as [<-|[<-|[<-|[]]]]; done.
    - apply sorted_In, list_elem_of_In, list_elem_of_filter in Hin as [_ Hin].
      apply keys_In. by apply list_elem_of_In. }
  rewrite Hname. cbn. by eexists.
Qed.

(** X15: the sections of a task that the constructor returns are
    [comment], [rem] and sections whose lowercased name is one of the
    optional keywords. *)
Theorem constructed_task_sections (a : init_args) (t : QcTask) (sec : string) :
  QcTask_init a = Ok t -> is_Some (params t !! sec) ->
  sec = "comment" \/ sec = "rem" \/ In (PyStr.lower sec) optional_keywords_list.
Proof.
  intros Hi Hs. apply QcTask_init_steps in Hi
    as (t0 & t5 & t6 & t7 & H0 & G5 & _ & _ & H6 & H7 & H8).
  destruct (grows_after_basis a t t5 t6 t7 H6 H7 H8) as (([_ G6] & _) & [_ G] & _).
  destruct (G sec Hs) as [Hs6|?]; [|tauto].
  destruct (G6 sec Hs6) as [Hs5|?]; [|tauto].
  destruct (proj2 G5 sec Hs5) as [Hs0|?]; [|tauto].
  destruct (H0 sec Hs0); tauto.
Qed.

(** X16: a task that the constructor returns and that needs an auxiliary
    basis set (an exchange of the XYG family, or a correlation that
    starts with "ri") names one in [$rem], unless the argument was an
    object that is neither a string nor a dictionary. *)
Theorem auxiliary_basis_present_when_required (a : init_args) (t : QcTask) :
  QcTask_init a = Ok t -> a_aux_basis_set a <> Some BOther ->
  _aux_basis_required t = Ok true ->
  is_Some (rem_value t "aux_basis").
Proof.
  intros Hi Hn Hreq. apply QcTask_init_steps in Hi
    as (t0 & t5 & t6 & t7 & _ & _ & He & Hj & H6 & H7 & H8).
  destruct (grows_after_basis a t t5 t6 t7 H6 H7 H8)
    as ((G6 & _) & [G _] & O6 & O7).
  pose proof (init_aux_basis_spec _ _ _ H7) as (_ & _ & Haux).
  rewrite O7 by done. apply Haux; [done|].
  rewrite <- Hreq. symmetry. apply aux_basis_required_reads.
  - apply (rem_value_has_rem t6 "exchange"). by apply G6.
  - apply (rem_value_has_rem t "exchange"). by apply G, G6.
  - by apply O6.
  - by apply O6.
Qed.

(** X17: the head of a task that the constructor returns.  Its molecule
    is the text "read", and then the charge and the spin multiplicity are
    the arguments, both given or both absent; or it is a [Molecule], and
    then the task has a charge, which is also the charge of its molecule,
    and a spin multiplicity of the parity that the electrons ask for,
    also when the multiplicity was left to the constructor. *)
Theorem constructed_task_head (a : init_args) (t : QcTask) :
  QcTask_init a = Ok t ->
  match mol t with
  | MStr s =>
      s = "read" /\ charge t = a_charge a /\
      spin_multiplicity t = a_spin_multiplicity a /\
      (charge t = None <-> spin_multiplicity t = None)
  | MMol m =>
      exists c s, charge t = Some c /\ spin_multiplicity t = Some s /\
                  mol_charge m = c /\ (electrons m c + s) mod 2 = 1
  end.
Proof.
  intros Hi. apply QcTask_init_head in Hi as (m0 & Hi & ->).
  unfold init_molecule in Hi. apply bind_Ok in Hi as ([[m1 c1] s1] & H1 & Hi).
  destruct (negb (Bool.eqb (is_none c1) (is_none s1))) eqn:Hb; [discriminate|].
  apply negb_false_iff, Bool.eqb_prop in Hb.
  unfold init_charge_spin in H1.
  destruct (if molarg_truth (a_molecule a) then a_molecule a else AStr "read")
    as [|s0|m|b] eqn:Em; try discriminate.
  - destruct (String.eqb (PyStr.lower s0) "read"); [|discriminate].
    injection H1 as <- <- <-.
    assert (m0 = MStr "read" /\ charge t = a_charge a /\
            spin_multiplicity t = a_spin_multiplicity a) as (-> & Hc & Hs).
    { destruct (a_charge a), (a_spin_multiplicity a); by injection Hi as <- <- <-. }
    split; [done|]. split; [done|]. split; [done|]. rewrite Hc, Hs.
    destruct (a_charge a), (a_spin_multiplicity a); cbn in Hb; split; congruence.
  - set (c := match a_charge a with Some c => c | None => mol_charge m end) in *.
    assert (mol_charge m + nelectrons m - c = sum_atomic_numbers m - c) as En
      by (unfold nelectrons; lia).
    rewrite En in H1.
    assert (exists s, m1 = MMol m /\ c1 = Some c /\ s1 = Some s /\
                      (sum_atomic_numbers m - c + s) mod 2 = 1) as (s & -> & -> & -> & Hp).
    { destruct (a_spin_multiplicity a) as [s|].
      - destruct ((sum_atomic_numbers m - c + s) mod 2 =? 1) eqn:E; [|discriminate].
        injection H1 as <- <- <-. exists s. apply Z.eqb_eq in E. done.
      - injection H1 as <- <- <-. eexists. repeat split.
        destruct (_ mod 2 =? 0) eqn:E.
        + apply Z.eqb_eq in E. rewrite Z.add_mod, E by lia. done.
        + apply Z.eqb_neq in E.
          pose proof (Z.mod_pos_bound (sum_atomic_numbers m - c) 2 ltac:(lia)).
          rewrite Z.add_mod, Z_mod_same_full, Z.add_0_r, Z.mod_mod by lia. lia. }
    apply bind_Ok in Hi as (m' & Hm' & [= <- <- <-]).
    exists c, s. split; [done|]. split; [done|].
    unfold set_charge_and_spin in Hm'.
    assert (sites m' = sites m /\ mol_charge m' = c) as [Hsites Hc].
    { destruct (negb (s =? 0)); [destruct (negb _); [discriminate|]|];
        by injection Hm' as <-. }
    split; [done|]. unfold electrons, sum_atomic_numbers. rewrite Hsites. exact Hp.
Qed.

End Constructed.

(** ** Lines outside and inside the sections *)

Section GrammarExtras.
Context {FO : PyFloat} {CH : Chemistry}.

Lemma foldM_raise_at {A S} (f : S -> A -> result S) (l1 l2 : list A) (a : A)
    (s s1 : S) (e : exn) :
  foldM f l1 s = Ok s1 -> f s1 a = Raise e -> foldM f (l1 ++ a :: l2) s = Raise e.
Proof. intros H1 Hr. rewrite foldM_app, H1. cbn. by rewrite Hr. Qed.

Lemma foldM_returns_at {A S} (f : S -> A -> result S) (l1 l2 : list A) (a : A)
    (s s1 : S) :
  foldM f l1 s = Ok s1 -> returns (foldM f (l1 ++ a :: l2) s) -> returns (f s1 a).
Proof.
  intros H1 [s' Hr]. rewrite foldM_app, H1 in Hr. cbn in Hr.
  apply bind_Ok in Hr as (s2 & H2 & _). by exists s2.
Qed.

Lemma from_string_returns_scan (contents : string) :
  returns (from_string contents) -> returns (scan (PyStr.split_on "010" contents)).
Proof.
  intros [t Ht]. unfold from_string in Ht. apply bind_Ok in Ht as (st & Hs & _).
  by exists st.
Qed.

Lemma startswith_dollar (l : string) :
  PyStr.startswith l "$" = true -> exists name, l = String "$" name.
Proof.
  unfold PyStr.startswith. intros Hp. apply str_prefix_inv in Hp as [post ->].
  by exists post.
Qed.

(** X18: a line outside the sections.  When [from_string] returns, every
    line that the loop meets outside a section is blank or the header of
    a section: a dollar sign and one of the known section names, which
    has no entry in [params] yet.  Anything else (text outside a section,
    a stray [$end], an unknown name, a name that is there already) makes
    the parse raise. *)
Theorem line_outside_sections (contents : string) (l1 l2 : list string)
    (line : string) (st : scan_state) :
  PyStr.split_on "010" contents = l1 ++ line :: l2 ->
  scan l1 = Ok st -> parse_section st = false ->
  returns (from_string contents) ->
  norm line = "" \/
  exists name, norm line = String "$" name /\ In name section_names /\
               s_params st !! name = None.
Proof.
  intros Hsplit Hscan Hps Hret. apply from_string_returns_scan in Hret.
  rewrite Hsplit in Hret. unfold scan in Hret. rewrite enumerate_split in Hret.
  apply (foldM_returns_at _ _ _ _ _ st Hscan) in Hret as [st' Hl].
  unfold scan_line in Hl. cbn [fst snd] in Hl. fold (norm line) in Hl.
  destruct (norm line) as [|c l] eqn:El; [by left|]. right.
  cbn [String.length Nat.eqb] in Hl. rewrite Hps in Hl. cbn [negb andb] in Hl.
  destruct (String.eqb (String c l) "$end") eqn:Ee; [discriminate|].
  destruct (PyStr.startswith (String c l) "$") eqn:Es; [|discriminate].
  apply startswith_dollar in Es as [name [= -> ->]]. exists name. split; [done|].
  cbn [orb negb andb] in Hl. rewrite Hps in Hl. cbn [negb andb] in Hl.
  apply bind_Ok in Hl as (st1 & Ho & _). unfold open_section in Ho. cbn [drop1] in Ho.
  destruct (mem name section_names) eqn:Em; cbn [negb] in Ho; [|discriminate].
  split; [by apply LogProperties.mem_In|].
  destruct (s_params st !! name) eqn:Ep; [|done].
  rewrite bool_decide_eq_true_2 in Ho by done. discriminate.
Qed.

(** Blank lines are skipped in every state. *)
Lemma scan_line_blank (st : scan_state) (n : nat) (line : string) :
  norm line = "" -> scan_line st (n, line) = Ok st.
Proof. intros Hn. unfold scan_line. cbn [fst snd]. fold (norm line). by rewrite Hn. Qed.

Lemma same_error_refl (e : exn) : same_error e e.
Proof. by left. Qed.

Lemma same_outcome_refl {A} (r : result A) : same_outcome r r.
Proof. destruct r; [done | apply same_error_refl]. Qed.

Lemma same_outcome_eq {A} (r r' : result A) : r = r' -> same_outcome r r'.
Proof. intros ->. apply same_outcome_refl. Qed.

Lemma same_outcome_bind {A B} (r r' : result A) (k : A -> result B) :
  same_outcome r r' -> same_outcome (r ≫= k) (r' ≫= k).
Proof.
  destruct r as [a|e], r' as [a'|e']; cbn; try done.
  intros ->. apply same_outcome_refl.
Qed.

Lemma same_outcome_Ok {A} (r r' : result A) (a : A) :
  same_outcome r r' -> r' = Ok a -> r = Ok a.
Proof. intros H ->. destruct r; cbn in H; [by subst | done]. Qed.

Lemma same_outcome_raises {A} (r r' : result A) :
  same_outcome r r' -> (raises r <-> raises r').
Proof.
  destruct r as [a|e], r' as [a'|e']; cbn; try done.
  - intros _. split; intros [? ?]; discriminate.
  - intros _. split; intros _; apply raises_Raise.
Qed.

(** The number of a line shows in the message of a refused header and
    nowhere else. *)
Lemma open_section_shift (st : scan_state) (n m : nat) (line l : string) :
  same_outcome (open_section st n line l) (open_section st m line l).
Proof.
  unfold open_section. destruct (negb (mem (drop1 l) section_names)).
  - right. exists (PyStr.strip line), n, m. by left.
  - destruct (bool_decide (is_Some (s_params st !! drop1 l))); [|done].
    right. exists (PyStr.strip line), n, m. by right.
Qed.

Lemma scan_line_shift (st : scan_state) (n m : nat) (line : string) :
  same_outcome (scan_line st (n, line)) (scan_line st (m, line)).
Proof.
  unfold scan_line. cbn [fst snd].
  destruct (Nat.eqb _ 0); [done|]. destruct (negb (parse_section st) && _); [by left|].
  apply same_outcome_bind.
  destruct (PyStr.startswith _ "$" && _); [apply open_section_shift | done].
Qed.

Lemma scan_shift (lines : list string) (n m : nat) (st : scan_state) :
  same_outcome (foldM scan_line (enumerate_from n lines) st)
               (foldM scan_line (enumerate_from m lines) st).
Proof.
  revert n m st. induction lines as [|a lines IH]; intros n m st; [done|].
  cbn [enumerate_from foldM].
  pose proof (scan_line_shift st n m a) as Hs.
  destruct (scan_line st (n, a)) as [s1|e1], (scan_line st (m, a)) as [s2|e2];
    cbn in Hs |- *; try done.
  subst s2. apply IH.
Qed.

Lemma scan_blank_first (n : nat) (blank : string) (lines : list string)
    (st : scan_state) :
  norm blank = "" ->
  foldM scan_line (enumerate_from n (blank :: lines)) st
  = foldM scan_line (enumerate_from (S n) lines) st.
Proof. intros Hn. cbn [enumerate_from foldM]. by rewrite scan_line_blank. Qed.

Lemma scan_skips_blank (l1 l2 : list string) (blank : string) :
  norm blank = "" ->
  same_outcome (scan (l1 ++ blank :: l2)) (scan (l1 ++ l2)).
Proof.
  intros Hn. unfold scan, enumerate. rewrite !enumerate_from_app, !foldM_app.
  destruct (foldM scan_line (enumerate_from 0 l1) scan_init) as [st1|e];
    [|apply same_outcome_refl].
  cbn [mbind result_bind]. rewrite scan_blank_first by done. apply scan_shift.
Qed.

(** X19: blank lines do not count, wherever they stand.  Two texts whose
    lines differ by one blank line, also one inside a section (a comment,
    say), are parsed to the same task; when one is refused so is the
    other, with the same exception, except that the message of a refused
    header names the line number of the header in its own text. *)
Theorem blank_lines_are_skipped (contents contents' : string) (l1 l2 : list string)
    (blank : string) :
  PyStr.split_on "010" contents = l1 ++ blank :: l2 ->
  PyStr.split_on "010" contents' = l1 ++ l2 ->
  norm blank = "" ->
  same_outcome (from_string contents) (from_string contents').
Proof.
  intros H1 H2 Hn. unfold from_string. rewrite H1, H2.
  apply same_outcome_bind. by apply scan_skips_blank.
Qed.

Lemma not_end_dec (l : string) : {norm l <> "$end"} + {norm l = "$end"}.
Proof. destruct (string_dec (norm l) "$end"); [by right | by left]. Qed.

(** X22: a section that is opened is closed.  When [from_string]
    returns, the header of a section that the loop meets outside the
    sections is followed, somewhere below, by a line [$end]; a section
    that runs to the end of the text makes the parse raise. *)
Theorem section_header_is_closed (contents : string) (l1 l2 : list string)
    (hdr : string) (st : scan_state) :
  PyStr.split_on "010" contents = l1 ++ hdr :: l2 ->
  scan l1 = Ok st -> parse_section st = false ->
  PyStr.startswith (norm hdr) "$" = true ->
  returns (from_string contents) ->
  Exists (fun l => norm l = "$end") l2.
Proof.
  intros Hsplit Hscan Hps Hl [t Ht].
  destruct (Forall_Exists_dec (fun l => norm l <> "$end") (fun l => norm l = "$end")
              not_end_dec l2) as [Hall|Hex]; [|done].
  destruct (unterminated_section_raises contents l1 l2 hdr st Hsplit Hscan Hps Hl Hall)
    as [e He]. congruence.
Qed.

End GrammarExtras.

(** ** [QcInput.from_string] *)

Section InputParse.
Context {FO : PyFloat} {CH : Chemistry}.

Lemma split_sep_nonempty (sep : string) (skip : nat) (s : string) :
  split_sep sep skip s <> [].
Proof.
  revert skip. induction s as [|c s IH]; intros skip; cbn [split_sep]; [done|].
  destruct skip; [|apply IH]. destruct (String.prefix sep (String c s)); [done|].
  by destruct (split_sep sep 0 s).
Qed.

(** A text without the separator is one piece. *)
Lemma split_sep_none (sep s : string) :
  PyStr.contains sep s = false -> split_sep sep 0 s = [s].
Proof.
  induction s as [|c s IH]; [done|]. cbn [PyStr.contains split_sep].
  intros Hc. apply orb_false_iff in Hc as [Hp Hc]. rewrite Hp, (IH Hc). done.
Qed.

Lemma prefix_at_newline (y z : string) :
  String.prefix "@@@" y = false ->
  String.prefix "@@@" (y +:+ String "010" z) = false.
Proof.
  intros Hp. destruct (String.prefix "@@@" (y +:+ String "010" z)) eqn:E; [|done].
  apply str_prefix_inv in E as [post E].
  destruct y as [|c1 [|c2 [|c3 y]]]; try discriminate E.
  injection E as -> -> -> _.
  change (String "@" (String "@" (String "@" y))) with ("@@@" +:+ y) in Hp.
  by rewrite (str_prefix_app "@@@" y) in Hp.
Qed.

(** The first separator of a text whose first job does not hold it. *)
Lemma split_sep_first (y z : string) :
  PyStr.contains "@@@" y = false ->
  split_sep "@@@" 0 (y +:+ String "010" ("@@@" +:+ z))
  = (y +:+ String "010" "") :: split_sep "@@@" 0 z.
Proof.
  induction y as [|c y IH]; intros Hc.
  - cbn. by destruct z.
  - cbn [PyStr.contains] in Hc. apply orb_false_iff in Hc as [Hp Hc].
    change (String c y +:+ ?x) with (String c (y +:+ x)). cbn [split_sep].
    change (String c (y +:+ String "010" ("@@@" +:+ z)))
      with (String c y +:+ String "010" ("@@@" +:+ z)).
    rewrite (prefix_at_newline _ _ Hp). by rewrite (IH Hc).
Qed.

Lemma split_on_newline_end (x : string) :
  PyStr.split_on "010" (x +:+ newline) = PyStr.split_on "010" x ++ [""].
Proof.
  induction x as [|c x IH]; [done|].
  change (String c x +:+ newline) with (String c (x +:+ newline)).
  cbn [PyStr.split_on]. rewrite IH. destruct (Ascii.eqb c "010"); [done|].
  destruct (split_on_head "010" x) as (h & t & _ & -> & _). done.
Qed.

(** The blank lines around the text of a job do not count. *)
Lemma scan_blank_end (n : nat) (ls : list string) (st : scan_state) :
  foldM scan_line (enumerate_from n (ls ++ [""])) st
  = foldM scan_line (enumerate_from n ls) st.
Proof.
  rewrite enumerate_from_app, foldM_app.
  destruct (foldM scan_line (enumerate_from n ls) st) as [st1|e]; [|done].
  cbn [mbind result_bind foldM enumerate_from].
  by rewrite (scan_line_blank st1 (n + List.length ls) "" eq_refl).
Qed.

Lemma from_string_newline_end (x : string) : from_string (x +:+ newline) = from_string x.
Proof.
  unfold from_string, scan, enumerate. by rewrite split_on_newline_end, scan_blank_end.
Qed.

Lemma split_on_newline_start (x : string) :
  PyStr.split_on "010" (newline +:+ x) = "" :: PyStr.split_on "010" x.
Proof. reflexivity. Qed.

Lemma from_string_newlines_start (x : string) :
  same_outcome (from_string ((newline +:+ newline +:+ newline) +:+ x)) (from_string x).
Proof.
  unfold from_string. apply same_outcome_bind.
  rewrite !str_app_assoc, !split_on_newline_start. unfold scan, enumerate.
  rewrite !scan_blank_first by reflexivity. apply scan_shift.
Qed.

Lemma contains_newline_start (x : string) :
  PyStr.contains "@@@" x = false -> PyStr.contains "@@@" (newline +:+ x) = false.
Proof.
  intros Hc. change (newline +:+ x) with (String "010" x). cbn [PyStr.contains].
  rewrite Hc. destruct (String.prefix "@@@" (String "010" x)) eqn:E; [|done].
  apply str_prefix_inv in E as [post E]. discriminate.
Qed.

Lemma padded_job (p x : string) :
  job_padding p -> PyStr.contains "@@@" x = false ->
  PyStr.contains "@@@" (p +:+ x) = false /\
  same_outcome (from_string (p +:+ x)) (from_string x) /\
  same_outcome (from_string ((p +:+ x) +:+ newline)) (from_string x).
Proof.
  intros [-> | ->] Hc.
  - split; [done|]. split; [apply same_outcome_refl|].
    apply same_outcome_eq, from_string_newline_end.
  - rewrite from_string_newline_end. split; [|split; apply from_string_newlines_start].
    rewrite !str_app_assoc. by do 3 apply contains_newline_start.
Qed.

Lemma same_outcome_mapM {A B} (f : A -> result B) (xs ys : list A) :
  Forall2 (fun x y => same_outcome (f x) (f y)) xs ys ->
  same_outcome (mapM f xs) (mapM f ys).
Proof.
  induction 1 as [|x y xs ys Hxy _ IH]; [done|].
  change (mapM f (?a :: ?b)) with (t ← f a; k ← mapM f b; mret (t :: k)).
  destruct (f x) as [a|e], (f y) as [a'|e']; cbn in Hxy |- *; try done.
  subst a'. destruct (mapM f xs) as [k|e], (mapM f ys) as [k'|e']; cbn in IH |- *;
    try done. by subst.
Qed.

Lemma pieces_of_joined_jobs (p : string) (texts : list string) :
  job_padding p -> texts <> [] ->
  Forall (fun s => PyStr.contains "@@@" s = false) texts ->
  Forall2 (fun piece text => same_outcome (from_string piece) (from_string text))
          (split_sep "@@@" 0 (p +:+ PyStr.join job_separator texts)) texts.
Proof.
  intros Hp Hne Hall. revert p Hp.
  induction Hall as [|x l Hx Hall IH]; intros p Hp; [done|].
  destruct (padded_job p x Hp Hx) as (Hc & F1 & F2).
  destruct l as [|y l].
  - cbn [PyStr.join]. rewrite split_sep_none by done. by constructor.
  - change (PyStr.join job_separator (x :: y :: l))
      with (x +:+ job_separator +:+ PyStr.join job_separator (y :: l)).
    replace (p +:+ x +:+ job_separator +:+ PyStr.join job_separator (y :: l))
      with ((p +:+ x) +:+ String "010"
              ("@@@" +:+ ((newline +:+ newline +:+ newline)
                          +:+ PyStr.join job_separator (y :: l))))
      by (unfold job_separator, newline; rewrite !str_app_assoc; reflexivity).
    rewrite split_sep_first by done.
    change ((p +:+ x) +:+ String "010" "") with ((p +:+ x) +:+ newline).
    constructor; [exact F2|]. apply IH; [done | by right].
Qed.

(** X20: [QcInput.from_string] on the text of a sequence.  The texts of
    the jobs, joined by [__str__] with the separator line "@@@", are
    parsed job by job and in order, provided that no job text holds
    "@@@" itself; the blank lines that the separator adds are skipped.
    The outcome is that of parsing the job texts one by one: the same
    sequence, or the same exception, except that the message of a
    refused header names the line number of the header within its piece
    of the joined text, three more than in the text of a later job
    alone. *)
Theorem sequence_text_is_parsed_job_by_job (objs : list pyobj) (texts : list string) :
  objs <> [] -> mapM pyobj_str objs = Ok texts ->
  Forall (fun s => PyStr.contains "@@@" s = false) texts ->
  QcInput_str {| jobs := Some objs |} = Ok (PyStr.join job_separator texts) /\
  same_outcome
    (QcInput_from_string (PyStr.join job_separator texts))
    (jobs ← mapM from_string texts; QcInput_init (JList (OTask <$> jobs))).
Proof.
  intros Hne Hm Hall. split.
  - unfold QcInput_str. cbn. by rewrite Hm.
  - unfold QcInput_from_string. apply same_outcome_bind, same_outcome_mapM.
    apply (pieces_of_joined_jobs "" texts); [by left| |done].
    intros ->. destruct objs; [done|]. cbn in Hm.
    apply bind_Ok in Hm as (? & _ & Hm). apply bind_Ok in Hm as (? & _ & Hm). discriminate.
Qed.

(** X21: the sequence that [QcInput.from_string] returns always has its
    jobs: the pieces of the text between the separators "@@@", each
    parsed by [QcTask.from_string], in order and at least one; a piece
    that does not parse makes the whole parse raise, and a text without
    separator is a sequence of one job. *)
Theorem input_from_string_jobs (contents : string) :
  (forall q, QcInput_from_string contents = Ok q ->
     exists ts, ts <> [] /\
       mapM from_string (split_sep "@@@" 0 contents) = Ok ts /\
       jobs q = Some (OTask <$> ts)) /\
  (raises (mapM from_string (split_sep "@@@" 0 contents)) ->
   raises (QcInput_from_string contents)) /\
  (PyStr.contains "@@@" contents = false ->
   QcInput_from_string contents
   = (fun t => {| jobs := Some [OTask t] |}) <$> from_string contents).
Proof.
  unfold QcInput_from_string. split; [|split].
  - intros q Hq. apply bind_Ok in Hq as (ts & Hts & Hq). exists ts.
    assert (ts <> []) as Hne.
    { intros ->. pose proof (split_sep_nonempty "@@@" 0 contents) as Hn.
      destruct (split_sep "@@@" 0 contents) as [|x l]; [done|]. cbn in Hts.
      apply bind_Ok in Hts as (? & _ & Hts). apply bind_Ok in Hts as (? & _ & Hts).
      discriminate. }
    split; [done|]. split; [done|].
    unfold QcInput_init in Hq. rewrite QcInput_init_loop_tasks in Hq.
    + destruct ts; [done|]. by injection Hq as <-.
    + apply Forall_forall. intros o Ho. apply list_elem_of_fmap in Ho as (t & -> & _). done.
  - intros Hr. by apply bind_raises.
  - intros Hc. rewrite split_sep_none by done. cbn [mapM].
    destruct (from_string contents); reflexivity.
Qed.

End InputParse.

(** ** The task of an echoed input *)

Section TaskRead.
Import Re QcOutput LogProperties.
Context {FO : PyFloat} {CH : Chemistry}.

(** The keys that [_parse_rem] writes are lowered and without alias. *)
Lemma alias_key_fixed (k : string) :
  alias alternative_keys (PyStr.lower (alias alternative_keys (PyStr.lower k)))
  = alias alternative_keys (PyStr.lower k).
Proof.
  unfold alias at 2 3. destruct (assoc (PyStr.lower k) alternative_keys) as [v|] eqn:E.
  - cbn [assoc alternative_keys] in E.
    repeat match type of E with
           | (if ?c then _ else _) = _ => destruct c
           end; try discriminate; by injection E as <-.
  - rewrite lower_idem. unfold alias. by rewrite E.
Qed.

Lemma plain_keys_insert (k : string) (v : pyval) (d : gmap string pyval) :
  plain_keys d -> plain_keys (<[alias alternative_keys (PyStr.lower k) := v]> d).
Proof.
  intros Hd k' Hk'. destruct (decide (k' = alias alternative_keys (PyStr.lower k))) as [->|Hn].
  - apply alias_key_fixed.
  - rewrite lookup_insert_ne in Hk' by done. by apply Hd.
Qed.

Lemma parse_rem_plain (contents : list string) (d : gmap string pyval) :
  _parse_rem contents = Ok (SDict d) -> plain_keys d.
Proof.
  unfold _parse_rem. destruct (foldM _parse_rem_line contents ∅) as [d0|] eqn:E; [|done].
  intros [= <-]. revert E.
  apply (foldM_invariant plain_keys (fun _ => True)).
  - intros s a s' _ Hs. unfold _parse_rem_line.
    destruct (key_value_tokens a) as [|k1 [|v l]]; try discriminate.
    destruct (String.eqb _ "xc_grid").
    + intros [= <-]. by apply plain_keys_insert.
    + intros Hb. apply bind_Ok in Hb as (x & _ & [= <-]). by apply plain_keys_insert.
  - apply Forall_forall. done.
  - intros k [v Hv]. by rewrite lookup_empty in Hv.
Qed.

Lemma close_section_plain (st st' : scan_state) :
  rem_plain st -> close_section st = Ok st' -> rem_plain st'.
Proof.
  intros Hp. unfold close_section.
  destruct (String.eqb (default "" (section_name st)) "molecule").
  - intros Hb. apply bind_Ok in Hb as ([[m c] s] & _ & [= <-]). exact Hp.
  - intros Hb. apply bind_Ok in Hb as (f & Hf & Hb). apply bind_Ok in Hb as (dd & Hd & [= <-]).
    intros d. cbn [s_params].
    destruct (decide (default "" (section_name st) = "rem")) as [E|Hn].
    + rewrite E in *. rewrite lookup_insert_eq. intros [= ->].
      cbn in Hf. injection Hf as <-. by apply parse_rem_plain in Hd.
    + rewrite lookup_insert_ne by done. apply Hp.
Qed.

Lemma scan_line_plain (st st' : scan_state) (e : nat * string) :
  rem_plain st -> scan_line st e = Ok st' -> rem_plain st'.
Proof.
  intros Hp. unfold scan_line.
  destruct (Nat.eqb _ 0); [by intros [= <-]|].
  destruct (negb (parse_section st) && _); [discriminate|].
  set (st1 := if parse_section st && _ then append_text st (snd e) else st).
  assert (rem_plain st1) as H1 by (unfold st1; by destruct (parse_section st && _)).
  clearbody st1. intros Hb. apply bind_Ok in Hb as (st2 & H2 & Hb).
  assert (rem_plain st2) as Hp2.
  { destruct (PyStr.startswith _ "$" && _); [|by injection H2 as <-].
    unfold open_section in H2. destruct (negb _); [discriminate|].
    destruct (bool_decide _); [discriminate|]. by injection H2 as <-. }
  destruct (parse_section st2 && _); [by apply (close_section_plain st2)|by injection Hb as <-].
Qed.

Lemma scan_plain (lines : list string) (st : scan_state) :
  scan lines = Ok st -> rem_plain st.
Proof.
  unfold scan. apply (foldM_invariant rem_plain (fun _ => True)).
  - intros s a s' _. apply scan_line_plain.
  - apply Forall_forall. done.
  - intros d Hd. cbn in Hd. by rewrite lookup_empty in Hd.
Qed.

Lemma set_params_rem (items : list (string * section)) (t : QcTask) (k : string) :
  (forall kv, In kv items -> mem (PyStr.lower (fst kv)) optional_keywords_list = true) ->
  rem_value (foldl (fun t kv => set_param (fst kv) (snd kv) t) t items) k = rem_value t k.
Proof.
  revert t. induction items as [|kv l IH]; intros t Hall; cbn [foldl]; [done|].
  rewrite IH by (intros x Hx; apply Hall; by right).
  apply rem_value_set_param, optional_not_rem, mem_In, Hall. by left.
Qed.

Lemma init_optional_params_rem (o : option (list (string * section))) (t t' : QcTask)
    (k : string) :
  init_optional_params t o = Ok t' -> rem_value t' k = rem_value t k.
Proof.
  unfold init_optional_params. destruct o as [[|kv items]|]; try by intros [= <-].
  destruct (forallb _ _) eqn:Ef; cbn [negb]; [|discriminate]. intros [= <-].
  exact (set_params_rem (kv :: items) t k (proj1 (forallb_forall _ _) Ef)).
Qed.

Lemma init_rem_params_correlation (items : list (string * pyval)) (t t' : QcTask) :
  Forall (fun kv => alias alternative_keys (PyStr.lower (fst kv)) = "correlation" ->
                    exists s, snd kv = VStr s) items ->
  text_or_none (rem_value t "correlation") ->
  foldM init_rem_param items t = Ok t' ->
  text_or_none (rem_value t' "correlation").
Proof.
  intros Hall Ht Hf. revert Hall Ht Hf.
  apply (foldM_invariant (fun t => text_or_none (rem_value t "correlation"))).
  intros s [k v] s' Hq Hs. unfold init_rem_param. cbn [fst snd] in Hq.
  destruct (decide (alias alternative_keys (PyStr.lower k) = "correlation")) as [E|Hn].
  - destruct (Hq E) as [w ->]. cbv zeta. rewrite E. intros Hset.
    apply set_rem_spec in Hset as [-> _]. exact I.
  - intros Hset.
    assert (rem_value s' "correlation" = rem_value s "correlation") as ->; [|done].
    destruct v; try discriminate; by apply (set_rem_other _ "correlation") in Hset.
Qed.

Lemma QcTask_init_correlation (a : init_args) (t : QcTask) :
  QcTask_init a = Ok t ->
  (forall items k v, a_rem_params a = Some items -> In (k, v) items ->
     alias alternative_keys (PyStr.lower k) = "correlation" -> a_correlation a = Some v) ->
  is_Some (rem_value t "jobtype") /\ text_or_none (rem_value t "correlation").
Proof.
  intros Hi Hitems. unfold QcTask_init in Hi.
  apply bind_Ok in Hi as ([[m c] s] & _ & Hb).
  apply bind_Ok in Hb as (ex & _ & Hb). apply bind_Ok in Hb as (t1 & H1 & Hb).
  apply bind_Ok in Hb as (jl & _ & Hb).
  destruct (negb (mem _ _)); [discriminate|].
  apply bind_Ok in Hb as (t2 & H2 & Hb). apply bind_Ok in Hb as (t3 & H3 & Hb).
  apply bind_Ok in Hb as (t4 & H4 & Hb). apply bind_Ok in Hb as (t5 & H5 & Hb).
  apply bind_Ok in Hb as (t6 & H6 & Hb). apply bind_Ok in Hb as (t7 & H7 & Hb).
  assert (t = t7 \/ exists e, set_ecp t7 e = Ok t /\ a_ecp a = Some e) as H8.
  { destruct (a_ecp a) as [e|]; [|left; by injection Hb as <-].
    destruct (basis_arg_truth e); [right; by exists e | left; by injection Hb as <-]. }
  destruct (grows_after_basis a t t5 t6 t7 H6 H7 H8) as ((G6 & _ & O6) & G & O & _).
  (* the job type *)
  pose proof (set_rem_sets_keyword _ _ _ _ H2) as (_ & V2 & _).
  assert (grows t2 t3) as G3.
  { destruct (a_correlation a) as [c0|]; [|injection H3 as <-; apply grows_refl].
    apply bind_Ok in H3 as (c1 & _ & H3). by apply set_rem_grows in H3. }
  assert (grows t3 t4) as G4.
  { destruct (a_rem_params a) as [items|]; [by apply init_rem_params_grows in H4|].
    injection H4 as <-; apply grows_refl. }
  pose proof (init_optional_params_grows _ _ _ H5) as G5.
  split; [apply G, G6, G5, G4, G3, V2|].
  (* the correlation *)
  rewrite O by done. rewrite O6 by done.
  rewrite (init_optional_params_rem _ _ _ "correlation" H5).
  assert (rem_value t2 "correlation" = None) as E2.
  { rewrite (set_rem_other _ "correlation" _ _ _ H2) by done.
    rewrite (set_rem_other _ "correlation" _ _ _ H1) by done.
    unfold rem_value. cbn [params].
    destruct (a_title a); [rewrite (lookup_insert_ne _ "comment" "rem") by done|];
      rewrite (lookup_empty "rem"); by rewrite lookup_insert_eq. }
  assert (text_or_none (rem_value t3 "correlation") /\
          forall v, a_correlation a = Some v -> exists w, v = VStr w) as [T3 Hc].
  { destruct (a_correlation a) as [c0|].
    - apply bind_Ok in H3 as (c1 & Hl & H3). apply set_rem_spec in H3 as [-> _].
      split; [exact I|]. intros v [= <-]. destruct c0; try discriminate. by eexists.
    - injection H3 as <-. rewrite E2. split; [exact I | discriminate]. }
  destruct (a_rem_params a) as [items|] eqn:Ei; [|by injection H4 as <-].
  apply (init_rem_params_correlation items t3 t4); [|done..].
  apply Forall_forall. intros [k v] Hin Ha. cbn [fst snd] in *.
  apply Hc, (Hitems items k v eq_refl); [by apply list_elem_of_In|done].
Qed.

Lemma from_string_task_read (contents : string) (t : QcTask) :
  from_string contents = Ok t -> task_read t.
Proof.
  unfold from_string. intros Hb. apply bind_Ok in Hb as (st & Hs & Hb).
  destruct (parse_section st); [discriminate|].
  apply bind_Ok in Hb as (rem & Hr & Hb). apply bind_Ok in Hb as (jt & _ & Hb).
  apply bind_Ok in Hb as (title & _ & Hb). apply bind_Ok in Hb as (bs & _ & Hb).
  apply scan_plain in Hs.
  assert (plain_keys rem) as Hp.
  { apply Hs. unfold get_rem in Hr. destruct (s_params st !! "rem") as [[|d]|]; try discriminate.
    by injection Hr as ->. }
  apply QcTask_init_correlation in Hb as [Hj Hc].
  - assert (has_rem t) as Hh by (by apply (rem_value_has_rem t "jobtype")).
    destruct (has_rem_get_rem t Hh) as [d Hd]. exists d. split; [done|].
    rewrite !(get_rem_value t d _ Hd). split; [done|].
    unfold text_or_none in Hc. destruct (rem_value t "correlation") as [[]|]; done.
  - cbn [a_rem_params a_correlation]. intros items k v [= <-] Hin Ha.
    apply list_elem_of_In, elem_of_map_to_list in Hin.
    assert (k = "correlation") as -> by (rewrite <- Ha; symmetry; apply Hp; by eexists).
    done.
Qed.

End TaskRead.

(** ** Chunks whose lines can be read *)

Section Readable.
Import Re QcOutput LogProperties.
Context {FO : PyFloat} {CH : Chemistry}.

Lemma decimal_converts (w : string) :
  float_converts_decimals -> matches decimal w -> is_Some (float_of_str w).
Proof.
  intros Hd Hw. apply Hd. left. unfold opt_neg_decimal, seqs. cbn [foldr].
  apply (matches_eq _ ("" +:+ (w +:+ ""))).
  - constructor; [apply m_alt_r; constructor|]. constructor; [done|constructor].
  - cbn. apply str_app_nil_r.
Qed.

Lemma coord_converts (line : string) (m : caps) :
  float_converts_decimals -> match_ coord_pattern line = Some m ->
  (exists x, py_float (group "x" m) = Ok x) /\
  (exists y, py_float (group "y" m) = Ok y) /\
  (exists z, py_float (group "z" m) = Ok z).
Proof.
  intros Hd Hm.
  assert (groups_ok (fun n w => n <> "element" -> is_Some (float_of_str w))
            coord_pattern) as Hg.
  { unfold coord_pattern, seqs. cbn [foldr].
    repeat split; try exact I; try (intros w Hw _; apply Hd; by left).
    intros w _ Hn. done. }
  apply (match_sound _ coord_pattern line m Hg) in Hm as (_ & _ & _ & _ & Hc & Hb).
  split; [|split]; apply py_float_Some.
  - exact (group_ok _ "x" m Hc (Hb "x" eq_refl) ltac:(discriminate)).
  - exact (group_ok _ "y" m Hc (Hb "y" eq_refl) ltac:(discriminate)).
  - exact (group_ok _ "z" m Hc (Hb "z" eq_refl) ltac:(discriminate)).
Qed.

Lemma zpe_converts (line : string) (m : caps) :
  float_converts_decimals -> search zpe_pattern line = Some m ->
  exists x, py_float (group "zpe" m) = Ok x.
Proof.
  intros Hd Hs. apply py_float_Some.
  apply (search_group (fun _ w => is_Some (float_of_str w)) zpe_pattern line);
    [|reflexivity|done].
  unfold zpe_pattern, seqs. cbn [foldr].
  repeat split; try apply groups_ok_lit; try exact I.
  intros w. by apply decimal_converts.
Qed.

Lemma thermal_corr_converts (line : string) (m : caps) :
  float_converts_decimals -> search thermal_corr_pattern line = Some m ->
  exists x, py_float (group "correction" m) = Ok x.
Proof.
  intros Hd Hs. apply py_float_Some.
  apply (search_group (fun n w => n = "correction" -> is_Some (float_of_str w))
           thermal_corr_pattern line "correction" m); [|reflexivity|done|done].
  unfold thermal_corr_pattern, seqs. cbn [foldr].
  repeat split; try apply groups_ok_lit; try exact I; try discriminate.
  intros w Hw _. by apply decimal_converts.
Qed.

Lemma numbers_floats (tokens : list string) :
  numbers tokens = true -> exists xs, mapM py_float tokens = Ok xs.
Proof.
  intros Hn. apply mapM_returns. intros w Hw. unfold numbers in Hn.
  apply (proj1 (forallb_forall _ _) Hn) in Hw. apply bool_decide_eq_true_1 in Hw.
  destruct (py_float_Some w Hw) as [x Hx]. by exists x.
Qed.

Lemma number_at_float (i : nat) (tokens : list string) (e : exn) :
  number_at i tokens = true ->
  exists x, (w ← of_option (nth_error tokens i) e; py_float w) = Ok x.
Proof.
  unfold number_at. destruct (nth_error tokens i) as [w|]; [|discriminate].
  intros Hw. apply bool_decide_eq_true_1 in Hw. cbn. by apply py_float_Some.
Qed.

Lemma update_last_returns {A} (f : A -> A) (l : list A) :
  l <> [] -> exists l', update_last f l = Ok l' /\ l' <> [].
Proof.
  intros Hl. unfold update_last. destruct (reverse l) as [|x r] eqn:E.
  - exfalso. apply Hl. apply (f_equal reverse) in E. by rewrite reverse_involutive in E.
  - eexists. split; [reflexivity|]. apply reverse_cons_ne.
Qed.

(** *** Every block returns on the lines that it can read *)

Lemma step_input_returns (line : string) (s : job_state) :
  negb (PyStr.contains (dashes 50) line)
  || Nat.eqb (List.length (qctask_lines s)) 0
  || is_ok (from_string (PyStr.join newline (qctask_lines s))) = true ->
  returns (step_input line s).
Proof.
  unfold step_input. intros Hr. destruct (PyStr.contains (dashes 50) line); [|by eexists].
  destruct (Nat.eqb _ 0); [by eexists|]. cbn [negb orb] in Hr.
  apply is_ok_returns in Hr as [t Ht]. rewrite Ht. cbn [mbind result_bind].
  destruct (from_string_task_read _ _ Ht) as (rem & Hrem & [jt Hjt] & _).
  rewrite Hrem. cbn [mbind result_bind]. rewrite Hjt. by eexists.
Qed.

Lemma step_coords_returns (line : string) (s : job_state) :
  float_converts_decimals ->
  (if PyStr.contains (dashes 50) line
   then Nat.eqb (List.length (coords s)) 0
        || is_ok (new_molecule (species s) (coords s))
   else PyStr.contains "Atom" line
        || bool_decide (is_Some (match_ coord_pattern line))) = true ->
  returns (step_coords line s).
Proof.
  unfold step_coords. intros Hd Hr. destruct (PyStr.contains (dashes 50) line).
  - destruct (Nat.eqb _ 0); [by eexists|]. cbn [orb] in Hr.
    apply is_ok_returns in Hr as [m ->]. by eexists.
  - destruct (PyStr.contains "Atom" line); [by eexists|]. cbn [orb] in Hr.
    apply bool_decide_eq_true_1 in Hr as [m Hm]. rewrite Hm.
    destruct (coord_converts line m Hd Hm) as ([x ->] & [y ->] & [z ->]). by eexists.
Qed.

Lemma step_scf_iter_returns (line : string) (s : job_state) :
  float_converts_decimals -> scf_iters s <> [] -> returns (step_scf_iter line s).
Proof.
  intros Hd Hn. unfold step_scf_iter.
  destruct (PyStr.contains "SCF time:  CPU" line); [by eexists|].
  set (s0 := if PyStr.contains "Convergence criterion met" line
             then set_scf_successful true s else s).
  assert (scf_iters s0 = scf_iters s) as Hsc by (unfold s0; by destruct (PyStr.contains _ _)).
  destruct (search scf_iter_pattern line) as [m|] eqn:E; [|by eexists].
  rewrite Hsc. destruct (reverse (scf_iters s)) as [|it r] eqn:Er.
  { exfalso. apply Hn. apply (f_equal reverse) in Er. by rewrite reverse_involutive in Er. }
  destruct (scf_iter_converts line m Hd E) as [[x ->] [y ->]]. by eexists.
Qed.

Lemma flush_grad_comp_outcome (s : job_state) :
  gradients s <> [] ->
  returns (flush_grad_comp s) \/
  (flush_grad_comp s = Raise (Exception "Gradient section parsing failed") /\
   exists g, grad_comp s = Some g /\ g <> [] /\ List.length g <> 3%nat).
Proof.
  intros Hg. unfold flush_grad_comp. destruct (grad_comp s) as [[|row g]|]; try (left; by eexists).
  destruct (Nat.eqb (List.length (row :: g)) 3) eqn:E.
  - left. destruct (update_last_returns
                      (fun gr => {| g_gradients := g_gradients gr ++ zip_star (row :: g);
                                    max_gradient := max_gradient gr;
                                    rms_gradient := rms_gradient gr |})
                      (gradients s) Hg) as (gs & -> & _). by eexists.
  - right. split; [done|]. exists (row :: g). split; [done|]. split; [done|].
    by apply Nat.eqb_neq.
Qed.

Lemma step_gradient_outcome (line : string) (s : job_state) :
  gradients s <> [] ->
  (if PyStr.contains "Max gradient component" line
      || PyStr.contains "RMS gradient" line
   then number_at 1 (PyStr.split_on "=" line)
   else if negb (PyStr.contains "." line) then true
   else bool_decide (is_Some (grad_comp s))
        && numbers (tail (PyStr.words (PyStr.strip (repair_gradient_line line))))) = true ->
  returns (step_gradient line s) \/
  (step_gradient line s = Raise (Exception "Gradient section parsing failed") /\
   (exists g, grad_comp s = Some g /\ g <> [] /\ List.length g <> 3%nat) /\
   ends_rows line = true).
Proof.
  intros Hg Hr. unfold step_gradient, ends_rows, float_after_equals.
  destruct (PyStr.contains "Max gradient component" line).
  - cbn [orb] in Hr |- *.
    destruct (number_at_float 1 _ (IndexError "list index out of range") Hr) as [x ->].
    cbn [mbind result_bind].
    destruct (update_last_returns
                (fun gr => {| g_gradients := g_gradients gr; max_gradient := Some x;
                              rms_gradient := rms_gradient gr |})
                (gradients s) Hg) as (gs & -> & Hgs).
    cbn [mbind result_bind].
    destruct (flush_grad_comp_outcome (set_gradients gs s) Hgs) as [Hf|[Hf Hp]]; [by left|].
    right. by rewrite Hf.
  - cbn [orb] in Hr |- *. destruct (PyStr.contains "RMS gradient" line).
    + left. destruct (number_at_float 1 _ (IndexError "list index out of range") Hr) as [x ->].
      cbn [mbind result_bind].
      destruct (update_last_returns
                  (fun gr => {| g_gradients := g_gradients gr;
                                max_gradient := max_gradient gr;
                                rms_gradient := Some x |})
                  (gradients s) Hg) as (gs & -> & Hgs). by eexists.
    + destruct (PyStr.contains "." line); cbn [negb andb] in Hr |- *.
      * left. apply andb_true_iff in Hr as [Hc Hn].
        apply bool_decide_eq_true_1 in Hc as [g ->].
        unfold floats_after_first. destruct (numbers_floats _ Hn) as [row ->]. by eexists.
      * destruct (flush_grad_comp_outcome s Hg) as [[s1 ->]|[Hf Hp]]; [left; by eexists|].
        right. by rewrite Hf.
Qed.

Lemma step_freq_tail_returns (line : string) (s : job_state) :
  readable_freq_tail line = true -> returns (step_freq_tail line s).
Proof.
  unfold readable_freq_tail, step_freq_tail. intros Hr.
  destruct (_ || _); [by eexists|].
  destruct (PyStr.contains "Frequency:" line).
  - unfold floats_after_first. destruct (numbers_floats _ Hr) as [vs ->]. by eexists.
  - destruct (PyStr.contains "X      Y      Z" line); by eexists.
Qed.

Lemma step_freq_returns (line : string) (s : job_state) :
  (if parse_modes s then
     if PyStr.contains "TransDip" line then true
     else numbers (tail (PyStr.words (PyStr.strip line))) && readable_freq_tail line
   else readable_freq_tail line) = true ->
  returns (step_freq line s).
Proof.
  unfold step_freq. intros Hr. destruct (parse_modes s); [|by apply step_freq_tail_returns].
  destruct (PyStr.contains "TransDip" line); [by eexists|].
  apply andb_true_iff in Hr as [Hn Ht]. unfold floats_after_first.
  destruct (numbers_floats _ Hn) as [vs ->]. cbn [mbind result_bind].
  by apply step_freq_tail_returns.
Qed.

Lemma step_charge_returns (line : string) (s : job_state) :
  (exists method, pop_method s = Some method /\ is_Some (charges s !! method)) ->
  (if PyStr.contains (dashes 20) line then true
   else if Nat.eqb (String.length (PyStr.strip line)) 0 || PyStr.contains "Atom" line
   then true
   else number_at 2 (PyStr.words line)) = true ->
  returns (step_charge line s).
Proof.
  intros (method & Hm & [cs Hcs]) Hr. unfold step_charge, lookup_charges.
  rewrite Hm, Hcs. cbn [of_option mbind result_bind].
  destruct (PyStr.contains (dashes 20) line).
  - cbn [snd]. destruct (Nat.eqb _ 0); by eexists.
  - destruct (_ || _); [by eexists|].
    destruct (number_at_float 2 _ (IndexError "list index out of range") Hr) as [x Hx].
    apply bind_Ok in Hx as (tok & Ht & Hx). rewrite Ht. cbn [mbind result_bind].
    rewrite Hx. by eexists.
Qed.

Lemma idle_spin_returns (line : string) (s : job_state) : returns (idle_spin line s).
Proof.
  unfold idle_spin. destruct (spin_multiplicity s); [by eexists|].
  destruct (search num_ele_pattern line) as [m|] eqn:E; [|by eexists].
  destruct (num_ele_converts line m E) as [[a ->] [b ->]]. by eexists.
Qed.

Lemma idle_charge_returns (line : string) (s : job_state) :
  charge_converts line = true -> returns (idle_charge line s).
Proof.
  intros Hc. unfold idle_charge, charge_converts in *.
  destruct (charge s); [by eexists|].
  destruct (search total_charge_pattern line) as [m|]; [|by eexists].
  apply bool_decide_eq_true_1 in Hc as [z Hz]. unfold py_float.
  destruct (float_of_str (group "charge" m)) as [x|]; [|discriminate].
  cbn in Hz |- *. rewrite Hz. by eexists.
Qed.

Lemma idle_thermal_returns (line : string) (s : job_state) :
  float_converts_decimals -> returns (idle_thermal line s).
Proof.
  intros Hd. unfold idle_thermal. destruct (is_str (jobtype s) "freq"); [|by eexists].
  assert (exists s1, match search zpe_pattern line with
                     | Some m => zpe ← py_float (group "zpe" m);
                                 Ok (set_thermal_corr (<["ZPE" := zpe]> (thermal_corr s)) s)
                     | None => Ok s
                     end = Ok s1) as [s1 ->].
  { destruct (search zpe_pattern line) as [m|] eqn:E; [|by eexists].
    destruct (zpe_converts line m Hd E) as [x ->]. by eexists. }
  cbn [mbind result_bind].
  destruct (search thermal_corr_pattern line) as [m|] eqn:E; [|by eexists].
  destruct (thermal_corr_converts line m Hd E) as [x ->]. by eexists.
Qed.

Lemma step_idle_returns (line : string) (s : job_state) :
  float_converts_decimals -> charge_converts line = true -> returns (step_idle line s).
Proof.
  intros Hd Hc. unfold step_idle, step_idle_values.
  destruct (idle_spin_returns line s) as [s1 ->]. cbn [mbind result_bind].
  destruct (idle_charge_returns line s1 Hc) as [s2 ->]. cbn [mbind result_bind].
  destruct (idle_thermal_returns line s2 Hd) as [s3 ->]. cbn [mbind result_bind].
  destruct (idle_energy_returns line Hd) as [ne ->]. by eexists.
Qed.

(** The block that owns a line returns when it can read the line; the
    one exception is the explicit test of the gradient block. *)
Lemma dispatch_outcome (line : string) (s : job_state) :
  float_converts_decimals -> block_ready s -> readable s line = true ->
  returns (dispatch line s) \/
  (dispatch line s = Raise (Exception "Gradient section parsing failed") /\
   pending_rows s /\ ends_rows line = true).
Proof.
  intros Hd (R1 & R2 & R3) Hr. unfold dispatch, readable, pending_rows, owner in *.
  destruct (parse_input s); [left; by apply step_input_returns|].
  destruct (parse_coords s); [left; by apply step_coords_returns|].
  destruct (parse_scf_iter s); [left; apply step_scf_iter_returns; auto|].
  destruct (parse_gradient s).
  { destruct (step_gradient_outcome line s (R2 eq_refl) Hr) as [?|(? & ? & ?)];
      [by left | right; by repeat split]. }
  destruct (parse_freq s); [left; by apply step_freq_returns|].
  destruct (parse_charge s); [left; apply step_charge_returns; auto|].
  left. by apply step_idle_returns.
Qed.

Lemma step_outcome (s : job_state) (line : string) :
  float_converts_decimals -> block_ready s -> readable s line = true ->
  returns (step s line) \/
  (step s line = Raise (Exception "Gradient section parsing failed") /\
   pending_rows s /\ ends_rows line = true).
Proof.
  intros Hd Hb Hr. exact (dispatch_outcome line (scan_errors line s) Hd Hb Hr).
Qed.

End Readable.

(** ** What the loop keeps between two lines *)

Section Kept.
Import Re QcOutput LogProperties.
Context {FO : PyFloat} {CH : Chemistry}.

Ltac ready :=
  solve [unfold block_ready in *; simpl in *; intuition (try congruence)].

Lemma step_input_ready line s s' :
  step_input line s = Ok s' -> block_ready s -> block_ready s'.
Proof. unfold step_input. intros Hs Hb. returned; ready. Qed.

Lemma step_coords_ready line s s' :
  step_coords line s = Ok s' -> block_ready s -> block_ready s'.
Proof. unfold step_coords. intros Hs Hb. returned; ready. Qed.

Lemma step_scf_iter_ready line s s' :
  step_scf_iter line s = Ok s' -> block_ready s -> block_ready s'.
Proof.
  unfold step_scf_iter. intros Hs Hb.
  destruct (PyStr.contains "SCF time:  CPU" line); [injection Hs as <-; ready|].
  set (s0 := if PyStr.contains "Convergence criterion met" line
             then set_scf_successful true s else s) in Hs.
  assert (block_ready s0) as Hb0
    by (unfold s0; destruct (PyStr.contains _ _); [ready|done]).
  clearbody s0. returned; try ready.
  destruct Hb0 as (R1 & R2 & R3); repeat split; try done; simpl;
    intros _; apply reverse_cons_ne.
Qed.

Lemma flush_grad_comp_ready s s' :
  flush_grad_comp s = Ok s' -> block_ready s -> block_ready s'.
Proof.
  unfold flush_grad_comp. intros Hs Hb. returned; try ready.
  apply update_last_Ok in Hx as [_ Hx]. ready.
Qed.

Lemma step_gradient_ready line s s' :
  step_gradient line s = Ok s' -> block_ready s -> block_ready s'.
Proof.
  unfold step_gradient. intros Hs Hb.
  destruct (PyStr.contains "Max gradient component" line).
  { apply bind_Ok in Hs as (x & _ & Hs). apply bind_Ok in Hs as (gs & Hg & Hs).
    apply flush_grad_comp_ready in Hs; [done|].
    apply update_last_Ok in Hg as [_ Hg]. ready. }
  destruct (PyStr.contains "RMS gradient" line).
  { apply bind_Ok in Hs as (x & _ & Hs). apply bind_Ok in Hs as (gs & Hg & [= <-]).
    apply update_last_Ok in Hg as [_ Hg]. ready. }
  destruct (negb _).
  { apply bind_Ok in Hs as (s1 & Hf & [= <-]).
    apply flush_grad_comp_ready in Hf; [|done]. ready. }
  returned. ready.
Qed.

Lemma step_freq_tail_ready line s s' :
  step_freq_tail line s = Ok s' -> block_ready s -> block_ready s'.
Proof. unfold step_freq_tail. intros Hs Hb. returned; ready. Qed.

Lemma step_freq_ready line s s' :
  step_freq line s = Ok s' -> block_ready s -> block_ready s'.
Proof.
  unfold step_freq. intros Hs Hb. destruct (parse_modes s).
  - destruct (PyStr.contains "TransDip" line); [injection Hs as <-; ready|].
    apply bind_Ok in Hs as (x & _ & Hs). apply step_freq_tail_ready in Hs; [done|]. ready.
  - by apply step_freq_tail_ready in Hs.
Qed.

Lemma step_charge_ready line s s' :
  step_charge line s = Ok s' -> block_ready s -> block_ready s'.
Proof.
  unfold step_charge, lookup_charges. intros Hs Hb. returned; try ready.
  destruct Hb as (R1 & R2 & R3). repeat split; try done. simpl. intros Hp.
  destruct (R3 Hp) as (method & Hm & Hc). exists method. split; [done|].
  destruct (decide (method = s0)) as [->|Hn];
    [rewrite lookup_insert_eq; by eexists | by rewrite lookup_insert_ne].
Qed.

Lemma idle_population_ready line s : block_ready s -> block_ready (idle_population line s).
Proof.
  unfold idle_population. intros (R1 & R2 & R3).
  destruct (search detailed_charge_pattern line) as [m|]; [|done].
  repeat split; try done. simpl. intros _. eexists. split; [reflexivity|].
  rewrite lookup_insert_eq. by eexists.
Qed.

Lemma idle_append_energy_ready ne s :
  block_ready s -> block_ready (idle_append_energy ne s).
Proof.
  unfold idle_append_energy. intros Hb. destruct ne as [[name energy]|]; [|done].
  destruct (_ && _); [ready | done].
Qed.

Lemma step_idle_sentinels_ready line s :
  block_ready s -> block_ready (step_idle_sentinels line s).
Proof.
  unfold step_idle_sentinels. intros (R1 & R2 & R3).
  destruct (PyStr.contains "User input:" line); [by repeat split|].
  destruct (PyStr.contains "Standard Nuclear Orientation (Angstroms)" line);
    [by repeat split|].
  destruct (_ || _).
  { repeat split; try done. simpl. intros _. by destruct (scf_iters s). }
  destruct (PyStr.contains "Gradient of SCF Energy" line).
  { repeat split; try done. simpl. intros _. by destruct (gradients s). }
  repeat (destruct (PyStr.contains _ _); [by repeat split|]). by repeat split.
Qed.

Lemma idle_spin_ready line s s' : idle_spin line s = Ok s' -> block_ready s -> block_ready s'.
Proof. unfold idle_spin. intros Hs Hb. returned; ready. Qed.

Lemma idle_charge_ready line s s' :
  idle_charge line s = Ok s' -> block_ready s -> block_ready s'.
Proof. unfold idle_charge. intros Hs Hb. returned; ready. Qed.

Lemma idle_thermal_ready line s s' :
  idle_thermal line s = Ok s' -> block_ready s -> block_ready s'.
Proof. unfold idle_thermal. intros Hs Hb. returned; ready. Qed.

Lemma step_idle_ready line s s' :
  step_idle line s = Ok s' -> block_ready s -> block_ready s'.
Proof.
  unfold step_idle, step_idle_values. intros Hs Hb.
  apply bind_Ok in Hs as (s4 & Hs & [= <-]).
  apply bind_Ok in Hs as (s1 & H1 & Hs). apply bind_Ok in Hs as (s2 & H2 & Hs).
  apply bind_Ok in Hs as (s3 & H3 & Hs). apply bind_Ok in Hs as (ne & _ & [= <-]).
  apply step_idle_sentinels_ready, idle_append_energy_ready, idle_population_ready.
  eauto using idle_spin_ready, idle_charge_ready, idle_thermal_ready.
Qed.

Lemma step_block_ready s line s' :
  step s line = Ok s' -> block_ready s -> block_ready s'.
Proof.
  unfold step, dispatch. intros Hs Hb.
  assert (block_ready (scan_errors line s)) as Hb' by exact Hb.
  revert Hs Hb'. generalize (scan_errors line s). clear. intros s Hs Hb.
  destruct (parse_input s); [by apply step_input_ready in Hs|].
  destruct (parse_coords s); [by apply step_coords_ready in Hs|].
  destruct (parse_scf_iter s); [by apply step_scf_iter_ready in Hs|].
  destruct (parse_gradient s); [by apply step_gradient_ready in Hs|].
  destruct (parse_freq s); [by apply step_freq_ready in Hs|].
  destruct (parse_charge s); [by apply step_charge_ready in Hs|].
  by apply step_idle_ready in Hs.
Qed.

(** The task of the state is the one that the echoed input gave. *)
Lemma step_input_task line s s' :
  step_input line s = Ok s' -> task_ready s -> task_ready s'.
Proof.
  unfold step_input. intros Hs Hb.
  destruct (PyStr.contains (dashes 50) line); [|by injection Hs as <-].
  destruct (Nat.eqb _ 0); [by injection Hs as <-|].
  apply bind_Ok in Hs as (t & Ht & Hs). apply bind_Ok in Hs as (rem & _ & Hs).
  apply bind_Ok in Hs as (jt & _ & [= <-]). intros t'. simpl. intros [= <-].
  by apply from_string_task_read in Ht.
Qed.

Lemma step_coords_task line s s' : step_coords line s = Ok s' -> qctask s' = qctask s.
Proof. unfold step_coords. intros Hs. returned; by subst. Qed.

Lemma step_scf_iter_task line s s' : step_scf_iter line s = Ok s' -> qctask s' = qctask s.
Proof. unfold step_scf_iter. intros Hs. returned; subst; by branches. Qed.

Lemma flush_grad_comp_task s s' : flush_grad_comp s = Ok s' -> qctask s' = qctask s.
Proof. unfold flush_grad_comp. intros Hs. returned; by subst. Qed.

Lemma step_gradient_task line s s' : step_gradient line s = Ok s' -> qctask s' = qctask s.
Proof.
  unfold step_gradient. intros Hs. returned;
    try match goal with
        | H : flush_grad_comp _ = Ok _ |- _ => by apply flush_grad_comp_task in H
        end; done.
Qed.

Lemma step_freq_tail_task line s s' : step_freq_tail line s = Ok s' -> qctask s' = qctask s.
Proof. unfold step_freq_tail. intros Hs. returned; by subst. Qed.

Lemma step_freq_task line s s' : step_freq line s = Ok s' -> qctask s' = qctask s.
Proof.
  unfold step_freq. intros Hs. returned;
    try match goal with
        | H : step_freq_tail _ _ = Ok _ |- _ => by apply step_freq_tail_task in H
        end; done.
Qed.

Lemma step_charge_task line s s' : step_charge line s = Ok s' -> qctask s' = qctask s.
Proof. unfold step_charge. intros Hs. returned; by subst. Qed.

Lemma step_idle_task line s s' : step_idle line s = Ok s' -> qctask s' = qctask s.
Proof.
  unfold step_idle, step_idle_values. intros Hs.
  apply bind_Ok in Hs as (s4 & Hs & [= <-]).
  apply bind_Ok in Hs as (s1 & H1 & Hs). apply bind_Ok in Hs as (s2 & H2 & Hs).
  apply bind_Ok in Hs as (s3 & H3 & Hs). apply bind_Ok in Hs as (ne & _ & [= <-]).
  assert (qctask s1 = qctask s) as E1 by (unfold idle_spin in H1; returned; done).
  assert (qctask s2 = qctask s1) as E2 by (unfold idle_charge in H2; returned; done).
  assert (qctask s3 = qctask s2) as E3 by (unfold idle_thermal in H3; returned; done).
  rewrite <- E1, <- E2, <- E3.
  transitivity (qctask (idle_append_energy ne (idle_population line s3))).
  { unfold step_idle_sentinels. repeat (destruct (_ : bool); [done|]). done. }
  transitivity (qctask (idle_population line s3)).
  { unfold idle_append_energy. destruct ne as [[name energy]|]; [|done].
    by destruct (_ && _). }
  unfold idle_population. by destruct (search _ _).
Qed.

Lemma step_task_ready s line s' :
  step s line = Ok s' -> task_ready s -> task_ready s'.
Proof.
  unfold step, dispatch. intros Hs Hb.
  assert (task_ready (scan_errors line s)) as Hb' by exact Hb.
  revert Hs Hb'. generalize (scan_errors line s). clear. intros s Hs Hb.
  destruct (parse_input s); [by apply step_input_task in Hs|].
  assert (qctask s' = qctask s) as E; [|unfold task_ready; by rewrite E].
  destruct (parse_coords s); [by apply step_coords_task in Hs|].
  destruct (parse_scf_iter s); [by apply step_scf_iter_task in Hs|].
  destruct (parse_gradient s); [by apply step_gradient_task in Hs|].
  destruct (parse_freq s); [by apply step_freq_task in Hs|].
  destruct (parse_charge s); [by apply step_charge_task in Hs|].
  by apply step_idle_task in Hs.
Qed.

Lemma fold_block_ready (lines : list string) (s s' : job_state) :
  foldM step lines s = Ok s' -> block_ready s -> block_ready s'.
Proof.
  revert s. induction lines as [|line lines IH]; intros s; cbn [foldM].
  - by intros [= <-].
  - intros Hf Hb. apply bind_Ok in Hf as (s1 & H1 & Hf).
    apply (IH s1 Hf). by apply (step_block_ready s line).
Qed.

Lemma init_state_ready : block_ready init_state.
Proof. repeat split; discriminate. Qed.

(** *** The loop on a chunk whose lines can be read *)

Lemma fold_outcome (lines : list string) (s : job_state) :
  float_converts_decimals -> block_ready s -> task_ready s ->
  (forall l1 line l2 s1,
     lines = l1 ++ line :: l2 -> foldM step l1 s = Ok s1 -> readable s1 line = true) ->
  (exists s', foldM step lines s = Ok s' /\ task_ready s') \/
  (foldM step lines s = Raise (Exception "Gradient section parsing failed") /\
   exists l1 line l2 s1,
     lines = l1 ++ line :: l2 /\ foldM step l1 s = Ok s1 /\
     pending_rows s1 /\ ends_rows line = true).
Proof.
  intros Hd. revert s. induction lines as [|line lines IH]; intros s Hb Ht Hr.
  { left. by exists s. }
  cbn [foldM].
  destruct (step_outcome s line Hd Hb (Hr [] line lines s eq_refl eq_refl))
    as [[s1 Hs]|(Hs & Hp & He)].
  - rewrite Hs. cbn [mbind result_bind].
    destruct (IH s1) as [?|(Hf & l1 & line' & l2 & s2 & -> & H1 & H2)].
    + by apply (step_block_ready s line).
    + by apply (step_task_ready s line).
    + intros l1 line' l2 s2 -> Hf. apply (Hr (line :: l1) line' l2 s2); [done|].
      cbn [foldM]. by rewrite Hs.
    + by left.
    + right. split; [done|]. exists (line :: l1), line', l2, s2.
      split; [done|]. split; [|done]. cbn [foldM]. by rewrite Hs.
  - right. rewrite Hs. split; [done|]. by exists [], line, lines, s.
Qed.

(** *** The passes after the loop *)

Lemma post_convergence_task s : qctask (post_convergence s) = qctask s.
Proof.
  unfold post_convergence. destruct (negb (scf_successful s)); cbn;
    destruct (_ && _); reflexivity.
Qed.

Lemma expected_pattern_returns (t : QcTask) :
  task_read t -> returns (_expected_successful_pattern (Some t)).
Proof.
  intros (rem & Hr & [jt Hj] & Hc). unfold _expected_successful_pattern.
  cbn [of_option mbind result_bind]. rewrite Hr. cbn [mbind result_bind].
  rewrite Hj. destruct (rem !! "correlation") as [[]|]; try done.
  - destruct (_ || _); by eexists.
  - by eexists.
Qed.

Lemma post_returns (output : string) (s : job_state) :
  task_ready s -> molecules_accept s = true -> returns (post output s).
Proof.
  intros Ht Hm. unfold post.
  assert (exists s1, post_charge_spin s = Ok s1 /\ qctask s1 = qctask s) as (s1 & -> & Hq1).
  { unfold post_charge_spin, molecules_accept in *. destruct (charge s); [|by eexists].
    destruct (spin_multiplicity s); [|by eexists].
    destruct (mapM_returns (fun mol => set_charge_and_spin mol z z0) (molecules s))
      as [mols ->]; [|by eexists].
    intros mol Hin. apply is_ok_returns. by apply (proj1 (forallb_forall _ _) Hm). }
  cbn [mbind result_bind]. unfold post_input. cbn [qctask set_thermal_corr]. rewrite Hq1.
  destruct (qctask s) as [t|] eqn:Eq.
  - destruct (Ht t Eq) as (rem & Hr & Hrest). rewrite Hr. cbn [mbind result_bind snd fst].
    unfold post_success. destruct (Nat.eqb _ 0); [|by eexists].
    rewrite post_convergence_task.
    change (qctask (set_thermal_corr ?x s1)) with (qctask s1). rewrite Hq1.
    destruct (expected_pattern_returns t) as [texts ->]; [by exists rem|]. by eexists.
  - cbn [mbind result_bind snd fst]. unfold post_success.
    match goal with |- context [post_convergence ?x] => set (s2 := x) end.
    destruct (post_convergence_spec s2) as [[r3 E3] _]. rewrite E3. unfold s2. cbn [errors set_errors].
    rewrite !length_app. cbn [List.length].
    replace (_ =? 0)%nat with false; [by eexists|].
    symmetry. apply Nat.eqb_neq. lia.
Qed.

Lemma read_check_sound (lines : list string) (s : job_state) :
  read_check s lines = true ->
  forall l1 line l2 s1,
    lines = l1 ++ line :: l2 -> foldM step l1 s = Ok s1 -> readable s1 line = true.
Proof.
  revert s. induction lines as [|a lines IH]; intros s Hc l1 line l2 s1 Hl Hf.
  { by destruct l1. }
  cbn [read_check] in Hc. apply andb_true_iff in Hc as [Hr Hc].
  destruct l1 as [|b l1]; cbn in Hl; injection Hl as -> ->.
  - by injection Hf as <-.
  - cbn [foldM] in Hf. apply bind_Ok in Hf as (s2 & H2 & Hf). rewrite H2 in Hc.
    by apply (IH s2 Hc l1 line l2 s1).
Qed.

End Kept.

(** ** The record of a chunk and the labels of its lines *)

Section ReadableTheorems.
Import Re QcOutput LogProperties.
Context {FO : PyFloat} {CH : Chemistry}.

(** The scan for the signatures comes first in the body of the loop: in
    every state, the block that owns the line receives the state in
    which the labels of the line are appended. *)
Lemma scan_precedes_blocks (s : job_state) (line : string) :
  step s line = dispatch line (set_errors (errors s ++ error_labels line) s).
Proof. reflexivity. Qed.

(** C4 (as amended): parsing a job chunk returns a complete result
    record, in which the labels of the signatures found in the lines
    head the errors in order, as data, unless a gradient block of the
    chunk holds a group of component rows that is not a group of three
    when the line that ends the group comes: then the explicit test of
    the block makes the parse raise
    [Exception("Gradient section parsing failed")].  This holds for
    every chunk each line of which can be read by the block that owns it
    ([readable]) and whose molecules take the charge and the spin
    multiplicity found; [float()] is assumed to convert the decimal
    literals that the patterns extract.  What the parser does with a
    line that its block cannot read is left open. *)
Theorem readable_log_parses (output : string) :
  float_converts_decimals ->
  well_read (log_lines output) ->
  (forall s, foldM step (log_lines output) init_state = Ok s ->
             molecules_accept s = true) ->
  (exists d rest, _parse_job output = Ok d /\
                  r_errors d = scanned_labels output ++ rest) \/
  (_parse_job output = Raise (Exception "Gradient section parsing failed") /\
   incomplete_rows (log_lines output)).
Proof.
  intros Hd Hw Hm.
  pose proof init_state_ready as Hb.
  assert (task_ready init_state) as Ht by (intros t; discriminate).
  destruct (fold_outcome (log_lines output) init_state Hd Hb Ht Hw)
    as [(s & Hf & Hts)|(Hf & Hi)].
  - left. destruct (post_returns output s Hts (Hm s Hf)) as [d Hp].
    assert (_parse_job output = Ok d) as Hj.
    { unfold _parse_job. fold (log_lines output). by rewrite Hf. }
    destruct (errors_accumulated output d Hj) as [rest Hr]. by exists d, rest.
  - right. split; [|exact Hi]. unfold _parse_job. fold (log_lines output). by rewrite Hf.
Qed.

(** C5 (as amended): in every state of the parser (EchoInput,
    Coordinates, SCFIteration, Gradient, Frequencies, PopulationCharges
    or Idle, with the lists of its open block in place), a line in which
    a signature of [error_defs] is found and which the block that owns
    it can read is handled, and the state after the line has the labels
    of the line appended to its errors, the label of that signature
    among them.  The one exception is the explicit test of the Gradient
    state: when the line ends a group of component rows that is not a
    group of three, the step raises
    [Exception("Gradient section parsing failed")], and the errors are
    lost with the parse.  A line that its block cannot read is left
    open. *)
Theorem signature_label_recorded (s : job_state) (line : string)
    (r : regex) (label : string) :
  float_converts_decimals -> block_ready s -> readable s line = true ->
  In (r, label) error_defs -> found r line = true ->
  (exists s', step s line = Ok s' /\
              errors s' = errors s ++ error_labels line /\ In label (errors s')) \/
  (step s line = Raise (Exception "Gradient section parsing failed") /\
   pending_rows s /\ ends_rows line = true).
Proof.
  intros Hd Hb Hr Hin Hf.
  destruct (step_outcome s line Hd Hb Hr) as [[s' Hs]|Hg]; [left | by right].
  exists s'. split; [done|]. pose proof (step_errors s line s' Hs) as He.
  split; [done|]. rewrite He. apply in_or_app. right.
  unfold error_labels. apply list_elem_of_In, list_elem_of_fmap.
  exists (r, label). split; [done|].
  apply list_elem_of_filter. split; [simpl; by rewrite Hf|]. by apply list_elem_of_In.
Qed.

End ReadableTheorems.

Section ReadableExamples.
Import Re QcOutput LogProperties.
#[local] Existing Instance Sample.sample_float.
#[local] Existing Instance Sample.sample_chemistry.

(** C5 as stated fails: after the head of a gradient block and one row
    of components, a line with the signature of the SCF failure makes
    the step raise; no state and no record holds its label. *)
Lemma signature_line_after_one_row_raises :
  found (lit "Convergence failure") " Convergence failure" = true /\
  (exists s,
     foldM step Sample.one_row_lines init_state = Ok s /\
     step s " Convergence failure"
     = Raise (Exception "Gradient section parsing failed") /\
     ~ exists s', step s " Convergence failure" = Ok s' /\
                  In "Bad SCF convergence" (errors s')) /\
  ~ returns (_parse_job
               (Sample.lines (Sample.one_row_lines ++ [" Convergence failure"]))).
Proof.
  split; [vm_compute; reflexivity|]. split.
  - assert (is_ok (foldM step Sample.one_row_lines init_state) = true) as Hok
      by (vm_compute; reflexivity).
    apply is_ok_returns in Hok as [s E]. exists s. split; [exact E|].
    assert (error_of (foldM step Sample.one_row_lines init_state
                      ≫= fun s => step s " Convergence failure")
            = Some (Exception "Gradient section parsing failed")) as Hr
      by (vm_compute; reflexivity).
    rewrite E in Hr. apply error_of_Some in Hr. split; [exact Hr|].
    intros (s' & Hs & _). cbn [mbind result_bind] in Hr. congruence.
  - assert (error_of (_parse_job
                        (Sample.lines (Sample.one_row_lines ++ [" Convergence failure"])))
            = Some (Exception "Gradient section parsing failed")) as Hr
      by (vm_compute; reflexivity).
    apply error_of_Some in Hr. rewrite Hr. intros [d Hd]. discriminate.
Qed.

Lemma readable_log_parses_witness :
  ((float_converts_decimals /\
    well_read (log_lines Sample.full_log) /\
    (forall s, foldM step (log_lines Sample.full_log) init_state = Ok s ->
               molecules_accept s = true)) /\
   exists d rest, _parse_job Sample.full_log = Ok d /\
                  r_errors d = scanned_labels Sample.full_log ++ rest) /\
  ((well_read (log_lines Sample.bad_gradient_log) /\
    (forall s, foldM step (log_lines Sample.bad_gradient_log) init_state = Ok s ->
               molecules_accept s = true)) /\
   _parse_job Sample.bad_gradient_log
   = Raise (Exception "Gradient section parsing failed") /\
   incomplete_rows (log_lines Sample.bad_gradient_log)).
Proof.
  split.
  - assert (well_read (log_lines Sample.full_log)) as Hw.
    { unfold well_read. apply read_check_sound. vm_compute. reflexivity. }
    assert (forall s, foldM step (log_lines Sample.full_log) init_state = Ok s ->
                      molecules_accept s = true) as Hm.
    { intros s Hs.
      assert (molecules_accept <$> foldM step (log_lines Sample.full_log) init_state
              = Ok true) as E by (vm_compute; reflexivity).
      rewrite Hs in E. by injection E. }
    split; [split; [exact sample_float_converts_decimals | by split]|].
    destruct (readable_log_parses Sample.full_log sample_float_converts_decimals Hw Hm)
      as [H|[Hr _]]; [exact H|].
    assert (is_ok (_parse_job Sample.full_log) = true) as Hok by (vm_compute; reflexivity).
    rewrite Hr in Hok. discriminate Hok.
  - assert (well_read (log_lines Sample.bad_gradient_log)) as Hw.
    { unfold well_read. apply read_check_sound. vm_compute. reflexivity. }
    assert (forall s, foldM step (log_lines Sample.bad_gradient_log) init_state = Ok s ->
                      molecules_accept s = true) as Hm.
    { intros s Hs.
      assert (is_ok (foldM step (log_lines Sample.bad_gradient_log) init_state) = false)
        as E by (vm_compute; reflexivity).
      rewrite Hs in E. discriminate E. }
    split; [by split|].
    destruct (readable_log_parses Sample.bad_gradient_log
                sample_float_converts_decimals Hw Hm)
      as [(d & rest & Hd & _)|H]; [|exact H].
    assert (is_ok (_parse_job Sample.bad_gradient_log) = false) as Hok
      by (vm_compute; reflexivity).
    rewrite Hd in Hok. discriminate Hok.
Defined.

Lemma signature_label_recorded_witness :
  float_converts_decimals /\
  In (lit "Convergence failure", "Bad SCF convergence") error_defs /\
  Forall (fun run =>
            exists s,
              foldM step (snd (fst run)) init_state = Ok s /\
              owner s = fst (fst run) /\
              (block_ready s /\ readable s (snd run) = true /\
               found (lit "Convergence failure") (snd run) = true) /\
              exists s', step s (snd run) = Ok s' /\
                         errors s' = errors s ++ error_labels (snd run) /\
                         In "Bad SCF convergence" (errors s'))
         Sample.signature_runs.
Proof.
  assert (In (lit "Convergence failure", "Bad SCF convergence") error_defs) as Hin
    by (left; reflexivity).
  split; [exact sample_float_converts_decimals|]. split; [exact Hin|].
  assert (Forall (fun run =>
                    is_ok (foldM step (snd (fst run)) init_state) = true /\
                    owner <$> foldM step (snd (fst run)) init_state
                    = Ok (fst (fst run)) /\
                    (fun s => readable s (snd run))
                      <$> foldM step (snd (fst run)) init_state = Ok true /\
                    found (lit "Convergence failure") (snd run) = true /\
                    is_ok (foldM step (snd (fst run)) init_state
                           ≫= fun s => step s (snd run)) = true)
                 Sample.signature_runs) as Hall.
  { unfold Sample.signature_runs.
    repeat (constructor;
            [cbn beta; split; [|split; [|split; [|split]]]; vm_compute; reflexivity|]).
    constructor. }
  rewrite Forall_forall in Hall. apply Forall_forall. intros [[b prefix] line] Hrun.
  destruct (Hall _ Hrun) as (Hok & Ho & Hr & Hf & Hstep). cbn [fst snd] in *.
  apply is_ok_returns in Hok as [s E]. rewrite E in Ho, Hr, Hstep.
  injection Ho as Ho. injection Hr as Hr. cbn [mbind result_bind] in Hstep.
  exists s. split; [exact E|]. split; [exact Ho|].
  pose proof (fold_block_ready prefix init_state s E init_state_ready) as Hb.
  split; [exact (conj Hb (conj Hr Hf))|].
  destruct (signature_label_recorded s line _ _ sample_float_converts_decimals
              Hb Hr Hin Hf) as [H|(Hs & _)]; [exact H|].
  rewrite Hs in Hstep. discriminate Hstep.
Defined.

End ReadableExamples.

(** ** The theorems on the sample logs *)

Section LogExtrasExamples.
Import Re QcOutput.
#[local] Existing Instance Sample.sample_float.
#[local] Existing Instance Sample.sample_chemistry.

Lemma scanned_labels_head_errors_witness :
  exists d, _parse_job Sample.failed_scf_log = Ok d /\
            exists rest, r_errors d = scanned_labels Sample.failed_scf_log ++ rest.
Proof.
  assert (is_ok (_parse_job Sample.failed_scf_log) = true) as Hok
    by (vm_compute; reflexivity).
  apply is_ok_returns in Hok as [d E].
  exists d. split; [exact E|].
  exact (scanned_labels_head_errors Sample.failed_scf_log d E).
Defined.

Lemma record_parts_have_markers_witness :
  exists d, _parse_job Sample.quiet_log = Ok d /\
            r_input d = None /\ r_jobtype d = None /\ r_molecules d = [] /\
            r_gradients d = [] /\ r_frequencies d = [] /\
            r_gracefully_terminated d = false.
Proof.
  assert (is_ok (_parse_job Sample.quiet_log) = true) as Hok
    by (vm_compute; reflexivity).
  apply is_ok_returns in Hok as [d E].
  exists d. split; [exact E|].
  destruct (record_parts_have_markers Sample.quiet_log d E)
    as (H1 & H2 & _ & H4 & H5 & H6).
  destruct (H1 eq_refl) as [Hi Hj].
  exact (conj Hi (conj Hj (conj (H2 eq_refl)
           (conj (H4 eq_refl) (conj (H5 eq_refl) (H6 eq_refl)))))).
Defined.

Lemma record_without_errors_witness :
  exists d, _parse_job Sample.clean_log = Ok d /\ r_errors d = [] /\
            r_has_error d = false /\ is_Some (r_input d).
Proof.
  assert (is_ok (_parse_job Sample.clean_log) = true) as Hok
    by (vm_compute; reflexivity).
  apply is_ok_returns in Hok as [d E].
  assert (r_errors <$> _parse_job Sample.clean_log = Ok []) as He
    by (vm_compute; reflexivity).
  rewrite E in He. injection He as He.
  exists d. split; [exact E|]. split; [exact He|].
  destruct (record_without_errors Sample.clean_log d E He) as (H1 & H2 & _).
  exact (conj H1 H2).
Defined.

Lemma convergence_label_not_repeated_witness :
  In "Bad SCF convergence" (scanned_labels Sample.failed_scf_log) /\
  exists d, _parse_job Sample.failed_scf_log = Ok d /\
            count_occ string_dec (r_errors d) "Bad SCF convergence" = 1%nat.
Proof.
  assert (In "Bad SCF convergence" (scanned_labels Sample.failed_scf_log)) as Hin.
  { assert (scanned_labels Sample.failed_scf_log = ["Bad SCF convergence"]) as ->
      by (vm_compute; reflexivity).
    by left. }
  split; [exact Hin|].
  assert (is_ok (_parse_job Sample.failed_scf_log) = true) as Hok
    by (vm_compute; reflexivity).
  apply is_ok_returns in Hok as [d E].
  exists d. split; [exact E|].
  rewrite (convergence_label_not_repeated Sample.failed_scf_log
             "Bad SCF convergence" d E (or_introl eq_refl) Hin).
  vm_compute. reflexivity.
Defined.

Lemma file_without_job_header_is_one_chunk_witness :
  PyStr.contains "Running Job " Sample.quiet_log = false /\
  QcOutput_init Sample.quiet_log = (fun d => [d]) <$> _parse_job Sample.quiet_log.
Proof.
  split; [reflexivity|].
  exact (file_without_job_header_is_one_chunk Sample.quiet_log eq_refl).
Defined.

End LogExtrasExamples.

(** ** The theorems on the sample tasks *)

Section TaskExtrasExamples.
#[local] Existing Instance Sample.sample_float.
#[local] Existing Instance Sample.sample_chemistry.

Lemma water_task_has_rem : has_rem Sample.water_task.
Proof. eexists. reflexivity. Qed.

Lemma setters_touch_own_keywords_witness :
  exists t', call (SetDftGrid 128 302 "Lebedev") Sample.water_task = Ok t' /\
             differ_in_rem ["xc_grid"] Sample.water_task t'.
Proof.
  assert (is_ok (call (SetDftGrid 128 302 "Lebedev") Sample.water_task) = true) as Hok
    by (vm_compute; reflexivity).
  apply is_ok_returns in Hok as [t' E]. exists t'. split; [exact E|].
  exact (setters_touch_own_keywords (SetDftGrid 128 302 "Lebedev") Sample.water_task t' E).
Defined.

Lemma vocabulary_setters_validate_witness :
  has_rem Sample.water_task /\
  raises (set_scf_algorithm_and_iterations "newton" 50 Sample.water_task) /\
  ~ raises (set_scf_initial_guess "SAD" Sample.water_task).
Proof.
  split; [exact water_task_has_rem|].
  destruct (vocabulary_setters_validate Sample.water_task "newton" 50 water_task_has_rem)
    as (Ha & _).
  destruct (vocabulary_setters_validate Sample.water_task "SAD" 50 water_task_has_rem)
    as (_ & _ & Hg & _).
  split.
  - apply (proj2 Ha). vm_compute. intuition discriminate.
  - intros Hx. apply (proj1 Hg Hx). vm_compute. tauto.
Defined.

Lemma coords_type_is_validated_witness :
  has_rem Sample.water_task /\
  ~ raises (set_geom_opt_coords_type "Internal-Switch" Sample.water_task).
Proof.
  split; [exact water_task_has_rem|].
  destruct (coords_type_is_validated Sample.water_task "Internal-Switch"
              water_task_has_rem) as (Hr & _).
  intros Hx. apply (proj1 Hr Hx). vm_compute. tauto.
Defined.

Lemma dft_grid_is_validated_witness :
  has_rem Sample.water_task /\
  raises (set_dft_grid 128 300 "Lebedev" Sample.water_task).
Proof.
  split; [exact water_task_has_rem|].
  destruct (dft_grid_is_validated Sample.water_task 128 300 "Lebedev"
              water_task_has_rem) as (Hr & _).
  apply (proj2 Hr). left. split; [reflexivity|]. vm_compute. intuition discriminate.
Defined.

Lemma dft_grid_code_decodes_witness :
  exists t', set_dft_grid 128 302 "Lebedev" Sample.water_task = Ok t' /\
             exists code, rem_value t' "xc_grid" = Some (VStr code) /\
                          decodes_grid code 128 302.
Proof.
  assert (is_ok (set_dft_grid 128 302 "Lebedev" Sample.water_task) = true) as Hok
    by (vm_compute; reflexivity).
  apply is_ok_returns in Hok as [t' E]. exists t'. split; [exact E|].
  exact (proj1 (dft_grid_code_decodes Sample.water_task t' 128 302 "Lebedev"
                  ltac:(lia) ltac:(lia) E) eq_refl).
Defined.

Lemma use_pcm_priorities_witness :
  exists t', use_pcm (11, -1)%Z (783553, -4)%Z
               (Some [("Theory", VStr "CPCM"); ("Radii", VStr "UFF")]) None
               (Some "UFF") Sample.water_task = Ok t' /\
             section_value t' "pcm" "radii" = Some (VStr "bondi") /\
             rem_value t' "solvent_method" = Some (VStr "pcm").
Proof.
  assert (is_ok (use_pcm (11, -1)%Z (783553, -4)%Z
                   (Some [("Theory", VStr "CPCM"); ("Radii", VStr "UFF")]) None
                   (Some "UFF") Sample.water_task) = true) as Hok
    by (vm_compute; reflexivity).
  apply is_ok_returns in Hok as [t' E]. exists t'. split; [exact E|].
  destruct (use_pcm_priorities _ _ _ _ _ _ _ E) as (Hv & _ & _ & Hr).
  split; [exact (Hv "radii")|exact Hr].
Defined.

Lemma constructed_task_has_keywords_witness :
  exists t, QcTask_init default_args = Ok t /\ has_rem t /\ returns (_format_rem t).
Proof.
  assert (is_ok (QcTask_init default_args) = true) as Hok by (vm_compute; reflexivity).
  apply is_ok_returns in Hok as [t E]. exists t. split; [exact E|].
  destruct (constructed_task_has_keywords default_args t E) as (H1 & _ & _ & _ & H5).
  exact (conj H1 H5).
Defined.

Lemma constructed_task_sections_witness :
  exists t, QcTask_init (optional_args [("PCM", SDict ∅)]) = Ok t /\
            is_Some (params t !! "PCM") /\
            ("PCM" = "comment" \/ "PCM" = "rem" \/
             In (PyStr.lower "PCM") optional_keywords_list).
Proof.
  assert (is_ok (QcTask_init (optional_args [("PCM", SDict ∅)])) = true) as Hok
    by (vm_compute; reflexivity).
  apply is_ok_returns in Hok as [t E]. exists t. split; [exact E|].
  assert (is_Some (params t !! "PCM")) as Hs.
  { assert ((fun t => bool_decide (is_Some (params t !! "PCM")))
              <$> QcTask_init (optional_args [("PCM", SDict ∅)]) = Ok true) as H
      by (vm_compute; reflexivity).
    rewrite E in H. injection H as H. exact (bool_decide_eq_true_1 _ H). }
  split; [exact Hs|].
  exact (constructed_task_sections (optional_args [("PCM", SDict ∅)]) t "PCM" E Hs).
Defined.

Lemma auxiliary_basis_present_when_required_witness :
  exists t, QcTask_init (exchange_args "XYGJOS") = Ok t /\
            a_aux_basis_set (exchange_args "XYGJOS") <> Some BOther /\
            _aux_basis_required t = Ok true /\
            is_Some (rem_value t "aux_basis").
Proof.
  assert (is_ok (QcTask_init (exchange_args "XYGJOS")) = true) as Hok
    by (vm_compute; reflexivity).
  apply is_ok_returns in Hok as [t E]. exists t. split; [exact E|].
  assert (a_aux_basis_set (exchange_args "XYGJOS") <> Some BOther) as Hn by discriminate.
  assert (_aux_basis_required t = Ok true) as Hreq.
  { assert ((QcTask_init (exchange_args "XYGJOS") ≫= _aux_basis_required) = Ok true) as H
      by (vm_compute; reflexivity).
    rewrite E in H. exact H. }
  split; [exact Hn|]. split; [exact Hreq|].
  exact (auxiliary_basis_present_when_required _ t E Hn Hreq).
Defined.

Lemma constructed_task_head_witness :
  exists t, QcTask_init (molecule_args Sample.water None 1) = Ok t /\
            match mol t with
            | MStr s => s = "read" /\ charge t = None /\ spin_multiplicity t = Some 1 /\
                        (charge t = None <-> spin_multiplicity t = None)
            | MMol m => exists c s, charge t = Some c /\ spin_multiplicity t = Some s /\
                                    mol_charge m = c /\ (electrons m c + s) mod 2 = 1
            end.
Proof.
  assert (is_ok (QcTask_init (molecule_args Sample.water None 1)) = true) as Hok
    by (vm_compute; reflexivity).
  apply is_ok_returns in Hok as [t E]. exists t. split; [exact E|].
  exact (constructed_task_head (molecule_args Sample.water None 1) t E).
Defined.

Lemma line_outside_sections_witness :
  (PyStr.split_on "010" Sample.default_task_text
   = [] ++ "$molecule" :: tail (PyStr.split_on "010" Sample.default_task_text) /\
   scan [] = Ok scan_init /\ parse_section scan_init = false /\
   returns (from_string Sample.default_task_text)) /\
  (norm "$molecule" = "" \/
   exists name, norm "$molecule" = String "$" name /\ In name section_names /\
                s_params scan_init !! name = None).
Proof.
  assert (PyStr.split_on "010" Sample.default_task_text
          = [] ++ "$molecule" :: tail (PyStr.split_on "010" Sample.default_task_text))
    as Hsplit by (vm_compute; reflexivity).
  assert (returns (from_string Sample.default_task_text)) as Hret.
  { apply is_ok_returns. vm_compute. reflexivity. }
  split; [by repeat split|].
  exact (line_outside_sections Sample.default_task_text [] _ "$molecule" scan_init
           Hsplit eq_refl eq_refl Hret).
Defined.

Lemma blank_lines_are_skipped_witness :
  is_ok (from_string (Sample.lines (Sample.titled_task_lines []))) = true /\
  same_outcome (from_string (Sample.lines (Sample.titled_task_lines ["   "])))
               (from_string (Sample.lines (Sample.titled_task_lines []))).
Proof.
  split; [vm_compute; reflexivity|].
  apply (blank_lines_are_skipped _ _ ["$comment"; " water"]
           (tail (tail (Sample.titled_task_lines []))) "   "); reflexivity.
Defined.

Lemma sequence_text_is_parsed_job_by_job_witness :
  QcInput_str {| jobs := Some [OTask Sample.default_task; OTask Sample.default_task] |}
  = Ok (PyStr.join job_separator [Sample.default_task_text; Sample.default_task_text]) /\
  same_outcome
    (QcInput_from_string
       (PyStr.join job_separator [Sample.default_task_text; Sample.default_task_text]))
    (jobs ← mapM from_string [Sample.default_task_text; Sample.default_task_text];
     QcInput_init (JList (OTask <$> jobs))).
Proof.
  apply (sequence_text_is_parsed_job_by_job
           [OTask Sample.default_task; OTask Sample.default_task]).
  - discriminate.
  - vm_compute. reflexivity.
  - repeat constructor.
Defined.

Lemma section_header_is_closed_witness :
  (PyStr.split_on "010" Sample.default_task_text
   = [] ++ "$molecule" :: tail (PyStr.split_on "010" Sample.default_task_text) /\
   returns (from_string Sample.default_task_text)) /\
  Exists (fun l => norm l = "$end") (tail (PyStr.split_on "010" Sample.default_task_text)).
Proof.
  assert (PyStr.split_on "010" Sample.default_task_text
          = [] ++ "$molecule" :: tail (PyStr.split_on "010" Sample.default_task_text))
    as Hsplit by (vm_compute; reflexivity).
  assert (returns (from_string Sample.default_task_text)) as Hret.
  { apply is_ok_returns. vm_compute. reflexivity. }
  split; [by split|].
  exact (section_header_is_closed Sample.default_task_text [] _ "$molecule" scan_init
           Hsplit eq_refl eq_refl eq_refl Hret).
Defined.

End TaskExtrasExamples.
